(* ===== verification/_CoqProject ===== *)
-Q . S2P
Prelude.v
PyStr.v
PyUtf8.v
PyFloat.v
PyVal.v
PyJson.v
PyUrl.v
CfgdbRest.v
CfgdbServer.v
CfgdbLive.v
CfgdbStore.v
PyHook.v
PyArgparse.v
AnsibleModule.v
ModuleTyping.v
PyRepr.v
Sha1.v
Vmadm.v
CfgdbDisco.v
Imgadm.v
Selinux.v
XmlTree.v
XmlParse.v
XmlRoundTrip.v
ZabbixApi.v
ZabbixTemplate.v
ZabbixTransfer.v
ZabbixCall.v
AnsibleDocs.v
ZabbixConfig.v
Hqsms.v
VmDiscovery.v
ZbxPartitions.v
