(* ===== verification/Prelude.v ===== *)
(** * Verification of the Python programs of esdc-factory

    The repository builds the appliance images of Erigones Danube Cloud.  Most
    of it is declarative (playbooks, images, packages); its programs are Python:
    the REST and discovery servers of the configuration database, the Ansible
    modules the playbooks run, and the Zabbix scripts that end up inside the
    appliances.  This library translates these programs into Rocq functions and
    proves what makes them correct.

    ** The programs and the files that model them

    - [ansible/roles/esdc-cfgdb/files/cfgdb_zk_rest_server.py]: an HTTP front end of the
      ZooKeeper client.  [CfgdbRest] models one request: the handler classes, the
      validation of headers and data, the argument vector, the one run of the
      client, the mapping of its result to a status, and the catch-all of
      [_handle_request].  A handler object is the record [handler]; the method
      dispatch of the Python classes is [handler_class].  [CfgdbServer] models
      [run_server] and [main]: binding, the request loop with its two signals,
      and closing; it runs the handlers of [CfgdbRest].  [CfgdbLive] puts the
      server in time, as a step relation over the queue of connections and the one
      in hand, which may wait for its peer or for the client it runs, and
      [CfgdbStore] puts it together with a client that stores data.
    - [ansible/roles/esdc-cfgdb/files/cfgdb_disco_server.py]: [CfgdbDisco], the
      program from its first line to the datagram loop, with the module global
      that caches the reply and the messages on standard error.
    - [ansible/library/vmadm.py], [imgadm.py] and
      [ansible/roles/selinux/library/selinux_permissive.py]: [Vmadm], [Imgadm],
      [Selinux], each with its [main], over the interface [AnsibleModule];
      [ModuleTyping] is the calculus with which every run of them is classified.
    - [ansible/roles/esdc-mon/library/zabbix_template.py] and [zabbix.py]:
      [ZabbixTemplate] and [ZabbixCall], over the interfaces [AnsibleModule],
      [Files] and [Zabbix]; [ZabbixApi] holds what both do first (connecting) and
      [XmlTree] the element trees, the pretty printer [indent] and [tostring].
      [ZabbixTransfer] composes two runs, an export and an import.
    - the texts [DOCUMENTATION] and [EXAMPLES] of the modules: [AnsibleDocs].
    - [ansible/roles/esdc-mon/templates/es-zabbix-config.py.j2], one call of the
      Zabbix API from the command line: [ZabbixConfig].
    - the Zabbix discovery scripts [vm-discovery], [vm-disk-discovery] and
      [vm-netif-discovery]: [VmDiscovery].
    - the alert script [hqsms.py]: [Hqsms].
    - [zbx_partitions.py.j2], which maintains the partitions of the Zabbix
      database: [ZbxPartitions].
    - [files/opnsense/j2filters.py], one constant, in [ZabbixCall].

    ** What they are written on

    The behaviour of the Python language and of its standard library the programs
    depend on is modelled, not assumed:
    - [Prelude]: text, exceptions, and the monad [M S A] of computations that end
      with a value or an exception and in either case with a state.  A [try]
      statement is [try_except], whose handler sees the state in which the
      exception was raised.
    - [PyStr] (string methods), [PyUtf8] (codecs), [PyFloat] ([float] and its
      [repr]), [PyVal] (values, insertion-ordered dictionaries, truth, sorting),
      [PyRepr] ([repr] of Python 2.7), [PyJson] ([json.dumps] and [json.loads]
      with hooks), [PyHook] (hooks that return their argument or fail), [PyUrl]
      ([urlparse] and [parse_qs]), [PyArgparse] ([argparse] of Python 2.7: the
      classification of arguments, options in all their forms and abbreviations,
      the consumption of arguments, defaults), [Sha1] ([hashlib.sha1]), [XmlParse]
      ([ElementTree.fromstring]) and [XmlRoundTrip] (it reads what [tostring]
      writes).

    ** Conventions

    - Text is a list of code points ([pystr]); a byte string is a list of numbers
      below 256.  The cfgdb servers run on Python 3 (CPython 3.11.3 for the
      library functions), where the two are kept apart by the codecs.  The
      Ansible modules and the scripts run on Python 2.7, where [str] and
      [unicode] are both [pystr]; the implicit ASCII conversion between the two
      is modelled where text goes through [str] or to the XML parser ([PyRepr],
      [XmlParse]) and not elsewhere.
    - Integers are unbounded, as in Python; the 32-bit words of SHA-1 are reduced
      at every operation.
    - Where Python 2.7 visits a dictionary in the order of its hash table, that
      order is a parameter ([dict_order], [items], [order]); the theorems hold
      for every order, or for every order that is a permutation.
    - Code outside of the repository is a parameter or a class with laws:
      the ZooKeeper client ([popen]), sockets ([os_bind], [wrap_socket],
      [sendto]), [check_output], the machinery of [ansible.module_utils.basic]
      ([AnsibleModule], with [AnsibleLaws]), the file system ([Files]), seobject
      ([Seobject]), zabbix_api ([Zabbix]), the package requests ([post]),
      [shell], [glob], [chdir], psycopg2 ([db]), and the memory a buffer is asked
      from ([Memory]).  The XML parser covers the
      documents without a document type and without namespaces, and hands the
      others to the parameter [beyond], of which nothing is assumed.
      The laws are the documented behaviour ([exit_json] and [fail_json] print
      one result and do not return; parameters conform to their specification;
      [run_command] adds one entry to the log, or raises [ValueError] for quotes
      that do not match; [seobject] may refuse a change); [AnsibleModule] and
      [Seobject] have small implementations on which the theorems with laws are
      run.
    - Loops: the JSON scanner recurses on fuel, [2 * length s + 2] for a text [s],
      and [PyJson.fuel_enough] shows that it is never used up, so that
      [PyJson.loads_with_total] holds for every text.  [scan_string] gets the
      length of its text plus one and [str_of_N] the binary length of the number
      plus one ([PyStr.dec_go_spec]); the XML parser gets the length of the
      document plus one and never runs out ([XmlParse.document_ends]); [groups]
      gets the length of the byte string; [shortest] gets the 17 digits that
      suffice for a binary64; the loop of [argparse] gets the number of arguments,
      of which every turn takes at least one ([PyArgparse.parse_args_never]).  All
      other recursion is structural.  The two endless loops (requests, datagrams)
      are run on the sequence of events they receive; [CfgdbLive] follows the
      first of them through infinite runs, as functions from [nat].

    ** What is proved

    - The REST handler refines an abstract contract: [decide_request] says what a
      request asks for from its method, path, headers and body alone (and from the
      length of a buffer the machine can allocate), and [service] runs at most one
      command and answers once ([CfgdbRest.esdc_handler_refines]).  Around it: which command lines can
      ever be run ([CfgdbServer.server_confined], [CfgdbRest.argv_built_iff]), the
      response as the round trip of the client's output
      ([CfgdbRest.report_roundtrip]), survival of every sequence of requests and
      the shutdown by a signal, and the error paths, among them the lengths that
      cannot be read ([CfgdbRest.bad_length_is_500]).  Liveness: under a fair
      scheduler, and when what the handlers wait for comes, every request is
      answered ([CfgdbLive.every_request_answered]); when it does not come for one
      connection, none is answered after it ([CfgdbLive.stalled_server]).  With a
      client that keeps what it is given, a GET returns what a PUT has stored, but
      for white space at its ends ([CfgdbStore.put_then_get]).
    - Types: on every host, and for all parameters [AnsibleModule] can hand out, a
      run of [vmadm], [imgadm] or [selinux_permissive] ends with exactly one
      report, or with one of a few exceptions that the theorem names
      ([Vmadm.vmadm_well_typed], [Imgadm.imgadm_well_typed]).
    - Documentation: the examples of [vmadm] and [imgadm] do what their comments
      say where the tools answer as they expect ([AnsibleDocs.vmadm_examples_run],
      [AnsibleDocs.imgadm_examples_run]), and every divergence of the documented options from the code is computed
      ([AnsibleDocs.documentation_divergences]).
    - The configuration command does what its reference says for every order and
      form of its options with arguments, asks the server nothing on a bad command
      line, and ends on every one ([ZabbixConfig.config_reference] and the two
      after it).
    - Each Ansible module: the exact sequence of commands or API calls, the result
      reported to Ansible, the value of [changed], convergence
      ([Selinux.selinux_converges], with the case of a refused change), check
      mode, and every way a task fails.
    - The pretty printer keeps the content of a template, is idempotent and lays
      it out ([XmlTree.indent_pretty]); what an export writes, XML or JSON, reads
      back as what the server sent ([ZabbixTemplate.export_xml_roundtrip]), and a
      file exported as JSON can be imported by another run, one exported as XML
      cannot ([ZabbixTransfer.export_then_import]).
    - Discovery: the listed disks, interfaces and machines are exactly the ones
      of the input, each once, and the printed JSON reads back as them.
    - Partitions: the statements of a run, in order, and a commit only after all
      of them have succeeded.
    Where a theorem says what text or a request looks like, it says so apart from
    the code: the layout of XML ([XmlTree.line_start], [XmlTree.white_space]), the
    rules of an import ([ZabbixTemplate.full_import]), the keys of a response, the
    reading of data ([ZabbixConfig.read_json]), the bytes of a body
    ([CfgdbRest.received]).
    Several theorems state behaviour that differs from what the code or its
    documentation means to do; their comments say so (the statuses 404 and 406
    that cannot occur, the path prefix that is no boundary, the connection that
    stops the service, the port variable that stops the server, the datagram
    that carries the printed form of a byte string, [strip_keys_from_json], the
    missing check of the uuid and the empty output in [imgadm], templates in XML
    that cannot be imported and, outside ASCII, not exported, check mode of
    [zabbix], and the month of 30 days).

    ** What is not modelled

    The log of the REST server, Python's recursion limit, failing writes to an
    HTTP connection, the exact page [send_error] prints, the usage messages of
    [argparse], what a handler has done when a signal interrupts it, and the [ImportError] of seobject, which ends the module before
    [main].  The examples of [zabbix_template] are tasks of another module.
    Playbooks, shell, C, Perl, SQL and data are other languages.

    ** Next

    Documents with namespaces in [XmlParse]; the typing of [zabbix_template] and
    [zabbix] with the calculus of [ModuleTyping]; and the part of [vmadm] and
    [imgadm] that is the same as one section. *)
From stdpp Require Export base decidable option list numbers sets.
From stdpp Require Export strings.
From Stdlib Require Import NArith ZArith Ascii Lia.

(** * Text

    Python text is a list of code points; a byte string is the same list with
    every element below 256.  [#"..."] writes an ASCII literal. *)

Abbreviation pystr := (list N).
Abbreviation bytes := (list N) (only parsing).

Fixpoint u (s : string) : pystr :=
  match s with
  | EmptyString => []
  | String c s' => N_of_ascii c :: u s'
  end.
Arguments u : simpl never.

Declare Scope py_scope.
Delimit Scope py_scope with py.
Notation "# s" := (u s%string) (at level 1, s at level 0, format "# s") : py_scope.
(** [a =s b] is Python's [a == b] on text. *)
Notation "a =s b" := (bool_decide (@eq pystr a b)) (at level 70) : py_scope.
Open Scope py_scope.
#[export] Set Warnings "-clear-no-such-hyp,-register-all".

(** * Exceptions

    The exceptions the modelled code raises or catches.  [ExcOther] is any
    other subclass of [Exception] an external library may raise and
    [ExcBaseOther] one that only derives from [BaseException].  [OutOfFuel] is
    not a Python exception: it marks a loop of the model that was not given
    enough steps, and the parsers are shown never to end with it. *)

Inductive exn : Type :=
| ValueError (msg : pystr)
| JSONDecodeError
| UnicodeDecodeError
| KeyError (key : pystr)
| IndexError
| TypeError
| AttributeError
| RuntimeError
| AssertionError
| NotImplementedError
| OverflowError
| OSError (msg : pystr)
| CalledProcessError (returncode : Z)
| UnboundLocalError
| ValidationError (attr detail : pystr) (status : Z)
| ZabbixAPIException (msg : pystr)
| ArgumentTypeError (msg : pystr)
| ExcOther (msg : pystr)
| SystemExit (code : Z)
| KeyboardInterrupt
| ExcBaseOther (msg : pystr)
| OutOfFuel.

(** [except Exception] catches everything but the exceptions that only derive
    from [BaseException]. *)
Definition is_Exception (e : exn) : bool :=
  match e with
  | SystemExit _ | KeyboardInterrupt | ExcBaseOther _ | OutOfFuel => false
  | _ => true
  end.

(** The subclasses of [ValueError]. *)
Definition is_ValueError (e : exn) : bool :=
  match e with
  | ValueError _ | JSONDecodeError | UnicodeDecodeError | ValidationError _ _ _ => true
  | _ => false
  end.

(** * Fallible code *)

Inductive outcome (A : Type) : Type :=
| Ok (a : A)
| Raise (e : exn).
Arguments Ok {A} a.
Arguments Raise {A} e.

#[export] Instance outcome_ret : MRet outcome := λ A a, Ok a.
#[export] Instance outcome_bind : MBind outcome := λ A B f m,
  match m with Ok a => f a | Raise e => Raise e end.
#[export] Instance outcome_fmap : FMap outcome := λ A B f m,
  match m with Ok a => Ok (f a) | Raise e => Raise e end.

Definition is_Ok {A} (m : outcome A) : bool :=
  match m with Ok _ => true | Raise _ => false end.

(** A dictionary or list access that may fail. *)
Definition or_raise {A} (e : exn) (o : option A) : outcome A :=
  match o with Some a => Ok a | None => Raise e end.

Lemma outcome_bind_Ok {A B} (a : A) (f : A → outcome B) : (Ok a ≫= f) = f a.
Proof. reflexivity. Qed.

Lemma outcome_bind_Raise {A B} e (f : A → outcome B) : (Raise e ≫= f) = Raise e.
Proof. reflexivity. Qed.

Lemma outcome_bind_inv {A B} (m : outcome A) (f : A → outcome B) b :
  (m ≫= f) = Ok b → ∃ a, m = Ok a ∧ f a = Ok b.
Proof. destruct m; cbn; naive_solver. Qed.

(** * Effectful code

    A computation over a state [S] ends with a value or an exception and, in
    either case, with the state it has reached. *)

Definition M (S A : Type) : Type := S → outcome A * S.

Section monad.
Context {S : Type}.

#[export] Instance M_ret : MRet (M S) := λ A a s, (Ok a, s).
#[export] Instance M_bind : MBind (M S) := λ A B f m s,
  match m s with
  | (Ok a, s') => f a s'
  | (Raise e, s') => (Raise e, s')
  end.
#[export] Instance M_fmap : FMap (M S) := λ A B f m s,
  match m s with
  | (Ok a, s') => (Ok (f a), s')
  | (Raise e, s') => (Raise e, s')
  end.

Definition raise {A} (e : exn) : M S A := λ s, (Raise e, s).
Definition lift {A} (m : outcome A) : M S A := λ s, (m, s).
Definition get_state : M S S := λ s, (Ok s, s).
Definition put_state (s : S) : M S unit := λ _, (Ok tt, s).
Definition modify (f : S → S) : M S unit := λ s, (Ok tt, f s).
Definition gets {A} (f : S → A) : M S A := λ s, (Ok (f s), s).

(** [try: m except ...: h]; [h e] is [None] when no clause catches [e]. *)
Definition try_except {A} (m : M S A) (h : exn → option (M S A)) : M S A := λ s,
  match m s with
  | (Raise e, s') => match h e with Some k => k s' | None => (Raise e, s') end
  | r => r
  end.

(** [for x in l: f x] *)
Fixpoint for_each {X} (l : list X) (f : X → M S unit) : M S unit :=
  match l with
  | [] => mret tt
  | x :: l' => f x ≫= λ _, for_each l' f
  end.

Lemma bind_ok {A B} (m : M S A) (f : A → M S B) s a s' :
  m s = (Ok a, s') → (m ≫= f) s = f a s'.
Proof. unfold mbind, M_bind. by intros ->. Qed.

Lemma bind_raised {A B} (m : M S A) (f : A → M S B) s e s' :
  m s = (Raise e, s') → (m ≫= f) s = (Raise e, s').
Proof. unfold mbind, M_bind. by intros ->. Qed.

Lemma ret_bind {A B} (a : A) (f : A → M S B) s : (mret a ≫= f) s = f a s.
Proof. reflexivity. Qed.

Lemma lift_ok {A B} (m : outcome A) (f : A → M S B) s a :
  m = Ok a → (lift m ≫= f) s = f a s.
Proof. by intros ->. Qed.

Lemma lift_raised {A B} (m : outcome A) (f : A → M S B) s e :
  m = Raise e → (lift m ≫= f) s = (Raise e, s).
Proof. by intros ->. Qed.

Lemma lift_raised_last {A} (m : outcome A) s e : m = Raise e → lift m s = (Raise e, s).
Proof. by intros ->. Qed.

Lemma bind_assoc {A B C} (m : M S A) (f : A → M S B) (g : B → M S C) s :
  ((m ≫= f) ≫= g) s = (m ≫= λ a, f a ≫= g) s.
Proof. unfold mbind, M_bind. by destruct (m s) as [[a|e] s']. Qed.

Lemma try_ok {A} (m : M S A) h s a s' :
  m s = (Ok a, s') → try_except m h s = (Ok a, s').
Proof. unfold try_except. by intros ->. Qed.

Lemma try_caught {A} (m : M S A) h s e s' k :
  m s = (Raise e, s') → h e = Some k → try_except m h s = k s'.
Proof. unfold try_except. by intros -> ->. Qed.

Lemma try_uncaught {A} (m : M S A) h s e s' :
  m s = (Raise e, s') → h e = None → try_except m h s = (Raise e, s').
Proof. unfold try_except. by intros -> ->. Qed.
End monad.

(** [exits m] : [m] never returns to its caller. *)
Definition never_returns {S A} (m : M S A) : Prop :=
  ∀ s, ∃ e s', m s = (Raise e, s').

Lemma never_returns_bind {S A B} (m : M S A) (f g : A → M S B) s :
  never_returns m → (m ≫= f) s = (m ≫= g) s.
Proof. intros H. destruct (H s) as (e & s' & Hs). by rewrite !(bind_raised _ _ _ _ _ Hs). Qed.

(** * Computations that cannot raise a given exception

    Mostly used with [OutOfFuel]: a program all of whose loops have enough fuel
    never raises it. *)

Definition never {S A} (x : exn) (m : M S A) : Prop := ∀ s, (m s).1 ≠ Raise x.

Section never.
Context {S : Type} (x : exn).

Lemma never_ret {A} (a : A) : never x (mret a : M S A).
Proof. by intros s. Qed.

Lemma never_bind {A B} (m : M S A) (f : A → M S B) :
  never x m → (∀ a, never x (f a)) → never x (m ≫= f).
Proof.
  intros Hm Hf s. unfold mbind, M_bind. specialize (Hm s).
  destruct (m s) as [[a|e] s']; [apply Hf|]. cbn in *. congruence.
Qed.

Lemma never_lift {A} (m : outcome A) : m ≠ Raise x → never x (lift (S := S) m).
Proof. by intros Hm s. Qed.

Lemma never_raise {A} e : e ≠ x → never x (raise (S := S) (A := A) e).
Proof. intros He s. cbn. congruence. Qed.

Lemma never_modify (f : S → S) : never x (modify f).
Proof. by intros s. Qed.

Lemma never_gets {A} (f : S → A) : never x (gets f).
Proof. by intros s. Qed.

Lemma never_try {A} (m : M S A) h : never x m → (∀ e k, h e = Some k → never x k) → never x (try_except m h).
Proof.
  intros Hm Hh s. unfold try_except. specialize (Hm s). destruct (m s) as [[a|e] s']; [done|].
  destruct (h e) as [k|] eqn:E; [by apply (Hh e)|done].
Qed.

Lemma never_or_raise {A} e (o : option A) : e ≠ x → or_raise e o ≠ Raise x.
Proof. destruct o; cbn; congruence. Qed.
End never.

(** Go through the structure of a computation. *)
Ltac never_steps :=
  repeat first
    [ progress intros
    | apply never_ret | apply never_modify | apply never_gets
    | (apply never_raise; discriminate)
    | (match goal with H : ∀ _, _ |- never _ _ => apply H end)
    | assumption
    | apply never_bind
    | (apply never_lift, never_or_raise; discriminate)
    | case_match ].

(** * Automation *)

Create HintDb py.
Create Rewrite HintDb py.
#[export] Hint Rewrite @ret_bind @outcome_bind_Ok @outcome_bind_Raise : py.

(** Run the monadic steps whose result is a known equation or a literal. *)
Ltac run_step :=
  first
    [ rewrite ret_bind
    | match goal with
      | H : ?m ?s = (Ok _, _) |- context [(?m ≫= _) ?s] => rewrite (bind_ok _ _ _ _ _ H)
      | H : ?m ?s = (Raise _, _) |- context [(?m ≫= _) ?s] => rewrite (bind_raised _ _ _ _ _ H)
      end ].
Ltac run := repeat (run_step; cbv beta iota).

(** Case split on the first monadic call of a hypothesis [H]. *)
Ltac step_in H :=
  match type of H with
  | context [(?m ≫= _) ?s] =>
      let E := fresh "E" in
      unfold mbind at 1 in H; unfold M_bind at 1 in H;
      destruct (m s) as [[?|?] ?] eqn:E
  end.

(** * Lists *)

Lemma Forall_take_drop {A} (P : A → Prop) (l : list A) n :
  Forall P l → Forall P (take n l) ∧ Forall P (drop n l).
Proof. intros H. split; [by apply Forall_take|by apply Forall_drop]. Qed.

Lemma forallb_Forall {A} (f : A → bool) (l : list A) : forallb f l = true ↔ Forall (λ x, f x = true) l.
Proof. rewrite List.forallb_forall, Forall_forall. by setoid_rewrite list_elem_of_In. Qed.
