(* ===== verification/PyStr.v ===== *)
(** The string methods of Python the modelled code calls, on code points. *)
From S2P Require Export Prelude.
From Stdlib Require Import NArith ZArith Lia.

(** * Prefixes, suffixes and search *)

(** [s.startswith(p)] *)
Fixpoint startswith (p s : pystr) : bool :=
  match p, s with
  | [], _ => true
  | a :: p', b :: s' => N.eqb a b && startswith p' s'
  | _ :: _, [] => false
  end.

(** [s.endswith(p)] *)
Definition endswith (p s : pystr) : bool := startswith (rev p) (rev s).

(** The index of the first occurrence of [p] in [s], if there is one. *)
Fixpoint index_of (p s : pystr) : option nat :=
  if startswith p s then Some 0
  else match s with
       | [] => None
       | _ :: s' => S <$> index_of p s'
       end.

(** [s.find(p)] *)
Definition str_find (p s : pystr) : Z :=
  match index_of p s with Some i => Z.of_nat i | None => -1 end.

(** [p in s] *)
Definition str_contains (p s : pystr) : bool := bool_decide (is_Some (index_of p s)).

(** [c in s] for one character. *)
Definition char_in (c : N) (s : pystr) : bool := bool_decide (c ∈ s).

(** * Characters *)

(** The whitespace of [bytes.strip], [bytes.split] and of Python 2's [str]. *)
Definition is_space (c : N) : bool := (N.leb 9 c && N.leb c 13) || N.eqb c 32.
Definition is_digit (c : N) : bool := N.leb 48 c && N.leb c 57.
Definition is_upper (c : N) : bool := N.leb 65 c && N.leb c 90.
Definition is_lower (c : N) : bool := N.leb 97 c && N.leb c 122.
Definition lower_char (c : N) : N := if is_upper c then (c + 32)%N else c.
Definition str_lower (s : pystr) : pystr := map lower_char s.

(** * Stripping *)

Fixpoint lstrip_by (p : N → bool) (s : pystr) : pystr :=
  match s with
  | [] => []
  | c :: s' => if p c then lstrip_by p s' else s
  end.
Definition rstrip_by (p : N → bool) (s : pystr) : pystr := rev (lstrip_by p (rev s)).
Definition strip_by (p : N → bool) (s : pystr) : pystr := rstrip_by p (lstrip_by p s).

(** [s.strip()], [s.rstrip()] and [s.strip(chars)] *)
Definition strip : pystr → pystr := strip_by is_space.
Definition rstrip : pystr → pystr := rstrip_by is_space.
Definition strip_chars (chars : pystr) : pystr → pystr := strip_by (λ c, char_in c chars).

(** * Replacing *)

(** [s.replace(old, new)] for a non-empty [old]: the occurrences are found from
    left to right and do not overlap.  [n] counts the characters of an
    occurrence that are still to be skipped. *)
Fixpoint replace_go (old new : pystr) (n : nat) (s : pystr) : pystr :=
  match s with
  | [] => []
  | c :: s' =>
      match n with
      | S n' => replace_go old new n' s'
      | O => if startswith old s then new ++ replace_go old new (length old - 1) s'
             else c :: replace_go old new 0 s'
      end
  end.
Definition str_replace (old new s : pystr) : pystr := replace_go old new 0 s.

(** * Splitting and joining *)

(** [s.split(c, 1)] for a one-character separator that occurs in [s]. *)
Fixpoint split1 (c : N) (s : pystr) : option (pystr * pystr) :=
  match s with
  | [] => None
  | d :: s' =>
      if N.eqb c d then Some ([], s')
      else (λ '(a, b), (d :: a, b)) <$> split1 c s'
  end.

(** [s.split(c)] for a one-character separator. *)
Fixpoint split_char (c : N) (s : pystr) : list pystr :=
  match s with
  | [] => [[]]
  | d :: s' =>
      if N.eqb c d then [] :: split_char c s'
      else match split_char c s' with
           | a :: l => (d :: a) :: l
           | [] => [[d]]
           end
  end.

(** [s.split()]: the maximal runs of characters that are not white space. *)
Fixpoint split_ws_go (cur : pystr) (s : pystr) : list pystr :=
  match s with
  | [] => match cur with [] => [] | _ => [rev cur] end
  | c :: s' =>
      if is_space c
      then match cur with [] => split_ws_go [] s' | _ => rev cur :: split_ws_go [] s' end
      else split_ws_go (c :: cur) s'
  end.
Definition split_ws : pystr → list pystr := split_ws_go [].

(** [sep.join(l)] *)
Fixpoint join (sep : pystr) (l : list pystr) : pystr :=
  match l with
  | [] => []
  | [s] => s
  | s :: l' => s ++ sep ++ join sep l'
  end.

(** * Decimal numerals *)

Fixpoint dec_go (fuel : nat) (n : N) (acc : pystr) : pystr :=
  match fuel with
  | O => acc
  | S fuel' =>
      let acc := (48 + n mod 10)%N :: acc in
      if N.ltb n 10 then acc else dec_go fuel' (n / 10)%N acc
  end.

(** [str(n)]; a number below [2 ^ k] has at most [k] decimal digits. *)
Definition str_of_N (n : N) : pystr := dec_go (S (N.to_nat (N.log2 n))) n [].
Definition str_of_Z (z : Z) : pystr :=
  if Z.ltb z 0 then 45%N :: str_of_N (Z.to_N (- z)) else str_of_N (Z.to_N z).

(** The value of a list of decimal digits. *)
Definition digits_val (s : pystr) : N := foldl (λ a c, 10 * a + (c - 48))%N 0%N s.

(** * Lemmas *)

Lemma startswith_spec p s : startswith p s = true ↔ ∃ t, s = p ++ t.
Proof.
  revert s. induction p as [|a p IH]; intros [|b s]; cbn.
  - naive_solver.
  - naive_solver.
  - naive_solver.
  - rewrite andb_true_iff, N.eqb_eq, IH. naive_solver.
Qed.

Lemma startswith_self p t : startswith p (p ++ t) = true.
Proof. apply startswith_spec. eauto. Qed.

Lemma endswith_spec p s : endswith p s = true ↔ ∃ t, s = t ++ p.
Proof.
  unfold endswith. rewrite startswith_spec. split; intros [t Ht].
  - exists (rev t). by rewrite <- (rev_involutive s), Ht, rev_app_distr, rev_involutive.
  - exists (rev t). by rewrite Ht, rev_app_distr.
Qed.

Lemma index_of_0 p s : index_of p s = Some 0 ↔ startswith p s = true.
Proof.
  destruct s as [|c s]; cbn; destruct (startswith p _) eqn:E; cbn; [naive_solver..|].
  destruct (index_of p s); naive_solver.
Qed.

(** [s.find(p) == 0] is the test for a prefix. *)
Lemma str_find_0 p s : str_find p s = 0%Z ↔ startswith p s = true.
Proof.
  rewrite <- index_of_0. unfold str_find.
  destruct (index_of p s) as [i|]; [|naive_solver lia].
  split; [intros ?; f_equal; lia|naive_solver].
Qed.

Lemma index_of_None p s : index_of p s = None ↔ ∀ a b, s ≠ a ++ p ++ b.
Proof.
  induction s as [|c s IH]; cbn.
  - destruct p; cbn; [split; [done|intros H; by destruct (H [] [])]|].
    split; [|done]. intros _ a b H. apply (f_equal length) in H.
    rewrite length_app in H. cbn in H. lia.
  - destruct (startswith p (c :: s)) eqn:E.
    + split; [done|]. intros H. apply startswith_spec in E as [t Ht].
      by destruct (H [] t).
    + rewrite fmap_None, IH. split.
      * intros H [|d a] b Hs; cbn in Hs.
        -- assert (startswith p (c :: s) = true) by (apply startswith_spec; eauto). congruence.
        -- injection Hs as -> ->. by apply (H a b).
      * intros H a b ->. by apply (H (c :: a) b).
Qed.

(** [p in s] holds when [p] occurs somewhere in [s]. *)
Lemma str_contains_spec p s : str_contains p s = true ↔ ∃ a b, s = a ++ p ++ b.
Proof.
  unfold str_contains. rewrite bool_decide_eq_true. split.
  - intros [i Hi]. revert i Hi. induction s as [|c s IH]; intros i; cbn.
    + destruct (startswith p []) eqn:E; [|done]. intros _.
      apply startswith_spec in E as [t Ht]. by exists [], t.
    + destruct (startswith p (c :: s)) eqn:E.
      * intros _. apply startswith_spec in E as [t Ht]. by exists [], t.
      * intros (j & Hj & _)%fmap_Some. destruct (IH _ Hj) as (a & b & ->).
        by exists (c :: a), b.
  - intros (a & b & H). destruct (index_of p s) eqn:E; [eauto|].
    apply index_of_None with (a := a) (b := b) in E. done.
Qed.

(** A string of one character does not contain a longer one. *)
Lemma str_contains_short p s : length s < length p → str_contains p s = false.
Proof.
  intros H. apply not_true_iff_false. rewrite str_contains_spec. intros (a & b & ->).
  rewrite !length_app in H. lia.
Qed.

Lemma split1_Some c s a b : split1 c s = Some (a, b) ↔ s = a ++ c :: b ∧ c ∉ a.
Proof.
  revert a. induction s as [|d s IH]; intros a; cbn.
  - destruct a; naive_solver.
  - destruct (N.eqb_spec c d) as [<-|Hne].
    + split; [intros [= <- <-]; split; [done|set_solver]|].
      intros [Hs Ha]. destruct a as [|x a]; cbn in Hs; [naive_solver|].
      injection Hs as <- _. set_solver.
    + rewrite fmap_Some. split.
      * intros ([a' b'] & H & [= -> ->]). apply IH in H as [-> ?].
        split; [done|]. set_solver.
      * intros [Hs Ha]. destruct a as [|x a]; cbn in Hs; [naive_solver|].
        injection Hs as <- Hs. exists (a, b). split; [|done]. apply IH. set_solver.
Qed.

Lemma split1_None c s : split1 c s = None ↔ c ∉ s.
Proof.
  induction s as [|d s IH]; cbn; [set_solver|].
  destruct (N.eqb_spec c d) as [<-|Hne]; [set_solver|].
  rewrite fmap_None, IH. set_solver.
Qed.

Lemma split_char_cons c s : ∃ a l, split_char c s = a :: l.
Proof. destruct s as [|d s]; cbn; [eauto|]. destruct (N.eqb c d); [eauto|]. destruct (split_char c s); eauto. Qed.

(** Splitting loses nothing: the pieces joined again are the text. *)
Lemma join_split_char c s : join [c] (split_char c s) = s.
Proof.
  induction s as [|d s IH]; [done|]. cbn. destruct (split_char_cons c s) as (a & l & E).
  destruct (N.eqb_spec c d) as [<-|Hne]; rewrite E in *; cbn.
  - f_equal. done.
  - rewrite <- IH. by destruct l.
Qed.

Lemma split_char_pieces c s : Forall (λ a, c ∉ a) (split_char c s).
Proof.
  induction s as [|d s IH]; cbn; [constructor; [set_solver|done]|].
  destruct (N.eqb_spec c d) as [<-|Hne]; [constructor; [set_solver|done]|].
  destruct (split_char c s) as [|a l]; [constructor; [set_solver|done]|].
  inversion_clear IH. constructor; [set_solver|done].
Qed.

Lemma lstrip_by_id p s : (∀ c s', s = c :: s' → p c = false) → lstrip_by p s = s.
Proof. destruct s as [|c s]; [done|]. intros H. cbn. by rewrite (H c s). Qed.

Lemma lstrip_by_suffix p s : ∃ t, s = t ++ lstrip_by p s ∧ Forall (λ c, p c = true) t.
Proof.
  induction s as [|c s (t & Ht & HP)]; [by exists []|]. cbn. destruct (p c) eqn:E.
  - exists (c :: t). split; [cbn; congruence|by constructor].
  - by exists [].
Qed.

Lemma lstrip_by_app p s t : lstrip_by p s ≠ [] → lstrip_by p (s ++ t) = lstrip_by p s ++ t.
Proof. induction s as [|c s IH]; cbn; [done|]. destruct (p c); [exact IH|done]. Qed.

Lemma lstrip_by_idem p s : lstrip_by p (lstrip_by p s) = lstrip_by p s.
Proof. induction s as [|c s IH]; [done|]. cbn. destruct (p c) eqn:E; [done|]. cbn. by rewrite E. Qed.

(** Text between two characters that are not stripped is left alone. *)
Lemma strip_by_id p s :
  (∀ c s', s = c :: s' → p c = false) → (∀ c s', s = s' ++ [c] → p c = false) →
  strip_by p s = s.
Proof.
  intros H1 H2. unfold strip_by, rstrip_by. rewrite (lstrip_by_id _ s) by exact H1.
  rewrite lstrip_by_id; [apply rev_involutive|]. intros c s' Hs. apply (H2 c (rev s')).
  by rewrite <- (rev_involutive s), Hs.
Qed.

Lemma str_replace_no_occ old new s :
  old ≠ [] → (∀ a b, s ≠ a ++ old ++ b) → str_replace old new s = s.
Proof.
  intros Hold. unfold str_replace. induction s as [|c s IH]; [done|]. intros Hocc. cbn.
  destruct (startswith old (c :: s)) eqn:E.
  - apply startswith_spec in E as [t Ht]. by destruct (Hocc [] t).
  - f_equal. apply IH. intros a b ->. by apply (Hocc (c :: a) b).
Qed.

(** Deleting a character leaves none of it. *)
Lemma str_replace_delete c s : c ∉ str_replace [c] [] s.
Proof.
  unfold str_replace. induction s as [|d s IH]; cbn; [set_solver|].
  destruct (N.eqb_spec c d); cbn; [done|]. set_solver.
Qed.

Lemma str_replace_delete_filter c s : str_replace [c] [] s = filter (λ d, d ≠ c) s.
Proof.
  unfold str_replace. induction s as [|d s IH]; [done|].
  cbn [replace_go startswith]. rewrite andb_true_r, filter_cons.
  destruct (N.eqb_spec c d) as [<-|Hne], (decide _); cbn; [done|done| |by destruct n].
  by f_equal.
Qed.

Lemma digits_val_app s t : digits_val (s ++ t) = foldl (λ a c, 10 * a + (c - 48))%N (digits_val s) t.
Proof. unfold digits_val. by rewrite foldl_app. Qed.

Lemma digits_val_snoc s d : digits_val (s ++ [d]) = (10 * digits_val s + (d - 48))%N.
Proof. by rewrite digits_val_app. Qed.

(** The digits [dec_go] produces. *)
Lemma dec_go_spec fuel n acc :
  (n < 10 ^ N.of_nat fuel)%N → fuel ≠ 0 →
  ∃ s, dec_go fuel n acc = s ++ acc ∧ digits_val s = n ∧ Forall (λ c, is_digit c = true) s ∧
       (∃ c s', s = c :: s' ∧ (c = 48%N → s' = [])).
Proof.
  revert n acc. induction fuel as [|f IH]; intros n acc Hn Hf; [done|]. cbn [dec_go].
  pose proof (N.mod_lt n 10 ltac:(done)). pose proof (N.div_mod' n 10). pose proof (N.le_0_l (n mod 10)).
  assert (Hd : is_digit (48 + n mod 10)%N = true).
  { unfold is_digit. rewrite andb_true_iff, !N.leb_le. pose proof (N.le_0_l (n mod 10)). lia. }
  destruct (N.ltb_spec n 10).
  - exists [(48 + n mod 10)%N]. rewrite N.mod_small by done.
    split_and!; [done|cbn; lia| |eauto]. rewrite N.mod_small in Hd by done. by repeat constructor.
  - destruct f as [|f]; [cbn in Hn; lia|].
    destruct (IH (n / 10)%N ((48 + n mod 10)%N :: acc)) as (s & E & Hv & HF & c & s' & -> & Hc); [|done|].
    { apply N.Div0.div_lt_upper_bound. by rewrite <- N.pow_succ_r', <- Nat2N.inj_succ. }
    exists ((c :: s') ++ [(48 + n mod 10)%N]). split_and!.
    + by rewrite E, <- app_assoc.
    + rewrite digits_val_snoc, Hv. lia.
    + apply Forall_app. by split; [|repeat constructor].
    + exists c, (s' ++ [(48 + n mod 10)%N]). split; [done|]. intros ->.
      rewrite (Hc eq_refl) in Hv. cbn in Hv. lia.
Qed.

Lemma str_of_N_spec n :
  digits_val (str_of_N n) = n ∧ Forall (λ c, is_digit c = true) (str_of_N n) ∧
  ∃ c s', str_of_N n = c :: s' ∧ (c = 48%N → s' = []).
Proof.
  unfold str_of_N. destruct (dec_go_spec (S (N.to_nat (N.log2 n))) n []) as (s & -> & Hv & HF & Hc).
  - rewrite Nat2N.inj_succ, N2Nat.id.
    destruct (N.eq_dec n 0) as [->|Hn]; [done|].
    pose proof (N.log2_spec n). eapply N.lt_le_trans; [apply H; lia|].
    apply N.pow_le_mono_l. lia.
  - done.
  - rewrite app_nil_r. eauto.
Qed.

(** Printing a number in decimal and reading it back gives the number. *)
Lemma digits_val_str_of_N n : digits_val (str_of_N n) = n.
Proof. apply str_of_N_spec. Qed.

#[export] Hint Resolve startswith_self str_replace_delete split_char_pieces : py.
#[export] Hint Rewrite digits_val_str_of_N join_split_char : py.

Lemma eqb_find_0 p s : Z.eqb (str_find p s) 0 = startswith p s.
Proof. apply eq_true_iff_eq. rewrite Z.eqb_eq. apply str_find_0. Qed.

Lemma ltb_0_find p s : Z.ltb 0 (str_find p s) = str_contains p s && negb (startswith p s).
Proof.
  rewrite <- eqb_find_0. unfold str_contains, str_find. destruct (index_of p s) as [[|n]|].
  - by rewrite bool_decide_eq_true_2 by done.
  - rewrite bool_decide_eq_true_2 by done. destruct (Z.ltb_spec 0 (Z.of_nat (S n))); [|lia].
    by destruct (Z.eqb_spec (Z.of_nat (S n)) 0).
  - by rewrite bool_decide_eq_false_2 by by intros [? ?].
Qed.
