(* ===== verification/PyUtf8.v ===== *)
(** The text codecs of Python 3 the modelled code goes through: UTF-8 (strict,
    with replacement characters, and passing surrogates), and UTF-16 and UTF-32
    where [json.loads] detects them. *)
From S2P Require Export PyStr.
From Stdlib Require Import NArith ZArith Lia.

(** A code point that UTF-8 can carry. *)
Definition is_surrogate (c : N) : bool := N.leb 55296 c && N.leb c 57343.
Definition is_scalar (c : N) : bool := N.leb c 1114111 && negb (is_surrogate c).

(** * Encoding *)

Definition utf8_char (c : N) : bytes :=
  if N.ltb c 128 then [c]
  else if N.ltb c 2048 then [192 + c / 64; 128 + c mod 64]%N
  else if N.ltb c 65536 then [224 + c / 4096; 128 + (c / 64) mod 64; 128 + c mod 64]%N
  else [240 + c / 262144; 128 + (c / 4096) mod 64; 128 + (c / 64) mod 64; 128 + c mod 64]%N.

Definition utf8_bytes (s : pystr) : bytes := mjoin (utf8_char <$> s).

(** [s.encode()]; a surrogate cannot be encoded. *)
Definition encode (s : pystr) : outcome bytes :=
  if forallb (λ c, negb (is_surrogate c)) s then Ok (utf8_bytes s)
  else Raise (ValueError #"surrogates not allowed").

(** * Decoding *)

(** The [errors] argument of [bytes.decode]. *)
Inductive errors_mode := Strict | Replace | SurrogatePass.

Definition cont (lo hi : N) (c : option N) : bool :=
  match c with Some c => N.leb lo c && N.leb c hi | None => false end.

(** The bounds of the second byte after a first byte of 0xE0..0xEF and of
    0xF0..0xF4: they rule out overlong forms, surrogates and values past
    U+10FFFF. *)
Definition second3 (m : errors_mode) (b : N) : N * N :=
  if N.eqb b 224 then (160, 191)%N
  else if N.eqb b 237
       then match m with SurrogatePass => (128, 191)%N | _ => (128, 159)%N end
       else (128, 191)%N.
Definition second4 (b : N) : N * N :=
  if N.eqb b 240 then (144, 191)%N else if N.eqb b 244 then (128, 143)%N else (128, 191)%N.

(** One step of the decoder at the byte [b] followed by [s]: the character, or
    [None] for an ill-formed sequence, and the number of bytes it takes. *)
Definition utf8_step (m : errors_mode) (b : N) (s : bytes) : option N * nat :=
  if N.ltb b 128 then (Some b, 1)
  else if N.ltb b 194 then (None, 1)
  else if N.ltb b 224 then
    if cont 128 191 (s !! 0)
    then (Some ((b - 192) * 64 + (default 0 (s !! 0%nat) - 128))%N, 2)
    else (None, 1)
  else if N.ltb b 240 then
    let '(lo, hi) := second3 m b in
    if cont lo hi (s !! 0) then
      if cont 128 191 (s !! 1) then
        (Some ((b - 224) * 4096 + (default 0 (s !! 0%nat) - 128) * 64
               + (default 0 (s !! 1%nat) - 128))%N, 3)
      else (None, 2)
    else (None, 1)
  else if N.ltb b 245 then
    let '(lo, hi) := second4 b in
    if cont lo hi (s !! 0) then
      if cont 128 191 (s !! 1) then
        if cont 128 191 (s !! 2) then
          (Some ((b - 240) * 262144 + (default 0 (s !! 0%nat) - 128) * 4096
                 + (default 0 (s !! 1%nat) - 128) * 64 + (default 0 (s !! 2%nat) - 128))%N, 4)
        else (None, 3)
      else (None, 2)
    else (None, 1)
  else (None, 1).

(** [skip] counts the bytes of the current sequence still to be passed over. *)
Fixpoint utf8_go (m : errors_mode) (skip : nat) (s : bytes) : outcome pystr :=
  match s with
  | [] => Ok []
  | b :: s' =>
      match skip with
      | S k => utf8_go m k s'
      | O =>
          let '(c, n) := utf8_step m b s' in
          match c, m with
          | Some c, _ => cons c <$> utf8_go m (n - 1) s'
          | None, Replace => cons 65533%N <$> utf8_go m (n - 1) s'
          | None, _ => Raise UnicodeDecodeError
          end
      end
  end.

(** [b.decode('utf-8', errors)] *)
Definition decode (m : errors_mode) (s : bytes) : outcome pystr := utf8_go m 0 s.

(** * UTF-16 and UTF-32 *)

Inductive endian := LE | BE.

(** The value of a group of bytes. *)
Definition group (e : endian) (bs : bytes) : N :=
  foldl (λ a b, 256 * a + b)%N 0%N (match e with BE => bs | LE => rev bs end).

(** Surrogate pairs are joined and lone surrogates passed. *)
Fixpoint join_surrogates (us : list N) : pystr :=
  match us with
  | h :: ((l :: us') as rest) =>
      if N.leb 55296 h && N.leb h 56319 && N.leb 56320 l && N.leb l 57343
      then (65536 + (h - 55296) * 1024 + (l - 56320))%N :: join_surrogates us'
      else h :: join_surrogates rest
  | us => us
  end.

(** The groups of [n] bytes of [s], which must divide it. *)
Fixpoint groups (fuel n : nat) (e : endian) (s : bytes) : outcome (list N) :=
  match fuel, s with
  | _, [] => Ok []
  | O, _ => Raise UnicodeDecodeError
  | S fuel', _ =>
      if Nat.ltb (length s) n then Raise UnicodeDecodeError
      else cons (group e (take n s)) <$> groups fuel' n e (drop n s)
  end.

Definition decode_utf16 (e : endian) (s : bytes) : outcome pystr :=
  join_surrogates <$> groups (length s) 2 e s.
Definition decode_utf32 (e : endian) (s : bytes) : outcome pystr :=
  us ← groups (length s) 4 e s;
  if forallb (λ c, N.leb c 1114111) us then mret us else Raise UnicodeDecodeError.

(** * Lemmas *)

Lemma utf8_go_skip m l s : utf8_go m (length l) (l ++ s) = utf8_go m 0 s.
Proof. by induction l. Qed.

Lemma cont_true lo hi c : (lo <= c)%N → (c <= hi)%N → cont lo hi (Some c) = true.
Proof. intros. cbn. by rewrite andb_true_iff, !N.leb_le. Qed.

(** Split [c] into its six-bit digits so that the arithmetic is linear. *)
Lemma div_mod_digits (c : N) :
  (c = 64 * (c / 64) + c mod 64 ∧ c mod 64 < 64
   ∧ c / 64 = 64 * (c / 4096) + (c / 64) mod 64 ∧ (c / 64) mod 64 < 64
   ∧ c / 4096 = 64 * (c / 262144) + (c / 4096) mod 64 ∧ (c / 4096) mod 64 < 64)%N.
Proof.
  pose proof (N.div_mod' c 64). pose proof (N.mod_lt c 64 ltac:(done)).
  pose proof (N.div_mod' (c / 64) 64) as D1. pose proof (N.mod_lt (c / 64) 64 ltac:(done)).
  pose proof (N.div_mod' (c / 4096) 64) as D2. pose proof (N.mod_lt (c / 4096) 64 ltac:(done)).
  rewrite N.Div0.div_div in D1, D2. by split_and!.
Qed.

(** The decoder reads back one encoded character, whatever follows it. *)
Lemma utf8_step_char m c s :
  is_scalar c = true →
  ∃ b l, utf8_char c = b :: l ∧ utf8_step m b (l ++ s) = (Some c, S (length l)).
Proof.
  unfold is_scalar, is_surrogate.
  rewrite andb_true_iff, negb_true_iff, andb_false_iff, N.leb_le, !N.leb_gt.
  intros [Hmax Hsur]. pose proof (div_mod_digits c) as (D1 & D2 & D3 & D4 & D5 & D6).
  unfold utf8_char. set (c0 := (c mod 64)%N) in *. set (c1 := ((c / 64) mod 64)%N) in *.
  set (c2 := ((c / 4096) mod 64)%N) in *. set (q := (c / 64)%N) in *.
  set (q2 := (c / 4096)%N) in *. set (q3 := (c / 262144)%N) in *.
  clearbody c0 c1 c2 q q2 q3.
  destruct (N.ltb_spec c 128); [|destruct (N.ltb_spec c 2048);
    [|destruct (N.ltb_spec c 65536)]]; eexists _, _; (split; [reflexivity|]);
    unfold utf8_step.
  - by destruct (N.ltb_spec c 128); [|lia].
  - destruct (N.ltb_spec (192 + q) 128), (N.ltb_spec (192 + q) 194),
      (N.ltb_spec (192 + q) 224); try lia.
    cbn [lookup list_lookup app]. rewrite cont_true by lia. cbn. do 2 f_equal. lia.
  - destruct (N.ltb_spec (224 + q2) 128), (N.ltb_spec (224 + q2) 194),
      (N.ltb_spec (224 + q2) 224), (N.ltb_spec (224 + q2) 240); try lia.
    cbn [lookup list_lookup app].
    destruct (second3 m (224 + q2)) as [lo hi] eqn:E.
    assert (lo <= 128 + c1 <= hi)%N as [].
    { revert E. unfold second3. repeat case_match; intros [= <- <-];
        repeat match goal with H : (_ =? _)%N = _ |- _ =>
          first [apply N.eqb_eq in H|apply N.eqb_neq in H] end; lia. }
    rewrite !cont_true by lia. cbn. do 2 f_equal. lia.
  - destruct (N.ltb_spec (240 + q3) 128), (N.ltb_spec (240 + q3) 194),
      (N.ltb_spec (240 + q3) 224), (N.ltb_spec (240 + q3) 240),
      (N.ltb_spec (240 + q3) 245); try lia.
    cbn [lookup list_lookup app].
    destruct (second4 (240 + q3)) as [lo hi] eqn:E.
    assert (lo <= 128 + c2 <= hi)%N as [].
    { revert E. unfold second4. repeat case_match; intros [= <- <-];
        repeat match goal with H : (_ =? _)%N = _ |- _ =>
          first [apply N.eqb_eq in H|apply N.eqb_neq in H] end; lia. }
    rewrite !cont_true by lia. cbn. do 2 f_equal. lia.
Qed.

(** UTF-8 round trip: decoding the encoding of a text gives the text back. *)
Lemma decode_utf8_bytes m s :
  Forall (λ c, is_scalar c = true) s → decode m (utf8_bytes s) = Ok s.
Proof.
  unfold decode, utf8_bytes. induction 1 as [|c s Hc _ IH]; [done|].
  change (mjoin (utf8_char <$> c :: s)) with (utf8_char c ++ mjoin (utf8_char <$> s)).
  destruct (utf8_step_char m c (mjoin (utf8_char <$> s)) Hc) as (b & l & -> & Hstep).
  cbn [app utf8_go]. rewrite Hstep. cbn. rewrite Nat.sub_0_r, utf8_go_skip, IH. done.
Qed.

Lemma encode_ascii s : Forall (λ c, (c < 128)%N) s → encode s = Ok s.
Proof.
  intros H. unfold encode. assert (utf8_bytes s = s) as ->.
  { unfold utf8_bytes. induction H as [|c s Hc _ IH]; [done|].
    change (mjoin (utf8_char <$> c :: s)) with (utf8_char c ++ mjoin (utf8_char <$> s)).
    unfold utf8_char at 1. by rewrite IH, (proj2 (N.ltb_lt _ _) Hc). }
  assert (forallb (λ c, negb (is_surrogate c)) s = true) as ->; [|done].
  apply Is_true_true, forallb_True. eapply Forall_impl; [exact H|]. cbn. intros c Hc.
  apply Is_true_true, negb_true_iff. unfold is_surrogate.
  apply andb_false_iff. left. apply N.leb_gt. lia.
Qed.

Lemma decode_ascii m s : Forall (λ c, (c < 128)%N) s → decode m s = Ok s.
Proof.
  unfold decode. induction 1 as [|c s Hc _ IH]; [done|]. cbn.
  unfold utf8_step. rewrite (proj2 (N.ltb_lt _ _) Hc). cbn. by rewrite IH.
Qed.

Lemma cont_inv lo hi c : cont lo hi c = true → ∃ x, c = Some x ∧ (lo <= x <= hi)%N.
Proof. destruct c as [x|]; cbn; [|done]. rewrite andb_true_iff, !N.leb_le. eauto. Qed.

Lemma is_scalar_intro c : (c < 55296 ∨ 57343 < c ∧ c <= 1114111)%N → is_scalar c = true.
Proof.
  intros H. unfold is_scalar, is_surrogate.
  rewrite andb_true_iff, negb_true_iff, andb_false_iff, N.leb_le, !N.leb_gt. lia.
Qed.

(** A strict decoder only produces scalar values. *)
Lemma utf8_step_scalar m b s c n :
  m ≠ SurrogatePass → utf8_step m b s = (Some c, n) → is_scalar c = true.
Proof.
  intros Hm. unfold utf8_step.
  destruct (N.ltb_spec b 128); [intros [= <- _]; apply is_scalar_intro; lia|].
  destruct (N.ltb_spec b 194); [done|]. destruct (N.ltb_spec b 224).
  { destruct (cont _ _ (s !! 0)) eqn:E0; [|done]. apply cont_inv in E0 as (x & -> & Hx).
    cbn. intros [= <- _]. apply is_scalar_intro. lia. }
  destruct (N.ltb_spec b 240).
  { destruct (second3 m b) as [lo hi] eqn:E2.
    destruct (cont lo hi (s !! 0)) eqn:E0; [|done]. apply cont_inv in E0 as (x & -> & Hx).
    destruct (cont _ _ (s !! 1)) eqn:E1; [|done]. apply cont_inv in E1 as (y & -> & Hy).
    cbn. intros [= <- _]. apply is_scalar_intro. revert E2. unfold second3.
    destruct (N.eqb_spec b 224); [intros [= <- <-]; lia|].
    destruct (N.eqb_spec b 237); [destruct m; [intros [= <- <-]; lia..|done]|].
    intros [= <- <-]. lia. }
  destruct (N.ltb_spec b 245); [|done].
  destruct (second4 b) as [lo hi] eqn:E2.
  destruct (cont lo hi (s !! 0)) eqn:E0; [|done]. apply cont_inv in E0 as (x & -> & Hx).
  destruct (cont _ _ (s !! 1)) eqn:E1; [|done]. apply cont_inv in E1 as (y & -> & Hy).
  destruct (cont _ _ (s !! 2)) eqn:E3; [|done]. apply cont_inv in E3 as (z & -> & Hz).
  cbn. intros [= <- _]. apply is_scalar_intro. revert E2. unfold second4.
  destruct (N.eqb_spec b 240); [intros [= <- <-]; lia|].
  destruct (N.eqb_spec b 244); intros [= <- <-]; lia.
Qed.

Lemma decode_scalars m s t :
  m ≠ SurrogatePass → decode m s = Ok t → Forall (λ c, is_scalar c = true) t.
Proof.
  intros Hm. unfold decode. generalize 0. revert t.
  induction s as [|b s IH]; intros t [|k]; cbn; [intros [= <-]; constructor..| |apply IH].
  destruct (utf8_step m b s) as [[c|] n] eqn:E.
  - destruct (utf8_go m (n - 1) s) eqn:Eg; [|done]. intros [= <-].
    constructor; [by eapply utf8_step_scalar|by eapply IH].
  - destruct m; try done. destruct (utf8_go Replace (n - 1) s) eqn:Eg; [|done]. intros [= <-].
    constructor; [done|by eapply IH].
Qed.

Lemma utf8_go_errors m k s e : utf8_go m k s = Raise e → e = UnicodeDecodeError.
Proof.
  revert k. induction s as [|b s IH]; intros [|k]; cbn; try done; [|by apply IH].
  destruct (utf8_step m b s) as [[c|] n].
  - specialize (IH (n - 1)). destruct (utf8_go m (n - 1) s); [done|]. intros [= <-]. by apply IH.
  - destruct m; [by intros [= <-]| |by intros [= <-]].
    specialize (IH (n - 1)). destruct (utf8_go Replace (n - 1) s); [done|].
    intros [= <-]. by apply IH.
Qed.

Lemma decode_error m s e : decode m s = Raise e → e = UnicodeDecodeError.
Proof. apply utf8_go_errors. Qed.
