(* ===== verification/PyFloat.v ===== *)
(** Python's [float]: the correctly rounded binary64 value of a decimal literal
    and [repr], the shortest decimal that reads back as the same value. *)
From S2P Require Export PyStr.
From Stdlib Require Import NArith ZArith.
From Stdlib Require Export SpecFloat.

Definition prec : Z := 53.
Definition emax : Z := 1024.

Definition spec_float_eqb (x y : spec_float) : bool :=
  match x, y with
  | S754_zero a, S754_zero b | S754_infinity a, S754_infinity b => Bool.eqb a b
  | S754_nan, S754_nan => true
  | S754_finite a m e, S754_finite b n f => Bool.eqb a b && Pos.eqb m n && Z.eqb e f
  | _, _ => false
  end.

(** [float("<m>e<e>")], negated when [neg].  A literal of more than 400 digits
    before the point is infinite and one with more than 400 zeros after it is
    zero: binary64 stays between 10^-324 and 10^309. *)
Definition float_of_dec (neg : bool) (m : N) (e : Z) : spec_float :=
  match m with
  | N0 => S754_zero neg
  | Npos p =>
      let len := Z.of_nat (length (str_of_N m)) in
      if Z.ltb 400 (e + len) then S754_infinity neg
      else if Z.ltb (e + len) (-400) then S754_zero neg
      else if Z.leb 0 e then binary_round prec emax neg (Z.to_pos (Zpos p * 10 ^ e)) 0
      else let '(q, e', l) := SFdiv_core_binary prec emax (Zpos p) 0 (10 ^ (- e)) 0 in
           binary_round_aux prec emax neg q e' l
  end.

(** The value of a finite float as a fraction. *)
Definition frac_of (m : positive) (e : Z) : Z * Z :=
  if Z.leb 0 e then (Zpos m * 2 ^ e, 1)%Z else (Zpos m, 2 ^ (- e))%Z.

(** The [k] with [10 ^ (k - 1) <= num / den < 10 ^ k]. *)
Definition decpt_of (num den : Z) : Z :=
  let k := (Z.of_nat (length (str_of_Z num)) - Z.of_nat (length (str_of_Z den)))%Z in
  let lt_pow (j : Z) := if Z.leb 0 j then Z.ltb num (den * 10 ^ j) else Z.ltb (num * 10 ^ (- j)) den in
  if lt_pow (k - 1)%Z then (k - 1)%Z else if lt_pow k then k else (k + 1)%Z.

(** The [n]-digit decimal [d * 10 ^ (decpt - n)] nearest to the fraction among
    those that read back as [x]. *)
Definition digits_try (x : spec_float) (num den decpt : Z) (n : nat) : option N :=
  let scale := (Z.of_nat n - decpt)%Z in
  let num' := if Z.leb 0 scale then (num * 10 ^ scale)%Z else num in
  let den' := if Z.leb 0 scale then den else (den * 10 ^ (- scale))%Z in
  let lo := (num' / den')%Z in
  let ok d := spec_float_eqb (float_of_dec false (Z.to_N d) (- scale)) x in
  match ok lo, ok (lo + 1)%Z with
  | true, true => Some (Z.to_N (if Z.leb (2 * (num' - lo * den')) den' then lo else lo + 1))
  | true, false => Some (Z.to_N lo)
  | false, true => Some (Z.to_N (lo + 1))
  | false, false => None
  end.

(** Try [n], [n + 1], ... digits; 17 always suffice. *)
Fixpoint shortest (x : spec_float) (num den decpt : Z) (n fuel : nat) : N * nat :=
  match digits_try x num den decpt n, fuel with
  | Some d, _ => (d, n)
  | None, S fuel' => shortest x num den decpt (S n) fuel'
  | None, O => (0%N, n)
  end.

Definition zeros (n : Z) : pystr := replicate (Z.to_nat n) 48%N.

Definition pad2 (s : pystr) : pystr := if Nat.ltb (length s) 2 then 48%N :: s else s.

(** The positional or scientific form of the digits [ds] with the point after
    the first [decpt] of them. *)
Definition format_digits (ds : pystr) (decpt : Z) : pystr :=
  let n := Z.of_nat (length ds) in
  if Z.ltb (-4) decpt && Z.leb decpt 16 then
    if Z.leb decpt 0 then #"0." ++ zeros (- decpt) ++ ds
    else if Z.leb n decpt then ds ++ zeros (decpt - n) ++ #".0"
    else take (Z.to_nat decpt) ds ++ #"." ++ drop (Z.to_nat decpt) ds
  else
    let e := (decpt - 1)%Z in
    (match ds with c :: ((_ :: _) as r) => c :: 46%N :: r | _ => ds end)
    ++ #"e" ++ (if Z.ltb e 0 then #"-" else #"+") ++ pad2 (str_of_Z (Z.abs e)).

(** [repr(x)] *)
Definition float_repr (x : spec_float) : pystr :=
  match x with
  | S754_zero false => #"0.0"
  | S754_zero true => #"-0.0"
  | S754_infinity false => #"inf"
  | S754_infinity true => #"-inf"
  | S754_nan => #"nan"
  | S754_finite s m e =>
      let '(num, den) := frac_of m e in
      let decpt := decpt_of num den in
      let '(d, n) := shortest (S754_finite false m e) num den decpt 1 16 in
      let ds := str_of_N d in
      let ds' := rstrip_by (N.eqb 48) ds in
      (if s then #"-" else #"")
      ++ format_digits ds' (decpt + Z.of_nat (length ds) - Z.of_nat n)
  end.

(** [bool(x)] *)
Definition float_truthy (x : spec_float) : bool :=
  match x with S754_zero _ => false | _ => true end.
