(* ===== verification/PyVal.v ===== *)
(** Python values: the ones JSON, module parameters and API replies are made
    of, with insertion-ordered dictionaries and truth testing. *)
From S2P Require Export PyStr PyFloat.
From Stdlib Require Import NArith ZArith Lia.
From stdpp Require Import sorting.

(** * Dictionaries

    A dictionary is the list of its items in insertion order.  Its keys are
    text; [NoDup (keys d)] holds of every dictionary Python builds. *)

Abbreviation dict V := (list (pystr * V)).

Section dict.
Context {V : Type}.
Implicit Types (d : dict V) (k : pystr) (v : V).

Definition keys d : list pystr := d.*1.

(** [d.get(k)] *)
Fixpoint dict_get k d : option V :=
  match d with
  | [] => None
  | (k', v) :: d' => if k =s k' then Some v else dict_get k d'
  end.

(** [d[k] = v] keeps the position of an existing key and appends a new one. *)
Fixpoint dict_set k v d : dict V :=
  match d with
  | [] => [(k, v)]
  | (k', v') :: d' => if k =s k' then (k', v) :: d' else (k', v') :: dict_set k v d'
  end.

(** [del d[k]] for a key that is there. *)
Definition dict_del k d : dict V := filter (λ kv, kv.1 ≠ k) d.

(** [k in d] *)
Definition dict_mem k d : bool := bool_decide (k ∈ keys d).

(** [dict(pairs)] *)
Definition dict_of_pairs (l : list (pystr * V)) : dict V :=
  foldl (λ d kv, dict_set kv.1 kv.2 d) [] l.

Lemma dict_get_None k d : dict_get k d = None ↔ k ∉ keys d.
Proof.
  induction d as [|[k' v] d IH]; cbn; [set_solver|].
  case_bool_decide; [subst; set_solver|]. rewrite IH. set_solver.
Qed.

Lemma dict_get_Some_keys k v d : dict_get k d = Some v → k ∈ keys d.
Proof. intros H. destruct (decide (k ∈ keys d)) as [|Hn]; [done|]. apply dict_get_None in Hn. congruence. Qed.

Lemma dict_get_elem k v d : NoDup (keys d) → dict_get k d = Some v ↔ (k, v) ∈ d.
Proof.
  induction d as [|[k' v'] d IH]; cbn; intros Hnd; [set_solver|].
  apply NoDup_cons in Hnd as [Hk Hnd]. specialize (IH Hnd). rewrite elem_of_cons.
  case_bool_decide as Hkk.
  - subst. split; [naive_solver|]. intros [?|Hin]; [naive_solver|].
    destruct Hk. apply (list_elem_of_fmap_2 fst) in Hin. exact Hin.
  - rewrite IH. naive_solver.
Qed.

Lemma dict_get_set k k' v d :
  dict_get k (dict_set k' v d) = if k =s k' then Some v else dict_get k d.
Proof.
  induction d as [|[k1 v1] d IH]; cbn; [done|].
  destruct (decide (k' = k1)) as [->|Hne].
  - rewrite bool_decide_true by done. cbn. by case_bool_decide.
  - rewrite (bool_decide_false (k' = k1)) by done. cbn. rewrite IH.
    repeat case_bool_decide; congruence.
Qed.

Lemma dict_get_set_eq k v d : dict_get k (dict_set k v d) = Some v.
Proof. rewrite dict_get_set. by rewrite bool_decide_true. Qed.

Lemma dict_get_set_ne k k' v d : k ≠ k' → dict_get k (dict_set k' v d) = dict_get k d.
Proof. intros H. rewrite dict_get_set. by rewrite bool_decide_false. Qed.

Lemma keys_set_mem k v d : k ∈ keys d → keys (dict_set k v d) = keys d.
Proof.
  induction d as [|[k' v'] d IH]; cbn; [set_solver|]. intros H.
  case_bool_decide; [done|]. cbn. f_equal. apply IH. set_solver.
Qed.

Lemma dict_set_new k v d : k ∉ keys d → dict_set k v d = d ++ [(k, v)].
Proof.
  induction d as [|[k' v'] d IH]; cbn; [done|]. intros H.
  rewrite bool_decide_false by set_solver. f_equal. apply IH. set_solver.
Qed.

(** Updating preserves the well-formedness of a dictionary. *)
Lemma keys_set_NoDup k v d : NoDup (keys d) → NoDup (keys (dict_set k v d)).
Proof.
  intros H. destruct (decide (k ∈ keys d)) as [Hin|Hin].
  - by rewrite keys_set_mem.
  - rewrite dict_set_new by done. unfold keys. rewrite fmap_app. cbn.
    apply NoDup_app. split_and!; [done|set_solver|apply NoDup_singleton].
Qed.

Lemma dict_del_mem k d : k ∉ keys (dict_del k d).
Proof.
  unfold dict_del, keys. intros ([k' v] & -> & [Hne Hin]%list_elem_of_filter)%list_elem_of_fmap.
  done.
Qed.

(** Building a dictionary from items with distinct keys keeps them as they are. *)
Lemma dict_of_pairs_NoDup d : NoDup (keys d) → dict_of_pairs d = d.
Proof.
  unfold dict_of_pairs. rewrite <- (app_nil_l d) at 1 3.
  assert (∀ acc, NoDup (keys (acc ++ d)) →
    foldl (λ d kv, dict_set kv.1 kv.2 d) acc d = acc ++ d) as H.
  { induction d as [|[k v] d IH]; cbn; intros acc Hnd; [by rewrite app_nil_r|].
    rewrite dict_set_new.
    - rewrite IH; rewrite <- app_assoc; done.
    - unfold keys in *. rewrite fmap_app in Hnd. apply NoDup_app in Hnd as (_ & Hd & _).
      intros Hk. apply (Hd k Hk). set_solver. }
  intros Hnd. by apply H.
Qed.
End dict.

(** * Values *)

Inductive pyval : Type :=
| PyNone
| PyBool (b : bool)
| PyInt (z : Z)
| PyFloat (f : spec_float)
| PyStr (s : pystr)
| PyList (l : list pyval)
| PyDict (d : list (pystr * pyval)).

Section pyval_ind.
Variable P : pyval → Prop.
Hypothesis HNone : P PyNone.
Hypothesis HBool : ∀ b, P (PyBool b).
Hypothesis HInt : ∀ z, P (PyInt z).
Hypothesis HFloat : ∀ f, P (PyFloat f).
Hypothesis HStr : ∀ s, P (PyStr s).
Hypothesis HList : ∀ l, Forall P l → P (PyList l).
Hypothesis HDict : ∀ d, Forall (λ kv, P kv.2) d → P (PyDict d).

Fixpoint pyval_ind' (v : pyval) : P v :=
  match v with
  | PyNone => HNone
  | PyBool b => HBool b
  | PyInt z => HInt z
  | PyFloat f => HFloat f
  | PyStr s => HStr s
  | PyList l =>
      HList l ((fix go (l : list pyval) : Forall P l :=
        match l with
        | [] => Forall_nil_2 _
        | x :: l' => Forall_cons_2 _ x l' (pyval_ind' x) (go l')
        end) l)
  | PyDict d =>
      HDict d ((fix go (d : list (pystr * pyval)) : Forall (λ kv, P kv.2) d :=
        match d with
        | [] => Forall_nil_2 _
        | kv :: d' => Forall_cons_2 (λ kv, P kv.2) kv d' (pyval_ind' kv.2) (go d')
        end) d)
  end.
End pyval_ind.

(** [bool(v)] *)
Definition truthy (v : pyval) : bool :=
  match v with
  | PyNone => false
  | PyBool b => b
  | PyInt z => negb (Z.eqb z 0)
  | PyFloat f => float_truthy f
  | PyStr s => match s with [] => false | _ => true end
  | PyList l => match l with [] => false | _ => true end
  | PyDict d => match d with [] => false | _ => true end
  end.

(** [v == "literal"] *)
Definition is_str (v : pyval) (s : pystr) : bool :=
  match v with PyStr t => t =s s | _ => false end.

(** [isinstance(v, dict)] and the like *)
Definition as_dict (v : pyval) : option (dict pyval) :=
  match v with PyDict d => Some d | _ => None end.
Definition as_str (v : pyval) : option pystr :=
  match v with PyStr s => Some s | _ => None end.

(** [d.get(k, default)] *)
Definition dict_get_default (k : pystr) (default : pyval) (d : dict pyval) : pyval :=
  match dict_get k d with Some v => v | None => default end.

(** [v[k]] for a text index *)
Definition getitem_str (v : pyval) (k : pystr) : outcome pyval :=
  match v with
  | PyDict d => or_raise (KeyError k) (dict_get k d)
  | _ => Raise TypeError
  end.

(** [v[i]] for a small natural index *)
Definition getitem_nat (v : pyval) (i : nat) : outcome pyval :=
  match v with
  | PyList l => or_raise IndexError (l !! i)
  | PyStr s => match s !! i with Some c => Ok (PyStr [c]) | None => Raise IndexError end
  | PyDict _ => Raise (KeyError (str_of_N (N.of_nat i)))
  | _ => Raise TypeError
  end.

(** [None] or text, as an optional text parameter is. *)
Definition of_opt_str (o : option pystr) : pyval :=
  match o with Some s => PyStr s | None => PyNone end.

(** * Ordering of text and sorted dictionaries *)

(** [a <= b]: lexicographic on code points. *)
Fixpoint str_leb (a b : pystr) : bool :=
  match a, b with
  | [], _ => true
  | _ :: _, [] => false
  | x :: a', y :: b' => N.ltb x y || (N.eqb x y && str_leb a' b')
  end.

Definition item_le {V} (x y : pystr * V) : Prop := str_leb x.1 y.1 = true.
#[export] Instance item_le_dec {V} : RelDecision (@item_le V).
Proof. intros x y. unfold item_le. apply _. Defined.

(** [sorted(d.items())] when the keys are distinct. *)
Definition sort_items {V} (d : dict V) : dict V := merge_sort item_le d.

(** The value with the keys of every dictionary in order. *)
Fixpoint sort_keys (v : pyval) : pyval :=
  match v with
  | PyList l => PyList (map sort_keys l)
  | PyDict d => PyDict (sort_items (map (λ kv, (kv.1, sort_keys kv.2)) d))
  | v => v
  end.

Lemma str_leb_total a b : str_leb a b = true ∨ str_leb b a = true.
Proof.
  revert b. induction a as [|x a IH]; intros [|y b]; cbn; [by left..|by right|].
  rewrite !orb_true_iff, !andb_true_iff, !N.ltb_lt, !N.eqb_eq.
  destruct (IH b), (N.lt_trichotomy x y) as [|[|]]; naive_solver.
Qed.

Lemma str_leb_trans a b c : str_leb a b = true → str_leb b c = true → str_leb a c = true.
Proof.
  revert b c. induction a as [|x a IH]; intros [|y b] [|z c]; cbn; try done.
  rewrite !orb_true_iff, !andb_true_iff, !N.ltb_lt, !N.eqb_eq.
  intros [H1|[-> H1]] [H2|[-> H2]]; [left; lia|by left|by left|right; split; [done|]].
  by apply IH with b.
Qed.

#[export] Instance item_le_total {V} : Total (@item_le V).
Proof. intros x y. apply str_leb_total. Qed.
#[export] Instance item_le_trans {V} : Transitive (@item_le V).
Proof. intros x y z. apply str_leb_trans. Qed.

(** Sorting a dictionary only changes the order of its items. *)
Lemma sort_items_perm {V} (d : dict V) : Permutation (sort_items d) d.
Proof. apply merge_sort_Permutation. Qed.

Lemma sort_items_sorted {V} (d : dict V) : Sorted item_le (sort_items d).
Proof. apply Sorted_merge_sort. apply _. Qed.

#[export] Hint Resolve keys_set_NoDup sort_items_perm sort_items_sorted : py.
#[export] Hint Rewrite @dict_get_set_eq : py.
