(* ===== verification/PyJson.v ===== *)
(** Python's [json] module: [dumps] with its separators, indentation and key
    sorting, and [loads] with an [object_hook]; the round trip between them. *)
From S2P Require Export PyVal PyUtf8.
From Stdlib Require Import NArith ZArith Lia.

(** * [json.dumps] *)

Definition hex_digit (n : N) : N := if N.ltb n 10 then (48 + n)%N else (87 + n)%N.
Definition hex4 (n : N) : pystr :=
  [hex_digit (n / 4096); hex_digit ((n / 256) mod 16); hex_digit ((n / 16) mod 16);
   hex_digit (n mod 16)]%N.
Definition unicode_escape (n : N) : pystr := 92%N :: 117%N :: hex4 n.

(** One character inside a literal; the output is pure ASCII. *)
Definition esc_char (c : N) : pystr :=
  if N.eqb c 34 then [92; 34]%N
  else if N.eqb c 92 then [92; 92]%N
  else if N.eqb c 10 then [92; 110]%N
  else if N.eqb c 13 then [92; 114]%N
  else if N.eqb c 9 then [92; 116]%N
  else if N.eqb c 12 then [92; 102]%N
  else if N.eqb c 8 then [92; 98]%N
  else if N.leb 32 c && N.leb c 126 then [c]
  else if N.ltb c 65536 then unicode_escape c
  else unicode_escape (55296 + (c - 65536) / 1024)
       ++ unicode_escape (56320 + (c - 65536) mod 1024).

Definition enc_str (s : pystr) : pystr := 34%N :: mjoin (esc_char <$> s) ++ [34%N].

Definition enc_float (f : spec_float) : pystr :=
  match f with
  | S754_nan => #"NaN"
  | S754_infinity false => #"Infinity"
  | S754_infinity true => #"-Infinity"
  | _ => float_repr f
  end.

Record dump_opts := DumpOpts {
  item_sep : pystr;
  key_sep : pystr;
  indent : option nat
}.

(** [json.dumps(v)] and [json.dumps(v, indent=4, separators=(',', ': '))] *)
Definition default_opts : dump_opts := DumpOpts #", " #": " None.
Definition pretty_opts : dump_opts := DumpOpts #"," #": " (Some 4).

(** The line break before an item nested [level] deep. *)
Definition newline (o : dump_opts) (level : nat) : pystr :=
  match indent o with
  | None => []
  | Some n => 10%N :: replicate (n * level) 32%N
  end.

Fixpoint enc (o : dump_opts) (level : nat) (v : pyval) : pystr :=
  match v with
  | PyNone => #"null"
  | PyBool true => #"true"
  | PyBool false => #"false"
  | PyInt z => str_of_Z z
  | PyFloat f => enc_float f
  | PyStr s => enc_str s
  | PyList [] => #"[]"
  | PyList l =>
      #"[" ++ newline o (S level)
      ++ join (item_sep o ++ newline o (S level)) (map (enc o (S level)) l)
      ++ newline o level ++ #"]"
  | PyDict [] => #"{}"
  | PyDict d =>
      #"{" ++ newline o (S level)
      ++ join (item_sep o ++ newline o (S level))
              (map (λ kv, enc_str kv.1 ++ key_sep o ++ enc o (S level) kv.2) d)
      ++ newline o level ++ #"}"
  end.

Definition dumps (v : pyval) : pystr := enc default_opts 0 v.
(** [json.dumps(v, sort_keys=True, indent=4, separators=(',', ': '))] *)
Definition dumps_sorted (v : pyval) : pystr := enc pretty_opts 0 (sort_keys v).

(** * [json.loads] *)

Definition is_json_space (c : N) : bool :=
  N.eqb c 32 || N.eqb c 9 || N.eqb c 10 || N.eqb c 13.
Definition skip_ws : pystr → pystr := lstrip_by is_json_space.

(** Read one expected character. *)
Definition eat (c : N) (s : pystr) : option pystr :=
  match s with d :: s' => if N.eqb c d then Some s' else None | [] => None end.

Definition hex_val (c : N) : option N :=
  if is_digit c then Some (c - 48)%N
  else if N.leb 97 c && N.leb c 102 then Some (c - 87)%N
  else if N.leb 65 c && N.leb c 70 then Some (c - 55)%N
  else None.

(** Four hexadecimal digits and what follows them. *)
Definition parse_hex4 (s : pystr) : outcome (N * pystr) :=
  match s with
  | a :: b :: c :: d :: s' =>
      match hex_val a, hex_val b, hex_val c, hex_val d with
      | Some a, Some b, Some c, Some d => Ok (a * 4096 + b * 256 + c * 16 + d, s')%N
      | _, _, _, _ => Raise JSONDecodeError
      end
  | _ => Raise JSONDecodeError
  end.

(** The code point of a [\u] escape, whose [\u] has been read: a high surrogate
    followed by the escape of a low one is joined with it. *)
Definition parse_unicode (s : pystr) : outcome (N * pystr) :=
  '(h, s1) ← parse_hex4 s;
  if N.leb 55296 h && N.leb h 56319 && startswith [92; 117]%N s1 then
    '(l, s2) ← parse_hex4 (drop 2 s1);
    if N.leb 56320 l && N.leb l 57343
    then mret (65536 + (h - 55296) * 1024 + (l - 56320), s2)%N
    else mret (h, s1)
  else mret (h, s1).

Definition simple_escape (c : N) : option N :=
  if N.eqb c 34 then Some 34%N
  else if N.eqb c 92 then Some 92%N
  else if N.eqb c 47 then Some 47%N
  else if N.eqb c 98 then Some 8%N
  else if N.eqb c 102 then Some 12%N
  else if N.eqb c 110 then Some 10%N
  else if N.eqb c 114 then Some 13%N
  else if N.eqb c 116 then Some 9%N
  else None.

(** One element of a string literal: [None] is the closing quote. *)
Definition scan_char (s : pystr) : outcome (option N * pystr) :=
  match s with
  | [] => Raise JSONDecodeError
  | c :: s' =>
      if N.eqb c 34 then Ok (None, s')
      else if N.eqb c 92 then
        match s' with
        | [] => Raise JSONDecodeError
        | e :: s'' =>
            if N.eqb e 117 then '(x, r) ← parse_unicode s''; mret (Some x, r)
            else match simple_escape e with
                 | Some x => Ok (Some x, s'')
                 | None => Raise JSONDecodeError
                 end
        end
      else if N.ltb c 32 then Raise JSONDecodeError
      else Ok (Some c, s')
  end.

(** The rest of a string literal after its opening quote. *)
Fixpoint scan_string (fuel : nat) (s : pystr) : outcome (pystr * pystr) :=
  match fuel with
  | O => Raise OutOfFuel
  | S fuel' =>
      '(c, s') ← scan_char s;
      match c with
      | None => mret ([], s')
      | Some x => '(t, r) ← scan_string fuel' s'; mret (x :: t, r)
      end
  end.

(** The leading digits of [s] and what follows them. *)
Fixpoint span_digits (s : pystr) : pystr * pystr :=
  match s with
  | c :: s' => if is_digit c then let '(d, r) := span_digits s' in (c :: d, r) else ([], s)
  | [] => ([], [])
  end.

(** The integer part: a zero, or digits that do not start with one. *)
Definition scan_int (s : pystr) : option (pystr * pystr) :=
  match s with
  | c :: s' =>
      if N.eqb c 48 then Some ([c], s')
      else if is_digit c then Some (span_digits s) else None
  | [] => None
  end.

(** The optional fraction. *)
Definition scan_frac (s : pystr) : option pystr * pystr :=
  match s with
  | c :: s' =>
      if N.eqb c 46
      then match span_digits s' with
           | ((_ :: _) as d, r) => (Some d, r)
           | _ => (None, s)
           end
      else (None, s)
  | [] => (None, s)
  end.

(** The optional exponent. *)
Definition scan_exp (s : pystr) : option Z * pystr :=
  match s with
  | c :: s' =>
      if N.eqb c 101 || N.eqb c 69 then
        let '(neg, s1) :=
          match s' with
          | d :: s'' => if N.eqb d 45 then (true, s'') else if N.eqb d 43 then (false, s'') else (false, s')
          | [] => (false, s')
          end in
        match span_digits s1 with
        | ((_ :: _) as d, r) => (Some (if (neg : bool) then - Z.of_N (digits_val d) else Z.of_N (digits_val d))%Z, r)
        | _ => (None, s)
        end
      else (None, s)
  | [] => (None, s)
  end.

Section loads.
(** The longest integer literal [int] accepts ([None]: no limit). *)
Variable max_digits : option nat.
(** The [object_hook]. *)
Variable hook : dict pyval → outcome pyval.

Definition int_of_digits (neg : bool) (d : pystr) : outcome pyval :=
  if match max_digits with Some m => Nat.ltb m (length d) | None => false end
  then Raise (ValueError #"Exceeds the limit for integer string conversion")
  else let n := Z.of_N (digits_val d) in Ok (PyInt (if neg then - n else n)%Z).

Definition scan_number (s : pystr) : outcome (pyval * pystr) :=
  let '(neg, s0) := match s with
                    | c :: s' => if N.eqb c 45 then (true, s') else (false, s)
                    | [] => (false, s)
                    end in
  match scan_int s0 with
  | None => Raise JSONDecodeError
  | Some (i, s1) =>
      let '(frac, s2) := scan_frac s1 in
      let '(e, s3) := scan_exp s2 in
      match frac, e with
      | None, None => v ← int_of_digits neg i; mret (v, s1)
      | _, _ =>
          let f := default [] frac in
          Ok (PyFloat (float_of_dec neg (digits_val (i ++ f))
                         (default 0%Z e - Z.of_nat (length f))%Z), s3)
      end
  end.

(** The parser reads a value ([scan_once]), the items of an array from the
    first one on, or the members of an object.  Each step is written over the
    parsers of what is nested in it. *)
Definition parser (A : Type) : Type := pystr → outcome (A * pystr).

Definition value_step (items : parser (list pyval)) (members : parser (list (pystr * pyval)))
    : parser pyval := λ s,
  match s with
  | [] => Raise JSONDecodeError
  | c :: s' =>
      if N.eqb c 34 then '(t, r) ← scan_string (S (length s')) s'; mret (PyStr t, r)
      else if N.eqb c 123 then
        match eat 125 (skip_ws s') with
        | Some r => v ← hook []; mret (v, r)
        | None => '(l, r) ← members (skip_ws s'); v ← hook (dict_of_pairs l); mret (v, r)
        end
      else if N.eqb c 91 then
        match eat 93 (skip_ws s') with
        | Some r => mret (PyList [], r)
        | None => '(l, r) ← items (skip_ws s'); mret (PyList l, r)
        end
      else if startswith #"null" s then mret (PyNone, drop 4 s)
      else if startswith #"true" s then mret (PyBool true, drop 4 s)
      else if startswith #"false" s then mret (PyBool false, drop 5 s)
      else if startswith #"NaN" s then mret (PyFloat S754_nan, drop 3 s)
      else if startswith #"Infinity" s then mret (PyFloat (S754_infinity false), drop 8 s)
      else if startswith #"-Infinity" s then mret (PyFloat (S754_infinity true), drop 9 s)
      else scan_number s
  end.

Definition items_step (value : parser pyval) (items : parser (list pyval))
    : parser (list pyval) := λ s,
  '(v, r) ← value s;
  match eat 93 (skip_ws r), eat 44 (skip_ws r) with
  | Some r', _ => mret ([v], r')
  | None, Some r' => '(l, r'') ← items (skip_ws r'); mret (v :: l, r'')
  | None, None => Raise JSONDecodeError
  end.

Definition members_step (value : parser pyval) (members : parser (list (pystr * pyval)))
    : parser (list (pystr * pyval)) := λ s,
  s1 ← or_raise JSONDecodeError (eat 34 s);
  '(k, r) ← scan_string (S (length s1)) s1;
  r1 ← or_raise JSONDecodeError (eat 58 (skip_ws r));
  '(v, r2) ← value (skip_ws r1);
  match eat 125 (skip_ws r2), eat 44 (skip_ws r2) with
  | Some r', _ => mret ([(k, v)], r')
  | None, Some r' => '(l, r'') ← members (skip_ws r'); mret ((k, v) :: l, r'')
  | None, None => Raise JSONDecodeError
  end.

Fixpoint scan_value (fuel : nat) (s : pystr) {struct fuel} : outcome (pyval * pystr) :=
  match fuel with
  | O => Raise OutOfFuel
  | S fuel' => value_step (scan_items fuel') (scan_members fuel') s
  end
with scan_items (fuel : nat) (s : pystr) {struct fuel} : outcome (list pyval * pystr) :=
  match fuel with
  | O => Raise OutOfFuel
  | S fuel' => items_step (scan_value fuel') (scan_items fuel') s
  end
with scan_members (fuel : nat) (s : pystr) {struct fuel} : outcome (list (pystr * pyval) * pystr) :=
  match fuel with
  | O => Raise OutOfFuel
  | S fuel' => members_step (scan_value fuel') (scan_members fuel') s
  end.

(** [json.loads(s, object_hook=hook)] for text. *)
Definition loads_with (s : pystr) : outcome pyval :=
  let s0 := skip_ws s in
  '(v, r) ← scan_value (2 * length s0 + 2) s0;
  match skip_ws r with [] => mret v | _ => Raise JSONDecodeError end.
End loads.

(** [json.loads(s)]; Python 3.11 limits integer literals to 4300 digits and
    refuses a byte order mark. *)
Definition loads3 (s : pystr) : outcome pyval :=
  if startswith [65279%N] s then Raise JSONDecodeError
  else loads_with (Some 4300) (λ d, Ok (PyDict d)) s.
Definition loads2 (s : pystr) : outcome pyval := loads_with None (λ d, Ok (PyDict d)) s.

(** * [json.loads] of a byte string

    The encoding is guessed from a byte order mark or from the position of the
    zero bytes, as [json.detect_encoding] does. *)

Inductive encoding := UTF8 | UTF8_sig | UTF16 (e : endian) | UTF16_bom | UTF32 (e : endian) | UTF32_bom.

Definition nonzero (b : option N) : bool := match b with Some (Npos _) => true | _ => false end.

Definition detect_encoding (b : bytes) : encoding :=
  if startswith [0; 0; 254; 255]%N b || startswith [255; 254; 0; 0]%N b then UTF32_bom
  else if startswith [254; 255]%N b || startswith [255; 254]%N b then UTF16_bom
  else if startswith [239; 187; 191]%N b then UTF8_sig
  else if Nat.leb 4 (length b) then
    if negb (nonzero (b !! 0)) then if nonzero (b !! 1) then UTF16 BE else UTF32 BE
    else if negb (nonzero (b !! 1)) then
      if nonzero (b !! 2) || nonzero (b !! 3) then UTF16 LE else UTF32 LE
    else UTF8
  else if Nat.eqb (length b) 2 then
    if negb (nonzero (b !! 0)) then UTF16 BE
    else if negb (nonzero (b !! 1)) then UTF16 LE
    else UTF8
  else UTF8.

Definition decode_as (e : encoding) (b : bytes) : outcome pystr :=
  match e with
  | UTF8 => decode SurrogatePass b
  | UTF8_sig => decode SurrogatePass (drop 3 b)
  | UTF16 e => decode_utf16 e b
  | UTF32 e => decode_utf32 e b
  | UTF16_bom => decode_utf16 (if startswith [254; 255]%N b then BE else LE) (drop 2 b)
  | UTF32_bom => decode_utf32 (if startswith [0; 0]%N b then BE else LE) (drop 4 b)
  end.

Definition loads3_bytes (b : bytes) : outcome pyval :=
  s ← decode_as (detect_encoding b) b;
  loads_with (Some 4300) (λ d, Ok (PyDict d)) s.

Lemma scan_value_S lim hook n :
  scan_value lim hook (S n) = value_step lim hook (scan_items lim hook n) (scan_members lim hook n).
Proof. reflexivity. Qed.
Lemma scan_items_S lim hook n :
  scan_items lim hook (S n) = items_step (scan_value lim hook n) (scan_items lim hook n).
Proof. reflexivity. Qed.
Lemma scan_members_S lim hook n :
  scan_members lim hook (S n) = members_step (scan_value lim hook n) (scan_members lim hook n).
Proof. reflexivity. Qed.

(** * The parser terminates

    [consumes R s m]: the parser step [m] leaves less text than the [s] it was
    given where it succeeds, and otherwise fails with a [ValueError] or with an
    exception in [R], where [R] is for those of the [object_hook]. *)

Definition consumes {A} (R : exn → Prop) (s : pystr) (m : outcome (A * pystr)) : Prop :=
  match m with
  | Ok (_, r) => length r < length s
  | Raise e => is_ValueError e = true ∨ R e
  end.

Ltac fin := cbn in *; first [done | by left | lia].

Lemma skip_ws_length s : length (skip_ws s) ≤ length s.
Proof. unfold skip_ws. induction s as [|c s IH]; cbn; [done|]. destruct (is_json_space c); cbn; lia. Qed.

Lemma eat_length c s r : eat c s = Some r → length s = S (length r).
Proof. destruct s as [|d s]; cbn; [done|]. destruct (N.eqb c d); naive_solver. Qed.

Lemma span_digits_spec s d r :
  span_digits s = (d, r) → s = d ++ r ∧ Forall (λ c, is_digit c = true) d.
Proof.
  revert d r. induction s as [|c s IH]; intros d r; cbn; [intros [= <- <-]; done|].
  destruct (is_digit c) eqn:E; [|intros [= <- <-]; done].
  destruct (span_digits s) as [d' r'] eqn:Es. intros [= <- <-].
  destruct (IH _ _ eq_refl) as [-> ?]. split; [done|by constructor].
Qed.

Lemma parse_hex4_consumes R s : consumes R s (parse_hex4 s).
Proof.
  destruct s as [|a [|b [|c [|d s]]]]; try fin.
  cbn. destruct (hex_val a), (hex_val b), (hex_val c), (hex_val d); fin.
Qed.

Lemma parse_unicode_consumes R s : consumes R s (parse_unicode s).
Proof.
  unfold parse_unicode. pose proof (parse_hex4_consumes R s) as H.
  destruct (parse_hex4 s) as [[h s1]|]; cbn in *; [|fin].
  destruct (_ && _); cbn; [|fin].
  pose proof (parse_hex4_consumes R (drop 2 s1)) as H2.
  destruct (parse_hex4 (drop 2 s1)) as [[l s2]|]; cbn in *; [|fin].
  rewrite length_drop in H2. destruct (_ && _); cbn; lia.
Qed.

Lemma scan_char_consumes R s : consumes R s (scan_char s).
Proof.
  destruct s as [|c s]; [fin|]. cbn.
  destruct (N.eqb c 34); cbn; [lia|]. destruct (N.eqb c 92).
  - destruct s as [|e s]; [fin|]. destruct (N.eqb e 117).
    + pose proof (parse_unicode_consumes R s). destruct (parse_unicode s) as [[x r]|]; cbn in *; [lia|fin].
    + destruct (simple_escape e); fin.
  - destruct (N.ltb c 32); fin.
Qed.

Lemma scan_string_consumes R fuel s : length s < fuel → consumes R s (scan_string fuel s).
Proof.
  revert s. induction fuel as [|fuel IH]; intros s Hf; [lia|]. cbn.
  pose proof (scan_char_consumes R s) as H. destruct (scan_char s) as [[[x|] s']|]; cbn in *; [|fin..].
  specialize (IH s' ltac:(lia)).
  destruct (scan_string fuel s') as [[t r]|]; cbn in *; [lia|fin].
Qed.

Lemma scan_frac_length s d r : scan_frac s = (d, r) → length r ≤ length s.
Proof.
  destruct s as [|c s]; cbn; [intros [= <- <-]; done|].
  destruct (N.eqb c 46); [|intros [= <- <-]; done].
  destruct (span_digits s) as [[|x d'] r'] eqn:E; intros [= <- <-]; [done|].
  apply span_digits_spec in E as [-> _]. cbn. rewrite length_app. lia.
Qed.

Lemma scan_exp_length s d r : scan_exp s = (d, r) → length r ≤ length s.
Proof.
  destruct s as [|c s]; cbn; [intros [= <- <-]; done|].
  destruct (N.eqb c 101 || N.eqb c 69); [|intros [= <- <-]; done].
  set (p := match s with [] => _ | _ => _ end).
  assert (length p.2 ≤ length s) as Hp.
  { subst p. destruct s as [|x s]; cbn; [done|]. repeat case_match; cbn; lia. }
  destruct p as [neg s1]. cbn in Hp.
  destruct (span_digits s1) as [[|x d'] r'] eqn:E; intros [= <- <-]; [done|].
  apply span_digits_spec in E as [-> _]. rewrite length_app in Hp. cbn. lia.
Qed.

Lemma scan_int_length s d r : scan_int s = Some (d, r) → length r < length s.
Proof.
  destruct s as [|c s]; cbn; [done|]. destruct (N.eqb c 48); [intros [= <- <-]; cbn; lia|].
  destruct (is_digit c) eqn:E; [|fin]. destruct (span_digits s) as [d' r'] eqn:Es.
  intros [= <- <-]. apply span_digits_spec in Es as [-> _]. rewrite length_app. cbn. lia.
Qed.

Section termination.
Variables (lim : option nat) (hook : dict pyval → outcome pyval).
Let R (e : exn) : Prop := ∃ d, hook d = Raise e.

Lemma scan_number_consumes s : consumes R s (scan_number lim s).
Proof.
  unfold scan_number. set (p := match s with [] => _ | _ => _ end).
  assert (length p.2 ≤ length s) as Hp.
  { subst p. destruct s as [|x s]; cbn; [done|]. destruct (N.eqb x 45); cbn; lia. }
  destruct p as [neg s0]. cbn in Hp. destruct (scan_int s0) as [[i s1]|] eqn:Ei; cbn; [|fin].
  apply scan_int_length in Ei. destruct (scan_frac s1) as [f s2] eqn:Ef.
  apply scan_frac_length in Ef. destruct (scan_exp s2) as [e s3] eqn:Ee.
  apply scan_exp_length in Ee.
  destruct f, e; cbn; try lia. unfold int_of_digits. case_match; fin.
Qed.

(** [within n p]: the parser [p] is given enough fuel for a text of size
    measure at most [n]. *)
Definition within {A} (k n : nat) (p : parser A) : Prop :=
  ∀ s, 2 * length s + k ≤ n → consumes R s (p s).

Lemma value_step_within n items members :
  within 2 n items → within 2 n members → within 1 (S n) (value_step lim hook items members).
Proof.
  intros Hi Hm [|c s] Hf; [fin|]. pose proof (skip_ws_length s) as Hws.
  cbn in Hf. unfold value_step. destruct (N.eqb c 34).
  { pose proof (scan_string_consumes R (S (length s)) s ltac:(lia)) as H.
    destruct (scan_string _ s) as [[t r]|]; cbn in *; [lia|fin]. }
  destruct (N.eqb c 123).
  { destruct (eat 125 (skip_ws s)) as [r|] eqn:E.
    - apply eat_length in E. destruct (hook []) eqn:Eh; cbn; [lia|right; by eexists].
    - pose proof (Hm (skip_ws s) ltac:(lia)) as C.
      destruct (members _) as [[l r]|]; cbn in *; [|fin].
      destruct (hook (dict_of_pairs l)) eqn:Eh; cbn; [lia|right; by eexists]. }
  destruct (N.eqb c 91).
  { destruct (eat 93 (skip_ws s)) as [r|] eqn:E; cbn.
    - apply eat_length in E. cbn. lia.
    - pose proof (Hi (skip_ws s) ltac:(lia)) as C.
      destruct (items _) as [[l r]|]; cbn in *; [lia|fin]. }
  repeat (match goal with |- context [startswith ?p ?t] => destruct (startswith p t) end;
          [cbn [mret outcome_ret consumes]; rewrite length_drop; cbn; lia|]).
  apply scan_number_consumes.
Qed.

Lemma items_step_within n value items :
  within 1 n value → within 2 n items → within 2 (S n) (items_step value items).
Proof.
  intros Hv Hi s Hf. unfold items_step.
  pose proof (Hv s ltac:(lia)) as C. destruct (value s) as [[v r]|]; cbn in *; [|fin].
  pose proof (skip_ws_length r). destruct (eat 93 (skip_ws r)) as [r'|] eqn:E.
  { apply eat_length in E. cbn. lia. }
  destruct (eat 44 (skip_ws r)) as [r'|] eqn:E2; [|fin]. apply eat_length in E2.
  pose proof (skip_ws_length r'). pose proof (Hi (skip_ws r') ltac:(lia)) as C2.
  destruct (items _) as [[l r'']|]; cbn in *; [lia|fin].
Qed.

Lemma members_step_within n value members :
  within 1 n value → within 2 n members → within 2 (S n) (members_step value members).
Proof.
  intros Hv Hm s Hf. unfold members_step.
  destruct (eat 34 s) as [s1|] eqn:E; cbn [or_raise mbind outcome_bind]; [|fin].
  apply eat_length in E.
  pose proof (scan_string_consumes R (S (length s1)) s1 ltac:(lia)) as C0.
  destruct (scan_string _ s1) as [[k r]|]; cbn in *; [|fin]. pose proof (skip_ws_length r).
  destruct (eat 58 (skip_ws r)) as [r1|] eqn:E1; cbn; [|fin]. apply eat_length in E1.
  pose proof (skip_ws_length r1). pose proof (Hv (skip_ws r1) ltac:(lia)) as C.
  destruct (value _) as [[v r2]|]; cbn in *; [|fin].
  pose proof (skip_ws_length r2). destruct (eat 125 (skip_ws r2)) as [r'|] eqn:E2.
  { apply eat_length in E2. cbn. lia. }
  destruct (eat 44 (skip_ws r2)) as [r'|] eqn:E3; [|fin]. apply eat_length in E3.
  pose proof (skip_ws_length r'). pose proof (Hm (skip_ws r') ltac:(lia)) as C2.
  destruct (members _) as [[l r'']|]; cbn in *; [lia|fin].
Qed.

Lemma fuel_enough fuel :
  within 1 fuel (scan_value lim hook fuel) ∧ within 2 fuel (scan_items lim hook fuel) ∧
  within 2 fuel (scan_members lim hook fuel).
Proof.
  induction fuel as [|fuel (IHv & IHi & IHm)]; [split_and!; intros s ?; lia|].
  split_and!; [by apply value_step_within|by apply items_step_within|by apply members_step_within].
Qed.

(** What can go wrong in [loads]: a [ValueError], or what the hook raises. *)
Lemma loads_with_errors s e :
  loads_with lim hook s = Raise e → is_ValueError e = true ∨ ∃ d, hook d = Raise e.
Proof.
  unfold loads_with. destruct (fuel_enough (2 * length (skip_ws s) + 2)) as [H _].
  specialize (H (skip_ws s) ltac:(lia)).
  destruct (scan_value _ _ _ _) as [[v r]|]; cbn in *.
  - destruct (skip_ws r); [done|]. intros [= <-]. by left.
  - by intros [= <-].
Qed.

(** Parsing ends for every text: the fuel is never what stops it. *)
Lemma loads_with_total s : (∀ d, hook d ≠ Raise OutOfFuel) → loads_with lim hook s ≠ Raise OutOfFuel.
Proof. by intros Hh [?|[d Hd]]%loads_with_errors; [|destruct (Hh d)]. Qed.
End termination.

Lemma loads3_errors s e : loads3 s = Raise e → is_ValueError e = true.
Proof.
  unfold loads3. destruct (startswith _ s); [by intros [= <-]|].
  by intros [?|[d Hd]]%loads_with_errors.
Qed.

Lemma loads2_errors s e : loads2 s = Raise e → is_ValueError e = true.
Proof. by intros [?|[d Hd]]%loads_with_errors. Qed.

Lemma groups_errors fuel n en s e : groups fuel n en s = Raise e → is_ValueError e = true.
Proof.
  revert s. induction fuel as [|fuel IH]; intros [|b s]; try done; [by intros [= <-]|].
  cbn [groups]. destruct (Nat.ltb _ n); [by intros [= <-]|]. specialize (IH (drop n (b :: s))).
  destruct (groups _ _ _ _); [done|]. intros [= <-]. by apply IH.
Qed.

(** Reading the body of a request as JSON can only fail with a [ValueError]. *)
Lemma loads3_bytes_errors b e : loads3_bytes b = Raise e → is_ValueError e = true.
Proof.
  unfold loads3_bytes.
  assert (∀ en e, decode_as en b = Raise e → is_ValueError e = true) as H.
  { clear e. intros en e. unfold decode_as, decode, decode_utf16, decode_utf32.
    destruct en; try (intros ->%utf8_go_errors; done);
      match goal with |- context [groups ?a ?b ?c ?d] =>
        pose proof (groups_errors a b c d); destruct (groups a b c d) end; cbn;
      [done|naive_solver|done|naive_solver|case_match; naive_solver|naive_solver
      |case_match; naive_solver|naive_solver]. }
  specialize (H (detect_encoding b)). destruct (decode_as _ _); cbn; [|naive_solver].
  by intros [?|[d Hd]]%loads_with_errors.
Qed.

(** * Reading back what was written *)

(** The text after a number does not go on with it. *)
Definition boundary (s : pystr) : Prop :=
  match s with
  | [] => True
  | c :: _ => is_digit c = false ∧ c ≠ 46%N ∧ c ≠ 101%N ∧ c ≠ 69%N
  end.

Definition all_ws (w : pystr) : Prop := Forall (λ c, is_json_space c = true) w.

Lemma skip_ws_app w s : all_ws w → skip_ws (w ++ s) = skip_ws s.
Proof. unfold skip_ws. induction 1 as [|c w Hc _ IH]; [done|]. cbn. by rewrite Hc. Qed.

Lemma skip_ws_head c s : is_json_space c = false → skip_ws (c :: s) = c :: s.
Proof. unfold skip_ws. cbn. by intros ->. Qed.

Lemma newline_ws o level : all_ws (newline o level).
Proof.
  unfold newline. destruct (indent o); [|constructor]. constructor; [done|].
  by apply Forall_replicate.
Qed.

Lemma eat_head c s : eat c (c :: s) = Some s.
Proof. cbn. by rewrite N.eqb_refl. Qed.

Lemma eat_other c d s : d ≠ c → eat c (d :: s) = None.
Proof. intros H. cbn. by rewrite (proj2 (N.eqb_neq c d)). Qed.

Lemma hex_val_digit n : (n < 16)%N → hex_val (hex_digit n) = Some n.
Proof.
  intros H. unfold hex_digit, hex_val, is_digit. destruct (N.ltb_spec n 10).
  - destruct (N.leb_spec 48 (48 + n)), (N.leb_spec (48 + n) 57); try lia. cbn. f_equal. lia.
  - destruct (N.leb_spec 48 (87 + n)), (N.leb_spec (87 + n) 57), (N.leb_spec 97 (87 + n)),
      (N.leb_spec (87 + n) 102); try lia. cbn. f_equal. lia.
Qed.

Lemma parse_hex4_hex4 n s : (n < 65536)%N → parse_hex4 (hex4 n ++ s) = Ok (n, s).
Proof.
  intros H. unfold hex4, parse_hex4. cbn [app].
  rewrite !hex_val_digit; try (by apply N.mod_lt).
  - pose proof (N.div_mod' n 16) as D1. pose proof (N.div_mod' (n / 16) 16) as D2.
    pose proof (N.div_mod' (n / 256) 16) as D3. rewrite N.Div0.div_div in D2, D3.
    change (16 * 16)%N with 256%N in D2. change (256 * 16)%N with 4096%N in D3.
    do 2 f_equal. lia.
  - apply N.Div0.div_lt_upper_bound. lia.
Qed.

(** Every character comes back from the way it is written in a literal. *)
Lemma scan_char_esc c s : is_scalar c = true → scan_char (esc_char c ++ s) = Ok (Some c, s).
Proof.
  unfold is_scalar, is_surrogate.
  rewrite andb_true_iff, negb_true_iff, andb_false_iff, N.leb_le, !N.leb_gt. intros [Hmax Hsur].
  unfold esc_char.
  repeat match goal with |- context [N.eqb c ?k] =>
    destruct (N.eqb_spec c k); [subst c; reflexivity|] end.
  destruct (N.leb 32 c && N.leb c 126) eqn:Hpr.
  { apply andb_true_iff in Hpr as [H1%N.leb_le H2%N.leb_le]. cbn.
    destruct (N.eqb_spec c 34), (N.eqb_spec c 92), (N.ltb_spec c 32); try lia. done. }
  clear Hpr. destruct (N.ltb_spec c 65536).
  - unfold unicode_escape. cbn -[parse_unicode hex4]. unfold parse_unicode.
    rewrite parse_hex4_hex4 by done. cbn [mbind outcome_bind].
    assert (N.leb 55296 c && N.leb c 56319 = false) as ->.
    { apply andb_false_iff. rewrite !N.leb_gt. lia. }
    done.
  - assert (((c - 65536) / 1024 < 1024)%N) by (apply N.Div0.div_lt_upper_bound; lia).
    pose proof (N.mod_lt (c - 65536) 1024 ltac:(done)).
    pose proof (N.div_mod' (c - 65536) 1024).
    set (hi := ((c - 65536) / 1024)%N) in *. set (lo := ((c - 65536) mod 1024)%N) in *.
    clearbody hi lo.
    unfold unicode_escape. cbn -[parse_unicode hex4]. rewrite <- app_assoc.
    unfold parse_unicode. rewrite parse_hex4_hex4 by lia. cbn [mbind outcome_bind].
    assert (N.leb 55296 (55296 + hi) && N.leb (55296 + hi) 56319 = true) as ->.
    { apply andb_true_iff. rewrite !N.leb_le. lia. }
    match goal with |- context [startswith ?p ?t] => change (startswith p t) with true end.
    cbn [andb]. change (drop 2 ((92%N :: 117%N :: hex4 (56320 + lo)) ++ s)) with (hex4 (56320 + lo) ++ s).
    rewrite parse_hex4_hex4 by lia. cbn [mbind outcome_bind].
    assert (N.leb 56320 (56320 + lo) && N.leb (56320 + lo) 57343 = true) as ->.
    { apply andb_true_iff. rewrite !N.leb_le. lia. }
    cbn. do 3 f_equal. lia.
Qed.

Definition scalars (s : pystr) : bool := forallb is_scalar s.

Lemma scan_string_enc t s fuel :
  scalars t = true → length t < fuel →
  scan_string fuel (mjoin (esc_char <$> t) ++ 34%N :: s) = Ok (t, s).
Proof.
  revert fuel. induction t as [|c t IH]; intros [|fuel] Ht Hf; cbn in Hf; try lia; [done|].
  cbn in Ht. apply andb_true_iff in Ht as [Hc Ht].
  change (mjoin (esc_char <$> c :: t)) with (esc_char c ++ mjoin (esc_char <$> t)).
  cbn [scan_string]. rewrite <- app_assoc, scan_char_esc by done. cbn [mbind outcome_bind].
  rewrite IH by (done || lia). done.
Qed.

Lemma esc_char_length c : 1 ≤ length (esc_char c).
Proof. unfold esc_char. repeat case_match; cbn; lia. Qed.

Lemma esc_length t : length t ≤ length (mjoin (esc_char <$> t)).
Proof.
  induction t as [|c t IH]; [done|].
  change (mjoin (esc_char <$> c :: t)) with (esc_char c ++ mjoin (esc_char <$> t)).
  pose proof (esc_char_length c). rewrite length_app. cbn. lia.
Qed.

(** A string literal is read back together with what follows it. *)
Lemma scan_string_lit t s fuel :
  scalars t = true → length (mjoin (esc_char <$> t) ++ 34%N :: s) ≤ fuel →
  scan_string fuel (mjoin (esc_char <$> t) ++ 34%N :: s) = Ok (t, s).
Proof.
  intros Ht Hf. apply scan_string_enc; [done|]. pose proof (esc_length t).
  rewrite length_app in Hf. cbn in Hf. lia.
Qed.

Lemma span_digits_app d s :
  Forall (λ c, is_digit c = true) d → (∀ c s', s = c :: s' → is_digit c = false) →
  span_digits (d ++ s) = (d, s).
Proof.
  intros Hd Hs. induction Hd as [|c d Hc _ IH]; cbn; [|by rewrite Hc, IH].
  destruct s as [|c s]; [done|]. cbn. by rewrite (Hs c s).
Qed.

Lemma boundary_frac s : boundary s → scan_frac s = (None, s).
Proof.
  destruct s as [|c s]; cbn; [done|]. intros (_ & H & _). by rewrite (proj2 (N.eqb_neq _ _) H).
Qed.

Lemma boundary_exp s : boundary s → scan_exp s = (None, s).
Proof.
  destruct s as [|c s]; cbn; [done|]. intros (_ & _ & H1 & H2).
  by rewrite (proj2 (N.eqb_neq _ _) H1), (proj2 (N.eqb_neq _ _) H2).
Qed.

Lemma scan_int_str_of_N n s : boundary s → scan_int (str_of_N n ++ s) = Some (str_of_N n, s).
Proof.
  intros Hb. destruct (str_of_N_spec n) as (_ & HF & c & s' & E & Hz). rewrite E in *. cbn [app scan_int].
  destruct (N.eqb_spec c 48) as [->|Hne]; [by rewrite Hz|].
  inversion_clear HF as [|? ? Hc Hs']. rewrite Hc. cbn [span_digits]. rewrite Hc, span_digits_app; [done..|].
  intros d t ->. apply Hb.
Qed.

Definition int_fits (lim : option nat) (z : Z) : bool :=
  match lim with Some m => Nat.leb (length (str_of_N (Z.to_N (Z.abs z)))) m | None => true end.

Lemma int_of_digits_str lim neg z :
  int_fits lim z = true →
  int_of_digits lim neg (str_of_N (Z.to_N (Z.abs z))) =
    Ok (PyInt (if neg then - Z.abs z else Z.abs z)%Z).
Proof.
  unfold int_fits, int_of_digits. intros H. autorewrite with py.
  rewrite Z2N.id by lia. destruct lim as [m|]; [|done].
  apply Nat.leb_le in H. by destruct (Nat.ltb_spec m (length (str_of_N (Z.to_N (Z.abs z))))); [lia|].
Qed.

Lemma scan_number_str_of_Z lim z s :
  int_fits lim z = true → boundary s → scan_number lim (str_of_Z z ++ s) = Ok (PyInt z, s).
Proof.
  intros Hz Hb. unfold str_of_Z, scan_number. destruct (Z.ltb_spec z 0) as [Hneg|Hpos]; cbn [app].
  - rewrite N.eqb_refl. replace (- z)%Z with (Z.abs z) by lia.
    rewrite scan_int_str_of_N by done. rewrite boundary_frac, boundary_exp by done.
    rewrite int_of_digits_str by done. cbn. do 3 f_equal. lia.
  - replace (Z.to_N z) with (Z.to_N (Z.abs z)) by (f_equal; lia).
    destruct (str_of_N_spec (Z.to_N (Z.abs z))) as (_ & HF & c & t & E & _).
    assert (c ≠ 45%N).
    { rewrite E in HF. inversion_clear HF as [|? ? Hc _]. by intros ->. }
    rewrite E at 1. cbn [app]. rewrite (proj2 (N.eqb_neq _ _) H).
    rewrite scan_int_str_of_N by done. rewrite boundary_frac, boundary_exp by done.
    rewrite int_of_digits_str by done. cbn. do 3 f_equal. lia.
Qed.

(** The values [loads] gives back unchanged: text made of code points other
    than surrogates, integers the reader accepts, no floats, and dictionaries
    with distinct keys. *)
Fixpoint json_ok (lim : option nat) (v : pyval) : bool :=
  match v with
  | PyFloat _ => false
  | PyInt z => int_fits lim z
  | PyStr s => scalars s
  | PyList l => forallb (json_ok lim) l
  | PyDict d =>
      bool_decide (NoDup (keys d)) && forallb (λ kv, scalars kv.1 && json_ok lim kv.2) d
  | _ => true
  end.

(** Separators that read back: a comma or a colon and white space. *)
Definition opts_ok (o : dump_opts) : Prop :=
  (∃ w, item_sep o = 44%N :: w ∧ all_ws w) ∧ (∃ w, key_sep o = 58%N :: w ∧ all_ws w).

Lemma default_opts_ok : opts_ok default_opts.
Proof. split; (eexists; split; [reflexivity|]); by repeat constructor. Qed.
Lemma pretty_opts_ok : opts_ok pretty_opts.
Proof. split; (eexists; split; [reflexivity|]); by repeat constructor. Qed.

Section roundtrip.
Variables (lim : option nat) (o : dump_opts).
Hypothesis Ho : opts_ok o.
Let hook : dict pyval → outcome pyval := λ d, Ok (PyDict d).
Let value := scan_value lim hook.
Let items := scan_items lim hook.
Let members := scan_members lim hook.

(** How the text of a value begins. *)
Definition starts_value (s : pystr) : Prop :=
  ∃ c t, s = c :: t ∧ is_json_space c = false ∧ c ≠ 93%N ∧ c ≠ 125%N ∧ c ≠ 65279%N.

Lemma starts_value_app s t : starts_value s → starts_value (s ++ t).
Proof. intros (c & s' & -> & H). by exists c, (s' ++ t). Qed.

Lemma starts_value_intro s c : head s = Some c →
  is_json_space c = false → c ≠ 93%N → c ≠ 125%N → c ≠ 65279%N → starts_value s.
Proof. destruct s as [|d s]; [done|]. intros [= ->] ????. by exists c, s. Qed.

Lemma digit_head n : ∃ c t, str_of_N n = c :: t ∧ is_digit c = true.
Proof.
  destruct (str_of_N_spec n) as (_ & HF & c & t & E & _). rewrite E in HF.
  inversion_clear HF. eauto.
Qed.

Lemma digit_range c : is_digit c = true → (48 <= c <= 57)%N.
Proof. unfold is_digit. rewrite andb_true_iff, !N.leb_le. done. Qed.

Lemma digit_not_space c : is_digit c = true → is_json_space c = false.
Proof.
  intros ?%digit_range. unfold is_json_space.
  rewrite !orb_false_iff, !N.eqb_neq. lia.
Qed.

Lemma enc_starts level v : json_ok lim v = true → starts_value (enc o level v).
Proof.
  destruct v as [|[]|z|f|s|[|x l]|[|x d]]; cbn; intros H; try done;
    try (eapply starts_value_intro; [reflexivity|done..]).
  unfold str_of_Z. destruct (Z.ltb z 0).
  - eapply starts_value_intro; [reflexivity|done..].
  - destruct (digit_head (Z.to_N z)) as (c & t & -> & Hc). pose proof (digit_range c Hc).
    exists c, t. split_and!; [done|by apply digit_not_space|lia..].
Qed.

(** The text of [v] is read back as [v] wherever a value may stand. *)
Definition reads (level : nat) (v : pyval) : Prop :=
  ∀ rest n, boundary rest → 2 * length (enc o level v ++ rest) + 1 ≤ n →
    value n (enc o level v ++ rest) = Ok (v, rest).

(** What [value_step] does at the head of a number. *)
Lemma value_number n c s :
  is_digit c = true ∨ (c = 45%N ∧ ∃ d s', s = d :: s' ∧ is_digit d = true) →
  value (S n) (c :: s) = scan_number lim (c :: s).
Proof.
  intros Hc. unfold value. rewrite scan_value_S. unfold value_step.
  assert (c ≠ 34 ∧ c ≠ 123 ∧ c ≠ 91 ∧ c ≠ 110 ∧ c ≠ 116 ∧ c ≠ 102 ∧ c ≠ 78 ∧ c ≠ 73)%N
    as (H1 & H2 & H3 & H4 & H5 & H6 & H7 & H8).
  { destruct Hc as [?%digit_range|[-> _]]; lia. }
  rewrite (proj2 (N.eqb_neq _ _) H1), (proj2 (N.eqb_neq _ _) H2), (proj2 (N.eqb_neq _ _) H3).
  assert (∀ d p, c ≠ d → startswith (d :: p) (c :: s) = false) as Hs.
  { intros d p Hd. cbn. by rewrite (proj2 (N.eqb_neq d c)). }
  assert (startswith #"-Infinity" (c :: s) = false) as Hinf.
  { change #"-Infinity" with (45 :: 73 :: #"nfinity")%N.
    destruct Hc as [Hc%digit_range|[-> (d & s' & -> & Hd%digit_range)]].
    - apply Hs. lia.
    - cbn [startswith].
      rewrite N.eqb_refl, (proj2 (N.eqb_neq 73 d)) by lia. done. }
  rewrite Hinf. change #"null" with (110 :: #"ull")%N. change #"true" with (116 :: #"rue")%N.
  change #"false" with (102 :: #"alse")%N. change #"NaN" with (78 :: #"aN")%N.
  change #"Infinity" with (73 :: #"nfinity")%N. by rewrite !Hs.
Qed.

Lemma reads_int level z : json_ok lim (PyInt z) = true → reads level (PyInt z).
Proof.
  intros Hz rest n Hb Hn. cbn [enc] in *. destruct n as [|n]; [lia|].
  rewrite <- (scan_number_str_of_Z lim z rest) by done.
  unfold str_of_Z. destruct (Z.ltb z 0).
  - destruct (digit_head (Z.to_N (- z))) as (c & t & -> & Hc). cbn [app].
    apply value_number. right. eauto.
  - destruct (digit_head (Z.to_N z)) as (c & t & -> & Hc). cbn [app].
    apply value_number. by left.
Qed.

Lemma reads_str level s : json_ok lim (PyStr s) = true → reads level (PyStr s).
Proof.
  intros Hs rest n Hb Hn. cbn [enc] in *. unfold enc_str in *. destruct n as [|n]; [lia|].
  unfold value. rewrite scan_value_S. cbn [app]. unfold value_step. rewrite N.eqb_refl.
  rewrite <- app_assoc. cbn [app]. by rewrite scan_string_lit by (done || lia).
Qed.

(** Text that starts with a value is not white space or a closing bracket. *)
Lemma starts_skip w s : all_ws w → starts_value s → skip_ws (w ++ s) = s.
Proof. intros Hw (c & t & -> & Hc & _). by rewrite skip_ws_app, skip_ws_head. Qed.

Lemma starts_eat c s : starts_value s → c = 93%N ∨ c = 125%N → eat c s = None.
Proof. intros (d & t & -> & _ & H1 & H2 & _) Hc. apply eat_other. destruct Hc; congruence. Qed.

Lemma boundary_ws w c s : all_ws w →
  is_digit c = false → c ≠ 46%N → c ≠ 101%N → c ≠ 69%N → boundary (w ++ c :: s).
Proof.
  intros Hw ????. destruct Hw as [|d w Hd _]; [done|]. cbn.
  unfold is_json_space in Hd. rewrite !orb_true_iff, !N.eqb_eq in Hd.
  destruct Hd as [[[->| ->]| ->]| ->]; done.
Qed.

Lemma boundary_close level c s :
  c = 93%N ∨ c = 125%N → boundary (newline o level ++ c :: s).
Proof. intros [-> | ->]; (apply boundary_ws; [apply newline_ws|done..]). Qed.

(** The separator between items, line break included. *)
Lemma sep_split level : ∃ w, item_sep o ++ newline o level = 44%N :: w ∧ all_ws w.
Proof.
  destruct Ho as [(w & -> & Hw) _]. exists (w ++ newline o level). split; [done|].
  apply Forall_app. split; [done|apply newline_ws].
Qed.

Lemma items_step_last n v s rest w :
  value n (s ++ w ++ 93%N :: rest) = Ok (v, w ++ 93%N :: rest) → all_ws w →
  items (S n) (s ++ w ++ 93%N :: rest) = Ok ([v], rest).
Proof.
  intros Hv Hw. unfold items. rewrite scan_items_S. unfold items_step.
  fold value. rewrite Hv. cbn [mbind outcome_bind].
  by rewrite skip_ws_app, skip_ws_head, eat_head.
Qed.

Lemma items_step_more n v s t w l rest :
  value n (s ++ 44%N :: w ++ t) = Ok (v, 44%N :: w ++ t) → all_ws w → starts_value t →
  items n t = Ok (l, rest) → items (S n) (s ++ 44%N :: w ++ t) = Ok (v :: l, rest).
Proof.
  intros Hv Hw Ht Hl. unfold items. rewrite scan_items_S. unfold items_step.
  fold value. fold items. rewrite Hv. cbn [mbind outcome_bind].
  rewrite skip_ws_head, eat_other, eat_head, starts_skip by done. by rewrite Hl.
Qed.

Lemma join_cons2 sep a b l : join sep (a :: b :: l) = a ++ sep ++ join sep (b :: l).
Proof. done. Qed.

Lemma sep_text {A} (f : A → pystr) w a b l t :
  join (44%N :: w) (map f (a :: b :: l)) ++ t = f a ++ 44%N :: w ++ join (44%N :: w) (map f (b :: l)) ++ t.
Proof. cbn [map]. by rewrite join_cons2, <- !app_assoc. Qed.

Lemma join_starts sep a l t : starts_value a → starts_value (join sep (a :: l) ++ t).
Proof. intros Ha. destruct l; cbn [join]; repeat apply starts_value_app; done. Qed.

(** The items of a list are read back up to the closing bracket. *)
Lemma reads_items level l rest n :
  l ≠ [] → Forall (λ v, reads (S level) v ∧ json_ok lim v = true) l →
  let text := join (item_sep o ++ newline o (S level)) (map (enc o (S level)) l)
              ++ newline o level ++ 93%N :: rest in
  2 * length text + 2 ≤ n → items n text = Ok (l, rest).
Proof.
  destruct (sep_split (S level)) as (w & -> & Hw). intros Hne Hl. revert n.
  induction Hl as [|v l [Hv Hok] Hl IH]; [done|]. cbn zeta. intros [|n] Hn; [lia|].
  destruct l as [|v' l].
  - cbn [map join] in *. rewrite length_app in Hn. apply items_step_last; [|apply newline_ws].
    apply Hv; [apply boundary_close; by left|]. rewrite length_app. lia.
  - rewrite sep_text in *. apply items_step_more.
    + apply Hv; [done|]. lia.
    + done.
    + apply join_starts. inversion_clear Hl as [|? ? [] ?]. by apply enc_starts.
    + apply IH; [done|]. rewrite length_app in Hn. cbn [length] in Hn.
      rewrite length_app in Hn. lia.
Qed.

(** The text of one member of an object. *)
Definition enc_member (level : nat) (kv : pystr * pyval) : pystr :=
  enc_str kv.1 ++ key_sep o ++ enc o level kv.2.

Definition member_ok (level : nat) (kv : pystr * pyval) : Prop :=
  reads level kv.2 ∧ json_ok lim kv.2 = true ∧ scalars kv.1 = true.

(** Reading the key, the colon and the value of a member. *)
Lemma members_step_member level kv n t :
  member_ok level kv → boundary t → 2 * length (enc_member level kv ++ t) ≤ n →
  members (S n) (enc_member level kv ++ t) =
    match eat 125 (skip_ws t), eat 44 (skip_ws t) with
    | Some r', _ => mret ([kv], r')
    | None, Some r' => '(l, r'') ← members n (skip_ws r'); mret (kv :: l, r'')
    | None, None => Raise JSONDecodeError
    end.
Proof.
  destruct kv as [k v]. unfold member_ok. cbn [fst snd]. intros (Hv & Hok & Hk) Ht Hn.
  destruct Ho as [_ (w & Hsep & Hw)]. pose proof (enc_starts level v Hok) as Hst.
  assert (enc_member level (k, v) ++ t =
    34%N :: mjoin (esc_char <$> k) ++ 34%N :: 58%N :: w ++ enc o level v ++ t) as E.
  { unfold enc_member, enc_str. cbn [fst snd]. rewrite Hsep. cbn [app]. rewrite <- !app_assoc. cbn [app]. by rewrite <- !app_assoc. }
  rewrite E in *. clear E.
  unfold members. rewrite scan_members_S. unfold members_step. fold value. fold members.
  rewrite eat_head. cbn [or_raise mbind outcome_bind].
  rewrite scan_string_lit by (done || lia). cbn [mbind outcome_bind].
  rewrite skip_ws_head, eat_head by done. cbn [or_raise mbind outcome_bind].
  rewrite starts_skip; [|done|by apply starts_value_app]. rewrite Hv; [done|done|].
  cbn [length] in Hn. rewrite length_app in Hn. cbn [length] in Hn. rewrite length_app in Hn. lia.
Qed.

Lemma member_starts level kv t :
  starts_value (enc_member level kv ++ t).
Proof. exists 34%N. eexists. by split_and!. Qed.

(** The members of a dictionary are read back up to the closing brace. *)
Lemma reads_members level d rest n :
  d ≠ [] → Forall (member_ok (S level)) d →
  let text := join (item_sep o ++ newline o (S level)) (map (enc_member (S level)) d)
              ++ newline o level ++ 125%N :: rest in
  2 * length text + 2 ≤ n → members n text = Ok (d, rest).
Proof.
  destruct (sep_split (S level)) as (w & -> & Hw). intros Hne Hd. revert n.
  induction Hd as [|kv d Hkv Hd IH]; [done|]. cbn zeta. intros [|n] Hn; [lia|].
  destruct d as [|kv' d].
  - cbn [map join] in *. rewrite members_step_member; [|done|apply boundary_close; by right|lia].
    rewrite skip_ws_app by apply newline_ws. by rewrite skip_ws_head, eat_head.
  - rewrite sep_text in *. rewrite members_step_member by (done || lia).
    rewrite skip_ws_head, eat_other, eat_head by done.
    rewrite starts_skip; [|done|].
    + rewrite IH; [done|done|]. rewrite length_app in Hn. cbn [length] in Hn.
      rewrite length_app in Hn. lia.
    + cbn [map]. destruct d; cbn [map join]; rewrite <- ?app_assoc; apply member_starts.
Qed.

Lemma json_ok_list l : json_ok lim (PyList l) = true → Forall (λ v, json_ok lim v = true) l.
Proof. intros H%Is_true_true%forallb_True. eapply Forall_impl; [exact H|]. intros v. by intros ?%Is_true_true. Qed.

Lemma json_ok_dict d : json_ok lim (PyDict d) = true →
  NoDup (keys d) ∧ Forall (λ kv, scalars kv.1 = true ∧ json_ok lim kv.2 = true) d.
Proof.
  cbn. intros [Hnd%bool_decide_eq_true H%Is_true_true%forallb_True]%andb_true_iff.
  split; [done|]. eapply Forall_impl; [exact H|]. intros kv. by intros ?%Is_true_true%andb_true_iff.
Qed.

Lemma reads_list level l :
  l ≠ [] → Forall (λ v, ∀ level, reads level v) l → json_ok lim (PyList l) = true →
  reads level (PyList l).
Proof.
  intros Hne IH Hok rest n _ Hn. apply json_ok_list in Hok.
  assert (Forall (λ v, reads (S level) v ∧ json_ok lim v = true) l) as Hl.
  { apply Forall_and. split; [|done]. eapply Forall_impl; [exact IH|]. auto. }
  set (T := join (item_sep o ++ newline o (S level)) (map (enc o (S level)) l)
            ++ newline o level ++ 93%N :: rest).
  assert (enc o level (PyList l) ++ rest = 91%N :: newline o (S level) ++ T) as E.
  { subst T. destruct l as [|x l]; [done|]. cbn [enc].
    change #"[" with [91%N]. change #"]" with [93%N]. cbn [app].
    by rewrite <- !app_assoc. }
  rewrite E in *. cbn [length] in Hn. rewrite length_app in Hn. destruct n as [|n]; [lia|].
  assert (starts_value T) as HT.
  { subst T. destruct l as [|x l]; [done|]. apply join_starts.
    inversion_clear Hl as [|? ? [] ?]. by apply enc_starts. }
  unfold value. rewrite scan_value_S. unfold value_step. fold items.
  change (91 =? 34)%N with false. change (91 =? 123)%N with false. rewrite N.eqb_refl. cbv iota.
  rewrite (starts_skip (newline o (S level)) T) by (done || apply newline_ws).
  rewrite starts_eat by (done || by left). subst T.
  rewrite (reads_items level l rest n) by (done || lia). reflexivity.
Qed.

Lemma reads_dict level d :
  d ≠ [] → Forall (λ kv, ∀ level, reads level kv.2) d → json_ok lim (PyDict d) = true →
  reads level (PyDict d).
Proof.
  intros Hne IH Hok rest n _ Hn. apply json_ok_dict in Hok as [Hnd Hok].
  assert (Forall (member_ok (S level)) d) as Hd.
  { apply Forall_forall. intros kv Hin. rewrite !Forall_forall in *.
    specialize (IH kv Hin). destruct (Hok kv Hin). by split_and!. }
  set (T := join (item_sep o ++ newline o (S level)) (map (enc_member (S level)) d)
            ++ newline o level ++ 125%N :: rest).
  assert (enc o level (PyDict d) ++ rest = 123%N :: newline o (S level) ++ T) as E.
  { subst T. destruct d as [|x d]; [done|]. cbn [enc].
    change #"{" with [123%N]. change #"}" with [125%N]. cbn [app].
    by rewrite <- !app_assoc. }
  rewrite E in *. cbn [length] in Hn. rewrite length_app in Hn. destruct n as [|n]; [lia|].
  assert (starts_value T) as HT.
  { subst T. destruct d as [|x d]; [done|]. cbn [map]. destruct (map _ d); cbn [join];
      rewrite <- ?app_assoc; apply member_starts. }
  unfold value. rewrite scan_value_S. unfold value_step. fold members.
  change (123 =? 34)%N with false. rewrite N.eqb_refl. cbv iota.
  rewrite (starts_skip (newline o (S level)) T) by (done || apply newline_ws).
  rewrite starts_eat by (done || by right). subst T.
  rewrite (reads_members level d rest n) by (done || lia).
  cbn [mbind outcome_bind]. unfold hook. by rewrite dict_of_pairs_NoDup.
Qed.

Lemma reads_all v : json_ok lim v = true → ∀ level, reads level v.
Proof.
  induction v as [|b|z|f|s|l IH|d IH] using pyval_ind'; intros Hok level.
  - intros rest [|n] _ Hn; [lia|]. reflexivity.
  - intros rest [|n] _ Hn; [lia|]. by destruct b.
  - by apply reads_int.
  - done.
  - by apply reads_str.
  - destruct l as [|x l]; [intros rest [|n] _ Hn; [lia|reflexivity]|].
    apply reads_list; [done| |done]. apply json_ok_list in Hok.
    rewrite Forall_forall in *. intros v Hin. apply IH; auto.
  - destruct d as [|x d]; [intros rest [|n] _ Hn; [lia|reflexivity]|].
    apply reads_dict; [done| |done]. apply json_ok_dict in Hok as [_ Hok].
    rewrite Forall_forall in *. intros kv Hin. apply IH; [done|]. by apply Hok.
Qed.

(** [loads] gives back the value [dumps] wrote. *)
Lemma loads_with_enc v : json_ok lim v = true → loads_with lim hook (enc o 0 v) = Ok v.
Proof.
  intros Hok. destruct (enc_starts 0 v Hok) as (c & t & E & Hc & _).
  unfold loads_with. rewrite E, skip_ws_head by done. rewrite <- E.
  pose proof (reads_all v Hok 0 [] (2 * length (enc o 0 v) + 2) I) as H.
  rewrite app_nil_r in H. unfold value in H. rewrite H by lia. done.
Qed.
End roundtrip.

(** Sorting the keys keeps a value readable. *)
Lemma json_ok_sort_keys lim v : json_ok lim v = true → json_ok lim (sort_keys v) = true.
Proof.
  induction v as [|b|z|f|s|l IH|d IH] using pyval_ind'; intros Hok; try done; cbn.
  - apply json_ok_list in Hok. apply Is_true_true, forallb_True, Forall_map.
    rewrite Forall_forall in *. intros v Hin. apply Is_true_true; cbn. apply IH; auto.
  - apply json_ok_dict in Hok as [Hnd Hok].
    set (d' := map (λ kv, (kv.1, sort_keys kv.2)) d). pose proof (sort_items_perm d') as HP.
    assert (keys d' = keys d) as Hk.
    { subst d'. unfold keys. change (map ?f d) with (f <$> d). by rewrite <- list_fmap_compose. }
    apply andb_true_iff. split.
    + apply bool_decide_eq_true. unfold keys in *. rewrite HP, Hk. done.
    + apply Is_true_true, forallb_True. rewrite HP. apply Forall_map.
      rewrite Forall_forall in *. intros kv Hin. apply Is_true_true; cbn.
      destruct (Hok kv Hin) as [Hs H]. apply andb_true_iff. split; [exact Hs|by apply IH].
Qed.

(** The sorted and indented output of [dumps] reads back as the sorted value. *)
Lemma loads2_dumps_sorted v : json_ok None v = true → loads2 (dumps_sorted v) = Ok (sort_keys v).
Proof. intros H. apply loads_with_enc; [apply pretty_opts_ok|by apply json_ok_sort_keys]. Qed.

Lemma loads3_dumps v : json_ok (Some 4300) v = true → loads3 (dumps v) = Ok v.
Proof.
  intros H. unfold loads3, dumps.
  destruct (enc_starts (Some 4300) default_opts 0 v H) as (c & t & E & _ & _ & _ & Hc).
  pose proof (loads_with_enc (Some 4300) default_opts default_opts_ok v H) as HL.
  rewrite E in *. cbn [startswith]. by rewrite (proj2 (N.eqb_neq 65279 c)) by congruence.
Qed.

(** * The output of [dumps] is ASCII *)

Definition ascii (s : pystr) : Prop := Forall (λ c, (c < 128)%N) s.

Lemma ascii_app s t : ascii s → ascii t → ascii (s ++ t).
Proof. intros. by apply Forall_app. Qed.

Lemma ascii_digits s : Forall (λ c, is_digit c = true) s → ascii s.
Proof.
  intros H. eapply Forall_impl; [exact H|]. cbn. intros c. unfold is_digit.
  rewrite andb_true_iff, !N.leb_le. lia.
Qed.

Lemma ascii_str_of_N n : ascii (str_of_N n).
Proof. apply ascii_digits, str_of_N_spec. Qed.

Lemma ascii_str_of_Z z : ascii (str_of_Z z).
Proof.
  unfold str_of_Z. destruct (Z.ltb z 0); [constructor; [done|]|]; apply ascii_str_of_N.
Qed.

Lemma ascii_rstrip p s : ascii s → ascii (rstrip_by p s).
Proof.
  intros H. unfold rstrip_by. destruct (lstrip_by_suffix p (rev s)) as (t & E & _).
  apply Forall_rev. apply Forall_rev in H. unfold ascii in *. rewrite E in H.
  by apply Forall_app in H as [_ ?].
Qed.

Lemma ascii_zeros n : ascii (zeros n).
Proof. by apply Forall_replicate. Qed.

Lemma ascii_format ds decpt : ascii ds → ascii (format_digits ds decpt).
Proof.
  intros H. pose proof (ascii_zeros (- decpt)). pose proof (ascii_zeros (decpt - Z.of_nat (length ds))).
  destruct (Forall_take_drop _ ds (Z.to_nat decpt) H).
  unfold format_digits. case_match; [repeat case_match|].
  - apply ascii_app; [repeat constructor|]. by apply ascii_app.
  - apply ascii_app; [done|]. apply ascii_app; [done|repeat constructor].
  - apply ascii_app; [done|]. apply ascii_app; [repeat constructor|done].
  - apply ascii_app; [|apply ascii_app; [repeat constructor|apply ascii_app]].
    + destruct ds as [|c [|d ds]]; [done..|]. inversion_clear H as [|? ? Hc Hr].
      constructor; [done|]. by constructor.
    + case_match; repeat constructor.
    + unfold pad2. case_match; [constructor; [done|]|]; apply ascii_str_of_Z.
Qed.

Lemma ascii_float f : ascii (enc_float f).
Proof.
  destruct f as [[]|[]| |s m e]; try by repeat constructor. unfold enc_float, float_repr.
  destruct (frac_of m e) as [num den], (shortest _ _ _ _ _ _) as [d n].
  apply ascii_app; [destruct s; repeat constructor|].
  apply ascii_format, ascii_rstrip, ascii_str_of_N.
Qed.

Lemma hex_digit_ascii n : (n < 16)%N → (hex_digit n < 128)%N.
Proof. unfold hex_digit. intros. destruct (N.ltb n 10); lia. Qed.

Lemma ascii_hex4 n : (n < 65536)%N → ascii (hex4 n).
Proof.
  intros H. unfold hex4.
  repeat constructor; apply hex_digit_ascii; try (by apply N.mod_lt).
  apply N.Div0.div_lt_upper_bound. lia.
Qed.

Lemma ascii_unicode n : (n < 65536)%N → ascii (unicode_escape n).
Proof. intros. unfold unicode_escape. repeat (constructor; [done|]). by apply ascii_hex4. Qed.

Lemma ascii_esc c : (c < 1114112)%N → ascii (esc_char c).
Proof.
  intros Hc. unfold esc_char.
  repeat (match goal with |- context [N.eqb c ?k] => destruct (N.eqb c k) end; [by repeat constructor|]).
  destruct (N.leb 32 c && N.leb c 126) eqn:E.
  { apply andb_true_iff in E as [_ E%N.leb_le]. constructor; [lia|constructor]. }
  destruct (N.ltb_spec c 65536); [by apply ascii_unicode|].
  apply ascii_app; apply ascii_unicode.
  - assert ((c - 65536) / 1024 < 1024)%N by (apply N.Div0.div_lt_upper_bound; lia). lia.
  - pose proof (N.mod_lt (c - 65536) 1024 ltac:(done)). lia.
Qed.

(** A code point of Python text. *)
Definition is_char (c : N) : bool := N.ltb c 1114112.
Definition chars (s : pystr) : bool := forallb is_char s.

(** Every text inside the value is made of code points. *)
Fixpoint val_chars (v : pyval) : bool :=
  match v with
  | PyStr s => chars s
  | PyList l => forallb val_chars l
  | PyDict d => forallb (λ kv, chars kv.1 && val_chars kv.2) d
  | _ => true
  end.

Lemma ascii_enc_str s : chars s = true → ascii (enc_str s).
Proof.
  intros H. unfold enc_str. constructor; [done|]. apply ascii_app; [|by repeat constructor].
  unfold chars in H. induction s as [|c s IH]; [constructor|]. cbn in H.
  apply andb_true_iff in H as [Hc%N.ltb_lt Hs].
  change (mjoin (esc_char <$> c :: s)) with (esc_char c ++ mjoin (esc_char <$> s)).
  apply ascii_app; [by apply ascii_esc|by apply IH].
Qed.

Definition opts_ascii (o : dump_opts) : Prop := ascii (item_sep o) ∧ ascii (key_sep o).

Lemma ascii_newline o level : ascii (newline o level).
Proof.
  unfold newline. destruct (indent o); constructor; [done|]. by apply Forall_replicate.
Qed.

Lemma ascii_join sep l : ascii sep → Forall ascii l → ascii (join sep l).
Proof.
  intros Hs Hl. induction Hl as [|s l H Hl IH]; [constructor|].
  destruct l as [|s' l]; [done|]. change (ascii (s ++ sep ++ join sep (s' :: l))). by repeat apply ascii_app.
Qed.

Lemma enc_ascii o v level : opts_ascii o → val_chars v = true → ascii (enc o level v).
Proof.
  intros [Hi Hk]. revert level.
  assert (∀ level, ascii (item_sep o ++ newline o (S level))) as Hsep.
  { intros. apply ascii_app; [done|apply ascii_newline]. }
  induction v as [|[]|z|f|s|l IH|d IH] using pyval_ind'; intros level Hc; try by repeat constructor.
  - apply ascii_str_of_Z.
  - apply ascii_float.
  - by apply ascii_enc_str.
  - destruct l as [|x l]; [by repeat constructor|]. cbn [enc].
    apply Is_true_true, forallb_True in Hc.
    repeat apply ascii_app; try apply ascii_newline; try by repeat constructor.
    apply ascii_join; [done|]. apply Forall_map. rewrite Forall_forall in *.
    intros v Hv. apply IH; [done|]. by apply Is_true_true, Hc.
  - destruct d as [|x d]; [by repeat constructor|]. cbn [enc].
    apply Is_true_true, forallb_True in Hc.
    repeat apply ascii_app; try apply ascii_newline; try by repeat constructor.
    apply ascii_join; [done|]. apply Forall_map. rewrite Forall_forall in *.
    intros kv Hv. specialize (Hc kv Hv). cbn in Hc.
    apply Is_true_true, andb_true_iff in Hc as [H1 H2].
    repeat apply ascii_app; [by apply ascii_enc_str|done|by apply IH].
Qed.

Lemma encode_dumps v : val_chars v = true → encode (dumps v) = Ok (dumps v).
Proof. intros H. apply encode_ascii. apply enc_ascii; [split; by repeat constructor|done]. Qed.
