(* ===== verification/PyUrl.v ===== *)
(** [urllib.parse] of CPython 3.11.3: [urlparse], [unquote] and [parse_qs]. *)
From S2P Require Export PyVal PyUtf8 PyJson.
From Stdlib Require Import NArith ZArith Lia.

(** * [urlparse] *)

Record url := Url {
  u_scheme : pystr;
  u_netloc : pystr;
  u_path : pystr;
  u_params : pystr;
  u_query : pystr;
  u_fragment : pystr
}.

Definition is_alpha (c : N) : bool := is_upper c || is_lower c.
Definition scheme_char (c : N) : bool :=
  is_alpha c || is_digit c || char_in c #"+-.".

(** The tab, newline and carriage return characters are removed first. *)
Definition url_clean (s : pystr) : pystr := filter (λ c, c ≠ 9%N ∧ c ≠ 10%N ∧ c ≠ 13%N) s.

Definition split_scheme (s : pystr) : pystr * pystr :=
  match split1 58 s with
  | Some ((c :: _) as a, rest) =>
      if is_alpha c && forallb scheme_char a then (str_lower a, rest) else ([], s)
  | _ => ([], s)
  end.

(** [_splitnetloc]: up to the first of [/], [?] and [#]. *)
Fixpoint split_netloc (s : pystr) : pystr * pystr :=
  match s with
  | [] => ([], [])
  | c :: s' =>
      if char_in c #"/?#" then ([], s)
      else let '(a, b) := split_netloc s' in (c :: a, b)
  end.

(** [a.split(c, 1)] when [c] may be missing. *)
Definition cut (c : N) (s : pystr) : pystr * pystr :=
  match split1 c s with Some p => p | None => (s, []) end.

Definition urlsplit (s : pystr) : outcome url :=
  let '(scheme, s1) := split_scheme (url_clean s) in
  let has_netloc := startswith #"//" s1 in
  let '(netloc, s2) := if has_netloc then split_netloc (drop 2 s1) else ([], s1) in
  if has_netloc && xorb (char_in 91 netloc) (char_in 93 netloc)
  then Raise (ValueError #"Invalid IPv6 URL")
  else
    let '(s3, fragment) := cut 35 s2 in
    let '(path, query) := cut 63 s3 in
    Ok (Url scheme netloc path [] query fragment).

Definition uses_params : list pystr :=
  [#""; #"ftp"; #"hdl"; #"prospero"; #"http"; #"imap"; #"https"; #"shttp"; #"rtsp";
   #"rtspu"; #"sip"; #"sips"; #"mms"; #"sftp"; #"tel"].

(** [s.rsplit(c, 1)], the separator kept at the end of the first part. *)
Definition rsplit1 (c : N) (s : pystr) : pystr * pystr :=
  match split1 c (rev s) with
  | Some (a, b) => (rev b ++ [c], rev a)
  | None => ([], s)
  end.

(** [_splitparams]: the first [;] of the last segment starts the parameters. *)
Definition split_params (s : pystr) : pystr * pystr :=
  let '(dir, last) := rsplit1 47 s in
  match split1 59 last with
  | Some (a, b) => (dir ++ a, b)
  | None => (s, [])
  end.

Definition urlparse (s : pystr) : outcome url :=
  p ← urlsplit s;
  if bool_decide (u_scheme p ∈ uses_params) && char_in 59 (u_path p) then
    let '(path, params) := split_params (u_path p) in
    mret (Url (u_scheme p) (u_netloc p) path params (u_query p) (u_fragment p))
  else mret p.

(** * [unquote] and [parse_qs] *)

(** [unquote_to_bytes] of ASCII text; [skip] counts the digits of an escape
    still to be passed over. *)
Fixpoint unquote_to_bytes (skip : nat) (s : pystr) : bytes :=
  match s with
  | [] => []
  | c :: s' =>
      match skip with
      | S k => unquote_to_bytes k s'
      | O =>
          if N.eqb c 37 then
            match s' !! 0 ≫= hex_val, s' !! 1 ≫= hex_val with
            | Some a, Some b => (16 * a + b)%N :: unquote_to_bytes 2 s'
            | _, _ => c :: unquote_to_bytes 0 s'
            end
          else c :: unquote_to_bytes 0 s'
      end
  end.

(** The text of the escapes of one ASCII run. *)
Definition unquote_run (s : pystr) : pystr :=
  match decode Replace (unquote_to_bytes 0 s) with Ok t => t | Raise _ => [] end.

(** [run] is the current ASCII run, reversed. *)
Fixpoint unquote_go (run s : pystr) : pystr :=
  match s with
  | [] => unquote_run (rev run)
  | c :: s' =>
      if N.ltb c 128 then unquote_go (c :: run) s'
      else unquote_run (rev run) ++ c :: unquote_go [] s'
  end.
Definition unquote (s : pystr) : pystr :=
  if char_in 37 s then unquote_go [] s else s.

Definition unplus (s : pystr) : pystr := map (λ c, if N.eqb c 43 then 32%N else c) s.

(** One [name=value] of a query; fields without a value are dropped. *)
Definition parse_field (f : pystr) : option (pystr * pystr) :=
  match split1 61 f with
  | Some (n, ((_ :: _) as v)) => Some (unquote (unplus n), unquote (unplus v))
  | _ => None
  end.

Definition parse_qsl (qs : pystr) : list (pystr * pystr) :=
  omap parse_field (split_char 38 qs).

Definition parse_qs (qs : pystr) : dict (list pystr) :=
  foldl (λ d nv, dict_set nv.1 (default [] (dict_get nv.1 d) ++ [nv.2]) d) [] (parse_qsl qs).

(** * Lemmas *)

(** A prefix without the separator lies before the separator. *)
Lemma startswith_before p c x y s :
  startswith p s = true → c ∉ p → s = x ++ c :: y → startswith p x = true.
Proof.
  intros [t ->]%startswith_spec Hc Heq.
  apply app_eq_inv in Heq as [(k & -> & E)|(k & -> & _)].
  - destruct k as [|d k]; [rewrite app_nil_r; rewrite <- (app_nil_r x) at 2; apply startswith_self|].
    injection E as -> _. set_solver.
  - apply startswith_self.
Qed.

Lemma startswith_cut p c s :
  startswith p s = true → c ∉ p → startswith p (cut c s).1 = true.
Proof.
  intros Hs Hc. unfold cut. destruct (split1 c s) as [[a b]|] eqn:E; [|done].
  apply split1_Some in E as [E _]. cbn. by eapply startswith_before.
Qed.

Lemma rsplit1_app c s : (rsplit1 c s).1 ++ (rsplit1 c s).2 = s.
Proof.
  unfold rsplit1. destruct (split1 c (rev s)) as [[a b]|] eqn:E; cbn; [|done].
  apply split1_Some in E as [E _]. apply (f_equal (@rev N)) in E.
  rewrite rev_involutive in E. rewrite E, rev_app_distr. cbn. done.
Qed.

Lemma startswith_split_params p s :
  startswith p s = true → 59%N ∉ p → startswith p (split_params s).1 = true.
Proof.
  intros Hs Hc. unfold split_params. pose proof (rsplit1_app 47 s) as Happ.
  destruct (rsplit1 47 s) as [dir last]. cbn in Happ.
  destruct (split1 59 last) as [[a b]|] eqn:E; [|done].
  apply split1_Some in E as [-> _]. cbn. eapply startswith_before; [done..|].
  by rewrite <- Happ, app_assoc.
Qed.

Lemma url_clean_prefix p s :
  startswith p s = true → 9%N ∉ p → 10%N ∉ p → 13%N ∉ p → startswith p (url_clean s) = true.
Proof.
  intros [t ->]%startswith_spec H1 H2 H3. unfold url_clean. rewrite filter_app.
  apply startswith_spec. eexists. f_equal. induction p as [|c p IH]; [done|].
  rewrite filter_cons_True by set_solver. f_equal. apply IH; set_solver.
Qed.

(** An absolute path has neither a scheme nor a network location. *)
Lemma absolute_path p s :
  startswith (47%N :: p) s = true → p ≠ [] → (∀ c, c ∈ p → c ∉ [9; 10; 13; 47]%N) →
  split_scheme (url_clean s) = ([], url_clean s) ∧
  startswith #"//" (url_clean s) = false ∧ startswith (47%N :: p) (url_clean s) = true.
Proof.
  intros Hs Hp Hchars. assert (∀ c, c ∈ [9; 10; 13]%N → c ∉ 47%N :: p) as Hno.
  { intros c Hc [->|Hin]%elem_of_cons; [set_solver|]. specialize (Hchars _ Hin). set_solver. }
  apply url_clean_prefix in Hs; [|apply Hno; set_solver..].
  split_and!; [| |done]; apply startswith_spec in Hs as [t Ht].
  - unfold split_scheme. destruct (split1 58 (url_clean s)) as [[[|c a] b]|] eqn:E; [done| |done].
    apply split1_Some in E as [E _]. rewrite E in Ht. injection Ht as -> _. done.
  - rewrite Ht. destruct p as [|d p]; [done|]. change #"//" with [47; 47]%N. cbn [app startswith].
    rewrite N.eqb_refl. destruct (N.eqb_spec 47 d) as [<-|]; [|done].
    exfalso. apply (Hchars 47%N); set_solver.
Qed.

(** It keeps its beginning: parsing the URL removes only what follows the first
    of the characters the prefix does not contain. *)
Lemma urlparse_prefix p s r :
  startswith (47%N :: p) s = true → p ≠ [] →
  (∀ c, c ∈ p → c ∉ [9; 10; 13; 35; 47; 59; 63]%N) →
  urlparse s = Ok r → startswith (47%N :: p) (u_path r) = true.
Proof.
  intros Hs Hp Hchars Hr. assert (∀ c, c ∈ [35; 59; 63]%N → c ∉ 47%N :: p) as Hno.
  { intros c Hc [->|Hin]%elem_of_cons; [set_solver|]. specialize (Hchars _ Hin). set_solver. }
  destruct (absolute_path p s) as (E1 & E2 & H1); [done..|set_solver|].
  unfold urlparse, urlsplit in Hr. rewrite E1, E2 in Hr. cbn [andb] in Hr.
  pose proof (startswith_cut _ 35 _ H1 ltac:(apply Hno; set_solver)) as H2.
  destruct (cut 35 (url_clean s)) as [s3 fr]. cbn [fst] in H2.
  pose proof (startswith_cut _ 63 _ H2 ltac:(apply Hno; set_solver)) as H3.
  destruct (cut 63 s3) as [path q]. cbn [fst] in H3. cbn [mbind outcome_bind u_scheme u_path] in Hr.
  pose proof (startswith_split_params _ _ H3 ltac:(apply Hno; set_solver)) as H4.
  destruct (_ && _), (split_params path) as [path' params]; by injection Hr as <-.
Qed.

(** An absolute path that does not start with two slashes always parses. *)
Lemma urlparse_ok p s :
  startswith (47%N :: p) s = true → p ≠ [] → (∀ c, c ∈ p → c ∉ [9; 10; 13; 47]%N) →
  ∃ r, urlparse s = Ok r.
Proof.
  intros Hs Hp Hchars. destruct (absolute_path p s) as (E1 & E2 & _); [done..|].
  unfold urlparse, urlsplit. rewrite E1, E2. cbn [andb].
  destruct (cut 35 _) as [s3 fr], (cut 63 s3) as [path q].
  cbn [mbind outcome_bind]. destruct (_ && _); [destruct (split_params _)|]; eauto.
Qed.

Lemma urlparse_error s e : urlparse s = Raise e → e = ValueError #"Invalid IPv6 URL".
Proof.
  unfold urlparse, urlsplit. destruct (split_scheme (url_clean s)) as [sch s1].
  destruct (if startswith #"//" s1 then _ else _) as [nl s2].
  destruct (_ && _); cbn [mbind outcome_bind]; [by intros [= <-]|].
  destruct (cut 35 s2) as [s3 fr], (cut 63 s3) as [pa q]. cbn [mbind outcome_bind].
  destruct (_ && _); [destruct (split_params _)|]; done.
Qed.
