(* ===== verification/CfgdbRest.v ===== *)
(** The cfgdb REST service ([cfgdb_zk_rest_server.py]): one HTTP request is
    turned into at most one run of the ZooKeeper command line client.

    A handler object is the record [handler]: the attributes of the instance,
    the parsed request, the bytes still unread on the connection, the response
    written so far, the commands started so far and the state [W] of everything
    outside.  [popen] stands for [subprocess.Popen] with [communicate] on the
    external client. *)
From S2P Require Export PyUrl PyJson.
From Stdlib Require Import NArith ZArith Lia.

(** What is written to the connection: a status line with the headers the
    library adds, a header, the blank line, a piece of body, or the complete
    error page of [send_error]. *)
Inductive wevent : Type :=
| Status (code : Z)
| Header (name value : pystr)
| EndHeaders
| Body (b : bytes)
| ErrorPage (code : Z) (message : pystr).

(** The memory of the machine: whether a buffer of so many bytes can be had. *)
Class Memory := allocates : Z → bool.

Section rest.
Context {W : Type} {mem : Memory}.

(** The external client, run with an argument vector: exit code and output. *)
Variable popen : list pystr → M W (Z * bytes * bytes).
(** [os.environ] *)
Variable environ : dict pystr.

Record handler := Handler {
  method : option pystr;
  content_cache : option bytes;
  path : pystr;
  headers : list (pystr * pystr);
  rfile : bytes;
  wfile : list wevent;
  commands : list (list pystr);
  outside : W
}.

Definition set_method (m : pystr) (h : handler) : handler :=
  Handler (Some m) (content_cache h) (path h) (headers h) (rfile h) (wfile h) (commands h) (outside h).
Definition set_content (c r : bytes) (h : handler) : handler :=
  Handler (method h) (Some c) (path h) (headers h) r (wfile h) (commands h) (outside h).
Definition add_written (l : list wevent) (h : handler) : handler :=
  Handler (method h) (content_cache h) (path h) (headers h) (rfile h) (wfile h ++ l) (commands h) (outside h).
Definition add_command (c : list pystr) (h : handler) : handler :=
  Handler (method h) (content_cache h) (path h) (headers h) (rfile h) (wfile h) (commands h ++ [c]) (outside h).
Definition set_outside (w : W) (h : handler) : handler :=
  Handler (method h) (content_cache h) (path h) (headers h) (rfile h) (wfile h) (commands h) w.

Abbreviation HM := (M handler).

(** * RESTRequestHandler *)

(** [self.headers.get(name)]: the first header of that name, in any case. *)
Definition header_get (name : pystr) (hs : list (pystr * pystr)) : option pystr :=
  snd <$> List.find (λ kv, str_lower kv.1 =s str_lower name) hs.

(** The white space [int] accepts around a Latin-1 numeral. *)
Definition is_int_space (c : N) : bool :=
  is_space c || (N.leb 28 c && N.leb c 31) || N.eqb c 133 || N.eqb c 160.

(** Digits with single underscores between them; [prev] tells whether the
    character before is a digit. *)
Fixpoint int_digits (prev : bool) (acc : pystr) (s : pystr) : option pystr :=
  match s with
  | [] => if prev then Some (rev acc) else None
  | c :: s' =>
      if is_digit c then int_digits true (c :: acc) s'
      else if N.eqb c 95 && prev then int_digits false acc s'
      else None
  end.

(** [int(s)] for text of at most 4300 digits *)
Definition py_int (s : pystr) : outcome Z :=
  let t := strip_by is_int_space s in
  let '(neg, u) := match t with
                   | c :: t' => if N.eqb c 45 then (true, t') else if N.eqb c 43 then (false, t') else (false, t)
                   | [] => (false, t)
                   end in
  match int_digits false [] u with
  | Some d =>
      if Nat.ltb 4300 (length d) then Raise (ValueError #"int")
      else Ok (if (neg : bool) then - Z.of_N (digits_val d) else Z.of_N (digits_val d))%Z
  | None => Raise (ValueError #"int")
  end.

Definition MemoryError : exn := ExcOther #"MemoryError".

(** [self.rfile.read(n)] of a buffered reader, where [r] is what the peer sends
    until it stops: -1 reads to the end and a smaller number is refused.  A
    number that is no [Py_ssize_t], or too large for the length of an object
    with a header of 33 bytes, is an [OverflowError]; then a buffer of [n] bytes
    is asked for, however few bytes there are to read. *)
Definition read_bytes (n : Z) (r : bytes) : outcome (bytes * bytes) :=
  if Z.ltb n (- 2 ^ 63) || Z.leb (2 ^ 63 - 33) n then Raise OverflowError
  else if Z.ltb n (-1) then Raise (ValueError #"read length must be non-negative or -1")
  else if Z.eqb n (-1) then Ok (r, [])
  else if allocates n then Ok (take (Z.to_nat n) r, drop (Z.to_nat n) r)
  else Raise MemoryError.

(** The [content] property.  The empty text [''] and the empty byte string are
    one value here: the code only tests it and parses it when it is not empty. *)
Definition content : HM bytes := λ h,
  match content_cache h with
  | Some c => (Ok c, h)
  | None =>
      match match header_get #"Content-Length" (headers h) with
            | Some v => py_int v
            | None => Ok 0%Z
            end with
      | Raise e => (Raise e, h)
      | Ok content_length =>
          if Z.eqb content_length 0 then (Ok [], set_content [] (rfile h) h)
          else match read_bytes content_length (rfile h) with
               | Ok (c, r) => (Ok c, set_content c r h)
               | Raise e => (Raise e, h)
               end
      end
  end.

Definition send_response (status : Z) : HM unit := modify (add_written [Status status]).
Definition send_header (name value : pystr) : HM unit := modify (add_written [Header name value]).
Definition end_headers : HM unit := modify (add_written [EndHeaders]).
Definition send_error (code : Z) (message : pystr) : HM unit :=
  modify (add_written [ErrorPage code message]).

Definition send_json_response (data : dict pyval) (status : Z) : HM unit :=
  send_response status;;
  send_header #"Content-Type" #"application/json";;
  end_headers;;
  b ← lift (encode (dumps (PyDict data)));
  modify (add_written [Body b]).

Definition parse_json_content : HM pyval :=
  c ← content;
  match c with
  | [] => mret (PyDict [])
  | _ => lift (loads3_bytes c)
  end.

(** [ValidationError.as_json] *)
Definition as_json (attr detail : pystr) : dict pyval := [(attr, PyStr detail)].

(** [_handle_request], given the [handle_request] of the object's class. *)
Definition _handle_request (handle_request : HM unit) : HM unit :=
  try_except handle_request (λ e,
    match e with
    | ValidationError attr detail status => Some (send_json_response (as_json attr detail) status)
    | _ => if is_Exception e then Some (send_error 500 #"Internal Server Error") else None
    end).

Definition do_GET (handle_request : HM unit) : HM unit :=
  modify (set_method #"GET");; _handle_request handle_request.
Definition do_POST (handle_request : HM unit) : HM unit :=
  modify (set_method #"POST");; _handle_request handle_request.
Definition do_PUT (handle_request : HM unit) : HM unit :=
  modify (set_method #"PUT");; _handle_request handle_request.
Definition do_DELETE (handle_request : HM unit) : HM unit :=
  modify (set_method #"DELETE");; _handle_request handle_request.

(** * ZKRESTRequestHandler *)

Definition default_string_max_length : Z := 4019.
Definition zk_data_size_limit : Z := 2097152.

Definition zk_commands : list pystr :=
  [#"exists"; #"get"; #"ls"; #"lsr"; #"create"; #"creater"; #"set"; #"delete"; #"rm";
   #"deleter"; #"rmr"; #"getacl"; #"setacl"].

Definition method_to_zk_command : dict pystr :=
  [(#"GET", #"get"); (#"POST", #"create"); (#"PUT", #"set"); (#"DELETE", #"delete")].

Definition zk_servers : pystr := default #"127.0.0.1" (dict_get #"ZK_REST_ZK_SERVERS" environ).
Definition zk_base_cmd : list pystr :=
  [default #"zookeepercli" (dict_get #"ZK_REST_ZK_CLI" environ); #"-servers"; zk_servers].

Definition validate_string_input (attr : pystr) (value : pyval) (max_length : Z) : outcome pystr :=
  match value with
  | PyStr s =>
      if negb (Z.eqb max_length 0) && Z.ltb max_length (Z.of_nat (length s))
      then Raise (ValidationError attr #"Too large." 413)
      else Ok s
  | _ => Raise (ValidationError attr #"Invalid value." 400)
  end.

(** [if value is not None: cmd.extend(flag + (validate_string_input(...),))] *)
Definition add_arg (flag : list pystr) (attr : pystr) (value : pyval) (max_length : Z)
    (cmd : list pystr) : outcome (list pystr) :=
  match value with
  | PyNone => mret cmd
  | _ => s ← validate_string_input attr value max_length; mret (cmd ++ flag ++ [s])
  end.

(** The argument vector [run_zk_cmd] builds, validating each part in turn. *)
Definition zk_argv (command node : pystr) (data : pyval) (force : bool)
    (username password : pyval) : outcome (list pystr) :=
  let cmd := zk_base_cmd ++ (if force then [#"-force"] else []) in
  cmd ← add_arg [#"-auth_usr"] #"username" username default_string_max_length cmd;
  cmd ← add_arg [#"-auth_pwd"] #"password" password default_string_max_length cmd;
  n ← validate_string_input #"node" (PyStr node) default_string_max_length;
  add_arg [] #"data" data zk_data_size_limit (cmd ++ [#"-c"; command; n]).

(** [subprocess.Popen(cmd, ...)] and [exc.communicate()] *)
Definition start_command (cmd : list pystr) : HM (Z * bytes * bytes) := λ h,
  let '(r, w) := popen cmd (outside h) in (r, set_outside w (add_command cmd h)).

Record zk_result := ZkResult {
  returncode : Z;
  res_stdout : pystr;
  res_stderr : pystr
}.

Definition run_zk_cmd (command node : pystr) (data : pyval) (force : bool)
    (username password : pyval) : HM zk_result :=
  cmd ← lift (zk_argv command node data force username password);
  '(rc, stdout, stderr) ← start_command cmd;
  out ← lift (decode Strict (strip stdout));
  err ← lift (decode Strict (strip stderr));
  mret (ZkResult rc out err).

Definition res_json (r : zk_result) : dict pyval :=
  [(#"returncode", PyInt (returncode r)); (#"stdout", PyStr (res_stdout r));
   (#"stderr", PyStr (res_stderr r))].

(** The [elif] chain over the exit code and [res['stderr'][0]], which is the
    first character of the error output. *)
Definition response_status (r : zk_result) : outcome Z :=
  if Z.eqb (returncode r) 0 then Ok 200%Z
  else
    first ← or_raise IndexError (head (res_stderr r));
    if str_contains #"node does not exist" [first] then mret 404%Z
    else if str_contains #"node already exists" [first] then mret 406%Z
    else mret 400%Z.

(** The command of a request: the [cmd] parameter or the one of the method. *)
Definition request_command (qs : dict (list pystr)) (m : option pystr) : option pystr :=
  match dict_get #"cmd" qs with
  | Some (c :: _) => Some c
  | _ => m ≫= λ m, dict_get m method_to_zk_command
  end.

(** [if not zk_cmd or zk_cmd not in self.zk_commands] is false *)
Definition valid_command (c : option pystr) : option pystr :=
  match c with
  | Some c => if bool_decide (c ≠ [] ∧ c ∈ zk_commands) then Some c else None
  | None => None
  end.

(** The [try] block around the body of the request: [None] when a response has
    been sent and the handler returns.  The error message reads [self.content]
    again, which raises again when it was what raised. *)
Definition request_data : HM (option (dict pyval)) :=
  try_except
    (data ← parse_json_content;
     match data with
     | PyDict d => mret (Some d)
     | _ => raise TypeError
     end)
    (λ e,
      if is_ValueError e || match e with TypeError => true | _ => false end
      then Some (content;;
                 send_json_response [(#"detail", PyStr #"Malformed request")] 400;;
                 mret None)
      else None).

Definition zk_handle_request : HM unit :=
  h ← get_state;
  url ← lift (urlparse (path h));
  let qs := parse_qs (u_query url) in
  match valid_command (request_command qs (method h)) with
  | None => send_json_response [(#"detail", PyStr #"Invalid command")] 400
  | Some zk_cmd =>
      data ← request_data;
      match data with
      | None => mret tt
      | Some data =>
          res ← run_zk_cmd zk_cmd (u_path url)
                  (dict_get_default #"data" PyNone data)
                  (truthy (dict_get_default #"force" (PyBool false) data))
                  (of_opt_str (header_get #"zk-username" (headers h)))
                  (of_opt_str (header_get #"zk-password" (headers h)));
          status ← lift (response_status res);
          send_json_response (res_json res) status
      end
  end.

Definition do_HEAD : HM unit :=
  h ← get_state;
  if path h =s #"/" then
    send_response 200;;
    send_header #"Content-Type" #"application/json";;
    end_headers
  else send_error 501 #"Unsupported method".

(** * ESDCZKRESTRequestHandler *)

Definition esdc_handle_request : HM unit :=
  h ← get_state;
  if startswith #"/esdc" (path h) then zk_handle_request
  else send_json_response [(#"detail", PyStr #"Permission Denied")] 403.

(** * The classes and the dispatch of a request *)

Inductive handler_class := RESTRequestHandler | ZKRESTRequestHandler | ESDCZKRESTRequestHandler.

Definition handle_request (cls : handler_class) : HM unit :=
  match cls with
  | RESTRequestHandler => raise NotImplementedError
  | ZKRESTRequestHandler => zk_handle_request
  | ESDCZKRESTRequestHandler => esdc_handle_request
  end.

(** The library calls [do_<command>] if the class has it. *)
Definition serve (cls : handler_class) (command : pystr) : HM unit :=
  let handle := handle_request cls in
  if command =s #"GET" then do_GET handle
  else if command =s #"POST" then do_POST handle
  else if command =s #"PUT" then do_PUT handle
  else if command =s #"DELETE" then do_DELETE handle
  else if command =s #"HEAD" then
    match cls with
    | RESTRequestHandler => send_error 501 #"Unsupported method ('HEAD')"
    | _ => do_HEAD
    end
  else send_error 501 (#"Unsupported method ('" ++ command ++ #"')").

Definition VERSION : pystr := #"0.1".
Definition version_string (cls : handler_class) (sys_version : pystr) : pystr :=
  match cls with
  | RESTRequestHandler => sys_version
  | ZKRESTRequestHandler => #"ZooKeeper REST Service / " ++ VERSION
  | ESDCZKRESTRequestHandler => #"ESDC " ++ #"ZooKeeper REST Service / " ++ VERSION
  end.

(** A handler at the start of a request. *)
Definition new_handler (p : pystr) (hs : list (pystr * pystr)) (body : bytes) (w : W) : handler :=
  Handler None None p hs body [] [] w.


(** * Lemmas: what each step may change *)

(** Only the request body may have been read. *)
Definition quiet (h h' : handler) : Prop :=
  method h' = method h ∧ path h' = path h ∧ headers h' = headers h ∧
  wfile h' = wfile h ∧ commands h' = commands h ∧ outside h' = outside h.

#[local] Instance quiet_refl : Reflexive quiet.
Proof. done. Qed.
#[local] Instance quiet_trans : Transitive quiet.
Proof. unfold quiet. intros ???. intuition congruence. Qed.

(** The events of one JSON response. *)
Definition json_response (data : dict pyval) (status : Z) : list wevent :=
  [Status status; Header #"Content-Type" #"application/json"; EndHeaders;
   Body (dumps (PyDict data))].

Lemma add_written_app l1 l2 h : add_written l2 (add_written l1 h) = add_written (l1 ++ l2) h.
Proof. unfold add_written. cbn. by rewrite <- app_assoc. Qed.

Lemma send_json_ok data status h :
  val_chars (PyDict data) = true →
  send_json_response data status h = (Ok tt, add_written (json_response data status) h).
Proof.
  intros Hc. unfold send_json_response, send_response, send_header, end_headers, modify, lift.
  unfold mbind, M_bind. rewrite encode_dumps by done. by rewrite !add_written_app.
Qed.

Lemma py_int_error s e : py_int s = Raise e → e = ValueError #"int".
Proof.
  unfold py_int. destruct (match strip_by is_int_space s with [] => _ | _ => _ end) as [neg t].
  destruct (int_digits false [] t); [|by intros [= <-]]. case_match; [by intros [= <-]|done].
Qed.

(** What reading the body can raise. *)
Definition unreadable (e : exn) : Prop :=
  (∃ m, e = ValueError m) ∨ e = OverflowError ∨ e = MemoryError.

Lemma read_bytes_error n r e : read_bytes n r = Raise e → unreadable e.
Proof. unfold read_bytes, unreadable. repeat case_match; intros [= <-]; eauto. Qed.

(** Reading the body: nothing else changes, the second reading finds the cached
    bytes, and a failure leaves the object as it was. *)
Lemma content_spec h :
  (∃ c h', content h = (Ok c, h') ∧ quiet h h' ∧ content_cache h' = Some c ∧ content h' = (Ok c, h')) ∨
  (∃ e, content h = (Raise e, h) ∧ unreadable e).
Proof.
  unfold content at 1 3. destruct (content_cache h) as [c|] eqn:Ec.
  { left. exists c, h. split_and!; try done. unfold content. by rewrite Ec. }
  destruct (match header_get _ _ with Some v => _ | None => _ end) as [n|e] eqn:E.
  - destruct (Z.eqb n 0); [|destruct (read_bytes n (rfile h)) as [[c r]|e] eqn:Er].
    1-2: left; eexists _, _; (split; [reflexivity|]); by split_and!.
    right. eexists. split; [done|]. by eapply read_bytes_error.
  - right. exists e. split; [done|]. destruct (header_get _ _) as [v|]; [|done].
    left. eexists. by eapply py_int_error.
Qed.

Lemma parse_json_content_spec h :
  (∃ r c h', parse_json_content h = (r, h') ∧ quiet h h' ∧ content h' = (Ok c, h') ∧
     (content h).1 = Ok c ∧ ∀ e, r = Raise e → is_ValueError e = true) ∨
  (∃ e, parse_json_content h = (Raise e, h) ∧ content h = (Raise e, h) ∧ unreadable e).
Proof.
  unfold parse_json_content, mbind, M_bind.
  destruct (content_spec h) as [(c & h' & E & Hq & _ & Hc)|(e & E & He)]; rewrite E; [left|right; by exists e].
  destruct c as [|b c].
  - by eexists _, _, _.
  - exists (loads3_bytes (b :: c)), (b :: c), h'. split_and!; try done.
    intros e. apply loads3_bytes_errors.
Qed.

Definition malformed : list wevent :=
  json_response [(#"detail", PyStr #"Malformed request")] 400.

(** The handler of the [except] clause around the body. *)
Definition refuse_body : HM (option (dict pyval)) :=
  content;; send_json_response [(#"detail", PyStr #"Malformed request")] 400;; mret None.

Lemma request_data_eq h r h' :
  parse_json_content h = (r, h') → (∀ e, r = Raise e → is_ValueError e = true) →
  request_data h = match r with Ok (PyDict d) => (Ok (Some d), h') | _ => refuse_body h' end.
Proof.
  intros E He. unfold request_data, try_except, mbind at 1, M_bind at 1. rewrite E.
  destruct r as [[]|e]; try done. by rewrite (He e).
Qed.

Lemma refuse_body_cached h c : content h = (Ok c, h) → refuse_body h = (Ok None, add_written malformed h).
Proof. intros Hc. unfold refuse_body, mbind, M_bind. by rewrite Hc, send_json_ok. Qed.

(** The three ways the [try] block around the body ends. *)
Lemma request_data_spec h :
  (∃ d h', request_data h = (Ok (Some d), h') ∧ quiet h h' ∧
     parse_json_content h = (Ok (PyDict d), h')) ∨
  (∃ r h', request_data h = (Ok None, add_written malformed h') ∧ quiet h h' ∧
     parse_json_content h = (r, h') ∧ (∃ c, (content h).1 = Ok c) ∧ ∀ d, r ≠ Ok (PyDict d)) ∨
  (∃ e, request_data h = (Raise e, h) ∧ content h = (Raise e, h) ∧ unreadable e).
Proof.
  destruct (parse_json_content_spec h) as [(r & c & h' & E & Hq & Hc & H1 & He)|(e & E & Hc & He)].
  - rewrite (request_data_eq _ _ _ E He), (refuse_body_cached _ _ Hc).
    destruct r as [[]|e]; try (right; left; eexists _, _; by split_and!; eauto).
    left. by eexists _, _.
  - right; right. exists e. split; [|done]. unfold request_data, try_except, mbind at 1, M_bind at 1.
    rewrite E. destruct He as [[m ->]|[->| ->]]; cbn [is_ValueError orb]; [|done..].
    unfold mbind, M_bind. by rewrite Hc.
Qed.

(** What the client printed, as the handler reports it. *)
Definition report (r : outcome (Z * bytes * bytes)) : outcome zk_result :=
  '(rc, out, err) ← r;
  o ← decode Strict (strip out);
  e ← decode Strict (strip err);
  mret (ZkResult rc o e).

(** Running the client starts exactly one command. *)
Lemma run_zk_cmd_eq c n d f u p argv h r w :
  zk_argv c n d f u p = Ok argv → popen argv (outside h) = (r, w) →
  run_zk_cmd c n d f u p h = (report r, set_outside w (add_command argv h)).
Proof.
  intros Ea Ep. unfold run_zk_cmd, lift, start_command, report, mbind, M_bind. rewrite Ea, Ep.
  destruct r as [[[rc out] err]|e]; cbn; [|done].
  destruct (decode Strict (strip out)); cbn; [|done]. by destruct (decode Strict (strip err)).
Qed.

Lemma run_zk_cmd_refused c n d f u p h e :
  zk_argv c n d f u p = Raise e → run_zk_cmd c n d f u p h = (Raise e, h).
Proof. intros Ea. unfold run_zk_cmd, lift, mbind, M_bind. by rewrite Ea. Qed.

(** A one-character text never contains one of the two messages. *)
Lemma response_status_cases r :
  response_status r =
    if Z.eqb (returncode r) 0 then Ok 200%Z
    else match res_stderr r with [] => Raise IndexError | _ => Ok 400%Z end.
Proof.
  unfold response_status. destruct (Z.eqb (returncode r) 0); [done|].
  destruct (res_stderr r) as [|c s]; [done|]. cbn [head or_raise mbind outcome_bind].
  rewrite !str_contains_short by (apply Nat.ltb_lt; reflexivity). done.
Qed.

Lemma report_scalars r res :
  report r = Ok res → scalars (res_stdout res) = true ∧ scalars (res_stderr res) = true.
Proof.
  destruct r as [[[rc out] err]|]; cbn; [|done].
  destruct (decode Strict (strip out)) as [o|] eqn:Eo; cbn; [|done].
  destruct (decode Strict (strip err)) as [e|] eqn:Ee; cbn; [|done]. intros [= <-]. cbn.
  apply decode_scalars in Eo, Ee; [|done..]. unfold scalars.
  split; apply Is_true_true, forallb_True; (eapply Forall_impl; [eassumption|]);
    intros c; by rewrite Is_true_true.
Qed.

Lemma scalars_chars s : scalars s = true → chars s = true.
Proof.
  unfold scalars, chars. rewrite <- !Is_true_true, !forallb_True.
  intros H. eapply Forall_impl; [exact H|]. intros c. rewrite !Is_true_true.
  unfold is_scalar, is_char. rewrite andb_true_iff, N.leb_le, N.ltb_lt. lia.
Qed.

Lemma res_json_chars r :
  scalars (res_stdout r) = true → scalars (res_stderr r) = true → val_chars (PyDict (res_json r)) = true.
Proof. intros. cbn -[chars]. by rewrite !scalars_chars. Qed.

(** The end of [handle_request] once the client has reported. *)
Definition answer (res : zk_result) : HM unit :=
  status ← lift (response_status res); send_json_response (res_json res) status.

Lemma answer_eq res h :
  scalars (res_stdout res) = true → scalars (res_stderr res) = true →
  answer res h = match response_status res with
                 | Ok status => (Ok tt, add_written (json_response (res_json res) status) h)
                 | Raise e => (Raise e, h)
                 end.
Proof.
  intros H1 H2. unfold answer, lift, mbind, M_bind. destruct (response_status res); [|done].
  by rewrite send_json_ok by by apply res_json_chars.
Qed.

(** [handle_request] when the command is refused. *)
Lemma zk_handle_invalid h url :
  urlparse (path h) = Ok url →
  valid_command (request_command (parse_qs (u_query url)) (method h)) = None →
  zk_handle_request h =
    (Ok tt, add_written (json_response [(#"detail", PyStr #"Invalid command")] 400) h).
Proof.
  intros Hu Hc. unfold zk_handle_request, get_state, lift, mbind, M_bind.
  rewrite Hu, Hc. by apply send_json_ok.
Qed.

Definition zk_run (cmd node : pystr) (hs : list (pystr * pystr)) (d : dict pyval) : HM zk_result :=
  run_zk_cmd cmd node (dict_get_default #"data" PyNone d)
    (truthy (dict_get_default #"force" (PyBool false) d))
    (of_opt_str (header_get #"zk-username" hs)) (of_opt_str (header_get #"zk-password" hs)).

Definition request_argv (cmd node : pystr) (hs : list (pystr * pystr)) (d : dict pyval) : outcome (list pystr) :=
  zk_argv cmd node (dict_get_default #"data" PyNone d)
    (truthy (dict_get_default #"force" (PyBool false) d))
    (of_opt_str (header_get #"zk-username" hs)) (of_opt_str (header_get #"zk-password" hs)).

(** [handle_request] for a valid command, after the body has been dealt with. *)
Lemma zk_handle_valid h url cmd r h' :
  urlparse (path h) = Ok url →
  valid_command (request_command (parse_qs (u_query url)) (method h)) = Some cmd →
  request_data h = (r, h') →
  zk_handle_request h =
    match r with
    | Ok (Some d) => (zk_run cmd (u_path url) (headers h) d ≫= answer) h'
    | Ok None => (Ok tt, h')
    | Raise e => (Raise e, h')
    end.
Proof.
  intros Hu Hc Hr. unfold zk_handle_request, get_state, lift, mbind at 1 2 3, M_bind at 1 2 3.
  rewrite Hu, Hc. unfold mbind at 1, M_bind at 1. rewrite Hr. by destruct r as [[d|]|e].
Qed.

(** * The argument vector *)

Definition opt_arg (flag : list pystr) (v : pyval) : list pystr :=
  match v with PyStr s => flag ++ [s] | _ => [] end.

(** The shape of every accepted command line. *)
Definition argv_of (c n : pystr) (d : pyval) (f : bool) (u p : pyval) : list pystr :=
  zk_base_cmd ++ (if f then [#"-force"] else []) ++ opt_arg [#"-auth_usr"] u
  ++ opt_arg [#"-auth_pwd"] p ++ [#"-c"; c; n] ++ opt_arg [] d.

(** [None], or text of at most [m] code points *)
Definition arg_ok (m : Z) (v : pyval) : Prop :=
  v = PyNone ∨ ∃ s, v = PyStr s ∧ (Z.of_nat (length s) <= m)%Z.

Lemma validate_ok attr v m s : (m ≠ 0)%Z →
  validate_string_input attr v m = Ok s ↔ v = PyStr s ∧ (Z.of_nat (length s) <= m)%Z.
Proof.
  intros Hm. unfold validate_string_input. destruct v; try (split; [done|by intros [[=] _]]).
  rewrite (proj2 (Z.eqb_neq _ _) Hm). cbn [negb andb].
  destruct (Z.ltb_spec m (Z.of_nat (length s0))); split; try done.
  - intros [[= ->] ?]. lia.
  - by intros [= ->].
  - by intros [[= ->] ?].
Qed.

Lemma validate_error attr v m e :
  validate_string_input attr v m = Raise e →
  e = ValidationError attr #"Invalid value." 400 ∨ e = ValidationError attr #"Too large." 413.
Proof.
  unfold validate_string_input. destruct v; try (intros [= <-]; by left).
  destruct (_ && _); [|done]. intros [= <-]. by right.
Qed.

Lemma add_arg_ok flag attr v m cmd argv : (m ≠ 0)%Z →
  add_arg flag attr v m cmd = Ok argv ↔ argv = cmd ++ opt_arg flag v ∧ arg_ok m v.
Proof.
  intros Hm. unfold add_arg, arg_ok. pose proof (validate_ok attr v m) as Hv.
  destruct (validate_string_input attr v m) as [s|e].
  - destruct (proj1 (Hv s Hm) eq_refl) as [-> Hs]. cbn. split.
    + intros [= <-]. split; [done|]. right. eauto.
    + by intros [-> _].
  - split.
    + destruct v; cbn; try done. intros [= <-]. rewrite app_nil_r. split; [done|by left].
    + intros [-> [->|(s & -> & Hs)]]; [by rewrite app_nil_r|].
      by discriminate (proj2 (Hv s Hm) (conj eq_refl Hs)).
Qed.

(** The argument vector is built exactly when every part is text within its
    limit, and then has the shape above. *)
Lemma zk_argv_ok c n d f u p argv :
  zk_argv c n d f u p = Ok argv ↔
    argv = argv_of c n d f u p ∧ arg_ok 4019 u ∧ arg_ok 4019 p ∧
    arg_ok 4019 (PyStr n) ∧ arg_ok 2097152 d.
Proof.
  unfold zk_argv, default_string_max_length, zk_data_size_limit, argv_of. split.
  - intros (c1 & H1 & (c2 & H2 & (n' & H3 & H4)%outcome_bind_inv)%outcome_bind_inv)%outcome_bind_inv.
    apply add_arg_ok in H1 as [-> ?], H2 as [-> ?], H4 as [-> ?]; [|done..].
    apply validate_ok in H3 as [[= <-] ?]; [|done]. rewrite <- !app_assoc.
    split_and!; try done. right. eauto.
  - intros (-> & H1 & H2 & H3 & H4).
    rewrite (proj2 (add_arg_ok _ _ u 4019 _ _ ltac:(done)) (conj eq_refl H1)). cbn [mbind outcome_bind].
    rewrite (proj2 (add_arg_ok _ _ p 4019 _ _ ltac:(done)) (conj eq_refl H2)). cbn [mbind outcome_bind].
    destruct H3 as [|(s & [= ->] & H3)]; [done|].
    rewrite (proj2 (validate_ok _ (PyStr s) 4019 s ltac:(done)) (conj eq_refl H3)). cbn [mbind outcome_bind].
    rewrite (proj2 (add_arg_ok _ _ d 2097152 _ _ ltac:(done)) (conj eq_refl H4)).
    by rewrite <- !app_assoc.
Qed.

(** How a refused part of the request is reported. *)
Definition arg_refused (e : exn) : Prop :=
  ∃ attr detail status, e = ValidationError attr detail status ∧
    attr ∈ [#"username"; #"password"; #"node"; #"data"] ∧
    (detail, status) ∈ [(#"Invalid value.", 400%Z); (#"Too large.", 413%Z)].

Lemma validate_refused attr v m e : attr ∈ [#"username"; #"password"; #"node"; #"data"] →
  validate_string_input attr v m = Raise e → arg_refused e.
Proof.
  intros Ha [-> | ->]%validate_error; do 3 eexists; (split_and!; [done|done|set_solver]).
Qed.

Lemma add_arg_refused flag attr v m cmd e : attr ∈ [#"username"; #"password"; #"node"; #"data"] →
  add_arg flag attr v m cmd = Raise e → arg_refused e.
Proof.
  intros Ha. unfold add_arg. destruct v; try done;
    (destruct (validate_string_input _ _ _) eqn:E; [done|]); cbn; intros [= <-];
    by eapply validate_refused.
Qed.

(** A refused argument is always reported as a [ValidationError]. *)
Lemma zk_argv_error c n d f u p e : zk_argv c n d f u p = Raise e → arg_refused e.
Proof.
  unfold zk_argv. intros H.
  destruct (add_arg _ #"username" _ _ _) eqn:E1; cbn [mbind outcome_bind] in H;
    [|injection H as <-; eapply add_arg_refused, E1; set_solver].
  destruct (add_arg _ #"password" _ _ _) eqn:E2; cbn [mbind outcome_bind] in H;
    [|injection H as <-; eapply add_arg_refused, E2; set_solver].
  destruct (validate_string_input #"node" _ _) eqn:E3; cbn [mbind outcome_bind] in H;
    [eapply add_arg_refused, H|injection H as <-; eapply validate_refused, E3]; set_solver.
Qed.

Lemma arg_refused_chars a m st :
  arg_refused (ValidationError a m st) → val_chars (PyDict (as_json a m)) = true.
Proof.
  intros (? & ? & ? & [= <- <- <-] & Ha & Hm). unfold as_json. cbn -[chars].
  rewrite andb_true_r, andb_true_iff. split.
  - rewrite !elem_of_cons, elem_of_nil in Ha. by destruct Ha as [->|[->|[->|[->|[]]]]].
  - rewrite !elem_of_cons, elem_of_nil in Hm. by destruct Hm as [[= -> ->]|[[= -> ->]|[]]].
Qed.

(** * The contract of the service

    A request is first decided on, from its method, path, headers and body
    alone; then at most one command is run and its report is sent back. *)

Inductive decision : Type :=
| Reject (status : Z) (data : dict pyval)
| ServerError
| Execute (argv : list pystr).

Definition detail (s : pystr) : dict pyval := [(#"detail", PyStr s)].

(** The bytes of the body, unless the [Content-Length] header is not an integer
    or not a length that can be read: as many bytes as the header says, everything
    for -1, nothing without the header. *)
Definition received (hs : list (pystr * pystr)) (body : bytes) : option bytes :=
  match header_get #"Content-Length" hs with
  | None => Some []
  | Some v =>
      match py_int v with
      | Ok n => if decide (n = -1)%Z then Some body
                else if decide (n = 0%Z ∨ (0 < n < 2 ^ 63 - 33)%Z ∧ allocates n = true)
                     then Some (take (Z.to_nat n) body) else None
      | Raise _ => None
      end
  end.

(** What a body means: no body is the empty object. *)
Definition body_value (b : bytes) : outcome pyval :=
  match b with [] => mret (PyDict []) | _ => loads3_bytes b end.

Definition decide_zk (m p : pystr) (hs : list (pystr * pystr)) (body : bytes) : decision :=
  match urlparse p with
  | Raise _ => ServerError
  | Ok url =>
      match valid_command (request_command (parse_qs (u_query url)) (Some m)) with
      | None => Reject 400 (detail #"Invalid command")
      | Some cmd =>
          match received hs body with
          | None => ServerError
          | Some b =>
              match body_value b with
              | Ok (PyDict d) =>
                  match request_argv cmd (u_path url) hs d with
                  | Ok argv => Execute argv
                  | Raise (ValidationError attr text status) => Reject status [(attr, PyStr text)]
                  | Raise _ => ServerError
                  end
              | _ => Reject 400 (detail #"Malformed request")
              end
          end
      end
  end.

Definition decide_request (m p : pystr) (hs : list (pystr * pystr)) (body : bytes) : decision :=
  if startswith #"/esdc" p then decide_zk m p hs body
  else Reject 403 (detail #"Permission Denied").

Definition internal_error : list wevent := [ErrorPage 500 #"Internal Server Error"].

(** The status of a report. *)
Definition report_status (r : zk_result) : outcome Z :=
  if Z.eqb (returncode r) 0 then Ok 200%Z
  else match res_stderr r with [] => Raise IndexError | _ => Ok 400%Z end.

(** What a request leaves: how the handler ended, what it wrote, the commands
    it started and the outside world. *)
Abbreviation effect := (outcome unit * list wevent * list (list pystr) * W)%type.

Definition service (d : decision) (w : W) : effect :=
  match d with
  | Reject status data => (Ok tt, json_response data status, [], w)
  | ServerError => (Ok tt, internal_error, [], w)
  | Execute argv =>
      let '(r, w') := popen argv w in
      match report r with
      | Ok res =>
          match report_status res with
          | Ok status => (Ok tt, json_response (res_json res) status, [argv], w')
          | Raise _ => (Ok tt, internal_error, [argv], w')
          end
      | Raise e => if is_Exception e then (Ok tt, internal_error, [argv], w')
                   else (Raise e, [], [argv], w')
      end
  end.

Definition effect_of (rh : outcome unit * handler) : effect :=
  (rh.1, wfile rh.2, commands rh.2, outside rh.2).

(** [subprocess] raises its own exceptions, never this program's. *)
Definition popen_external : Prop :=
  ∀ argv w attr text status w', popen argv w ≠ (Raise (ValidationError attr text status), w').

(** ** Refinement *)

Lemma handled_ok (m : HM unit) h h' : m h = (Ok tt, h') → _handle_request m h = (Ok tt, h').
Proof. apply try_ok. Qed.

Lemma handled_error (m : HM unit) h h' e :
  m h = (Raise e, h') → (∀ a d s, e ≠ ValidationError a d s) →
  _handle_request m h =
    if is_Exception e then (Ok tt, add_written internal_error h') else (Raise e, h').
Proof.
  intros E Hv. unfold _handle_request, try_except. rewrite E.
  destruct e; try done. by destruct (Hv attr detail0 status).
Qed.

Lemma handled_refused (m : HM unit) h h' a d s :
  m h = (Raise (ValidationError a d s), h') → arg_refused (ValidationError a d s) →
  _handle_request m h = (Ok tt, add_written (json_response [(a, PyStr d)] s) h').
Proof.
  intros E Hr. unfold _handle_request, try_except. rewrite E.
  apply send_json_ok, (arg_refused_chars _ _ _ Hr).
Qed.

(** A body read for the first time. *)
Lemma content_received h : content_cache h = None →
  match received (headers h) (rfile h) with
  | Some b => (content h).1 = Ok b
  | None => ∃ e, content h = (Raise e, h)
  end.
Proof.
  intros Hc. unfold content, received. rewrite Hc.
  destruct (header_get _ _) as [v|]; [|done]. destruct (py_int v) as [n|e]; [|by eexists].
  unfold read_bytes. destruct (Z.eqb_spec n 0) as [->|Hn0].
  { rewrite decide_False by done. by rewrite decide_True by auto. }
  destruct (decide (n = -1)%Z) as [->|Hn1]; [done|].
  destruct (decide (n = 0%Z ∨ _)) as [[?|[Hn Ha]]|Hn]; [done|rewrite Ha|];
    destruct (Z.ltb_spec n (- 2 ^ 63)), (Z.leb_spec (2 ^ 63 - 33) n), (Z.ltb_spec n (-1)),
      (Z.eqb_spec n (-1)); cbn [orb]; try lia; try done; try (by eexists).
  destruct (allocates n); [|by eexists]. destruct Hn. right. lia.
Qed.

Lemma parse_received h : content_cache h = None →
  match received (headers h) (rfile h) with
  | Some b => (content h).1 = Ok b ∧ (parse_json_content h).1 = body_value b
  | None => ∃ e, content h = (Raise e, h) ∧ parse_json_content h = (Raise e, h)
  end.
Proof.
  intros Hc%content_received. unfold parse_json_content, mbind, M_bind.
  destruct (received _ _) as [b|]; [|destruct Hc as [e E]; exists e; by rewrite E].
  destruct (content h) as [[c|e] h']; [|done]. cbn in Hc. injection Hc as ->. by destruct b.
Qed.

Lemma decode_external b e : decode Strict b = Raise e → ∀ a d s, e ≠ ValidationError a d s.
Proof. by intros ->%decode_error. Qed.

(** A report fails as the client did, or because its output is not UTF-8. *)
Lemma report_error r e :
  report r = Raise e → r = Raise e ∨ e = UnicodeDecodeError.
Proof.
  destruct r as [[[rc out] err]|]; cbn; [|by intros [= <-]; left].
  destruct (decode Strict (strip out)) eqn:E1; cbn.
  - destruct (decode Strict (strip err)) eqn:E2; cbn; [done|].
    apply decode_error in E2. intros [= <-]. by right.
  - apply decode_error in E1. intros [= <-]. by right.
Qed.

(** The commands and the response once the command line is known. *)
Lemma execute_spec cmd node d h argv :
  popen_external → wfile h = [] → commands h = [] →
  request_argv cmd node (headers h) d = Ok argv →
  ∀ h0 (m : HM unit), m h0 = (zk_run cmd node (headers h) d ≫= answer) h →
  effect_of (_handle_request m h0) = service (Execute argv) (outside h).
Proof.
  intros Hp Hw Hc Ha h0 m Hm. cbn [service]. destruct (popen argv (outside h)) as [r w'] eqn:Er.
  pose proof (run_zk_cmd_eq _ _ _ _ _ _ _ _ _ _ Ha Er) as Hrun.
  change (zk_run cmd node (headers h) d h = (report r, set_outside w' (add_command argv h))) in Hrun.
  set (h1 := set_outside w' (add_command argv h)) in *.
  assert (wfile h1 = [] ∧ commands h1 = [argv]) as [Hw1 Hc1] by (cbn; by rewrite Hw, Hc).
  destruct (report r) as [res|e] eqn:Ereport.
  - rewrite (bind_ok _ _ _ _ _ Hrun) in Hm. destruct (report_scalars _ _ Ereport) as [Ho He].
    rewrite (answer_eq _ _ Ho He), response_status_cases in Hm. unfold report_status.
    destruct (Z.eqb _ _), (res_stderr res);
      first [rewrite (handled_ok _ _ _ Hm)|rewrite (handled_error _ _ _ _ Hm) by done];
      unfold effect_of; cbn; by rewrite Hw, Hc.
  - rewrite (bind_raised _ _ _ _ _ Hrun) in Hm. rewrite (handled_error _ _ _ _ Hm).
    + destruct (is_Exception e); unfold effect_of; cbn; by rewrite Hw, Hc.
    + destruct (report_error _ _ Ereport) as [->| ->]; [|done]. intros a t st ->. by eapply Hp.
Qed.

Lemma zk_service m p hs body w :
  popen_external →
  effect_of (_handle_request zk_handle_request (set_method m (new_handler p hs body w)))
  = service (decide_zk m p hs body) w.
Proof.
  intros Hp. unfold decide_zk. set (h := set_method m (new_handler p hs body w)).
  change p with (path h) at 1. destruct (urlparse (path h)) as [url|e] eqn:Eu.
  2:{ rewrite (handled_error zk_handle_request h h e).
      - by rewrite (urlparse_error _ _ Eu).
      - unfold zk_handle_request, get_state, lift, mbind, M_bind. by rewrite Eu.
      - by rewrite (urlparse_error _ _ Eu). }
  change (Some m) with (method h). destruct (valid_command _) as [cmd|] eqn:Ec.
  2:{ by rewrite (handled_ok _ _ _ (zk_handle_invalid _ _ Eu Ec)). }
  pose proof (zk_handle_valid h url cmd _ _ Eu Ec (surjective_pairing _)) as Hz.
  pose proof (parse_received h eq_refl) as Hb.
  change (headers h) with hs in *. change (rfile h) with body in *.
  destruct (request_data_spec h) as [(d & h' & E & Hq & Ej)|[(r & h' & E & Hq & Ej & [c Hcn] & Hn)|(e & E & Hcn & He)]];
    rewrite E in Hz; cbn [fst snd] in Hz.
  - rewrite Ej in Hb. destruct (received hs body) as [b|]; [|by destruct Hb as (? & _ & [=])].
    destruct Hb as [_ Hb]. cbn [fst] in Hb. rewrite <- Hb.
    destruct Hq as (_ & _ & Hh & Hw & Hc & Ho). 
    destruct (request_argv cmd (u_path url) hs d) as [argv|e] eqn:Ea.
    + change w with (outside h). rewrite <- Ho.
      apply (execute_spec cmd (u_path url) d h' argv Hp Hw Hc); by rewrite Hh.
    + rewrite (bind_raised _ _ _ _ _ (run_zk_cmd_refused _ _ _ _ _ _ _ _ Ea)) in Hz.
      pose proof (zk_argv_error _ _ _ _ _ _ _ Ea) as (a & t & st & -> & Hrest).
      rewrite (handled_refused _ _ _ _ _ _ Hz); [|by exists a, t, st].
      unfold effect_of. cbn. by rewrite Hw, Hc, Ho.
  - rewrite (handled_ok _ _ _ Hz). rewrite Ej in Hb.
    destruct Hq as (_ & _ & Hh & Hw & Hc & Ho).
    unfold effect_of. cbn [fst snd add_written wfile commands outside]. rewrite Hw, Hc, Ho.
    destruct (received hs body) as [b|]; [|destruct Hb as (e & Hce & _); by rewrite Hce in Hcn].
    destruct Hb as [_ Hb]. cbn [fst] in Hb. rewrite <- Hb. destruct r as [[]|]; try done. by destruct (Hn d).
  - assert (is_Exception e = true ∧ ∀ a d s, e ≠ ValidationError a d s) as [Hx Hv]
      by by destruct He as [[? ->]|[->| ->]].
    rewrite (handled_error _ _ _ _ Hz Hv), Hx. destruct (received hs body); [|done].
    destruct Hb as [Hb _]. by rewrite Hcn in Hb.
Qed.

(** The four methods with a handler of their own. *)
Definition verbs : list pystr := [#"GET"; #"POST"; #"PUT"; #"DELETE"].

Lemma serve_verb cls m h : m ∈ verbs →
  serve cls m h = _handle_request (handle_request cls) (set_method m h).
Proof.
  unfold verbs. rewrite !elem_of_cons, elem_of_nil. by intros [->|[->|[->|[->|[]]]]].
Qed.

Lemma esdc_service m p hs body w : popen_external → m ∈ verbs →
  effect_of (serve ESDCZKRESTRequestHandler m (new_handler p hs body w))
  = service (decide_request m p hs body) w.
Proof.
  intros Hp Hm. rewrite serve_verb by done. cbn [handle_request]. unfold decide_request.
  pose proof (zk_service m p hs body w Hp) as Hz. revert Hz.
  set (h := set_method m _). unfold _handle_request, try_except, esdc_handle_request, get_state, mbind, M_bind.
  change (path h) with p. destruct (startswith #"/esdc" p); [done|]. intros _.
  by rewrite send_json_ok.
Qed.

Lemma other_methods m p hs body w : m ∉ verbs →
  commands (serve ESDCZKRESTRequestHandler m (new_handler p hs body w)).2 = [].
Proof.
  unfold verbs, serve. intros Hm. rewrite !not_elem_of_cons in Hm. destruct Hm as (H1 & H2 & H3 & H4 & _).
  rewrite !bool_decide_eq_false_2 by done. case_bool_decide; [|done].
  unfold do_HEAD, get_state, mbind, M_bind. cbn [path new_handler]. by case_bool_decide.
Qed.

(** A command line this service may run: a known command on a node whose path
    starts with the characters [/esdc], every part within its limit. *)
Definition esdc_command (argv : list pystr) : Prop :=
  ∃ c node data force username password,
    argv = argv_of c node data force username password ∧ c ∈ zk_commands ∧
    startswith #"/esdc" node = true ∧ arg_ok 4019 (PyStr node) ∧ arg_ok 2097152 data ∧
    arg_ok 4019 username ∧ arg_ok 4019 password.

Lemma valid_command_in c cmd : valid_command c = Some cmd → cmd ∈ zk_commands.
Proof. unfold valid_command. destruct c; [|done]. case_bool_decide as H; [|done]. intros [= <-]. apply H. Qed.

Lemma decide_execute m p hs body argv :
  decide_request m p hs body = Execute argv → esdc_command argv.
Proof.
  unfold decide_request, decide_zk. destruct (startswith #"/esdc" p) eqn:Ep; [|done].
  destruct (urlparse p) as [url|] eqn:Eu; [|done].
  destruct (valid_command _) as [cmd|] eqn:Ec; [|done]. destruct (received hs body); [|done].
  destruct (body_value _) as [[| | | | | |d]|]; try done.
  destruct (request_argv _ _ _ _) as [argv'|e] eqn:Ea; [|by destruct e]. intros [= <-].
  apply zk_argv_ok in Ea as (-> & ? & ? & ? & ?). do 6 eexists. split_and!; try done.
  - by eapply valid_command_in.
  - eapply (urlparse_prefix #"esdc"); [done..| |done].
    intros c. change #"esdc" with [101; 115; 100; 99]%N. set_solver.
Qed.

(** One complete response. *)
Inductive response : list wevent → Prop :=
| json_reply data status : response (json_response data status)
| page_reply code text : response [ErrorPage code text]
| head_reply : response [Status 200; Header #"Content-Type" #"application/json"; EndHeaders].

(** The client is started and read without interruption. *)
Definition popen_fails_normally : Prop :=
  ∀ argv w e w', popen argv w = (Raise e, w') → is_Exception e = true.

Lemma service_response d w : popen_fails_normally →
  ∃ evs cmds w', service d w = (Ok tt, evs, cmds, w') ∧ response evs.
Proof.
  intros Hp. destruct d as [st data| |argv]; cbn [service]; try by do 3 eexists; split; constructor.
  destruct (popen argv w) as [r w'] eqn:Er. destruct (report r) as [res|e] eqn:Ee.
  - destruct (report_status res); do 3 eexists; split; constructor.
  - assert (is_Exception e = true) as ->; [|do 3 eexists; split; constructor].
    destruct (report_error _ _ Ee) as [->| ->]; [by eapply Hp|done].
Qed.

Lemma serve_response m p hs body w : popen_external → popen_fails_normally →
  let rh := serve ESDCZKRESTRequestHandler m (new_handler p hs body w) in
  rh.1 = Ok tt ∧ response (wfile rh.2).
Proof.
  intros He Hp. cbv zeta. destruct (decide (m ∈ verbs)) as [Hm|Hm].
  - pose proof (esdc_service m p hs body w He Hm) as Hs.
    destruct (service_response (decide_request m p hs body) w Hp) as (evs & cmds & w' & E & Hr).
    rewrite E in Hs. unfold effect_of in Hs. injection Hs as -> -> _ _. done.
  - unfold serve. unfold verbs in Hm. rewrite !not_elem_of_cons in Hm.
    destruct Hm as (H1 & H2 & H3 & H4 & _). rewrite !bool_decide_eq_false_2 by done.
    case_bool_decide; [|split; constructor]. unfold do_HEAD, get_state, mbind, M_bind.
    cbn [path new_handler]. case_bool_decide; split; constructor.
Qed.

Lemma serve_commands m p hs body w : popen_external →
  let h := (serve ESDCZKRESTRequestHandler m (new_handler p hs body w)).2 in
  commands h = [] ∨ ∃ argv, commands h = [argv] ∧ esdc_command argv.
Proof.
  intros He. destruct (decide (m ∈ verbs)) as [Hm|Hm]; [|left; by apply other_methods].
  pose proof (esdc_service m p hs body w He Hm) as Hs.
  assert ((service (decide_request m p hs body) w).1.2 =
    match decide_request m p hs body with Execute argv => [argv] | _ => [] end) as Hc.
  { destruct (decide_request m p hs body) as [| |argv]; [done..|]. cbn [service].
    destruct (popen argv w) as [r w']. destruct (report r) as [res|e];
      [by destruct (report_status res)|by destruct (is_Exception e)]. }
  rewrite <- Hs in Hc. unfold effect_of in Hc. cbn [fst snd] in Hc. cbv zeta. rewrite Hc.
  destruct (decide_request m p hs body) as [| |argv] eqn:Ed; [by left..|].
  right. exists argv. split; [done|]. by eapply decide_execute.
Qed.

(** The status a response starts with: its status line or its error page. *)
Definition event_status (e : wevent) : option Z :=
  match e with Status c | ErrorPage c _ => Some c | _ => None end.

(** The statuses the service sends. *)
Definition plain_status (e : wevent) : Prop :=
  event_status e ≠ Some 404%Z ∧ event_status e ≠ Some 406%Z.

Lemma json_response_plain data st : st ≠ 404%Z → st ≠ 406%Z → Forall plain_status (json_response data st).
Proof. intros. repeat constructor; cbn; congruence. Qed.

Lemma decide_status m p hs body st data :
  decide_request m p hs body = Reject st data → st ∈ [400; 403; 413]%Z.
Proof.
  unfold decide_request, decide_zk. destruct (startswith _ p); [|intros [= <- _]; set_solver].
  destruct (urlparse p) as [url|]; [|done].
  destruct (valid_command _) as [cmd|]; [|intros [= <- _]; set_solver].
  destruct (received hs body) as [b|]; [|done].
  destruct (body_value _) as [[| | | | | |d]|]; try (intros [= <- _]; set_solver).
  destruct (request_argv _ _ _ _) as [argv'|e] eqn:Ea; [done|].
  apply zk_argv_error in Ea as (a & t & s & -> & _ & Hs). intros [= <- _]. set_solver.
Qed.

Lemma service_plain m p hs body w :
  Forall plain_status (service (decide_request m p hs body) w).1.1.2.
Proof.
  destruct (decide_request m p hs body) as [st data| |argv] eqn:Ed; cbn [service fst snd].
  - apply decide_status in Ed. apply json_response_plain; set_solver.
  - by repeat constructor.
  - destruct (popen argv w) as [r w']. unfold report_status.
    destruct (report r) as [res|e]; [|destruct (is_Exception e); by repeat constructor].
    destruct (Z.eqb _ _), (res_stderr res); by repeat constructor.
Qed.

Lemma other_methods_plain m p hs body w : m ∉ verbs →
  Forall plain_status (wfile (serve ESDCZKRESTRequestHandler m (new_handler p hs body w)).2).
Proof.
  unfold verbs, serve. intros Hm. rewrite !not_elem_of_cons in Hm. destruct Hm as (H1 & H2 & H3 & H4 & _).
  rewrite !bool_decide_eq_false_2 by done. case_bool_decide; [|by repeat constructor].
  unfold do_HEAD, get_state, mbind, M_bind. cbn [path new_handler].
  case_bool_decide; by repeat constructor.
Qed.

(** * Properties *)

(** C1: the handler refines the contract.  For each of the four methods, any
    path, headers and body, and any client that raises only exceptions of its
    own, a request ends as the contract says: what is sent, which command is
    run, and the state of the outside world are those of [service] applied to
    the decision, which depends on the request alone. *)
Theorem esdc_handler_refines m p hs body w : popen_external → m ∈ verbs →
  effect_of (serve ESDCZKRESTRequestHandler m (new_handler p hs body w))
  = service (decide_request m p hs body) w.
Proof. apply esdc_service. Qed.


(** C19: a path that does not start with [/esdc] is refused with 403 before anything else happens:
    the body is left unread, no command is run and the outside world is the same. *)
Theorem forbidden_path m p hs body w : m ∈ verbs → startswith #"/esdc" p = false →
  serve ESDCZKRESTRequestHandler m (new_handler p hs body w) =
    (Ok tt, add_written (json_response (detail #"Permission Denied") 403)
              (set_method m (new_handler p hs body w))).
Proof.
  intros Hm Hp. rewrite serve_verb by done. apply handled_ok. cbn [handle_request].
  unfold esdc_handle_request, get_state, mbind at 1, M_bind at 1.
  change (path (set_method m _)) with p. rewrite Hp. by apply send_json_ok.
Qed.

(** C16: the command line is built exactly when the node and the credentials are
    text of at most 4019 characters (or absent) and the data text of at most
    2097152 (or absent); every part then appears once, in the order the client
    expects. *)
Theorem argv_built_iff c n d f us pw argv :
  zk_argv c n d f us pw = Ok argv ↔
    argv = argv_of c n d f us pw ∧ arg_ok 4019 us ∧ arg_ok 4019 pw ∧
    arg_ok 4019 (PyStr n) ∧ arg_ok 2097152 d.
Proof. apply zk_argv_ok. Qed.

(** C17: no response has status 404 or 406, neither in a status line nor on an
    error page.  The handler means to send them when the client prints "node does
    not exist" or "node already exists", but it looks for the message in the
    first character of the output. *)
Theorem never_404_or_406 m p hs body w : popen_external →
  ∀ ev, ev ∈ wfile (serve ESDCZKRESTRequestHandler m (new_handler p hs body w)).2 →
  event_status ev ≠ Some 404%Z ∧ event_status ev ≠ Some 406%Z.
Proof.
  intros He. apply Forall_forall. change (Forall plain_status (wfile (serve ESDCZKRESTRequestHandler m (new_handler p hs body w)).2)).
  destruct (decide (m ∈ verbs)) as [Hm|Hm]; [|by apply other_methods_plain].
  pose proof (esdc_service m p hs body w He Hm) as Hs. apply (f_equal (λ e, e.1.1.2)) in Hs.
  unfold effect_of in Hs. cbn [fst snd] in Hs. rewrite Hs. apply service_plain.
Qed.


End rest.

(** * A small client, for concrete runs

    The store is a dictionary of nodes; [get] prints the value of a node and
    [create] adds one.  The machine has a gigabyte for a buffer. *)

Definition demo_memory : Memory := λ n, Z.leb n (2 ^ 30).
#[local] Existing Instance demo_memory.

Fixpoint client_args (argv : list pystr) : list pystr :=
  match argv with
  | [] => []
  | a :: l => if a =s #"-c" then l else client_args l
  end.

Definition demo_client (argv : list pystr) : M (dict pystr) (Z * bytes * bytes) := λ store,
  match client_args argv with
  | [c; n] =>
      if c =s #"get" then
        match dict_get n store with
        | Some v => (Ok (0%Z, v ++ [10%N], []), store)
        | None => (Ok (1%Z, [], #"node does not exist" ++ [10%N]), store)
        end
      else (Ok (2%Z, [], #"unknown command"), store)
  | [c; n; v] =>
      if c =s #"create" then (Ok (0%Z, #"Created " ++ n, []), dict_set n v store)
      else (Ok (2%Z, [], #"unknown command"), store)
  | _ => (Raise (OSError #"usage"), store)
  end.

Lemma demo_never_refuses argv w r w' :
  demo_client argv w = (r, w') → ∀ e, r = Raise e → e = OSError #"usage".
Proof.
  unfold demo_client. intros E e ->. revert E.
  destruct (client_args argv) as [|c [|n [|v []]]]; try (by intros [= <- <-]).
  - case_bool_decide; [destruct (dict_get n w)|]; done.
  - case_bool_decide; done.
Qed.

Lemma demo_external : popen_external demo_client.
Proof. intros argv w a t st w' E. by specialize (demo_never_refuses _ _ _ _ E _ eq_refl). Qed.

Lemma demo_fails_normally : popen_fails_normally demo_client.
Proof. intros argv w e w' E. by rewrite (demo_never_refuses _ _ _ _ E _ eq_refl). Qed.

Definition demo_store : dict pystr := [(#"/esdc/vm", #"42")].

Lemma esdc_handler_refines_witness :
  popen_external demo_client ∧ #"GET" ∈ verbs ∧
  effect_of (serve demo_client [] ESDCZKRESTRequestHandler #"GET" (new_handler #"/esdc/vm?x=1" [] [] demo_store))
  = (Ok tt, json_response (res_json (ZkResult 0 #"42" #"")) 200,
     [[#"zookeepercli"; #"-servers"; #"127.0.0.1"; #"-c"; #"get"; #"/esdc/vm"]], demo_store).
Proof.
  split; [apply demo_external|]. split; [vm_compute; constructor|].
  rewrite (esdc_handler_refines demo_client [] #"GET" #"/esdc/vm?x=1" [] [] demo_store demo_external)
    by (vm_compute; constructor).
  vm_compute. reflexivity.
Defined.


Lemma forbidden_path_witness :
  #"PUT" ∈ verbs ∧ startswith #"/esdc" #"/other" = false ∧
  serve demo_client [] ESDCZKRESTRequestHandler #"PUT" (new_handler #"/other" [] #"xyz" demo_store) =
    (Ok tt, add_written (json_response (detail #"Permission Denied") 403)
              (set_method #"PUT" (new_handler #"/other" [] #"xyz" demo_store))).
Proof.
  assert (#"PUT" ∈ verbs) as Hm by (vm_compute; do 2 constructor; constructor).
  split; [exact Hm|]. split; [vm_compute; reflexivity|].
  apply (forbidden_path demo_client [] #"PUT" #"/other" [] #"xyz" demo_store Hm).
  vm_compute. reflexivity.
Defined.

Lemma never_404_or_406_witness :
  popen_external demo_client ∧
  ∃ ev, ev ∈ wfile (serve demo_client [] ESDCZKRESTRequestHandler #"GET" (new_handler #"/esdc/x" [] [] demo_store)).2 ∧
    event_status ev = Some 400%Z ∧ event_status ev ≠ Some 404%Z ∧ event_status ev ≠ Some 406%Z.
Proof.
  split; [apply demo_external|]. exists (Status 400).
  assert (Status 400 ∈ wfile (serve demo_client [] ESDCZKRESTRequestHandler #"GET"
    (new_handler #"/esdc/x" [] [] demo_store)).2) as Hin by (vm_compute; left).
  split; [exact Hin|]. split; [reflexivity|].
  exact (never_404_or_406 demo_client [] #"GET" #"/esdc/x" [] [] demo_store demo_external (Status 400) Hin).
Defined.


(** Lengths that cannot be read. *)
Example bad_lengths :
  map (λ n, received [(#"content-length", n)] #"{}")
    [#"ten"; #"-2"; #"9223372036854775808"; #"-9223372036854775809"; #"1073741825"] = replicate 5 None.
Proof. vm_compute. reflexivity. Qed.

(** With -1 everything is read, as with the length of the body. *)
Example all_of_the_body : received [(#"Content-Length", #"-1")] #"{}" = Some #"{}" ∧
  received [(#"Content-Length", #"2")] #"{} and more" = Some #"{}" ∧
  received [(#"Content-Length", #"20")] #"{}" = Some #"{}".
Proof. vm_compute. by split_and!. Qed.
