(* ===== verification/CfgdbServer.v ===== *)
(** The cfgdb REST server ([run_server] and [main] of
    [cfgdb_zk_rest_server.py]): start-up, the request loop and the signals that
    end it. *)
From S2P Require Export CfgdbRest.
From Stdlib Require Import NArith ZArith Lia.

Section server.
Context {W : Type} {mem : Memory}.
(** The external client and [os.environ], as for the handlers. *)
Variable popen : list pystr → M W (Z * bytes * bytes).
Variable environ : dict pystr.

(** * The server *)

(** What reaches the process: requests, and the signals it stops on.  The body
    of a request is what its peer sends until it stops; that a handler may wait
    for more than comes is modelled in [CfgdbLive]. *)
Inductive incoming : Type :=
| Request (command p : pystr) (hs : list (pystr * pystr)) (body : bytes)
| Signal (signum : Z).

(** The server between two requests: the outside world, the replies sent, the
    commands run and whether the listening socket is open. *)
Record server := Server {
  world : W;
  replies : list (list wevent);
  run_commands : list (list pystr);
  listening : bool
}.

Definition set_listening (b : bool) (s : server) : server :=
  Server (world s) (replies s) (run_commands s) b.

(** The operating system: resolve the address and bind the port. *)
Variable os_bind : pystr → Z → outcome unit.
(** OpenSSL: load the certificate, the key and the authorities. *)
Variable wrap_socket : pystr → option pystr → option pystr → outcome unit.

(** [socket.bind((address, port))] wants an integer that fits 16 bits. *)
Definition bind_socket (address : pystr) (port : pyval) : outcome unit :=
  match port with
  | PyInt n => if Z.leb 0 n && Z.ltb n 65536 then os_bind address n else Raise OverflowError
  | _ => Raise TypeError
  end.

(** [stop_server]: both signals raise [KeyboardInterrupt]. *)
Definition stop_server {A} (signum : Z) : M server A := raise KeyboardInterrupt.

(** One turn of [serve_forever]: an [Exception] that leaves the handler is
    printed by [handle_error] and forgotten. *)
Definition serve_one (cls : handler_class) (i : incoming) : M server unit := λ s,
  match i with
  | Signal n => stop_server n s
  | Request command p hs body =>
      let '(r, h) := serve popen environ cls command (new_handler p hs body (world s)) in
      let s' := Server (outside h) (replies s ++ [wfile h]) (run_commands s ++ commands h) (listening s) in
      match r with
      | Ok _ => (Ok tt, s')
      | Raise e => if is_Exception e then (Ok tt, s') else (Raise e, s')
      end
  end.

Inductive server_end := Waiting | Stopped.

(** [serve_forever] on what has arrived so far: afterwards it waits. *)
Definition serve_forever (cls : handler_class) (l : list incoming) : M server server_end :=
  for_each l (serve_one cls);; mret Waiting.

Definition run_server (address : pystr) (port : pyval) (ssl_cert ssl_key ca_certs : option pystr)
    (cls : handler_class) (l : list incoming) : M server server_end :=
  lift (bind_socket address port);;
  modify (set_listening true);;
  match ssl_cert with
  | Some ((_ :: _) as cert) => lift (wrap_socket cert ssl_key ca_certs)
  | _ => mret tt
  end;;
  try_except (serve_forever cls l) (λ e,
    match e with
    | KeyboardInterrupt => Some (modify (set_listening false);; mret Stopped)
    | _ => None
    end).

Definition DEFAULT_HTTP_ADDRESS : pystr := #"".
Definition DEFAULT_HTTP_PORT : Z := 12181.

Definition main (l : list incoming) : M server server_end :=
  run_server
    (default DEFAULT_HTTP_ADDRESS (dict_get #"ZK_REST_HTTP_ADDRESS" environ))
    (match dict_get #"ZK_REST_HTTP_PORT" environ with
     | Some port => PyStr port
     | None => PyInt DEFAULT_HTTP_PORT
     end)
    (dict_get #"ZK_REST_HTTP_SSL_CERT" environ)
    (dict_get #"ZK_REST_HTTP_SSL_KEY" environ)
    (dict_get #"ZK_REST_HTTP_CA_CERTS" environ)
    ESDCZKRESTRequestHandler l.

(** * Between requests *)

Lemma serve_one_request m p hs body s : popen_external popen → popen_fails_normally popen →
  ∃ evs cmds w, serve_one ESDCZKRESTRequestHandler (Request m p hs body) s =
    (Ok tt, Server w (replies s ++ [evs]) (run_commands s ++ cmds) (listening s)) ∧ response evs.
Proof.
  intros He Hp. pose proof (serve_response popen environ m p hs body (world s) He Hp) as [H1 H2]. revert H1 H2.
  unfold serve_one. destruct (serve _ _ _) as [r h]. cbn [fst snd]. intros -> H2. by do 3 eexists.
Qed.

Definition is_request (i : incoming) : Prop :=
  match i with Request _ _ _ _ => True | Signal _ => False end.

(** Any number of requests leave the server as it was, with one more reply each. *)
Lemma serve_requests l s : popen_external popen → popen_fails_normally popen → Forall is_request l →
  ∃ s', for_each l (serve_one ESDCZKRESTRequestHandler) s = (Ok tt, s') ∧ listening s' = listening s ∧
    ∃ new, replies s' = replies s ++ new ∧ length new = length l ∧ Forall response new.
Proof.
  intros He Hp Hl. revert s. induction Hl as [|[m p hs body|] l Hi Hl IH]; intros s; [|cbn [for_each]|done].
  { exists s. split_and!; try done. exists []. by rewrite app_nil_r. }
  destruct (serve_one_request m p hs body s He Hp) as (evs & cmds & w & E & Hr).
  rewrite (bind_ok _ _ _ _ _ E). destruct (IH (Server w (replies s ++ [evs]) (run_commands s ++ cmds) (listening s)))
    as (s' & -> & Hs & new & Hnew & Hlen & Hall).
  exists s'. split_and!; try done. exists (evs :: new). cbn [replies] in Hnew.
  rewrite Hnew, <- app_assoc. split_and!; [done|by cbn; rewrite Hlen|by constructor].
Qed.

Lemma for_each_app {S X} (l1 l2 : list X) (f : X → M S unit) s :
  for_each (l1 ++ l2) f s = (for_each l1 f;; for_each l2 f) s.
Proof.
  revert s. induction l1 as [|x l1 IH]; intros s; [done|]. cbn [app for_each].
  rewrite bind_assoc. unfold mbind at 1 2, M_bind at 1 2. by destruct (f x s) as [[]].
Qed.

(** The commands stay confined whatever arrives and however the client fails. *)
Definition confined (s : server) : Prop := Forall (esdc_command environ) (run_commands s).

Lemma serve_one_confined i s : popen_external popen → confined s →
  confined (serve_one ESDCZKRESTRequestHandler i s).2.
Proof.
  intros He Hs. destruct i as [m p hs body|n]; [|done]. unfold serve_one.
  pose proof (serve_commands popen environ m p hs body (world s) He) as Hc. revert Hc.
  destruct (serve _ _ _) as [r h]. cbn [snd]. intros Hc.
  assert (confined (Server (outside h) (replies s ++ [wfile h]) (run_commands s ++ commands h) (listening s))) as H.
  { unfold confined. cbn [run_commands]. apply Forall_app. split; [done|].
    destruct Hc as [->|(argv & -> & Ha)]; by constructor. }
  destruct r as [|e]; [done|by destruct (is_Exception e)].
Qed.

Lemma for_each_invariant {S X} (I : S → Prop) (f : X → M S unit) l s :
  (∀ x s, I s → I (f x s).2) → I s → I (for_each l f s).2.
Proof.
  intros Hf. revert s. induction l as [|x l IH]; intros s Hs; [done|]. cbn [for_each].
  specialize (Hf x s Hs). unfold mbind, M_bind. destruct (f x s) as [[]]; [by apply IH|done].
Qed.

Lemma run_server_confined a port cert key ca l s : popen_external popen → confined s →
  confined (run_server a port cert key ca ESDCZKRESTRequestHandler l s).2.
Proof.
  intros He Hs. unfold run_server, lift, modify, mbind at 1 2 3, M_bind at 1 2 3.
  destruct (bind_socket a port); [|done].
  pose proof (for_each_invariant confined (serve_one ESDCZKRESTRequestHandler) l (set_listening true s)
    (λ i s, serve_one_confined i s He) Hs) as Hf.
  assert (confined (try_except (serve_forever ESDCZKRESTRequestHandler l) (λ e,
    match e with KeyboardInterrupt => Some (modify (set_listening false);; mret Stopped) | _ => None end)
    (set_listening true s)).2) as Ht.
  { unfold try_except, serve_forever, mbind at 1, M_bind at 1.
    destruct (for_each _ _ _) as [[|e] s']; [done|]. by destruct e. }
  destruct cert as [[|c cert]|]; cbn [mret M_ret]; [done| |done].
  by destruct (wrap_socket _ _ _).
Qed.

(** * Properties *)

(** The sibling of [/esdc] in the next theorem. *)
Lemma prefix_command s : popen_external popen →
  run_commands (serve_one ESDCZKRESTRequestHandler (Request #"GET" #"/esdcsecret/vm" [] []) s).2
  = run_commands s ++ [zk_base_cmd environ ++ [#"-c"; #"get"; #"/esdcsecret/vm"]].
Proof.
  intros He. pose proof (esdc_service popen environ #"GET" #"/esdcsecret/vm" [] [] (world s) He) as Hs.
  specialize (Hs ltac:(vm_compute; constructor)).
  assert (decide_request environ #"GET" #"/esdcsecret/vm" [] [] =
    Execute (zk_base_cmd environ ++ [#"-c"; #"get"; #"/esdcsecret/vm"])) as Hd.
  { unfold decide_request, decide_zk. cbn -[zk_base_cmd]. by rewrite app_nil_r. }
  rewrite Hd in Hs. apply (f_equal (λ e, e.1.2)) in Hs. cbn [service] in Hs.
  destruct (popen _ _) as [r w']. unfold serve_one. unfold effect_of in Hs. cbn [fst snd] in Hs.
  assert (commands (serve popen environ ESDCZKRESTRequestHandler #"GET" (new_handler #"/esdcsecret/vm" [] [] (world s))).2
    = [zk_base_cmd environ ++ [#"-c"; #"get"; #"/esdcsecret/vm"]]) as Hc.
  { rewrite Hs. destruct (report r) as [res|e]; [by destruct (report_status res)|by destruct (is_Exception e)]. }
  destruct (serve _ _ _ _ _) as [[|e] h]; cbn [snd] in Hc |- *; [by rewrite <- Hc|].
  destruct (is_Exception e); by rewrite <- Hc.
Qed.

(** C2: confinement.  Whatever requests and signals reach the server started
    with the ESDC handler, and however the client behaves, every command line it
    has run consists of a command of [zk_commands] on a node whose path starts
    with the characters [/esdc], with node and credentials of at most 4019
    characters and data of at most 2097152.  The five characters are all that is
    looked at: [GET /esdcsecret/vm] makes the server read the node
    [/esdcsecret/vm], which is not below [/esdc]. *)
Theorem server_confined a port cert key ca l w : popen_external popen →
  Forall (esdc_command environ)
    (run_commands (run_server a port cert key ca ESDCZKRESTRequestHandler l (Server w [] [] false)).2) ∧
  ∀ s, run_commands (serve_one ESDCZKRESTRequestHandler (Request #"GET" #"/esdcsecret/vm" [] []) s).2
    = run_commands s ++ [zk_base_cmd environ ++ [#"-c"; #"get"; #"/esdcsecret/vm"]].
Proof.
  intros He. split; [by apply run_server_confined; [|constructor]|]. intros s. by apply prefix_command.
Qed.

(** C3: the server survives.  If the client is never interrupted, any sequence
    of requests is answered by exactly one complete response each, in order, and
    the server is still listening and waiting for the next one. *)
Theorem server_survives l w : popen_external popen → popen_fails_normally popen → Forall is_request l →
  ∃ s, serve_forever ESDCZKRESTRequestHandler l (Server w [] [] true) = (Ok Waiting, s) ∧
    listening s = true ∧ length (replies s) = length l ∧ Forall response (replies s).
Proof.
  intros He Hp Hl. destruct (serve_requests l (Server w [] [] true) He Hp Hl)
    as (s & E & Hs & new & Hnew & Hlen & Hall).
  exists s. unfold serve_forever. rewrite (bind_ok _ _ _ _ _ E). cbn in Hnew. by subst new.
Qed.


(** A signal stops the server: the requests before it have been answered,
    the ones after it are not looked at, and the socket is closed. *)
Theorem signal_stops_server l n l' w : popen_external popen → popen_fails_normally popen → Forall is_request l →
  ∀ a port, bind_socket a (PyInt port) = Ok tt →
  ∃ s, run_server a (PyInt port) None None None ESDCZKRESTRequestHandler (l ++ Signal n :: l') (Server w [] [] false)
       = (Ok Stopped, s) ∧ listening s = false ∧ length (replies s) = length l.
Proof.
  intros He Hp Hl a port Hb. destruct (serve_requests l (Server w [] [] true) He Hp Hl)
    as (s & E & Hs & new & Hnew & Hlen & Hall).
  exists (set_listening false s). unfold run_server, lift, mbind at 1 2 3, M_bind at 1 2 3. rewrite Hb.
  cbn [modify mret M_ret]. unfold try_except, serve_forever, mbind at 1, M_bind at 1.
  change (set_listening true _) with (Server w [] [] true). rewrite for_each_app, (bind_ok _ _ _ _ _ E).
  cbn [for_each]. cbn in Hnew. subst new. by split_and!.
Qed.


(** The server cannot be started on a port given in the environment: the
    value stays text and binding the socket raises [TypeError]. *)
Theorem port_variable_refused port l s : dict_get #"ZK_REST_HTTP_PORT" environ = Some port →
  main l s = (Raise TypeError, s).
Proof. intros Hp. unfold main. by rewrite Hp. Qed.


End server.

(** * Concrete runs *)

#[local] Existing Instance demo_memory.

Definition demo_bind (a : pystr) (p : Z) : outcome unit := Ok tt.
Definition demo_wrap (a : pystr) (k c : option pystr) : outcome unit := Raise (OSError #"no such file").

Definition demo_requests : list incoming :=
  [Request #"GET" #"/esdc/vm" [] []; Request #"GET" #"/secret" [] []; Request #"TRACE" #"/" [] []].

Lemma server_confined_witness :
  popen_external demo_client ∧
  Forall (esdc_command [])
    (run_commands (run_server demo_client [] demo_bind demo_wrap #"" (PyInt 12181) None None None
      ESDCZKRESTRequestHandler demo_requests (Server demo_store [] [] false)).2) ∧
  run_commands (run_server demo_client [] demo_bind demo_wrap #"" (PyInt 12181) None None None
      ESDCZKRESTRequestHandler demo_requests (Server demo_store [] [] false)).2
  = [[#"zookeepercli"; #"-servers"; #"127.0.0.1"; #"-c"; #"get"; #"/esdc/vm"]].
Proof.
  split; [apply demo_external|]. split; [|vm_compute; reflexivity].
  apply (server_confined demo_client [] demo_bind demo_wrap #"" (PyInt 12181) None None None
    demo_requests demo_store demo_external).
Defined.

Lemma demo_all_requests : Forall is_request demo_requests.
Proof. by repeat constructor. Qed.

Lemma server_survives_witness :
  popen_fails_normally demo_client ∧ Forall is_request demo_requests ∧
  ∃ s, serve_forever demo_client [] ESDCZKRESTRequestHandler demo_requests (Server demo_store [] [] true)
       = (Ok Waiting, s) ∧ listening s = true ∧ length (replies s) = 3 ∧ Forall response (replies s).
Proof.
  split; [apply demo_fails_normally|]. split; [apply demo_all_requests|].
  apply (server_survives demo_client [] demo_requests demo_store demo_external demo_fails_normally
    demo_all_requests).
Defined.

Lemma signal_stops_server_witness :
  bind_socket demo_bind #"" (PyInt 12181) = Ok tt ∧
  ∃ s, run_server demo_client [] demo_bind demo_wrap #"" (PyInt 12181) None None None
         ESDCZKRESTRequestHandler (demo_requests ++ Signal 15 :: demo_requests) (Server demo_store [] [] false)
       = (Ok Stopped, s) ∧ listening s = false ∧ length (replies s) = 3.
Proof.
  split; [reflexivity|].
  apply (signal_stops_server demo_client [] demo_bind demo_wrap demo_requests 15 demo_requests demo_store
    demo_external demo_fails_normally demo_all_requests #"" 12181%Z). reflexivity.
Defined.

Lemma port_variable_refused_witness :
  main demo_client [(#"ZK_REST_HTTP_PORT", #"8080")] demo_bind demo_wrap [] (Server demo_store [] [] false)
  = (Raise TypeError, Server demo_store [] [] false).
Proof. apply (port_variable_refused demo_client _ demo_bind demo_wrap #"8080"). vm_compute. reflexivity. Defined.
