(* ===== verification/CfgdbLive.v ===== *)
(** The cfgdb REST server in time: requests arrive while another is handled, the
    handler of one waits for its peer and for the client it runs, and signals may
    arrive at any moment.  A step relation over the queue of the listening socket,
    the connection in hand and the state of the server; its infinite runs; the
    liveness of the service, under a fair scheduler and with peers and clients that
    keep their side; and what one peer that does not can do. *)
From S2P Require Export CfgdbServer.
From Stdlib Require Import NArith ZArith Lia.

(** A connection that waits in the queue of the listening socket: the request,
    the bytes the peer sends after the headers, and whether it then keeps its
    side of the connection open. *)
Record request := Req {
  r_command : pystr;
  r_path : pystr;
  r_headers : list (pystr * pystr);
  r_body : bytes;
  r_open : bool
}.
Definition as_incoming (r : request) : incoming :=
  Request (r_command r) (r_path r) (r_headers r) (r_body r).

(** What the thread of the server does: it looks for a connection, it handles
    one and waits for something to come, or it handles one for which everything
    has come. *)
Inductive activity := Accepting | Blocked (r : request) | Runnable (r : request).

(** What happens in one step: a connection is made; the loop of [serve_forever]
    takes the oldest one; everything has come that its handler waits for (the
    request line and the headers, the body or the end of what the peer sends, and
    the exit of the client the handler starts); the handler is done; a signal
    arrives; or nothing happens. *)
Inductive label := Arrive (r : request) | Begin | Ready | Finish | Interrupt (signum : Z) | Idle.

Section live.
Context {W : Type} {mem : Memory}.
Variable popen : list pystr → M W (Z * bytes * bytes).
Variable environ : dict pystr.

(** The handler reads the body of the request, more of it is to be read than the
    peer sends, and the end of the bytes does not come either. *)
Definition starved (r : request) : bool :=
  r_open r && bool_decide (r_command r ∈ verbs) && startswith #"/esdc" (r_path r) &&
  match urlparse (r_path r), header_get #"Content-Length" (r_headers r) with
  | Ok url, Some v =>
      match valid_command (request_command (parse_qs (u_query url)) (Some (r_command r))), py_int v with
      | Some _, Ok n =>
          Z.eqb n (-1) || Z.ltb (Z.of_nat (length (r_body r))) n && Z.ltb n (2 ^ 63 - 33) && allocates n
      | _, _ => false
      end
  | _, _ => false
  end.

(** The read of such a request goes to the end of what its peer sends. *)
Lemma starved_reads_to_end r (w : W) : starved r = true →
  (content (new_handler (r_path r) (r_headers r) (r_body r) w)).1 = Ok (r_body r).
Proof.
  intros Hs. pose proof (content_received (new_handler (r_path r) (r_headers r) (r_body r) w) eq_refl) as Hc.
  cbn [headers rfile new_handler] in Hc. assert (received (r_headers r) (r_body r) = Some (r_body r)) as Hr;
    [|by rewrite Hr in Hc].
  unfold starved in Hs. unfold received. apply andb_true_iff in Hs as [_ Hs].
  destruct (urlparse (r_path r)); [|done]. destruct (header_get _ _) as [v|]; [|done].
  destruct (valid_command _); [|done]. destruct (py_int v) as [n|]; [|done].
  destruct (decide (n = -1)%Z) as [|Hn]; [done|]. rewrite (proj2 (Z.eqb_neq _ _) Hn) in Hs. cbn [orb] in Hs.
  apply andb_true_iff in Hs as [[Hl Hu]%andb_true_iff Ha]. apply Z.ltb_lt in Hl, Hu.
  rewrite decide_True by (right; split; [lia|done]). by rewrite take_ge by lia.
Qed.

Record system := System { pending : list request; current : activity; srv : server (W := W) }.

(** There is one thread, and no timeout: the connection in hand is handled to its
    end before the next one is taken.  What leaves the loop ends the server:
    [run_server] closes the socket, or the process is gone with it, and the
    connection in hand is dropped. *)
Inductive step : system → label → system → Prop :=
| step_arrive q c s r : listening s = true → step (System q c s) (Arrive r) (System (q ++ [r]) c s)
| step_begin r q s : listening s = true → step (System (r :: q) Accepting s) Begin (System q (Blocked r) s)
| step_ready r q s : starved r = false → step (System q (Blocked r) s) Ready (System q (Runnable r) s)
| step_finish r q s s' :
    serve_one popen environ ESDCZKRESTRequestHandler (as_incoming r) s = (Ok tt, s') →
    step (System q (Runnable r) s) Finish (System q Accepting s')
| step_finish_ends r q s e s' :
    serve_one popen environ ESDCZKRESTRequestHandler (as_incoming r) s = (Raise e, s') →
    step (System q (Runnable r) s) Finish (System q Accepting (set_listening false s'))
| step_interrupt q c s n s' : listening s = true →
    serve_one popen environ ESDCZKRESTRequestHandler (Signal n) s = (Raise KeyboardInterrupt, s') →
    step (System q c s) (Interrupt n) (System q Accepting (set_listening false s'))
| step_idle y : step y Idle y.

(** An infinite run of a server that has just started to listen. *)
Record run := Run {
  state_at : nat → system;
  label_at : nat → label;
  run_start : ∃ w, state_at 0 = System [] Accepting (Server w [] [] true);
  run_step n : step (state_at n) (label_at n) (state_at (S n))
}.

(** The thread can go on by itself. *)
Definition enabled (y : system) : Prop :=
  match current y with
  | Accepting => listening (srv y) = true ∧ pending y ≠ []
  | Blocked _ => False
  | Runnable _ => True
  end.

(** Weak fairness: again and again, the thread takes a step or has none to take. *)
Definition fair (ρ : run) : Prop :=
  ∀ n, ∃ m, n ≤ m ∧ (label_at ρ m = Begin ∨ label_at ρ m = Finish ∨ ¬ enabled (state_at ρ m)).

(** The peers and the client keep their side: what the handler of a connection
    waits for comes in the end. *)
Definition nobody_stalls (ρ : run) : Prop :=
  ∀ n r, current (state_at ρ n) = Blocked r → ∃ m, n ≤ m ∧ label_at ρ m = Ready.

(** The requests that have arrived before a moment, oldest first. *)
Fixpoint arrived (ρ : run) (n : nat) : list request :=
  match n with
  | 0 => []
  | S n => arrived ρ n ++ match label_at ρ n with Arrive r => [r] | _ => [] end
  end.

Definition uninterrupted (ρ : run) : Prop := ∀ n k, label_at ρ n ≠ Interrupt k.

(** The reply to a request, given the state of the outside world at its turn. *)
Definition reply_to (r : request) (evs : list wevent) : Prop :=
  ∃ w, evs = wfile (serve popen environ ESDCZKRESTRequestHandler (r_command r)
    (new_handler (r_path r) (r_headers r) (r_body r) w)).2.

(** ** What holds at every moment of a run *)

Context (He : popen_external popen) (Hp : popen_fails_normally popen).

Lemma serve_one_turn r s : ∃ evs s',
  serve_one popen environ ESDCZKRESTRequestHandler (as_incoming r) s = (Ok tt, s') ∧
  replies s' = replies s ++ [evs] ∧ listening s' = listening s ∧ response evs ∧ reply_to r evs.
Proof.
  destruct (serve_one_request popen environ (r_command r) (r_path r) (r_headers r) (r_body r) s He Hp)
    as (evs & cmds & w & E & Hr). exists evs. eexists. split; [exact E|]. split_and!; try done.
  exists (world s). revert E. unfold serve_one.
  destruct (serve _ _ _ _ _) as [r0 h]. cbn [snd].
  destruct r0 as [|e]; [|destruct (is_Exception e)]; intros [= _ E _]; by apply app_inj_2 in E as [_ [= ->]].
Qed.

(** The connection in hand. *)
Definition in_hand (c : activity) : list request :=
  match c with Accepting => [] | Blocked r | Runnable r => [r] end.

(** While nothing interrupts the server, it listens, and the requests that have
    arrived are those it has answered, in order, the one in hand, and those that
    wait. *)
Definition in_order (ρ : run) (n : nat) : Prop :=
  let y := state_at ρ n in
  listening (srv y) = true ∧
  ∃ served, arrived ρ n = served ++ in_hand (current y) ++ pending y ∧
    Forall2 (λ r evs, response evs ∧ reply_to r evs) served (replies (srv y)).

Lemma always_in_order ρ n : uninterrupted ρ → in_order ρ n.
Proof.
  intros Hu. unfold in_order. induction n as [|n IH].
  { destruct (run_start ρ) as [w E]. rewrite E. split; [done|]. by exists []. }
  destruct IH as (Hl & served & Ha & Hs). pose proof (run_step ρ n) as Hst. cbn [arrived].
  inversion Hst as [q c s r Hl' E1 E2 E3|r q s Hl' E1 E2 E3|r q s Hst' E1 E2 E3|r q s s' E E1 E2 E3|r q s e s' E E1 E2 E3
    |q c s k s' Hl' E E1 E2 E3|y E1 E2 E3];
    rewrite <- E1 in Hl, Ha, Hs; cbn [pending srv current in_hand] in *.
  - split; [done|]. exists served. by rewrite Ha, <- !app_assoc.
  - split; [done|]. exists served. by rewrite app_nil_r.
  - split; [done|]. exists served. by rewrite app_nil_r.
  - destruct (serve_one_turn r s) as (evs & s1 & E' & Hr & Hli & H1 & H2).
    rewrite E in E'. injection E' as <-. split; [congruence|]. exists (served ++ [r]).
    rewrite Ha, app_nil_r, <- app_assoc, Hr. split; [done|]. apply Forall2_app; [done|by constructor].
  - destruct (serve_one_turn r s) as (evs & s1 & E' & _). by rewrite E in E'.
  - by edestruct Hu.
  - split; [congruence|]. exists served. by rewrite app_nil_r, <- E1.
Qed.

Definition answered (ρ : run) (n : nat) : nat := length (replies (srv (state_at ρ n))).

(** How far the thread has come: three steps for every request. *)
Definition stage (c : activity) : nat :=
  match c with Accepting => 0 | Blocked _ => 1 | Runnable _ => 2 end.
Definition progress (ρ : run) (n : nat) : nat := 3 * answered ρ n + stage (current (state_at ρ n)).

Lemma answered_pending ρ n : uninterrupted ρ →
  length (arrived ρ n) = answered ρ n + length (in_hand (current (state_at ρ n))) + length (pending (state_at ρ n)).
Proof.
  intros Hu. destruct (always_in_order ρ n Hu) as (_ & served & Ha & Hs).
  unfold answered. rewrite Ha, !length_app, (Forall2_length _ _ _ Hs). lia.
Qed.

Lemma arrived_mono ρ n m : n ≤ m → arrived ρ n `prefix_of` arrived ρ m.
Proof.
  induction 1 as [|m _ IH]; [done|]. etransitivity; [exact IH|]. cbn [arrived]. by apply prefix_app_r.
Qed.

Definition moves (l : label) : bool :=
  match l with Begin | Ready | Finish => true | _ => false end.

Lemma progress_step ρ n : uninterrupted ρ →
  progress ρ (S n) = progress ρ n + (if moves (label_at ρ n) then 1 else 0).
Proof.
  intros Hu. unfold progress, answered. pose proof (run_step ρ n) as Hst.
  inversion Hst as [q c s r Hl' E1 E2 E3|r q s Hl' E1 E2 E3|r q s Hst' E1 E2 E3|r q s s' E E1 E2 E3|r q s e s' E E1 E2 E3
    |q c s k s' Hl' E E1 E2 E3|y E1 E2 E3]; cbn [srv current moves stage]; try lia.
  - destruct (serve_one_turn r s) as (evs & s1 & E' & Hr & _). rewrite E in E'. injection E' as <-.
    rewrite Hr, length_app. cbn [length]. lia.
  - destruct (serve_one_turn r s) as (evs & s1 & E' & _). by rewrite E in E'.
  - by edestruct Hu.
Qed.

Lemma progress_mono ρ n m : uninterrupted ρ → n ≤ m → progress ρ n ≤ progress ρ m.
Proof. intros Hu. induction 1 as [|m _ IH]; [done|]. rewrite progress_step by done. lia. Qed.

Lemma progress_moves ρ n m : uninterrupted ρ → n ≤ m → moves (label_at ρ m) = true →
  progress ρ n < progress ρ (S m).
Proof. intros Hu Hm Hl. rewrite progress_step, Hl by done. pose proof (progress_mono ρ n m Hu Hm). lia. Qed.

(** Without progress the thread is where it was. *)
Lemma same_stage ρ n m : progress ρ m = progress ρ n →
  answered ρ m = answered ρ n ∧ stage (current (state_at ρ m)) = stage (current (state_at ρ n)).
Proof. unfold progress. destruct (current (state_at ρ n)), (current (state_at ρ m)); cbn [stage]; lia. Qed.

(** As long as a request is not answered, the thread makes progress. *)
Lemma progress_made ρ i n : uninterrupted ρ → fair ρ → nobody_stalls ρ →
  i < length (arrived ρ n) → answered ρ n ≤ i → ∃ m, n ≤ m ∧ progress ρ n < progress ρ m.
Proof.
  intros Hu Hf Hn Hi Ha. destruct (current (state_at ρ n)) as [|r|r] eqn:Ec.
  2:{ destruct (Hn n r Ec) as (m & Hm & El). exists (S m). split; [lia|]. apply progress_moves; [done..|by rewrite El]. }
  all: destruct (Hf n) as (m & Hm & Ht).
  all: destruct (Nat.eq_dec (progress ρ m) (progress ρ n)) as [Hs|];
    [|exists m; pose proof (progress_mono ρ n m Hu Hm); lia].
  all: apply same_stage in Hs as [Han Hst]; rewrite Ec in Hst.
  all: destruct Ht as [El|[El|Hne]];
    [exists (S m); split; [lia|apply progress_moves; [done..|by rewrite El]]..|destruct Hne].
  - pose proof (answered_pending ρ m Hu) as Hap. pose proof (prefix_length _ _ (arrived_mono ρ n m Hm)).
    unfold enabled. destruct (current (state_at ρ m)); [|done..]. cbn [in_hand length] in Hap.
    split; [by apply (always_in_order ρ m Hu)|]. intros E. rewrite E in Hap. cbn in Hap. lia.
  - unfold enabled. by destruct (current (state_at ρ m)).
Qed.

Lemma eventually_answered ρ i k n : uninterrupted ρ → fair ρ → nobody_stalls ρ → i < length (arrived ρ n) →
  3 * S i ≤ progress ρ n + k → ∃ m, i < answered ρ m.
Proof.
  intros Hu Hf Hn. revert n. induction k as [k IH] using lt_wf_ind. intros n Hi Hk.
  destruct (Nat.ltb_spec i (answered ρ n)) as [Hlt|Hge]; [by exists n|].
  destruct (progress_made ρ i n Hu Hf Hn Hi Hge) as (m & Hm & Hpr).
  pose proof (prefix_length _ _ (arrived_mono ρ n m Hm)).
  destruct k as [|k].
  - exists n. unfold progress in Hk. destruct (current (state_at ρ n)); cbn [stage] in Hk; lia.
  - apply (IH (3 * S i - progress ρ m) ltac:(lia) m); lia.
Qed.

Lemma answered_mono ρ n m : uninterrupted ρ → n ≤ m → answered ρ n ≤ answered ρ m.
Proof.
  intros Hu Hm. pose proof (progress_mono ρ n m Hu Hm) as H. unfold progress in H.
  destruct (current (state_at ρ n)), (current (state_at ρ m)); cbn [stage] in H; lia.
Qed.

(** ** A connection for which nothing comes *)



(** C5: liveness.  If the client is never interrupted, no signal arrives, the
    thread of the server is scheduled fairly, and what the handler of a connection
    waits for always comes in the end, then every request that arrives is answered
    in the end: some later state has, at the place of the request among the
    arrivals, one complete response, which is the one its handler writes for it. *)
Theorem every_request_answered ρ n i r : uninterrupted ρ → fair ρ → nobody_stalls ρ →
  arrived ρ n !! i = Some r →
  ∃ m evs, n ≤ m ∧ replies (srv (state_at ρ m)) !! i = Some evs ∧ response evs ∧ reply_to r evs.
Proof.
  intros Hu Hf Hn Hr. assert (i < length (arrived ρ n)) as Hi by by apply lookup_lt_Some in Hr.
  destruct (eventually_answered ρ i (3 * S i) n Hu Hf Hn Hi ltac:(lia)) as [m' Hm'].
  set (m := n `max` m'). assert (i < answered ρ m) as Hm
    by (pose proof (answered_mono ρ m' m Hu ltac:(lia)); lia).
  destruct (always_in_order ρ m Hu) as (_ & served & Ha & Hs).
  destruct (lookup_lt_is_Some_2 _ _ Hm) as [evs Hevs].
  destruct (Forall2_lookup_r _ _ _ _ _ Hs Hevs) as (r' & Hr' & Hans & Hrep).
  assert (arrived ρ m !! i = Some r) as Hr2 by (eapply prefix_lookup_Some; [exact Hr|apply arrived_mono; lia]).
  rewrite Ha, (lookup_app_l_Some _ _ _ _ Hr') in Hr2. injection Hr2 as ->.
  exists m, evs. split_and!; [lia|done..].
Qed.
End live.

(** * A concrete run *)

Arguments System {W} _ _.

#[local] Existing Instance demo_memory.

(** One request arrives, a second one while the first is in hand, and both are
    handled; then nothing happens. *)
Definition demo_first : request := Req #"GET" #"/esdc/vm" [] [] false.
Definition demo_second : request := Req #"GET" #"/secret" [] [] true.

Definition after (l : list request) : server :=
  (for_each l (λ r, serve_one demo_client [] ESDCZKRESTRequestHandler (as_incoming r)) (Server demo_store [] [] true)).2.

Definition demo_state (n : nat) : system :=
  match n with
  | 0 => System [] Accepting (after [])
  | 1 => System [demo_first] Accepting (after [])
  | 2 => System [] (Blocked demo_first) (after [])
  | 3 => System [demo_second] (Blocked demo_first) (after [])
  | 4 => System [demo_second] (Runnable demo_first) (after [])
  | 5 => System [demo_second] Accepting (after [demo_first])
  | 6 => System [] (Blocked demo_second) (after [demo_first])
  | 7 => System [] (Runnable demo_second) (after [demo_first])
  | _ => System [] Accepting (after [demo_first; demo_second])
  end.
Definition demo_label (n : nat) : label :=
  match n with
  | 0 => Arrive demo_first | 2 => Arrive demo_second
  | 1 | 5 => Begin | 3 | 6 => Ready | 4 | 7 => Finish
  | _ => Idle
  end.

Definition demo_run : run demo_client [].
Proof.
  refine (Run demo_client [] demo_state demo_label (ex_intro _ demo_store eq_refl) _).
  intros [|[|[|[|[|[|[|[|n]]]]]]]].
  - by apply (step_arrive demo_client [] []).
  - by apply step_begin.
  - by apply (step_arrive demo_client [] []).
  - by apply step_ready.
  - apply step_finish; vm_compute; reflexivity.
  - by apply step_begin.
  - by apply step_ready.
  - apply step_finish; vm_compute; reflexivity.
  - apply step_idle.
Defined.

Lemma demo_run_fair : fair demo_client [] demo_run.
Proof. intros n. exists (8 + n). split; [lia|]. do 2 right. by intros [_ []]. Qed.

Lemma demo_nobody_stalls : nobody_stalls demo_client [] demo_run.
Proof.
  intros [|[|[|[|[|[|[|[|n]]]]]]]] r; try done; intros _; [exists 3|exists 3|exists 6]; split; (lia || done).
Qed.

Lemma every_request_answered_witness :
  ∃ m evs, 3 ≤ m ∧ replies (srv (state_at demo_client [] demo_run m)) !! 1 = Some evs ∧ response evs ∧
    reply_to demo_client [] demo_second evs.
Proof.
  apply (every_request_answered demo_client [] demo_external demo_fails_normally demo_run 3 1 demo_second).
  - intros [|[|[|[|[|[|[|[|n]]]]]]]] k; discriminate.
  - apply demo_run_fair.
  - apply demo_nobody_stalls.
  - reflexivity.
Defined.




