(* ===== verification/CfgdbStore.v ===== *)
(** The cfgdb REST server together with the ZooKeeper client: what a PUT request
    stores, a GET request for the same path gives back, and what is lost. *)
From S2P Require Export CfgdbServer.
From Stdlib Require Import NArith ZArith Lia.

(** Stripping a text that ends a line. *)
Lemma strip_newline s : strip (s ++ [10%N]) = strip s.
Proof.
  unfold strip, strip_by. destruct (lstrip_by_suffix is_space s) as (t & E & Ht).
  destruct (lstrip_by is_space s) as [|c s'] eqn:Es.
  - rewrite app_nil_r in E. subst t. assert (lstrip_by is_space (s ++ [10%N]) = []) as ->; [|done].
    clear Es. induction Ht as [|c s Hc _ IH]; [done|]. cbn. by rewrite Hc.
  - rewrite lstrip_by_app by by rewrite Es. rewrite Es. unfold rstrip_by. by rewrite rev_unit.
Qed.

(** White space at the ends of a text is white space at the ends of its bytes:
    every byte of a character outside ASCII is at least 128. *)
Lemma utf8_char_space c :
  utf8_char c = [c] ∨ is_space c = false ∧ utf8_char c ≠ [] ∧ Forall (λ b, is_space b = false) (utf8_char c).
Proof.
  assert (∀ b, (128 ≤ b)%N → is_space b = false) as Hb.
  { intros b Hb. unfold is_space. destruct (N.leb_spec 9 b), (N.leb_spec b 13), (N.eqb_spec b 32); cbn; lia || done. }
  unfold utf8_char. destruct (N.ltb_spec c 128); [by left|right]. split; [by apply Hb|].
  destruct (N.ltb c 2048); [|destruct (N.ltb c 65536)]; (split; [done|]);
    repeat (apply Forall_cons_2; [apply Hb; etransitivity; [|apply N.le_add_r]; lia|]); by apply Forall_nil_2.
Qed.

Lemma lstrip_by_none p s t : s ≠ [] → Forall (λ c, p c = false) s → lstrip_by p (s ++ t) = s ++ t.
Proof. intros Hn Hs. destruct Hs as [|c s Hc Hs]; [done|]. cbn. by rewrite Hc. Qed.

Lemma lstrip_utf8 s : lstrip_by is_space (utf8_bytes s) = utf8_bytes (lstrip_by is_space s).
Proof.
  induction s as [|c s IH]; [done|]. change (utf8_bytes (c :: s)) with (utf8_char c ++ utf8_bytes s).
  cbn [lstrip_by]. destruct (utf8_char_space c) as [E|(Hc & Hn & Hs)].
  - rewrite E. cbn. destruct (is_space c); [done|].
    change (utf8_bytes (c :: s)) with (utf8_char c ++ utf8_bytes s). by rewrite E.
  - by rewrite Hc, lstrip_by_none.
Qed.

Lemma utf8_bytes_app s t : utf8_bytes (s ++ t) = utf8_bytes s ++ utf8_bytes t.
Proof. unfold utf8_bytes. by rewrite fmap_app, join_app. Qed.

Lemma rstrip_utf8 s : rstrip (utf8_bytes s) = utf8_bytes (rstrip s).
Proof.
  unfold rstrip, rstrip_by. induction s as [|c s IH] using rev_ind; [done|].
  rewrite utf8_bytes_app, rev_unit. cbn [lstrip_by].
  replace (utf8_bytes [c]) with (utf8_char c) by (unfold utf8_bytes; cbn; by rewrite app_nil_r).
  destruct (utf8_char_space c) as [E|(Hc & Hn & Hs)].
  - rewrite E, rev_unit. cbn [lstrip_by]. destruct (is_space c); [done|]. cbn [rev].
    rewrite !rev_involutive, utf8_bytes_app. do 2 f_equal. unfold utf8_bytes. cbn. by rewrite E.
  - rewrite Hc, rev_app_distr, lstrip_by_none.
    + cbn [rev]. rewrite rev_app_distr, !rev_involutive, utf8_bytes_app. f_equal.
      unfold utf8_bytes. cbn. by rewrite app_nil_r.
    + intros E. apply Hn. by rewrite <- (rev_involutive (utf8_char c)), E.
    + apply Forall_rev, Hs.
Qed.

Lemma strip_utf8 s : strip (utf8_bytes s) = utf8_bytes (strip s).
Proof.
  change (rstrip (lstrip_by is_space (utf8_bytes s)) = utf8_bytes (rstrip (lstrip_by is_space s))).
  by rewrite lstrip_utf8, rstrip_utf8.
Qed.

Lemma lstrip_scalars s : scalars s = true → scalars (lstrip_by is_space s) = true.
Proof.
  destruct (lstrip_by_suffix is_space s) as (t & E & _). rewrite E at 1. unfold scalars.
  rewrite forallb_app. by intros [_ H]%andb_prop.
Qed.
Lemma rev_scalars s : scalars (rev s) = scalars s.
Proof. unfold scalars. induction s as [|c s IH]; [done|]. cbn. rewrite forallb_app, IH. cbn. by rewrite andb_true_r, andb_comm. Qed.

Lemma strip_scalars s : scalars s = true → scalars (strip s) = true.
Proof.
  intros H. unfold strip, strip_by, rstrip_by. rewrite rev_scalars. apply lstrip_scalars.
  rewrite rev_scalars. by apply lstrip_scalars.
Qed.

Section store.
Context {W : Type} {mem : Memory}.
Variable popen : list pystr → M W (Z * bytes * bytes).
Variable environ : dict pystr.

(** The documented behaviour of the client on one node: after a successful [set],
    a [get] with the same credentials prints the data and the end of a line. *)
Definition client_keeps (node v : pystr) (user password : pyval) : Prop :=
  ∀ force w out err w1,
    popen (argv_of environ #"set" node (PyStr v) force user password) w = (Ok (0%Z, out, err), w1) →
    ∃ w2, popen (argv_of environ #"get" node PyNone false user password) w1 =
      (Ok (0%Z, utf8_bytes v ++ [10%N], []), w2).

(** The command a request of one of the four methods runs. *)
Lemma decide_execute_method m p hs body url cmd b d : startswith #"/esdc" p = true → urlparse p = Ok url →
  dict_get #"cmd" (parse_qs (u_query url)) = None → dict_get m method_to_zk_command = Some cmd →
  received hs body = Some b → body_value b = Ok (PyDict d) →
  decide_request environ m p hs body =
    match request_argv environ cmd (u_path url) hs d with
    | Ok argv => Execute argv
    | Raise (ValidationError attr text status) => Reject status [(attr, PyStr text)]
    | Raise _ => ServerError
    end.
Proof.
  intros Hp Hu Hq Hm Hr Hb. unfold decide_request, decide_zk. rewrite Hp, Hu.
  assert (valid_command (request_command (parse_qs (u_query url)) (Some m)) = Some cmd) as ->; [|by rewrite Hr, Hb].
  unfold request_command. rewrite Hq. cbn [mbind option_bind]. rewrite Hm.
  unfold method_to_zk_command in Hm. cbn in Hm.
  repeat (case_bool_decide; [injection Hm as <-; by vm_compute|]). done.
Qed.

(** The report of a client that printed a text. *)
Lemma report_text v : scalars v = true →
  report (Ok (0%Z, utf8_bytes v ++ [10%N], [])) = Ok (ZkResult 0 (strip v) []).
Proof.
  intros Hv%strip_scalars. unfold report. cbn [mbind outcome_bind].
  rewrite strip_newline, strip_utf8, decode_utf8_bytes; [done|].
  unfold scalars in Hv. by apply forallb_Forall.
Qed.

(** The answer to a request whose command has run, and the one with status 200. *)
Lemma service_status d w evs cmds r w1 : service popen d w = (r, evs, cmds, w1) → Status 200 ∈ evs →
  (∃ data, d = Reject 200 data) ∨
  ∃ argv out err, d = Execute argv ∧ popen argv w = (Ok (0%Z, out, err), w1).
Proof.
  destruct d as [st data| |argv]; cbn [service].
  - intros [= <- <- <- <-] Hin. left. exists data. unfold json_response in Hin.
    rewrite !elem_of_cons, elem_of_nil in Hin. naive_solver.
  - intros [= <- <- <- <-] Hin%list_elem_of_singleton. discriminate.
  - destruct (popen argv w) as [rr w'] eqn:E. destruct (report rr) as [res|e] eqn:Er.
    + destruct (report_status res) as [st|e] eqn:Es; intros [= <- <- <- <-] Hin.
      * right. unfold json_response in Hin. rewrite !elem_of_cons, elem_of_nil in Hin.
        assert (st = 200%Z) as -> by naive_solver. destruct rr as [[[rc out] err]|e]; [|done].
        exists argv, out, err. split; [done|].
        unfold report in Er. cbn [mbind outcome_bind] in Er. destruct (decode Strict (strip out)); [|done].
        cbn [mbind outcome_bind] in Er. destruct (decode Strict (strip err)); [|done]. cbn in Er.
        injection Er as <-. unfold report_status in Es. cbn [returncode res_stderr] in Es.
        destruct (Z.eqb_spec rc 0); [by subst|]. by destruct a0.
      * by apply list_elem_of_singleton in Hin.
    + destruct (is_Exception e); intros [= <- <- <- <-] Hin; [by apply list_elem_of_singleton in Hin|by apply not_elem_of_nil in Hin].
Qed.

(** One turn of the server, by the contract of the service. *)
Lemma serve_one_service m p hs body s evs cmds w1 : popen_external popen → m ∈ verbs →
  service popen (decide_request environ m p hs body) (world s) = (Ok tt, evs, cmds, w1) →
  serve_one popen environ ESDCZKRESTRequestHandler (Request m p hs body) s =
    (Ok tt, Server w1 (replies s ++ [evs]) (run_commands s ++ cmds) (listening s)).
Proof.
  intros He Hm Hs. pose proof (esdc_service popen environ m p hs body (world s) He Hm) as E. rewrite Hs in E.
  unfold effect_of in E. unfold serve_one. destruct (serve _ _ _ _ _) as [r h]. cbn [fst snd] in E.
  by injection E as -> -> -> ->.
Qed.

(** The response to a [get] that has found a text. *)
Definition found_response (v : pystr) (evs : list wevent) : Prop :=
  ∃ rb, evs = [Status 200; Header #"Content-Type" #"application/json"; EndHeaders; Body rb] ∧
    loads3 rb = Ok (PyDict [(#"returncode", PyInt 0); (#"stdout", PyStr v); (#"stderr", PyStr [])]).

Lemma found_text v : scalars v = true → found_response v (json_response (res_json (ZkResult 0 v [])) 200).
Proof.
  intros Hv. eexists. split; [reflexivity|]. apply (loads3_dumps (PyDict (res_json (ZkResult 0 v [])))).
  unfold res_json. cbn [json_ok forallb keys map fst snd returncode res_stdout res_stderr]. rewrite Hv. by vm_compute.
Qed.

Lemma request_argv_ok cmd node hs d argv : request_argv environ cmd node hs d = Ok argv →
  argv = argv_of environ cmd node (dict_get_default #"data" PyNone d)
    (truthy (dict_get_default #"force" (PyBool false) d))
    (of_opt_str (header_get #"zk-username" hs)) (of_opt_str (header_get #"zk-password" hs)) ∧
  request_argv environ #"get" node hs [] = Ok (argv_of environ #"get" node PyNone false
    (of_opt_str (header_get #"zk-username" hs)) (of_opt_str (header_get #"zk-password" hs))).
Proof.
  unfold request_argv. intros (-> & Hu & Hp & Hn & _)%zk_argv_ok. split; [done|].
  apply zk_argv_ok. split_and!; try done. by left.
Qed.

(** C7: what a PUT request stores, a GET request for the same path gives back,
    but for white space at its ends.  If the client keeps what it is given, and
    the data is text without surrogates, then the server answers both requests,
    and when the first is answered with status 200, the second is answered with
    status 200 and a JSON body that holds the data without the white space it
    starts and ends with, which is lost; so exactly the data if there is none. *)
Theorem put_then_get p url hs hs' body b d v w : popen_external popen → popen_fails_normally popen →
  startswith #"/esdc" p = true → urlparse p = Ok url → dict_get #"cmd" (parse_qs (u_query url)) = None →
  received hs body = Some b → body_value b = Ok (PyDict d) → dict_get #"data" d = Some (PyStr v) →
  received hs' [] = Some [] → header_get #"zk-username" hs' = header_get #"zk-username" hs →
  header_get #"zk-password" hs' = header_get #"zk-password" hs →
  scalars v = true →
  client_keeps (u_path url) v (of_opt_str (header_get #"zk-username" hs)) (of_opt_str (header_get #"zk-password" hs)) →
  ∃ put get cmds w', serve_forever popen environ ESDCZKRESTRequestHandler
      [Request #"PUT" p hs body; Request #"GET" p hs' []] (Server w [] [] true)
      = (Ok Waiting, Server w' [put; get] cmds true) ∧
    (Status 200 ∈ put → found_response (strip v) get).
Proof.
  intros He Hf Hp Hu Hq Hr Hb Hd Hr' Hus Hpw Hv Hk.
  assert (#"PUT" ∈ verbs ∧ #"GET" ∈ verbs) as [Hm1 Hm2] by (split; apply (bool_decide_unpack _); by vm_compute).
  pose proof (decide_execute_method #"PUT" p hs body url #"set" b d Hp Hu Hq eq_refl Hr Hb) as D1.
  pose proof (decide_execute_method #"GET" p hs' [] url #"get" [] [] Hp Hu Hq eq_refl Hr' eq_refl) as D2.
  destruct (service_response popen (decide_request environ #"PUT" p hs body) w Hf) as (put & c1 & w1 & E1 & _).
  destruct (service_response popen (decide_request environ #"GET" p hs' []) w1 Hf) as (get & c2 & w2 & E2 & _).
  exists put, get, (c1 ++ c2), w2. split.
  { unfold serve_forever. cbn [for_each]. rewrite bind_assoc.
    rewrite (bind_ok _ _ _ _ _ (serve_one_service _ _ _ _ (Server w [] [] true) _ _ _ He Hm1 E1)), bind_assoc.
    by rewrite (bind_ok _ _ _ _ _ (serve_one_service _ _ _ _ (Server w1 [put] c1 true) _ _ _ He Hm2 E2)). }
  intros H200. destruct (service_status _ _ _ _ _ _ E1 H200) as [[data Ed]|(argv & out & err & Ed & Ep)]; rewrite D1 in Ed.
  - destruct (request_argv environ #"set" _ hs d) as [argv|e] eqn:Ea; [done|].
    apply (zk_argv_error popen) in Ea as (a & t & st & -> & _ & Hin). injection Ed as -> _.
    rewrite !elem_of_cons, elem_of_nil in Hin. naive_solver.
  - destruct (request_argv environ #"set" _ hs d) as [argv'|[]] eqn:Ea; try done. injection Ed as ->.
    apply request_argv_ok in Ea as [-> Eg]. unfold dict_get_default in Ep at 1. rewrite Hd in Ep.
    destruct (Hk _ _ _ _ _ Ep) as [w3 Eget]. unfold request_argv in D2, Eg. rewrite Hus, Hpw, Eg in D2.
    rewrite D2 in E2. cbn [service] in E2. rewrite Eget, (report_text v Hv) in E2. cbn in E2.
    injection E2 as <- _ _. by apply found_text, strip_scalars.
Qed.
End store.

(** * A client that stores text *)

#[local] Existing Instance demo_memory.

Definition keep_client (argv : list pystr) : M (dict pystr) (Z * bytes * bytes) := λ store,
  match client_args argv with
  | [c; n] =>
      if c =s #"get" then
        match dict_get n store with
        | Some v => (Ok (0%Z, utf8_bytes v ++ [10%N], []), store)
        | None => (Ok (1%Z, [], #"node does not exist" ++ [10%N]), store)
        end
      else (Ok (2%Z, [], #"unknown command"), store)
  | [c; n; v] =>
      if c =s #"set" then
        if dict_mem n store then (Ok (0%Z, [], []), dict_set n v store)
        else (Ok (1%Z, [], #"node does not exist" ++ [10%N]), store)
      else (Ok (2%Z, [], #"unknown command"), store)
  | _ => (Raise (OSError #"usage"), store)
  end.

Lemma keep_client_raises argv w e w' : keep_client argv w = (Raise e, w') → e = OSError #"usage".
Proof.
  unfold keep_client. destruct (client_args argv) as [|c [|n [|v []]]]; try (by intros [= <- <-]).
  - case_bool_decide; [destruct (dict_get n w)|]; done.
  - case_bool_decide; [destruct (dict_mem n w)|]; done.
Qed.

Lemma keep_client_keeps n v : client_keeps keep_client [] n v PyNone PyNone.
Proof.
  intros force w out err w1. unfold keep_client. replace (client_args (argv_of [] #"set" n (PyStr v) force PyNone PyNone))
    with [#"set"; n; v] by (by destruct force). cbv beta iota. change (#"set" =s #"set") with true. cbv iota.
  destruct (dict_mem n w); [|done]. intros [= <- <- <-]. exists (dict_set n v w).
  change (client_args (argv_of [] #"get" n PyNone false PyNone PyNone)) with [#"get"; n]. cbv beta iota.
  change (#"get" =s #"get") with true. cbv iota. by rewrite dict_get_set_eq.
Qed.

Definition demo_data : pystr := [32; 252; 32; 8364; 9]%N.
Definition demo_body : bytes := dumps (PyDict [(#"data", PyStr demo_data)]).

Lemma put_then_get_witness :
  ∃ put get cmds w', serve_forever keep_client [] ESDCZKRESTRequestHandler
      [Request #"PUT" #"/esdc/vm" [(#"Content-Length", #"28")] demo_body; Request #"GET" #"/esdc/vm" [] []]
      (Server [(#"/esdc/vm", #"42")] [] [] true)
      = (Ok Waiting, Server w' [put; get] cmds true) ∧ (Status 200 ∈ put → found_response [252; 32; 8364]%N get).
Proof.
  refine (put_then_get keep_client [] #"/esdc/vm" _ [(#"Content-Length", #"28")] [] demo_body demo_body
    [(#"data", PyStr demo_data)] demo_data _ _ _ eq_refl _ _ _ _ _ _ _ _ _ _).
  - intros argv w a t st w' E. by apply keep_client_raises in E.
  - intros argv w e w' E. by rewrite (keep_client_raises _ _ _ _ E).
  - vm_compute. reflexivity.
  - vm_compute. reflexivity.
  - vm_compute. reflexivity.
  - vm_compute. reflexivity.
  - vm_compute. reflexivity.
  - vm_compute. reflexivity.
  - vm_compute. reflexivity.
  - vm_compute. reflexivity.
  - vm_compute. reflexivity.
  - apply keep_client_keeps.
Defined.

(** In that run the first request is answered with status 200. *)
Example put_answered :
  match (serve_forever keep_client [] ESDCZKRESTRequestHandler
    [Request #"PUT" #"/esdc/vm" [(#"Content-Length", #"28")] demo_body] (Server [(#"/esdc/vm", #"42")] [] [] true)).2
  with Server _ [Status 200 :: _] _ _ => true | _ => false end = true.
Proof. vm_compute. reflexivity. Qed.
