(* ===== verification/PyHook.v ===== *)
(** An [object_hook] that gives every dictionary back or fails with one
    exception: [json.loads] with the hook agrees with [json.loads] without it,
    up to that exception. *)
From S2P Require Export PyJson.
From Stdlib Require Import NArith ZArith Lia.

Section hook.
Variable lim : option nat.
Variable exc : exn.
Variable hook : dict pyval → outcome pyval.
Hypothesis Hook : ∀ d, hook d = Ok (PyDict d) ∨ hook d = Raise exc.

Let plain : dict pyval → outcome pyval := λ d, Ok (PyDict d).

Definition agree {A} (m1 m2 : outcome A) : Prop := m1 = m2 ∨ m1 = Raise exc.

Lemma agree_refl {A} (m : outcome A) : agree m m.
Proof. by left. Qed.

Lemma agree_bind {A B} (m1 m2 : outcome A) (f g : A → outcome B) :
  agree m1 m2 → (∀ a, agree (f a) (g a)) → agree (m1 ≫= f) (m2 ≫= g).
Proof. intros [->| ->] Hf; [destruct m2; [apply Hf|by left]|by right]. Qed.

Lemma agree_hook d : agree (hook d) (plain d).
Proof. destruct (Hook d) as [-> | ->]; [by left|by right]. Qed.

(** One step of the agreement, by the shape of the code. *)
Ltac agree_tac :=
  first
    [ apply agree_refl
    | assumption
    | apply agree_hook
    | match goal with H : ∀ s, agree _ _ |- agree (_ _) (_ _) => apply H end
    | apply agree_bind; [|intros ?]
    | match goal with |- agree (match ?x with _ => _ end) _ => destruct x end ].

Lemma value_step_agree i1 i2 m1 m2 s :
  (∀ s, agree (i1 s) (i2 s)) → (∀ s, agree (m1 s) (m2 s)) →
  agree (value_step lim hook i1 m1 s) (value_step lim plain i2 m2 s).
Proof. intros Hi Hm. unfold value_step. repeat agree_tac. Qed.

Lemma items_step_agree v1 v2 i1 i2 s :
  (∀ s, agree (v1 s) (v2 s)) → (∀ s, agree (i1 s) (i2 s)) →
  agree (items_step v1 i1 s) (items_step v2 i2 s).
Proof. intros Hv Hi. unfold items_step. repeat agree_tac. Qed.

Lemma members_step_agree v1 v2 m1 m2 s :
  (∀ s, agree (v1 s) (v2 s)) → (∀ s, agree (m1 s) (m2 s)) →
  agree (members_step v1 m1 s) (members_step v2 m2 s).
Proof. intros Hv Hm. unfold members_step. repeat agree_tac. Qed.

Lemma scan_agree n :
  (∀ s, agree (scan_value lim hook n s) (scan_value lim plain n s)) ∧
  (∀ s, agree (scan_items lim hook n s) (scan_items lim plain n s)) ∧
  (∀ s, agree (scan_members lim hook n s) (scan_members lim plain n s)).
Proof.
  induction n as [|n (IHv & IHi & IHm)]; [split_and!; intros s; apply agree_refl|].
  split_and!; intros s.
  - rewrite !scan_value_S. by apply value_step_agree.
  - rewrite !scan_items_S. by apply items_step_agree.
  - rewrite !scan_members_S. by apply members_step_agree.
Qed.

Lemma loads_with_agree s : agree (loads_with lim hook s) (loads_with lim plain s).
Proof. unfold loads_with. apply agree_bind; [apply scan_agree|]. intros [v r]. apply agree_refl. Qed.

(** A dictionary at the top has passed the hook. *)
Lemma scan_number_not_dict s d r : scan_number lim s ≠ Ok (PyDict d, r).
Proof.
  unfold scan_number. destruct (match s with [] => _ | _ => _ end) as [neg s0].
  destruct (scan_int s0) as [[i s1]|]; [|done]. destruct (scan_frac s1) as [fr s2], (scan_exp s2) as [e s3].
  destruct fr, e; try done. unfold int_of_digits. by destruct (match lim with Some m => _ | None => _ end).
Qed.

Lemma hook_dict d v : hook d = Ok v → v = PyDict d.
Proof. destruct (Hook d) as [-> | ->]; [by intros [= <-]|done]. Qed.

Lemma value_step_dict i m s d r :
  value_step lim hook i m s = Ok (PyDict d, r) → hook d = Ok (PyDict d).
Proof.
  unfold value_step. destruct s as [|c s]; [done|].
  destruct (N.eqb c 34); [destruct (scan_string _ s) as [[]|]; done|].
  destruct (N.eqb c 123).
  { destruct (eat 125 (skip_ws s)).
    - destruct (hook []) eqn:E; cbn; [|done]. intros [= -> ->]. pose proof (hook_dict _ _ E). congruence.
    - destruct (m (skip_ws s)) as [[l r']|]; cbn; [|done].
      destruct (hook (dict_of_pairs l)) eqn:E; cbn; [|done]. intros [= -> ->].
      pose proof (hook_dict _ _ E). congruence. }
  destruct (N.eqb c 91).
  { destruct (eat 93 (skip_ws s)); [done|]. by destruct (i (skip_ws s)) as [[]|]. }
  repeat (match goal with |- (if ?b then _ else _) = _ → _ => destruct b; [done|] end).
  intros E. by apply scan_number_not_dict in E.
Qed.

Lemma loads_with_dict s d : loads_with lim hook s = Ok (PyDict d) → hook d = Ok (PyDict d).
Proof.
  unfold loads_with. replace (2 * length (skip_ws s) + 2) with (S (2 * length (skip_ws s) + 1)) by lia.
  rewrite scan_value_S. destruct (value_step _ _ _ _ _) as [[v r]|] eqn:E; cbn; [|done].
  destruct (skip_ws r); [|done]. intros [= ->]. by eapply value_step_dict.
Qed.
End hook.
