(* ===== verification/PyArgparse.v ===== *)
(** [argparse.ArgumentParser.parse_args] of Python 2.7, for parsers whose options
    take no, one or at most one argument and whose positional arguments take one.

    The texts of the usage, of the help and of the errors are not modelled: an
    error ends the program with the exit code 2, the help with 0. *)
From S2P Require Export PyVal.
From Stdlib Require Import NArith ZArith Lia.

(** * Options *)

(** [action='help'], [nargs=None] and [nargs='?'] *)
Inductive arity := Help | ExactlyOne | AtMostOne.

Record option_action := OptionAction {
  o_strings : list pystr;
  o_dest : pystr;
  o_arity : arity;
  o_default : pyval
}.

(** How an argument is read: as a value, as the mark [--], or as an option, known
    or not, with the argument after its [=]. *)
Inductive arg_class :=
| ArgValue
| ArgDashes
| ArgOption (action : option option_action) (name : pystr) (explicit : option pystr).

Abbreviation items := (list (pystr * arg_class)).

Definition is_option (x : pystr * arg_class) : bool := match x.2 with ArgOption _ _ _ => true | _ => false end.
Definition is_dashes (x : pystr * arg_class) : bool := match x.2 with ArgDashes => true | _ => false end.

(** [^-\d+$|^-\d*\.\d+$], where [$] may be followed by a line feed. *)
Definition end_of_line (s : pystr) : bool := bool_decide (s = [] ∨ s = [10%N]).
Fixpoint digits_span (s : pystr) : nat * pystr :=
  match s with
  | c :: s' => if is_digit c then let '(n, r) := digits_span s' in (S n, r) else (0, s)
  | [] => (0, [])
  end.
Definition is_negative_number (s : pystr) : bool :=
  startswith #"-" s &&
  let '(n, r) := digits_span (drop 1 s) in
  (negb (Nat.eqb n 0) && end_of_line r) ||
  (startswith #"." r && let '(k, r') := digits_span (drop 1 r) in negb (Nat.eqb k 0) && end_of_line r').

Section argparse.
Context {S : Type}.
Variable options : list option_action.
(** The type of a value, by the destination of its argument; a failing conversion
    has become [error]. *)
Variable get_value : pystr → pystr → M S pyval.
Variable print_help : M S unit.

(** [parser.error(...)] *)
Definition error {A} : M S A := raise (SystemExit 2).

(** [_option_string_actions] *)
Definition option_strings : list (pystr * option_action) :=
  options ≫= λ o, map (λ s, (s, o)) (o_strings o).
Definition find_option (s : pystr) : option option_action :=
  snd <$> List.find (λ x, x.1 =s s) option_strings.

(** [_get_option_tuples]: what an abbreviated option, or a short option with its
    argument behind it, may mean. *)
Definition option_tuples (arg : pystr) : list (option_action * pystr * option pystr) :=
  if startswith #"--" arg then
    let '(prefix, explicit) := match split1 61 arg with Some (p, e) => (p, Some e) | None => (arg, None) end in
    omap (λ x, if startswith prefix x.1 then Some (x.2, x.1, explicit) else None) option_strings
  else
    omap (λ x, if x.1 =s take 2 arg then Some (x.2, x.1, Some (drop 2 arg))
               else if startswith arg x.1 then Some (x.2, x.1, None) else None) option_strings.

(** [_parse_optional]; [None] is an ambiguous option. *)
Definition classify_one (arg : pystr) : option arg_class :=
  if negb (startswith #"-" arg) then Some ArgValue
  else
    match find_option arg with
    | Some o => Some (ArgOption (Some o) arg None)
    | None =>
        if Nat.eqb (length arg) 1 then Some ArgValue
        else
          match split1 61 arg ≫= λ pe, (λ o, (o, pe.1, pe.2)) <$> find_option pe.1 with
          | Some (o, p, e) => Some (ArgOption (Some o) p (Some e))
          | None =>
              match option_tuples arg with
              | _ :: _ :: _ => None
              | [(o, s, e)] => Some (ArgOption (Some o) s e)
              | [] =>
                  if is_negative_number arg || char_in 32 arg then Some ArgValue
                  else Some (ArgOption None arg None)
              end
          end
    end.

(** The classes of all arguments: after [--] there are only values. *)
Fixpoint classify (args : list pystr) : option items :=
  match args with
  | [] => Some []
  | arg :: l =>
      if arg =s #"--" then Some ((arg, ArgDashes) :: map (λ a, (a, ArgValue)) l)
      else
        c ← classify_one arg;
        l' ← classify l;
        Some ((arg, c) :: l')
  end.

(** * Values *)

(** [arg_strings.remove('--')] *)
Fixpoint remove_dashes (args : list pystr) : list pystr :=
  match args with
  | [] => []
  | a :: l => if a =s #"--" then l else a :: remove_dashes l
  end.

Fixpoint get_values (dest : pystr) (args : list pystr) : M S (list pyval) :=
  match args with
  | [] => mret []
  | a :: l => v ← get_value dest a; vs ← get_values dest l; mret (v :: vs)
  end.

(** [_get_values] *)
Definition arg_value (a : arity) (dest : pystr) (args : list pystr) : M S pyval :=
  match a, remove_dashes args with
  | AtMostOne, [] => mret PyNone
  | _, [x] => get_value dest x
  | _, l => vs ← get_values dest l; mret (PyList vs)
  end.

(** * Positional arguments *)

(** The arguments of the next positional argument: a value with the marks around
    it. *)
Fixpoint span_items (p : pystr * arg_class → bool) (l : items) : items * items :=
  match l with
  | x :: l' => if p x then let '(a, r) := span_items p l' in (x :: a, r) else ([], l)
  | [] => ([], [])
  end.

Definition take_positional (l : items) : option (list pystr * items) :=
  let '(d, r) := span_items is_dashes l in
  match r with
  | (a, ArgValue) :: r' => let '(d', r'') := span_items is_dashes r' in Some (map fst d ++ [a] ++ map fst d', r'')
  | _ => None
  end.

(** [consume_positionals]: as many as there are arguments for. *)
Fixpoint consume_positionals (ps : list pystr) (ns : dict pyval) (l : items) :
    M S (list pystr * dict pyval * items) :=
  match ps with
  | [] => mret ([], ns, l)
  | p :: ps' =>
      match take_positional l with
      | Some (args, l') =>
          v ← arg_value ExactlyOne p args;
          consume_positionals ps' (dict_set p v ns) l'
      | None => mret (ps, ns, l)
      end
  end.

(** * Options with their arguments *)

(** The arguments an option takes from what follows it. *)
Definition match_args (a : arity) (l : items) : option (list pystr * items) :=
  match a, l with
  | Help, _ => Some ([], l)
  | _, (x, ArgValue) :: l' => Some ([x], l')
  | ExactlyOne, _ => None
  | AtMostOne, _ => Some ([], l)
  end.

(** An option with text behind it: its argument or, behind a short option that
    takes none, more short options.  The boolean tells whether the help has been
    asked for on the way. *)
Fixpoint resolve_explicit (explicit : pystr) (help : bool) (o : option_action) (name : pystr) (l : items) :
    outcome (bool * option_action * list pystr * items) :=
  match o_arity o with
  | Help =>
      if bool_decide (name !! 1 = Some 45%N) then Raise (SystemExit 2)
      else
        match explicit with
        | [] => Raise IndexError
        | c :: explicit' =>
            match find_option [45%N; c] with
            | Some o' =>
                match explicit' with
                | [] =>
                    '(args, l') ← or_raise (SystemExit 2) (match_args (o_arity o') l);
                    mret (true, o', args, l')
                | _ => resolve_explicit explicit' true o' [45%N; c] l
                end
            | None => Raise (SystemExit 2)
            end
        end
  | _ => mret (help, o, [explicit], l)
  end.

Definition resolve (o : option_action) (name : pystr) (explicit : option pystr) (l : items) :
    outcome (bool * option_action * list pystr * items) :=
  match explicit with
  | Some e => resolve_explicit e false o name l
  | None => '(args, l') ← or_raise (SystemExit 2) (match_args (o_arity o) l); mret (false, o, args, l')
  end.

Definition show_help {A} : M S A := print_help;; raise (SystemExit 0).

(** [consume_optional], for a known option *)
Definition consume_optional (o : option_action) (name : pystr) (explicit : option pystr)
    (ns : dict pyval) (l : items) : M S (dict pyval * items) :=
  '(help, o', args, l') ← lift (resolve o name explicit l);
  if (help : bool) then show_help
  else
    match o_arity o' with
    | Help => show_help
    | a => v ← arg_value a (o_dest o') args; mret (dict_set (o_dest o') v ns, l')
    end.

(** * All arguments *)

(** The positional arguments in front of the next option. *)
Definition positionals_before (ps : list pystr) (ns : dict pyval) (l : items) :
    M S (list pystr * dict pyval * items) :=
  match l with
  | x :: _ => if is_option x then mret (ps, ns, l) else consume_positionals ps ns l
  | [] => mret (ps, ns, l)
  end.

(** One turn of the loop: the positional arguments before the next option or, if
    there are none to take, that option. *)
Definition consume_step (ps : list pystr) (ns : dict pyval) (extras : list pystr) (l : items) :
    M S (list pystr * dict pyval * list pystr * items) :=
  '(ps', ns', l') ← positionals_before ps ns l;
  if Nat.ltb (length l') (length l) then mret (ps', ns', extras, l')
  else
    let '(skipped, r) := span_items (λ x, negb (is_option x)) l' in
    let extras := extras ++ map fst skipped in
    match r with
    | (arg, ArgOption None _ _) :: r' => mret (ps', ns', extras ++ [arg], r')
    | (_, ArgOption (Some o) name explicit) :: r' =>
        '(ns'', r'') ← consume_optional o name explicit ns' r';
        mret (ps', ns'', extras, r'')
    | _ => mret (ps', ns', extras, r)
    end.

Fixpoint consume (fuel : nat) (ps : list pystr) (ns : dict pyval) (extras : list pystr) (l : items) :
    M S (list pystr * dict pyval * list pystr) :=
  if existsb is_option l then
    match fuel with
    | O => raise OutOfFuel
    | Datatypes.S f =>
        '(ps', ns', extras', l') ← consume_step ps ns extras l;
        consume f ps' ns' extras' l'
    end
  else
    '(ps', ns', l') ← consume_positionals ps ns l;
    mret (ps', ns', extras ++ map fst l').

(** The defaults of the options that have not been seen; text is converted. *)
Fixpoint add_defaults (os : list option_action) (ns : dict pyval) : M S (dict pyval) :=
  match os with
  | [] => mret ns
  | o :: os' =>
      match o_arity o with
      | Help => add_defaults os' ns
      | _ =>
          if dict_mem (o_dest o) ns then add_defaults os' ns
          else
            v ← (match o_default o with PyStr s => get_value (o_dest o) s | v => mret v end);
            add_defaults os' (dict_set (o_dest o) v ns)
      end
  end.

Definition parse_args (positionals args : list pystr) : M S (dict pyval) :=
  l ← (match classify args with Some l => mret l | None => error end);
  '(ps, ns, extras) ← consume (length l) positionals [] [] l;
  match ps with
  | [] =>
      ns ← add_defaults options ns;
      match extras with [] => mret ns | _ => error end
  | _ => error
  end.
End argparse.

(** * The loop ends *)

Section termination.
Context {S : Type}.
Variable options : list option_action.
Variable get_value : pystr → pystr → M S pyval.
Variable print_help : M S unit.
Hypothesis value_never : ∀ dest s, never OutOfFuel (get_value dest s).
Hypothesis help_never : never OutOfFuel print_help.

Lemma arg_value_never a dest args : never OutOfFuel (arg_value get_value a dest args).
Proof.
  assert (∀ l, never OutOfFuel (get_values get_value dest l)) as Hv
    by (intros l; induction l as [|x l IH]; cbn [get_values]; never_steps).
  unfold arg_value. never_steps.
Qed.

Lemma consume_positionals_never ps ns l : never OutOfFuel (consume_positionals get_value ps ns l).
Proof.
  pose proof arg_value_never. revert ns l. induction ps as [|p ps IH]; intros ns l; cbn [consume_positionals]; never_steps.
Qed.

Lemma resolve_never o name e l : resolve options o name e l ≠ Raise OutOfFuel.
Proof.
  destruct e as [e|]; cbn; [|by destruct (match_args (o_arity o) l) as [[]|]].
  generalize false. revert o name. induction e as [|c e IH]; intros o name help; cbn; destruct (o_arity o); try done;
    case_bool_decide; try done. destruct (find_option options _) as [o'|]; [|done].
  destruct e; [by destruct (match_args (o_arity o') l) as [[]|]|]. apply IH.
Qed.

Lemma consume_optional_never o name e ns l :
  never OutOfFuel (consume_optional options get_value print_help o name e ns l).
Proof.
  pose proof arg_value_never. unfold consume_optional, show_help.
  apply never_bind; [apply never_lift, resolve_never|]. never_steps.
Qed.

(** How much is left after a step. *)
Lemma span_items_length p l a r : span_items p l = (a, r) → length l = length a + length r ∧
  match r with x :: _ => p x = false | [] => forallb p l = true end.
Proof.
  revert a. induction l as [|x l IH]; intros a; cbn; [by intros [= <- <-]|].
  destruct (p x) eqn:Ep.
  - destruct (span_items p l) as [b t]. intros [= <- <-]. destruct (IH b eq_refl) as [-> Hr]. by split.
  - by intros [= <- <-].
Qed.

Lemma take_positional_length l args l' : take_positional l = Some (args, l') → length l' < length l.
Proof.
  unfold take_positional. destruct (span_items is_dashes l) as [d r] eqn:E. apply span_items_length in E as [E _].
  destruct r as [|[x []] r]; try done. destruct (span_items is_dashes r) as [d' r'] eqn:E'.
  apply span_items_length in E' as [E' _]. intros [= _ <-]. cbn in *. lia.
Qed.

Lemma consume_positionals_length ps ns l s ps' ns' l' s' :
  consume_positionals get_value ps ns l s = (Ok (ps', ns', l'), s') → length l' ≤ length l.
Proof.
  revert ns l s. induction ps as [|p ps IH]; intros ns l s; cbn [consume_positionals]; [by intros [= <- <- <-]|].
  destruct (take_positional l) as [[args r]|] eqn:E; [|by intros [= <- <- <-]].
  apply take_positional_length in E. unfold mbind, M_bind.
  destruct (arg_value get_value _ _ _ s) as [[v|] s1]; [|done]. intros H. apply IH in H. lia.
Qed.

Lemma match_args_length a l args l' : match_args a l = Some (args, l') → length l' ≤ length l.
Proof. destruct a, l as [|[x []] l]; cbn; intros [= <- <-]; cbn; lia. Qed.

Lemma resolve_length o name e l b o' args l' :
  resolve options o name e l = Ok (b, o', args, l') → length l' ≤ length l.
Proof.
  assert (∀ o x, (('(args, l') ← or_raise (SystemExit 2) (match_args (o_arity o) l); mret (x, o, args, l'))
    : outcome (bool * option_action * list pystr * items)) = Ok (b, o', args, l') → length l' ≤ length l) as Hm.
  { intros o1 x. destruct (match_args (o_arity o1) l) as [[a1 l1]|] eqn:E; [|done].
    apply match_args_length in E. cbn. by intros [= _ _ _ <-]. }
  destruct e as [e|]; [|apply Hm]. cbn [resolve]. generalize false. revert o name.
  induction e as [|c e IH]; intros o name help; cbn; destruct (o_arity o); try (by intros [= _ _ _ <-]);
    case_bool_decide; try done. destruct (find_option options _) as [o1|]; [|done]. destruct e; [apply Hm|apply IH].
Qed.

(** If nothing has been taken, nothing has changed. *)
Lemma consume_positionals_none ps ns l s ps' ns' l' s' :
  consume_positionals get_value ps ns l s = (Ok (ps', ns', l'), s') → length l ≤ length l' → l' = l.
Proof.
  destruct ps as [|p ps]; cbn [consume_positionals]; [by intros [= <- <- <-]|].
  destruct (take_positional l) as [[args r]|] eqn:E; [|by intros [= <- <- <-]].
  apply take_positional_length in E. unfold mbind, M_bind. destruct (arg_value get_value _ _ _ s) as [[v|] s1]; [|done].
  intros Hc. apply consume_positionals_length in Hc. lia.
Qed.

(** Every step of the loop takes something. *)
Lemma consume_step_shorter ps ns extras l s ps' ns' extras' l' s' : existsb is_option l = true →
  consume_step options get_value print_help ps ns extras l s = (Ok (ps', ns', extras', l'), s') →
  length l' < length l.
Proof.
  intros Hl. unfold consume_step. unfold mbind at 1, M_bind at 1.
  destruct (positionals_before get_value ps ns l s) as [[[[ps1 ns1] l1]|] s1] eqn:E; [|done].
  destruct (Nat.ltb_spec (length l1) (length l)) as [|Hge]; [by intros [= _ _ _ <- _]|].
  assert (l1 = l) as ->.
  { unfold positionals_before in E. destruct l as [|x l]; [by injection E|]. destruct (is_option x); [by injection E|].
    by eapply consume_positionals_none. }
  destruct (span_items _ l) as [sk r] eqn:Es. apply span_items_length in Es as [Es Hr].
  destruct r as [|[arg c] r].
  { exfalso. clear -Hl Hr. induction l as [|x l IH]; [done|]. cbn in Hl, Hr. by destruct (is_option x); [|apply IH]. }
  cbn in Es, Hr. destruct c as [| |[o|] name e]; try done; [|intros [= _ _ _ <- _]; lia].
  unfold consume_optional. unfold mbind, M_bind, lift.
  destruct (resolve options o name e r) as [[[[h o'] args] l2]|] eqn:Er; [|done]. apply resolve_length in Er.
  unfold show_help, mbind, M_bind. destruct h; [by destruct (print_help s1) as [[]]|].
  destruct (o_arity o'); [by destruct (print_help s1) as [[]]| |];
    (destruct (arg_value get_value _ _ _ s1) as [[v|] s2]; [|done]; intros [= _ _ _ <- _]; lia).
Qed.

Lemma consume_step_never ps ns extras l :
  never OutOfFuel (consume_step options get_value print_help ps ns extras l).
Proof.
  pose proof consume_positionals_never. pose proof consume_optional_never.
  unfold consume_step, positionals_before. never_steps.
Qed.

Lemma consume_never fuel ps ns extras l : length l ≤ fuel →
  never OutOfFuel (consume options get_value print_help fuel ps ns extras l).
Proof.
  revert ps ns extras l. induction fuel as [|f IH]; intros ps ns extras l Hf; cbn [consume];
    destruct (existsb is_option l) eqn:El.
  - destruct l; [done|cbn in Hf; lia].
  - pose proof consume_positionals_never. never_steps.
  - intros s. unfold mbind, M_bind.
    destruct (consume_step options get_value print_help ps ns extras l s) as [[[[[ps' ns'] extras'] l']|e] s'] eqn:E.
    + apply consume_step_shorter in E; [|done]. apply IH. lia.
    + pose proof (consume_step_never ps ns extras l s) as Hn. rewrite E in Hn. cbn in *. congruence.
  - pose proof consume_positionals_never. never_steps.
Qed.

(** Reading a command line ends, whatever it is. *)
Lemma parse_args_never positionals args :
  never OutOfFuel (parse_args options get_value print_help positionals args).
Proof.
  assert (∀ os ns, never OutOfFuel (add_defaults get_value os ns)) as Hd.
  { intros os. induction os as [|o os IH]; intros ns; cbn [add_defaults]; never_steps. }
  unfold parse_args, error. apply never_bind; [never_steps|]. intros l.
  apply never_bind; [by apply consume_never|]. never_steps.
Qed.
End termination.

(** * Options with arguments *)

(** A word that is not taken for an option. *)
Definition plain_arg (v : pystr) : bool := negb (startswith #"-" v) || (v =s #"-").

Lemma plain_arg_value options v : find_option options #"-" = None → plain_arg v = true →
  classify_one options v = Some ArgValue ∧ (v =s #"--") = false ∧ remove_dashes [v] = [v].
Proof.
  intros Hd Hv. unfold plain_arg in Hv. assert ((v =s #"--") = false) as Hn.
  { apply bool_decide_eq_false. intros ->. done. }
  cbn [remove_dashes]. rewrite Hn. split_and!; try done. unfold classify_one.
  destruct (startswith #"-" v); [|done]. cbn in Hv |- *. apply bool_decide_eq_true in Hv as ->. by rewrite Hd.
Qed.

Section settings.
Context {S : Type}.
Variable options : list option_action.
Variable get_value : pystr → pystr → M S pyval.
Variable print_help : M S unit.

(** An option with its argument: the word the option is written with, the option
    and the name of it that the word stands for, the argument, and whether the
    argument is part of that word or the next one. *)
Record setting := Setting {
  s_word : pystr;
  s_option : option_action;
  s_name : pystr;
  s_joined : bool;
  s_value : pystr
}.
Definition setting_ok (x : setting) : Prop :=
  classify_one options (s_word x) =
    Some (ArgOption (Some (s_option x)) (s_name x) (if s_joined x then Some (s_value x) else None)) ∧
  (s_word x =s #"--") = false ∧ o_arity (s_option x) ≠ Help ∧
  if s_joined x then (s_value x =s #"--") = false else plain_arg (s_value x) = true.

Definition setting_words (x : setting) : list pystr :=
  s_word x :: if s_joined x then [] else [s_value x].
Definition words (l : list setting) : list pystr := l ≫= setting_words.

Fixpoint apply_settings (l : list setting) (ns : dict pyval) : M S (dict pyval) :=
  match l with
  | [] => mret ns
  | x :: l' =>
      v ← get_value (o_dest (s_option x)) (s_value x);
      apply_settings l' (dict_set (o_dest (s_option x)) v ns)
  end.

Hypothesis dash_value : find_option options #"-" = None.

Definition setting_item (x : setting) : items :=
  (s_word x, ArgOption (Some (s_option x)) (s_name x) (if s_joined x then Some (s_value x) else None))
  :: if s_joined x then [] else [(s_value x, ArgValue)].
Definition setting_items (l : list setting) : items := l ≫= setting_item.

Lemma classify_settings l rest : Forall setting_ok l →
  classify options (words l ++ rest) = (r ← classify options rest; Some (setting_items l ++ r)).
Proof.
  induction 1 as [|x l (Hn & Hd & _ & Hv) _ IH].
  { change (words [] ++ rest) with rest. by destruct (classify options rest). }
  change (words (x :: l)) with (setting_words x ++ words l).
  change (setting_items (x :: l)) with (setting_item x ++ setting_items l).
  rewrite <- app_assoc. unfold setting_words, setting_item.
  destruct (s_joined x); cbn [app classify]; rewrite Hd, Hn.
  - rewrite IH. by destruct (classify options rest).
  - destruct (plain_arg_value options (s_value x) dash_value Hv) as (Ev & Hvd & _).
    rewrite Hvd, Ev, IH. by destruct (classify options rest).
Qed.

(** The argument of a setting is found and converted. *)
Lemma setting_resolves x rest : setting_ok x →
  resolve options (s_option x) (s_name x) (if s_joined x then Some (s_value x) else None)
    ((if s_joined x then [] else [(s_value x, ArgValue)]) ++ rest) =
  Ok (false, s_option x, [s_value x], rest).
Proof.
  intros (_ & _ & Ho & _). destruct x as [w [so sd [] df] n [] v]; cbn in *; try done; by destruct v.
Qed.

Lemma setting_value x a s : setting_ok x → a ≠ Help →
  arg_value get_value a (o_dest (s_option x)) [s_value x] s = get_value (o_dest (s_option x)) (s_value x) s.
Proof.
  intros (_ & _ & _ & Hv) Ha. unfold arg_value. assert (remove_dashes [s_value x] = [s_value x]) as ->; [|by destruct a].
  destruct (s_joined x); [cbn; by rewrite Hv|]. by apply (plain_arg_value options (s_value x) dash_value).
Qed.

Lemma setting_step x ps ns rest s : setting_ok x →
  consume_step options get_value print_help ps ns [] (setting_item x ++ rest) s =
    (v ← get_value (o_dest (s_option x)) (s_value x); mret (ps, dict_set (o_dest (s_option x)) v ns, [], rest)) s.
Proof.
  intros Hx. unfold consume_step, setting_item. cbn [app positionals_before is_option snd].
  rewrite ret_bind, Nat.ltb_irrefl. cbn [span_items is_option snd negb]. unfold consume_optional.
  rewrite (setting_resolves x rest Hx). pose proof Hx as (_ & _ & Ho & _). unfold mbind, M_bind, lift.
  destruct (o_arity (s_option x)) eqn:E; [done| |]; rewrite (setting_value x _ s Hx) by done;
    by destruct (get_value (o_dest (s_option x)) (s_value x) s) as [[]].
Qed.

Lemma consume_settings l fuel ps ns rest s : Forall setting_ok l → length (setting_items l ++ rest) ≤ fuel →
  consume options get_value print_help fuel ps ns [] (setting_items l ++ rest) s =
    (ns' ← apply_settings l ns; consume options get_value print_help (fuel - length l) ps ns' [] rest) s.
Proof.
  intros Hl. revert fuel ns s. induction Hl as [|x l Hx _ IH]; intros fuel ns s Hf.
  { cbn. by rewrite Nat.sub_0_r. }
  change (setting_items (x :: l)) with (setting_item x ++ setting_items l) in Hf |- *.
  rewrite <- app_assoc in Hf |- *. rewrite length_app in Hf.
  destruct fuel as [|fuel]; [cbn in Hf; lia|]. cbn [consume apply_settings].
  change (existsb is_option (setting_item x ++ setting_items l ++ rest)) with true. cbv iota.
  unfold mbind at 1, M_bind at 1. rewrite (setting_step x ps ns _ s Hx), bind_assoc. unfold mbind, M_bind.
  destruct (get_value (o_dest (s_option x)) (s_value x) s) as [[v|e] s']; [|done].
  unfold mret, M_ret. cbv beta iota. rewrite IH by (cbn in Hf; lia). reflexivity.
Qed.

Lemma take_value m l : take_positional ((m, ArgValue) :: setting_items l) = Some ([m], setting_items l).
Proof. destruct l as [|x l]; reflexivity. Qed.

Lemma consume_end fuel ns s : consume options get_value print_help fuel [] ns [] [] s = (Ok ([], ns, []), s).
Proof. by destruct fuel. Qed.

Lemma consume_value fuel m l p ns s : Forall setting_ok l → plain_arg m = true →
  length ((m, ArgValue) :: setting_items l) ≤ fuel →
  consume options get_value print_help fuel [p] ns [] ((m, ArgValue) :: setting_items l) s =
    (x ← get_value p m; ns' ← apply_settings l (dict_set p x ns); mret ([], ns', [])) s.
Proof.
  intros Hl Hm Hf. destruct (plain_arg_value options m dash_value Hm) as (_ & _ & Hmr).
  assert (∀ s, consume_positionals get_value [p] ns ((m, ArgValue) :: setting_items l) s =
    (x ← get_value p m; mret ([], dict_set p x ns, setting_items l)) s) as Ep.
  { clear s. intros s. cbn [consume_positionals]. rewrite take_value. unfold arg_value. by rewrite Hmr. }
  destruct l as [|x l].
  - destruct fuel as [|fuel]; [cbn in Hf; lia|]. cbn [consume existsb is_option snd orb].
    change (existsb is_option (setting_items [])) with false. cbv iota.
    unfold mbind at 1, M_bind at 1. rewrite Ep. unfold mbind, M_bind. by destruct (get_value p m s) as [[]].
  - destruct fuel as [|fuel]; [cbn in Hf; lia|]. cbn [consume].
    assert (existsb is_option ((m, ArgValue) :: setting_items (x :: l)) = true) as -> by done.
    assert (∀ s, consume_step options get_value print_help [p] ns [] ((m, ArgValue) :: setting_items (x :: l)) s =
      (v ← get_value p m; mret ([], dict_set p v ns, [], setting_items (x :: l))) s) as E.
    { clear s. intros s. unfold consume_step, positionals_before. cbn [is_option snd]. unfold mbind at 1, M_bind at 1.
      rewrite Ep. unfold mbind, M_bind. destruct (get_value p m s) as [[v|] s']; [|done].
      unfold mret, M_ret. cbv beta iota.
      by rewrite (proj2 (Nat.ltb_lt (length (setting_items (x :: l))) _)) by (cbn; lia). }
    unfold mbind at 1, M_bind at 1. rewrite E. unfold mbind, M_bind. destruct (get_value p m s) as [[v|] s']; [|done].
    unfold mret, M_ret. cbv beta iota. rewrite <- (app_nil_r (setting_items (x :: l))).
    rewrite consume_settings by (done || (rewrite app_nil_r; cbn in *; lia)). unfold mbind, M_bind.
    destruct (apply_settings (x :: l) (dict_set p v ns) s') as [[ns'|] s2]; [|done]. apply consume_end.
Qed.

(** A command line of settings with one positional argument among them, in any
    place: the settings are made in order, then the defaults. *)
Lemma parse_settings l1 m l2 p s : Forall setting_ok l1 → Forall setting_ok l2 → plain_arg m = true →
  parse_args options get_value print_help [p] (words l1 ++ m :: words l2) s =
    (ns ← apply_settings l1 [];
     x ← get_value p m;
     ns ← apply_settings l2 (dict_set p x ns);
     add_defaults get_value options ns) s.
Proof.
  intros H1 H2 Hm. destruct (plain_arg_value options m dash_value Hm) as (Em & Hmd & _).
  unfold parse_args. rewrite classify_settings by done. cbn [classify]. rewrite Hmd, Em.
  rewrite <- (app_nil_r (words l2)), classify_settings by done. cbn [mbind option_bind classify].
  rewrite app_nil_r. rewrite ret_bind. unfold mbind at 1, M_bind at 1.
  rewrite consume_settings by done. unfold mbind, M_bind.
  destruct (apply_settings l1 [] s) as [[ns|e] s1]; [|done].
  rewrite consume_value; [|done..|].
  - unfold mbind, M_bind. destruct (get_value p m s1) as [[x|] s2]; [|done].
    destruct (apply_settings l2 (dict_set p x ns) s2) as [[ns2|] s3]; [|done]. unfold mret, M_ret. cbv beta iota.
    by destruct (add_defaults get_value options ns2 s3) as [[]].
  - rewrite length_app. assert (length l1 ≤ length (setting_items l1)); [|lia].
    clear. induction l1 as [|x l IH]; [done|].
    change (setting_items (x :: l)) with (setting_item x ++ setting_items l). rewrite length_app. cbn. lia.
Qed.

(** Without a positional argument nothing is accepted. *)
Lemma parse_missing l p s : Forall setting_ok l →
  parse_args options get_value print_help [p] (words l) s =
    (apply_settings l [];; raise (SystemExit 2)) s.
Proof.
  intros Hl. unfold parse_args. rewrite <- (app_nil_r (words l)), classify_settings by done.
  cbn [mbind option_bind classify]. rewrite ret_bind. unfold mbind at 1, M_bind at 1.
  rewrite consume_settings by done. unfold mbind, M_bind.
  destruct (apply_settings l [] s) as [[ns|e] s1]; [|done]. by destruct (_ - _)%nat.
Qed.
End settings.
