(* ===== verification/AnsibleModule.v ===== *)
(** What the modules under [library/] use of [ansible.module_utils.basic]: an
    interface with the documented behaviour as laws, and a small
    implementation that satisfies them, used for concrete runs.

    Everything a module shows to Ansible is in the log of the host: the
    commands it has run and the one result it prints before it exits. *)
From S2P Require Export PyVal.
From Stdlib Require Import NArith ZArith Lia.

(** * Argument specifications *)

Inductive arg_type := TStr | TBool | TInt | TDict | TList.

Record arg := Arg {
  a_name : pystr;
  a_aliases : list pystr;
  a_required : bool;
  a_default : pyval;
  a_choices : list pystr;
  a_type : arg_type
}.

Record arg_spec := ArgSpec {
  arguments : list arg;
  mutually_exclusive : list (list pystr)
}.

(** A value the module may see: the value of an option that is not text has been
    converted; a text option is text, among the choices if there are any, or the
    default of an option that is not required. *)
Definition value_ok (a : arg) (v : pyval) : bool :=
  match a_type a with
  | TBool => match v with PyBool _ => true | _ => false end
  | TInt => match v with PyInt _ => true | _ => false end
  | TDict => match v with PyDict _ => true | _ => false end
  | TList => match v with PyList _ => true | _ => false end
  | TStr =>
      match v with
      | PyStr s => (match a_choices a with [] => true | _ => bool_decide (s ∈ a_choices a) end)
                   || is_str (a_default a) s
      | PyNone => negb (a_required a) && match a_default a with PyNone => true | _ => false end
      | _ => false
      end
  end.

Definition is_none (v : option pyval) : bool :=
  match v with Some PyNone | None => true | _ => false end.

(** At most one of the names has a value. *)
Definition exclusive_ok (p : dict pyval) (names : list pystr) : bool :=
  Nat.leb (length (filter (λ n, is_none (dict_get n p) = false) names)) 1.

(** The parameters [AnsibleModule(...)] hands out. *)
Definition conforms (spec : arg_spec) (p : dict pyval) : bool :=
  forallb (λ a, match dict_get (a_name a) p with Some v => value_ok a v | None => false end)
    (arguments spec)
  && forallb (exclusive_ok p) (mutually_exclusive spec).

(** * The interface *)

Inductive am_event : Type :=
| Ran (command : pystr)
| Called (api_method : pystr) (params : pyval)
| Failed (result : dict pyval)
| Exited (result : dict pyval).

Class AnsibleModule (W : Type) := {
  am_init : arg_spec → M W (dict pyval);
  (** [get_bin_path(name, required=True)] *)
  get_bin_path : pystr → M W pystr;
  run_command : pystr → M W (Z * pystr * pystr);
  (** [module.check_mode] *)
  check_mode : M W bool;
  fail_json : ∀ {A}, dict pyval → M W A;
  exit_json : ∀ {A}, dict pyval → M W A
}.

(** [fail_json(msg=...)] *)
Definition fail_msg {W A} `{AnsibleModule W} (m : pystr) : M W A := fail_json [(#"msg", PyStr m)].

(** [exit_json(changed=..., msg=...)] *)
Definition exit_changed {W A} `{AnsibleModule W} (changed : bool) (m : pystr) : M W A :=
  exit_json [(#"changed", PyBool changed); (#"msg", PyStr m)].

(** The documented behaviour.  Only [fail_json] and [exit_json] end a module;
    the other calls may end it through [fail_json].  [run_command] on a text
    splits it with [shlex.split], whose [ValueError] for unbalanced quotes escapes
    before anything is run. *)
Class AnsibleLaws (W : Type) `{AnsibleModule W} := {
  am_log : W → list am_event;
  am_init_law : ∀ spec w, ∃ w',
    (∃ p, am_init spec w = (Ok p, w') ∧ conforms spec p = true ∧ am_log w' = am_log w) ∨
    (∃ kw, am_init spec w = (Raise (SystemExit 1), w') ∧ am_log w' = am_log w ++ [Failed kw]);
  bin_path_law : ∀ name w, ∃ w',
    (∃ p, get_bin_path name w = (Ok p, w') ∧ am_log w' = am_log w) ∨
    (∃ kw, get_bin_path name w = (Raise (SystemExit 1), w') ∧ am_log w' = am_log w ++ [Failed kw]);
  run_command_law : ∀ c w, ∃ w',
    (∃ r, run_command c w = (Ok r, w') ∧ am_log w' = am_log w ++ [Ran c]) ∨
    (∃ kw n, run_command c w = (Raise (SystemExit n), w') ∧ n ≠ 0%Z ∧
       am_log w' = am_log w ++ [Ran c; Failed kw]) ∨
    (∃ m, run_command c w = (Raise (ValueError m), w') ∧ am_log w' = am_log w);
  check_mode_law : ∀ w, ∃ b, check_mode w = (Ok b, w);
  fail_json_law : ∀ A kw w, ∃ w',
    @fail_json W _ A kw w = (Raise (SystemExit 1), w') ∧ am_log w' = am_log w ++ [Failed kw];
  exit_json_law : ∀ A kw w, ∃ w',
    @exit_json W _ A kw w = (Raise (SystemExit 0), w') ∧ am_log w' = am_log w ++ [Exited kw]
}.

(** The files of the host: [os.path.isfile], [os.path.exists], [open(path, 'r')]
    followed by [read()], where either step may fail, and [open(path, 'w')]
    followed by [write]. *)
Class Files (W : Type) := {
  isfile : pystr → M W bool;
  path_exists : pystr → M W bool;
  open_read : pystr → M W (outcome pystr);
  open_write : pystr → pystr → M W unit
}.

(** Files do not touch the log; [open] fails with an [IOError]; what has been
    written is there. *)
Class FilesLaws (W : Type) `{AnsibleLaws W} `{Files W} := {
  file_text : W → pystr → option pystr;
  isfile_law : ∀ path w, ∃ b w', isfile path w = (Ok b, w') ∧ am_log w' = am_log w;
  path_exists_law : ∀ path w, ∃ b, path_exists path w = (Ok b, w);
  open_read_law : ∀ path w, ∃ r w', open_read path w = (r, w') ∧ am_log w' = am_log w ∧
    ∀ e, r = Raise e → ∃ m, e = OSError m;
  open_write_law : ∀ path data w, ∃ r w', open_write path data w = (r, w') ∧ am_log w' = am_log w ∧
    (r = Ok tt → file_text w' path = Some data ∧ ∀ q, q ≠ path → file_text w' q = file_text w q);
  exit_keeps_files : ∀ A kw w, file_text (@exit_json W _ A kw w).2 = file_text w
}.

(** * Derived laws *)

Section laws.
Context {W : Type} `{AnsibleLaws W}.

Lemma fail_never_returns {A} kw : never_returns (S := W) (A := A) (fail_json kw).
Proof. intros w. destruct (fail_json_law A kw w) as (w' & E & _). eauto. Qed.

Lemma exit_never_returns {A} kw : never_returns (S := W) (A := A) (exit_json kw).
Proof. intros w. destruct (exit_json_law A kw w) as (w' & E & _). eauto. Qed.

(** [logged w w' evs]: between the two states exactly this was logged. *)
Definition logged (w w' : W) (evs : list am_event) : Prop := am_log w' = am_log w ++ evs.

Lemma logged_nil (w w' : W) : am_log w' = am_log w → logged w w' [].
Proof. unfold logged. by rewrite app_nil_r. Qed.

Lemma logged_refl w : logged w w [].
Proof. by apply logged_nil. Qed.

Lemma logged_trans w1 w2 w3 e1 e2 : logged w1 w2 e1 → logged w2 w3 e2 → logged w1 w3 (e1 ++ e2).
Proof. unfold logged. intros H1 ->. by rewrite H1, <- app_assoc. Qed.

(** A module that has ended: it exits with code 0 after printing a success, or
    with another code after printing a failure. *)
Definition ended {A} (w : W) (r : outcome A * W) (evs : list am_event) (res : am_event) : Prop :=
  am_log r.2 = am_log w ++ evs ++ [res] ∧
  ∃ n, r.1 = Raise (SystemExit n) ∧
    match res with Exited _ => n = 0%Z | Failed _ => n ≠ 0%Z | _ => False end.

Lemma fail_ended {A} kw (w : W) : ended (A := A) w (fail_json kw w) [] (Failed kw).
Proof.
  unfold ended. destruct (fail_json_law A kw w) as (w' & -> & E). split; [done|]. by exists 1%Z.
Qed.

Lemma exit_ended {A} kw (w : W) : ended (A := A) w (exit_json kw w) [] (Exited kw).
Proof.
  unfold ended. destruct (exit_json_law A kw w) as (w' & -> & E). split; [done|]. by exists 0%Z.
Qed.

Lemma ended_after {A} w w1 (r : outcome A * W) e1 e2 res :
  logged w w1 e1 → ended w1 r e2 res → ended w r (e1 ++ e2) res.
Proof. intros Hc [Hl Hr]. split; [|done]. rewrite Hl, Hc. by rewrite <- !app_assoc. Qed.

(** A part that returns, then the rest. *)
Lemma ended_bind {A B} (m : M W A) (f : A → M W B) w x w1 e1 e2 res :
  m w = (Ok x, w1) → logged w w1 e1 → ended w1 (f x w1) e2 res →
  ended w ((m ≫= f) w) (e1 ++ e2) res.
Proof. intros E Hc Hf. rewrite (bind_ok _ _ _ _ _ E). by eapply ended_after. Qed.

(** A part that ends the module. *)
Lemma ended_early {A B} (m : M W A) (f : A → M W B) w evs res :
  ended w (m w) evs res → ended w ((m ≫= f) w) evs res.
Proof.
  intros [Hl (n & E & Hn)]. destruct (m w) as [r w'] eqn:Em. cbn [fst snd] in *. subst r.
  rewrite (bind_raised _ _ _ _ _ Em). split; [done|]. by exists n.
Qed.

(** The same for a module that only runs commands. *)
Definition ran (w w' : W) (cmds : list pystr) : Prop := logged w w' (Ran <$> cmds).
Definition finished {A} (w : W) (r : outcome A * W) (cmds : list pystr) (res : am_event) : Prop :=
  ended w r (Ran <$> cmds) res.

Lemma fail_finished {A} m (w : W) : finished (A := A) w (fail_msg m w) [] (Failed [(#"msg", PyStr m)]).
Proof. apply fail_ended. Qed.

Lemma exit_finished {A} kw (w : W) : finished (A := A) w (exit_json kw w) [] (Exited kw).
Proof. apply exit_ended. Qed.

Lemma ran_refl w : ran w w [].
Proof. apply logged_refl. Qed.

Lemma ran_trans w1 w2 w3 c1 c2 : ran w1 w2 c1 → ran w2 w3 c2 → ran w1 w3 (c1 ++ c2).
Proof. unfold ran. rewrite fmap_app. apply logged_trans. Qed.

Lemma finished_after {A} w w1 (r : outcome A * W) c1 c2 res :
  ran w w1 c1 → finished w1 r c2 res → finished w r (c1 ++ c2) res.
Proof. unfold ran, finished. rewrite fmap_app. apply ended_after. Qed.

Lemma finished_bind {A B} (m : M W A) (f : A → M W B) w x w1 c1 c2 res :
  m w = (Ok x, w1) → ran w w1 c1 → finished w1 (f x w1) c2 res →
  finished w ((m ≫= f) w) (c1 ++ c2) res.
Proof. unfold ran, finished. rewrite fmap_app. apply ended_bind. Qed.

Lemma finished_early {A B} (m : M W A) (f : A → M W B) w cmds res :
  finished w (m w) cmds res → finished w ((m ≫= f) w) cmds res.
Proof. apply ended_early. Qed.

Lemma am_init_ran spec (w w1 : W) p : am_init spec w = (Ok p, w1) → ran w w1 [].
Proof.
  intros E. destruct (am_init_law spec w) as (w1' & [(p' & E' & _ & Hl)|(kw & E' & _)]); rewrite E in E'; [|done].
  injection E' as _ <-. by apply logged_nil.
Qed.

Lemma bin_path_ran name (w w1 : W) p : get_bin_path name w = (Ok p, w1) → ran w w1 [].
Proof.
  intros E. destruct (bin_path_law name w) as (w1' & [(p' & E' & Hl)|(kw & E' & _)]); rewrite E in E'; [|done].
  injection E' as _ <-. by apply logged_nil.
Qed.

(** How the modules report a run: [fail_json(msg=se)] unless it returned 0, else
    [exit_json(changed=changed, msg=so)]. *)
Definition reported (changed : bool) (rc : Z) (so se : pystr) : am_event :=
  if Z.eqb rc 0 then Exited [(#"changed", PyBool changed); (#"msg", PyStr so)]
  else Failed [(#"msg", PyStr se)].

Lemma report_finished {A} (changed : bool) rc so se (w : W) :
  finished (A := A) w ((if negb (Z.eqb rc 0) then fail_msg se else exit_changed changed so) w) []
    (reported changed rc so se).
Proof. unfold reported. destruct (Z.eqb rc 0); [apply exit_finished|apply fail_finished]. Qed.

Lemma run_command_ok c (w w1 : W) r : run_command c w = (Ok r, w1) → ran w w1 [c].
Proof.
  intros E. destruct (run_command_law c w) as (w' & [(r' & E' & Hw)|[(kw & n & E' & _)|(m & E' & _)]]);
    rewrite E in E'; [|done..]. by injection E' as _ <-.
Qed.
End laws.

(** * A host for concrete runs

    The answers of the commands are given in order; a command without an answer
    fails, and so does one that cannot be split into words. *)

(** Where [shlex.split] is in a text. *)
Inductive quoting := Unquoted | Single | Double | Escaped (inside : bool).

Fixpoint balanced (q : quoting) (s : pystr) : bool :=
  match s with
  | [] => match q with Unquoted => true | _ => false end
  | c :: s =>
      balanced
        match q with
        | Unquoted => if N.eqb c 39 then Single else if N.eqb c 34 then Double
                      else if N.eqb c 92 then Escaped false else Unquoted
        | Single => if N.eqb c 39 then Unquoted else Single
        | Double => if N.eqb c 34 then Unquoted else if N.eqb c 92 then Escaped true else Double
        | Escaped true => Double
        | Escaped false => Unquoted
        end s
  end.

Record demo_host := DemoHost {
  dh_params : dict pyval;
  dh_files : dict pystr;
  dh_answers : list (Z * pystr * pystr);
  dh_log : list am_event
}.

Definition dh_add (e : list am_event) (h : demo_host) : demo_host :=
  DemoHost (dh_params h) (dh_files h) (dh_answers h) (dh_log h ++ e).

Definition dh_end {A} (n : Z) (e : list am_event) : M demo_host A := λ h, (Raise (SystemExit n), dh_add e h).

#[export] Instance demo_ansible : AnsibleModule demo_host := {
  am_init spec := λ h,
    if conforms spec (dh_params h) then (Ok (dh_params h), h) else dh_end 1 [Failed []] h;
  get_bin_path name := λ h, (Ok (#"/usr/sbin/" ++ name), h);
  run_command c := λ h,
    if negb (balanced Unquoted c) then (Raise (ValueError #"No closing quotation"), h)
    else match dh_answers h with
    | a :: l => (Ok a, DemoHost (dh_params h) (dh_files h) l (dh_log h ++ [Ran c]))
    | [] => dh_end 2 [Ran c; Failed []] h
    end;
  check_mode := gets (λ h, dict_mem #"_ansible_check_mode" (dh_params h));
  fail_json A kw := dh_end 1 [Failed kw];
  exit_json A kw := dh_end 0 [Exited kw]
}.

#[export] Program Instance demo_ansible_laws : AnsibleLaws demo_host := { am_log := dh_log }.
Next Obligation.
  intros spec h. cbn. destruct (conforms spec (dh_params h)) eqn:E.
  - exists h. left. by exists (dh_params h).
  - eexists. right. by exists [].
Qed.
Next Obligation. intros name h. eexists. left. by eexists. Qed.
Next Obligation.
  intros c h. cbn. destruct (negb _); [|destruct (dh_answers h) as [|a l]]; eexists;
    [right; right|right; left|left].
  - by eexists.
  - by exists [], 2%Z.
  - by exists a.
Qed.
Next Obligation. intros h. by eexists. Qed.
Next Obligation. intros A kw h. by eexists. Qed.
Next Obligation. intros A kw h. by eexists. Qed.

#[export] Instance demo_file_system : Files demo_host := {
  isfile path := gets (λ h, dict_mem path (dh_files h));
  path_exists path := gets (λ h, dict_mem path (dh_files h));
  open_read path := λ h,
    match dict_get path (dh_files h) with
    | Some t => (Ok (Ok t), h)
    | None => (Raise (OSError #"[Errno 2] No such file or directory"), h)
    end;
  open_write path data := λ h,
    (Ok tt, DemoHost (dh_params h) (dict_set path data (dh_files h)) (dh_answers h) (dh_log h))
}.

#[export] Instance demo_files_laws : FilesLaws demo_host.
Proof.
  refine {| file_text h p := dict_get p (dh_files h) |}.
  - intros path h. by do 2 eexists.
  - intros path h. by eexists.
  - intros path h. cbn. destruct (dict_get path (dh_files h)); do 2 eexists; (split_and!; [done..|]); [done|].
    intros e [= <-]. by eexists.
  - intros path data h. do 2 eexists. split_and!; [done..|]. intros _. cbn.
    split; [apply dict_get_set_eq|]. intros q Hq. by apply dict_get_set_ne.
  - done.
Defined.

(** The host with something else beside it. *)
Record demo_world (X : Type) := DemoWorld { dw_host : demo_host; dw_extra : X }.
Arguments DemoWorld {X} _ _.
Arguments dw_host {X} _.
Arguments dw_extra {X} _.

Definition on_host {X A} (m : M demo_host A) : M (demo_world X) A := λ s,
  let '(r, h) := m (dw_host s) in (r, DemoWorld h (dw_extra s)).

#[export] Instance world_ansible {X} : AnsibleModule (demo_world X) := {
  am_init spec := on_host (am_init spec);
  get_bin_path name := on_host (get_bin_path name);
  run_command c := on_host (run_command c);
  check_mode := on_host check_mode;
  fail_json A kw := on_host (fail_json kw);
  exit_json A kw := on_host (exit_json kw)
}.

#[export] Instance world_laws {X} : AnsibleLaws (demo_world X).
Proof.
  refine {| am_log s := dh_log (dw_host s) |}.
  - intros sp s. destruct (am_init_law sp (dw_host s)) as (h & [(p & E & H)|(kw & E & H)]);
      exists (DemoWorld h (dw_extra s)); [left; exists p|right; exists kw];
      (split; [|exact H]); unfold am_init, world_ansible, on_host; by rewrite E.
  - intros sp s. destruct (bin_path_law sp (dw_host s)) as (h & [(p & E & H)|(kw & E & H)]);
      exists (DemoWorld h (dw_extra s)); [left; exists p|right; exists kw];
      (split; [|exact H]); unfold get_bin_path, world_ansible, on_host; by rewrite E.
  - intros c s. destruct (run_command_law c (dw_host s)) as (h & [(p & E & H)|[(kw & n & E & H)|(m & E & H)]]);
      exists (DemoWorld h (dw_extra s)); [left; exists p|right; left; exists kw, n|right; right; exists m];
      (split; [|exact H]); unfold run_command, world_ansible, on_host; by rewrite E.
  - intros [h x]. by eexists.
  - intros A kw s. by eexists.
  - intros A kw s. by eexists.
Defined.

#[export] Instance world_files {X} : Files (demo_world X) := {
  isfile path := on_host (isfile path);
  path_exists path := on_host (path_exists path);
  open_read path := on_host (open_read path);
  open_write path data := on_host (open_write path data)
}.

#[export] Instance world_files_laws {X} : FilesLaws (demo_world X).
Proof.
  refine {| file_text s p := dict_get p (dh_files (dw_host s)) |}.
  - intros path s. by do 2 eexists.
  - intros path [h x]. by eexists.
  - intros path s. destruct (open_read_law path (dw_host s)) as (r & h & E & Hl & He).
    exists r, (DemoWorld h (dw_extra s)). split_and!; try done.
    unfold open_read, world_files, on_host. by rewrite E.
  - intros path data s. do 2 eexists. split_and!; [done..|]. intros _. cbn.
    split; [apply dict_get_set_eq|]. intros q Hq. by apply dict_get_set_ne.
  - done.
Defined.
