(* ===== verification/ModuleTyping.v ===== *)
(** What every run of a module comes to, whatever the task and the host: on the
    parameters [AnsibleModule] hands out, a module ends with exactly one report,
    unless one of a few exceptions escapes. *)
From S2P Require Export AnsibleModule.
From Stdlib Require Import NArith ZArith Lia.

(** * Effects of a part of a module *)

Definition no_report : list am_event → Prop :=
  Forall (λ e, match e with Failed _ | Exited _ => False | _ => True end).

(** One report, as the last event, that agrees with the exit code. *)
Definition reported_once (n : Z) (evs : list am_event) : Prop :=
  ∃ pre res, evs = pre ++ [res] ∧ no_report pre ∧
    match res with Exited _ => n = 0%Z | Failed _ => n ≠ 0%Z | _ => False end.

Section typing.
Context {W : Type} `{AnsibleLaws W}.

(** [behaves P Q m]: wherever it starts, [m] returns a value with [Q] and has not
    reported, or has exited after one report, or raises an exception with [P]
    before any report. *)
Definition behaves {A} (P : exn → Prop) (Q : A → Prop) (m : M W A) : Prop := ∀ w, ∃ evs,
  logged w (m w).2 evs ∧
  match (m w).1 with
  | Ok x => no_report evs ∧ Q x
  | Raise (SystemExit n) => reported_once n evs
  | Raise e => no_report evs ∧ P e
  end.

Context {P : exn → Prop}.

Lemma no_report_app l1 l2 : no_report l1 → no_report l2 → no_report (l1 ++ l2).
Proof. apply Forall_app_2. Qed.

Lemma reported_once_app n l1 l2 : no_report l1 → reported_once n l2 → reported_once n (l1 ++ l2).
Proof.
  intros H1 (pre & res & -> & H2 & Hr). exists (l1 ++ pre), res. rewrite app_assoc.
  split_and!; [done|by apply no_report_app|done].
Qed.

Lemma behaves_ret {A} (Q : A → Prop) x : Q x → behaves P Q (mret x).
Proof. intros Hx w. exists []. split; [apply logged_refl|]. by split; [constructor|]. Qed.

Lemma behaves_bind {A B} (Q : A → Prop) (R : B → Prop) (m : M W A) (f : A → M W B) :
  behaves P Q m → (∀ x, Q x → behaves P R (f x)) → behaves P R (m ≫= f).
Proof.
  intros Hm Hf w. destruct (Hm w) as (e1 & L1 & H1). unfold mbind, M_bind.
  destruct (m w) as [[x|e] w1]; cbn [fst snd] in *; [|by exists e1].
  destruct H1 as [H1 Hx]. destruct (Hf x Hx w1) as (e2 & L2 & H2).
  exists (e1 ++ e2). split; [by eapply logged_trans|].
  destruct (f x w1) as [[y|e] w2]; cbn [fst snd] in *; [destruct H2; by split; [apply no_report_app|]|].
  destruct e; try (destruct H2; by split; [apply no_report_app|]). by apply reported_once_app.
Qed.

Lemma behaves_mono {A} (Q R : A → Prop) (m : M W A) : (∀ x, Q x → R x) → behaves P Q m → behaves P R m.
Proof.
  intros HQ Hm w. destruct (Hm w) as (evs & L & Hx). exists evs. split; [done|].
  destruct ((m w).1); [|done]. split; [apply Hx|by apply HQ, Hx].
Qed.

(** Failing with an exception that may escape. *)
Definition escapes (e : exn) : Prop := P e ∧ ∀ n, e ≠ SystemExit n.

Lemma behaves_lift {A} (Q : A → Prop) (o : outcome A) :
  (match o with Ok x => Q x | Raise e => escapes e end) → behaves P Q (lift o).
Proof.
  intros Ho w. exists []. split; [apply logged_refl|]. cbn. destruct o as [x|e]; [by split; [constructor|]|].
  destruct Ho as [Hp Hn]. destruct e; try by split; [constructor|]. by destruct (Hn code).
Qed.

Lemma behaves_fail {A} (Q : A → Prop) kw : behaves P Q (fail_json kw).
Proof.
  intros w. destruct (fail_json_law A kw w) as (w' & -> & El). exists [Failed kw]. split; [exact El|].
  exists [], (Failed kw). split_and!; [done|constructor|done].
Qed.

Lemma behaves_exit {A} (Q : A → Prop) kw : behaves P Q (exit_json kw).
Proof.
  intros w. destruct (exit_json_law A kw w) as (w' & -> & El). exists [Exited kw]. split; [exact El|].
  exists [], (Exited kw). split_and!; [done|constructor|done].
Qed.

Lemma behaves_init spec : behaves P (λ p, conforms spec p = true) (am_init spec).
Proof.
  intros w. destruct (am_init_law spec w) as (w' & [(p & -> & Hp & El)|(kw & -> & El)]).
  - exists []. split; [by apply logged_nil|]. by split; [constructor|].
  - exists [Failed kw]. split; [exact El|]. exists [], (Failed kw). split_and!; [done|constructor|done].
Qed.

Lemma behaves_bin_path name : behaves P (λ _, True) (get_bin_path name).
Proof.
  intros w. destruct (bin_path_law name w) as (w' & [(p & -> & El)|(kw & -> & El)]).
  - exists []. split; [by apply logged_nil|]. by split; [constructor|].
  - exists [Failed kw]. split; [exact El|]. exists [], (Failed kw). split_and!; [done|constructor|done].
Qed.

Lemma behaves_run c : (∀ m, P (ValueError m)) → behaves P (λ _, True) (run_command c).
Proof.
  intros HP w. destruct (run_command_law c w) as (w' & [(r & -> & El)|[(kw & n & -> & Hn & El)|(m & -> & El)]]).
  - exists [Ran c]. split; [exact El|]. by split; [repeat constructor|].
  - exists [Ran c; Failed kw]. split; [exact El|].
    exists [Ran c], (Failed kw). split_and!; [done|by repeat constructor|done].
  - exists []. split; [by apply logged_nil|]. by split; [constructor|].
Qed.

(** A part that logs nothing and raises only what its handler catches. *)
Lemma behaves_try {A} (Q : A → Prop) (m : M W A) h :
  (∀ w, logged w (m w).2 [] ∧ match (m w).1 with
    | Ok x => Q x
    | Raise e => match h e with Some k => behaves P Q k | None => escapes e end
    end) →
  behaves P Q (try_except m h).
Proof.
  intros Hm w. destruct (Hm w) as [L Hw]. unfold try_except. destruct (m w) as [[x|e] w1]; cbn [fst snd] in *.
  - exists []. split; [done|]. by split; [constructor|].
  - destruct (h e) as [k|].
    + destruct (Hw w1) as (evs & L' & Hk). exists evs. split; [by apply (logged_trans _ _ _ [] _ L L')|done].
    + exists []. split; [done|]. destruct Hw as [Hp Hn]. destruct e; try by split; [constructor|]. by destruct (Hn code).
Qed.

(** ** The parameters of a module *)

Lemma conforms_option spec p a : conforms spec p = true → a ∈ arguments spec →
  ∃ v, dict_get (a_name a) p = Some v ∧ value_ok a v = true.
Proof.
  intros [Hc _]%andb_true_iff Ha. rewrite forallb_forall in Hc. specialize (Hc a).
  rewrite <- list_elem_of_In in Hc. specialize (Hc Ha). destruct (dict_get (a_name a) p) as [v|]; [by exists v|done].
Qed.

(** An option that is text or absent, and one that is always text. *)
Lemma text_or_none a v : value_ok a v = true → a_type a = TStr → a_default a = PyNone →
  (v = PyNone ∧ a_required a = false) ∨ ∃ s, v = PyStr s.
Proof.
  unfold value_ok. intros Hv Ht Hd. rewrite Ht, Hd in Hv. destruct v; try done; [left|right; by eexists].
  by destruct (a_required a).
Qed.

Lemma always_text a v : value_ok a v = true → a_type a = TStr →
  (a_required a = true ∨ a_default a ≠ PyNone) →
  ∃ s, v = PyStr s ∧ (a_choices a ≠ [] → s ∈ a_choices a ∨ a_default a = PyStr s).
Proof.
  unfold value_ok. intros Hv Ht Hr. rewrite Ht in Hv. destruct v; try done.
  - destruct (a_required a); [done|]. destruct Hr as [|Hr]; [done|]. by destruct (a_default a).
  - exists s. split; [done|]. intros Hc. apply orb_true_iff in Hv as [Hv|Hv].
    + left. destruct (a_choices a); [done|]. by apply bool_decide_eq_true in Hv.
    + right. destruct (a_default a); try done. unfold is_str in Hv. apply bool_decide_eq_true in Hv. congruence.
Qed.

Lemma a_bool a v : value_ok a v = true → a_type a = TBool → ∃ b, v = PyBool b.
Proof. unfold value_ok. intros Hv Ht. rewrite Ht in Hv. destruct v; try done. by eexists. Qed.

(** [params[name]] *)
Lemma behaves_param spec p a : conforms spec p = true → a ∈ arguments spec →
  behaves P (λ v, value_ok a v = true ∧ dict_get (a_name a) p = Some v) (lift (getitem_str (PyDict p) (a_name a))).
Proof.
  intros Hc Ha. apply behaves_lift. destruct (conforms_option spec p a Hc Ha) as (v & Hg & Hv).
  unfold getitem_str. by rewrite Hg.
Qed.
End typing.
