(* ===== verification/PyRepr.v ===== *)
(** [repr], [str] and [%s] of Python 2.7 on the values [json.loads] builds.

    Text is [unicode] there, so its [repr] carries the [u] prefix; an integer
    outside the machine word is a [long] and carries the [L] suffix.  A
    dictionary is printed in the order of its hash table, which is the parameter
    [dict_order]. *)
From S2P Require Export PyVal PyJson.
From Stdlib Require Import NArith ZArith Lia.

(** The value with the entries of every dictionary in the order in which they
    are visited. *)
Fixpoint reorder (order : dict pyval → dict pyval) (v : pyval) : pyval :=
  match v with
  | PyList l => PyList (map (reorder order) l)
  | PyDict d => PyDict (order (map (λ kv, (kv.1, reorder order kv.2)) d))
  | v => v
  end.

(** Another order of the entries keeps a value readable. *)
Lemma json_ok_reorder order lim v : (∀ d, Permutation (order d) d) →
  json_ok lim v = true → json_ok lim (reorder order v) = true.
Proof.
  intros Hord. induction v as [| | | | |l IH|d IH] using pyval_ind'; intros Hok; try done; cbn.
  - apply json_ok_list in Hok. apply Is_true_true, forallb_True, Forall_map.
    rewrite Forall_forall in *. intros v Hin. apply Is_true_true; cbn. apply IH; auto.
  - apply json_ok_dict in Hok as [Hnd Hok].
    set (d' := map (λ kv, (kv.1, reorder order kv.2)) d). pose proof (Hord d') as HP.
    assert (keys d' = keys d) as Hk.
    { subst d'. unfold keys. change (map ?f d) with (f <$> d). by rewrite <- list_fmap_compose. }
    apply andb_true_iff. split.
    + apply bool_decide_eq_true. unfold keys in *. rewrite HP, Hk. done.
    + apply Is_true_true, forallb_True. rewrite HP. apply Forall_map.
      rewrite Forall_forall in *. intros kv Hin. apply Is_true_true; cbn.
      destruct (Hok kv Hin) as [Hs H]. apply andb_true_iff. split; [exact Hs|by apply IH].
Qed.

Section repr.
(** The order in which the entries of a dictionary are visited. *)
Variable dict_order : dict pystr → dict pystr.

Definition hex2 (n : N) : pystr := [hex_digit (n / 16); hex_digit (n mod 16)].

Definition repr_char (quote c : N) : pystr :=
  if N.eqb c quote || N.eqb c 92 then [92%N; c]
  else if N.leb 65536 c then #"\U" ++ hex4 (c / 65536) ++ hex4 (c mod 65536)
  else if N.leb 256 c then #"\u" ++ hex4 c
  else if N.eqb c 9 then #"\t"
  else if N.eqb c 10 then #"\n"
  else if N.eqb c 13 then #"\r"
  else if N.ltb c 32 || N.leb 127 c then #"\x" ++ hex2 c
  else [c].

Definition repr_unicode (s : pystr) : pystr :=
  let quote := if char_in 39 s && negb (char_in 34 s) then 34%N else 39%N in
  #"u" ++ [quote] ++ mjoin (repr_char quote <$> s) ++ [quote].

(** 64-bit machine words *)
Definition is_word (z : Z) : bool := Z.leb (- 2 ^ 63) z && Z.ltb z (2 ^ 63).

Fixpoint repr2 (v : pyval) : pystr :=
  match v with
  | PyNone => #"None"
  | PyBool true => #"True"
  | PyBool false => #"False"
  | PyInt z => str_of_Z z ++ (if is_word z then [] else #"L")
  | PyFloat f => float_repr f
  | PyStr s => repr_unicode s
  | PyList l => #"[" ++ join #", " (map repr2 l) ++ #"]"
  | PyDict d =>
      let entries := dict_order (map (λ kv, (kv.1, repr2 kv.2)) d) in
      #"{" ++ join #", " (map (λ kv, repr_unicode kv.1 ++ #": " ++ kv.2) entries) ++ #"}"
  end.

(** ['%s' % v] *)
Definition fmt2 (v : pyval) : pystr :=
  match v with
  | PyStr s => s
  | PyInt z => str_of_Z z
  | _ => repr2 v
  end.

(** [str(v)]: text has to be ASCII. *)
Definition str2 (v : pyval) : outcome pystr :=
  match v with
  | PyStr s => if forallb (λ c, N.ltb c 128) s then Ok s else Raise (ValueError #"UnicodeEncodeError")
  | _ => Ok (fmt2 v)
  end.
End repr.

(** Only the entries that are printed matter. *)
Lemma repr2_ext o1 o2 v : (∀ d, o1 d = o2 d) → repr2 o1 v = repr2 o2 v.
Proof.
  intros Ho. induction v as [| | | | |l IH|d IH] using pyval_ind'; cbn [repr2]; try done.
  - do 3 f_equal. induction IH as [|v l Hv _ IHl]; [done|]. cbn [map]. by rewrite Hv, IHl.
  - do 4 f_equal. rewrite Ho. f_equal. induction IH as [|kv l Hv _ IHl]; [done|].
    cbn [map]. by rewrite Hv, IHl.
Qed.
