(* ===== verification/Sha1.v ===== *)
(** [hashlib.sha1(text).hexdigest()]: the SHA-1 digest of a byte string, on
    32-bit words with wrap-around written out. *)
From S2P Require Export PyJson.
From Stdlib Require Import NArith ZArith Lia.

Definition word (n : N) : N := N.land n 4294967295.
Definition add32 (a b : N) : N := word (a + b).
Definition rotl (k a : N) : N := N.lor (word (N.shiftl a k)) (N.shiftr a (32 - k)).
Definition not32 (a : N) : N := N.lxor a 4294967295.

Definition be_bytes (len : nat) (n : N) : bytes :=
  map (λ i, N.land (N.shiftr n (8 * N.of_nat i)) 255) (rev (seq 0 len)).
Definition be_word (bs : bytes) : N := foldl (λ a b, 256 * a + b)%N 0%N bs.

(** The message, a 1 bit, zeros and the length in bits, in blocks of 64 bytes. *)
Definition pad (m : bytes) : bytes :=
  let n := length m in
  m ++ [128%N] ++ replicate ((119 - n mod 64) mod 64) 0%N ++ be_bytes 8 (8 * N.of_nat n).

Fixpoint chunks {A} (size count : nat) (l : list A) : list (list A) :=
  match count with
  | O => []
  | S k => take size l :: chunks size k (drop size l)
  end.

(** The message schedule, built backwards: the last word comes first. *)
Fixpoint expand (n : nat) (ws : list N) : list N :=
  match n with
  | O => ws
  | S k =>
      let w i := nth i ws 0%N in
      expand k (rotl 1 (N.lxor (N.lxor (w 2) (w 7)) (N.lxor (w 13) (w 15))) :: ws)
  end.
Definition schedule (block : bytes) : list N :=
  rev (expand 64 (rev (map be_word (chunks 4 16 block)))).

Record sha_state := ShaState { sa : N; sb : N; sc : N; sd : N; se : N }.

Definition round_f (i : nat) (b c d : N) : N * N :=
  if Nat.ltb i 20 then (N.lor (N.land b c) (N.land (not32 b) d), 1518500249%N)
  else if Nat.ltb i 40 then (N.lxor (N.lxor b c) d, 1859775393%N)
  else if Nat.ltb i 60 then (N.lor (N.lor (N.land b c) (N.land b d)) (N.land c d), 2400959708%N)
  else (N.lxor (N.lxor b c) d, 3395469782%N).

Definition sha_round (s : sha_state) (iw : nat * N) : sha_state :=
  let '(f, k) := round_f iw.1 (sb s) (sc s) (sd s) in
  ShaState (add32 (add32 (rotl 5 (sa s)) f) (add32 (add32 (se s) k) iw.2))
    (sa s) (rotl 30 (sb s)) (sc s) (sd s).

Definition sha_block (s : sha_state) (block : bytes) : sha_state :=
  let t := foldl sha_round s (zip (seq 0 80) (schedule block)) in
  ShaState (add32 (sa s) (sa t)) (add32 (sb s) (sb t)) (add32 (sc s) (sc t))
    (add32 (sd s) (sd t)) (add32 (se s) (se t)).

Definition sha_init : sha_state :=
  ShaState 1732584193 4023233417 2562383102 271733878 3285377520.

Definition sha1 (m : bytes) : bytes :=
  let p := pad m in
  let s := foldl sha_block sha_init (chunks 64 (length p / 64) p) in
  mjoin (be_bytes 4 <$> [sa s; sb s; sc s; sd s; se s]).

Definition hexdigest (b : bytes) : pystr :=
  mjoin ((λ c, [hex_digit (c / 16); hex_digit (c mod 16)]) <$> b).

Definition sha1_hex (m : bytes) : pystr := hexdigest (sha1 m).

Example sha1_abc : sha1_hex #"abc" = #"a9993e364706816aba3e25717850c26c9cd0d89d".
Proof. vm_compute. reflexivity. Qed.
Example sha1_empty : sha1_hex [] = #"da39a3ee5e6b4b0d3255bfef95601890afd80709".
Proof. vm_compute. reflexivity. Qed.
Example sha1_two_blocks :
  sha1_hex #"abcdbcdecdefdefgefghfghighijhijkijkljklmklmnlmnomnopnopq"
  = #"84983e441c3bd26ebaae4aa1f95129e5e54670f1".
Proof. vm_compute. reflexivity. Qed.

(** Padding always gives whole blocks. *)
Lemma pad_blocks m : length (pad m) mod 64 = 0.
Proof.
  unfold pad, be_bytes. rewrite !length_app, length_replicate, length_map, length_rev, length_seq.
  cbn [length]. set (n := length m). pose proof (Nat.div_mod_eq n 64). 
  pose proof (Nat.mod_upper_bound n 64 ltac:(done)).
  pose proof (Nat.div_mod_eq (119 - n mod 64) 64).
  pose proof (Nat.mod_upper_bound (119 - n mod 64) 64 ltac:(done)).
  apply Nat.Div0.mod_divides.
  exists (n / 64 + 2 - (119 - n mod 64) / 64). lia.
Qed.
