(* ===== verification/Vmadm.v ===== *)
(** The Ansible module [vmadm] ([library/vmadm.py]): virtual machines are
    created, changed and deleted by running the [vmadm] tool, and the module
    reports whether anything changed. *)
From S2P Require Export ModuleTyping PyRepr PyHook Sha1.
From Stdlib Require Import NArith ZArith Lia.

(** * The deletion of keys while a dictionary is visited *)

(** [for key in d: ...] where the body may change [d]: before each step the
    iterator compares the size of [d] with the one it started with. *)
Fixpoint iter_dict {V} (size : nat) (ks : list pystr) (body : pystr → dict V → outcome (dict V))
    (d : dict V) : outcome (dict V) :=
  if Nat.eqb (length d) size then
    match ks with
    | [] => Ok d
    | k :: ks' => d' ← body k d; iter_dict size ks' body d'
    end
  else Raise RuntimeError.

Definition strip_keys : list pystr := [#"last_modified"].

Definition strip_keys_from_json (payload : dict pyval) : outcome (dict pyval) :=
  iter_dict (length payload) (keys payload)
    (λ key d, if bool_decide (key ∈ strip_keys) then Ok (dict_del key d) else Ok d) payload.

(** [json.loads(so, object_hook=strip_keys_from_json)] *)
Definition loads_stripped (so : pystr) : outcome pyval :=
  loads_with None (λ d, PyDict <$> strip_keys_from_json d) so.

(** ** What the deletion does *)

Lemma dict_del_length {V} k (d : dict V) : k ∈ keys d → length (dict_del k d) < length d.
Proof.
  unfold keys, dict_del. induction d as [|[k' v] d IH]; cbn [fmap list_fmap fst length]; [by intros ?%not_elem_of_nil|].
  intros Hk. destruct (decide (k' = k)) as [->|Hne].
  - rewrite filter_cons_False by (cbn; naive_solver). pose proof (length_filter (λ kv, kv.1 ≠ k) d). lia.
  - rewrite filter_cons_True by done. cbn [length]. apply elem_of_cons in Hk as [->|Hk]; [done|].
    specialize (IH Hk). lia.
Qed.

Lemma iter_strip ks (d : dict pyval) : Forall (λ k, k ∈ keys d) ks →
  iter_dict (length d) ks
    (λ key d, if bool_decide (key ∈ strip_keys) then Ok (dict_del key d) else Ok d) d
  = if bool_decide (#"last_modified" ∈ ks) then Raise RuntimeError else Ok d.
Proof.
  unfold strip_keys. induction 1 as [|k ks Hk Hks IH]; cbn [iter_dict]; rewrite Nat.eqb_refl; [done|].
  destruct (bool_decide_reflect (k ∈ [#"last_modified"])) as [Hl|Hl].
  - apply list_elem_of_singleton in Hl as ->. cbn [mbind outcome_bind].
    rewrite bool_decide_eq_true_2 by set_solver.
    pose proof (dict_del_length _ _ Hk). destruct ks; cbn [iter_dict];
      by rewrite (proj2 (Nat.eqb_neq _ _)) by lia.
  - cbn [mbind outcome_bind]. rewrite IH. assert (k ≠ #"last_modified") by set_solver.
    by rewrite (bool_decide_ext (#"last_modified" ∈ ks) (#"last_modified" ∈ k :: ks)) by set_solver.
Qed.

Lemma strip_keys_eq d : strip_keys_from_json d =
  if dict_mem #"last_modified" d then Raise RuntimeError else Ok d.
Proof. unfold strip_keys_from_json, dict_mem. apply iter_strip. by apply Forall_forall. Qed.

Lemma strip_hook d :
  (PyDict <$> strip_keys_from_json d) = Ok (PyDict d) ∨ (PyDict <$> strip_keys_from_json d) = Raise RuntimeError.
Proof. rewrite strip_keys_eq. destruct (dict_mem _ d); [by right|by left]. Qed.

(** The key, where it occurs at the top, makes the parse fail. *)
Lemma loads_stripped_fails so d : loads2 so = Ok (PyDict d) → dict_mem #"last_modified" d = true →
  loads_stripped so = Raise RuntimeError.
Proof.
  intros E Hm. destruct (loads_with_agree None RuntimeError _ strip_hook so) as [E'|E']; [|done].
  change (loads_stripped so = loads2 so) in E'. rewrite E in E'.
  pose proof (loads_with_dict None RuntimeError _ strip_hook so d E') as H.
  cbv beta in H. by rewrite strip_keys_eq, Hm in H.
Qed.

Section vmadm.
Context {W : Type} `{AnsibleModule W} `{Files W}.
(** The order of a dictionary when it is printed. *)
Variable dict_order : dict pystr → dict pystr.
(** [str(exc)] *)
Variable exc_str : exn → pystr.

Definition check_subparam (subparam : pystr) (params : dict pyval) (state : pystr) : M W unit :=
  if negb (truthy (dict_get_default subparam (PyBool false) params))
  then fail_msg (subparam ++ #" subparam required when state=" ++ state)
  else mret tt.

Definition vmadm_alias_lookup (vmadm_path vm_alias : pystr) : M W (option pystr) :=
  '(rc, so, se) ← run_command (vmadm_path ++ #" lookup alias=" ++ vm_alias);
  mret (if Nat.eqb (length so) 0 then None else Some so).

Definition vmadm_get_vm_json_description (vmadm_path uuid : pystr) : M W pystr :=
  '(rc, so, se) ← run_command (vmadm_path ++ #" get " ++ uuid);
  (if Z.eqb rc 0 then mret tt
   else fail_msg (#"vmadm_get_vm_json_description(): failed to get json description for uuid " ++ uuid));;
  v ← lift (loads_stripped so);
  lift (str2 dict_order v).

Definition open_and_load_json_data (manifest : pystr) : M W pyval :=
  json_data ← try_except (open_read manifest) (λ exc,
    match exc with
    | OSError _ => Some (fail_msg (#"could not open " ++ manifest ++ #" for reading: " ++ exc_str exc))
    | _ => None
    end);
  try_except (t ← lift json_data; lift (loads2 t)) (λ exc,
    if is_Exception exc
    then Some (fail_msg (#"could not parse json in manifest file: " ++ manifest ++ #" (" ++ exc_str exc ++ #")"))
    else None).

Definition spec : arg_spec := ArgSpec
  [Arg #"state" [] true PyNone
     [#"present"; #"absent"; #"rebooted"; #"started"; #"stopped"; #"updated"] TStr;
   Arg #"uuid" [#"name"] false PyNone [] TStr;
   Arg #"alias" [] false PyNone [] TStr;
   Arg #"manifest" [] false PyNone [] TStr;
   Arg #"proplist" [] false PyNone [] TStr]
  [[#"alias"; #"uuid"]; [#"proplist"; #"manifest"]].

(** [p[name]] *)
Definition param (p : dict pyval) (name : pystr) : M W pyval := lift (getitem_str (PyDict p) name).

(** [changed], [rc], [so] and [se] at the end of a branch *)
Definition progress : Type := bool * (Z * pystr * pystr).

(** [if state == 'present'] *)
Definition state_present (p : dict pyval) (vmadm_path state : pystr) (manifest : pyval) : M W progress :=
  check_subparam #"manifest" p state;;
  path ← lift (or_raise TypeError (as_str manifest));
  found ← isfile path;
  (if (found : bool) then mret tt else fail_msg (#"could not locate manifest file: " ++ path));;
  data ← open_and_load_json_data path;
  vm_alias ← try_except (lift (getitem_str data #"alias")) (λ e,
    match e with
    | KeyError _ => Some (fail_msg #"manifest file must provide an alias for the vm")
    | _ => None
    end);
  uuid ← vmadm_alias_lookup vmadm_path (fmt2 dict_order vm_alias);
  match uuid with
  | None =>
      r ← run_command (vmadm_path ++ #" create -f " ++ path);
      mret (true, r)
  | Some _ => mret (false, (0%Z, [], []))
  end.

(** The machine meant by [uuid] or [alias]. *)
Definition locate (vmadm_path : pystr) (uuid alias : pyval) : M W pystr :=
  (if negb (truthy uuid) && negb (truthy alias)
   then fail_msg #"one of 'alias' or 'uuid' required when state is not 'present'" else mret tt);;
  if truthy alias then
    found ← vmadm_alias_lookup vmadm_path (fmt2 dict_order alias);
    match found with
    | Some u => mret u
    | None => fail_msg (#"could not locate a matching uuid for vm alias '" ++ fmt2 dict_order alias ++ #"'")
    end
  else mret (fmt2 dict_order uuid).

(** [state.strip('ed').replace('opp', 'op')], or [delete] *)
Definition subcommand_of (state : pystr) : pystr :=
  if state =s #"absent" then #"delete"
  else str_replace #"opp" #"op" (strip_chars #"ed" state).

Definition state_change (vmadm_path state uuid : pystr) : M W progress :=
  '(rc, so, se) ← run_command (vmadm_path ++ #" " ++ subcommand_of state ++ #" " ++ uuid);
  mret (Z.eqb (str_find #"Successfully" se) 0, (rc, so, se)).

(** [elif state == 'updated'] *)
Definition state_updated (vmadm_path uuid : pystr) (proplist manifest : pyval) : M W progress :=
  (if negb (truthy proplist) && negb (truthy manifest)
   then fail_msg #"one of 'manifest' or 'proplist' required when state='updated'" else mret tt);;
  d1 ← vmadm_get_vm_json_description vmadm_path uuid;
  let vm_json_hash := sha1_hex d1 in
  '(rc, so, se) ←
    (if truthy proplist
     then run_command (vmadm_path ++ #" update " ++ uuid ++ #" " ++ fmt2 dict_order proplist)
     else run_command (vmadm_path ++ #" update " ++ uuid ++ #" -f " ++ fmt2 dict_order manifest));
  d2 ← vmadm_get_vm_json_description vmadm_path uuid;
  let vm_json_newhash := sha1_hex d2 in
  mret (if Z.eqb rc 0 then
          if vm_json_hash =s vm_json_newhash then (false, (0%Z, [], [])) else (true, (rc, so, se))
        else (false, (rc, so, se))).

Definition other_state (p : dict pyval) (vmadm_path state : pystr)
    (uuid alias manifest proplist : pyval) : M W progress :=
  uuid ← locate vmadm_path uuid alias;
  if bool_decide (state ∈ [#"started"; #"stopped"; #"rebooted"; #"absent"])
  then state_change vmadm_path state uuid
  else if state =s #"updated" then state_updated vmadm_path uuid proplist manifest
  else mret (false, (1%Z, [], [])).

(** The end of [main] *)
Definition finish (x : progress) : M W unit :=
  let '(changed, (rc, so, se)) := x in
  if negb (Z.eqb rc 0) then fail_msg se else exit_changed changed so.

Definition main : M W unit :=
  p ← am_init spec;
  vmadm_path ← get_bin_path #"vmadm";
  state ← param p #"state";
  uuid ← param p #"uuid";
  alias ← param p #"alias";
  manifest ← param p #"manifest";
  proplist ← param p #"proplist";
  x ← (if is_str state #"present" then state_present p vmadm_path (fmt2 dict_order state) manifest
       else other_state p vmadm_path (fmt2 dict_order state) uuid alias manifest proplist);
  finish x.

(** * Properties *)

Context `{!AnsibleLaws W} `{!FilesLaws W}.

(** The module has its parameters and the path of the tool. *)
Definition ready (w : W) (p : dict pyval) (path : pystr) (w' : W) : Prop :=
  ∃ w1, am_init spec w = (Ok p, w1) ∧ get_bin_path #"vmadm" w1 = (Ok path, w').

Lemma ready_ran w p path w' : ready w p path w' → ran w w' [].
Proof.
  intros (w1 & E1 & E2). eapply (ran_trans _ _ _ [] []); [by eapply am_init_ran|by eapply bin_path_ran].
Qed.

(** The five parameters of a task. *)
Definition task (state uuid alias manifest proplist : pyval) (p : dict pyval) : Prop :=
  dict_get #"state" p = Some state ∧ dict_get #"uuid" p = Some uuid ∧
  dict_get #"alias" p = Some alias ∧ dict_get #"manifest" p = Some manifest ∧
  dict_get #"proplist" p = Some proplist.

Definition branch (p : dict pyval) (path st : pystr) (uuid alias manifest proplist : pyval) : M W progress :=
  if st =s #"present" then state_present p path st manifest
  else other_state p path st uuid alias manifest proplist.

(** What [main] does once it has its parameters. *)
Lemma main_ready w p path w2 st uuid alias manifest proplist :
  ready w p path w2 → task (PyStr st) uuid alias manifest proplist p →
  main w = (branch p path st uuid alias manifest proplist ≫= finish) w2.
Proof.
  intros (w1 & E1 & E2) (H1 & H2 & H3 & H4 & H5). unfold main.
  rewrite (bind_ok _ _ _ _ _ E1), (bind_ok _ _ _ _ _ E2). unfold param, lift, getitem_str.
  rewrite H1, H2, H3, H4, H5. reflexivity.
Qed.

(** A branch that completes. *)
Lemma branch_finished w p path w2 st uuid alias manifest proplist cmds changed rc so se w3 :
  ready w p path w2 → task (PyStr st) uuid alias manifest proplist p →
  branch p path st uuid alias manifest proplist w2 = (Ok (changed, (rc, so, se)), w3) → ran w2 w3 cmds →
  finished w (main w) cmds (reported changed rc so se).
Proof.
  intros Hr Ht E Hc. rewrite (main_ready _ _ _ _ _ _ _ _ _ Hr Ht).
  apply (finished_after _ _ _ [] _ _ (ready_ran _ _ _ _ Hr)). rewrite <- (app_nil_r cmds).
  eapply finished_bind; [exact E|exact Hc|apply report_finished].
Qed.

(** A branch that ends the module. *)
Lemma branch_failed w p path w2 st uuid alias manifest proplist cmds res :
  ready w p path w2 → task (PyStr st) uuid alias manifest proplist p →
  finished w2 (branch p path st uuid alias manifest proplist w2) cmds res →
  finished w (main w) cmds res.
Proof.
  intros Hr Ht Hf. rewrite (main_ready _ _ _ _ _ _ _ _ _ Hr Ht).
  apply (finished_after _ _ _ [] _ _ (ready_ran _ _ _ _ Hr)). by apply finished_early.
Qed.

Definition lookup_cmd (path a : pystr) : pystr := path ++ #" lookup alias=" ++ a.

Lemma alias_lookup_ran path a w rc so se w' :
  run_command (lookup_cmd path a) w = (Ok (rc, so, se), w') →
  vmadm_alias_lookup path a w = (Ok (if Nat.eqb (length so) 0 then None else Some so), w').
Proof. intros E. unfold vmadm_alias_lookup. by rewrite (bind_ok _ _ _ _ _ E). Qed.

(** The machine a task means, and the commands it takes to find it. *)
Inductive located (path : pystr) (w : W) : pyval → pyval → pystr → list pystr → W → Prop :=
| by_uuid uuid : uuid ≠ [] → located path w (PyStr uuid) PyNone uuid [] w
| by_alias a rc so se w' : a ≠ [] → so ≠ [] →
    run_command (lookup_cmd path a) w = (Ok (rc, so, se), w') →
    located path w PyNone (PyStr a) so [lookup_cmd path a] w'.

Lemma locate_located path w uuid alias machine cmds w' :
  located path w uuid alias machine cmds w' →
  locate path uuid alias w = (Ok machine, w') ∧ ran w w' cmds.
Proof.
  intros [u' Hu|a rc so se w1 Ha Hso E]; unfold locate.
  - split; [|apply ran_refl]. by destruct u'.
  - split; [|by eapply run_command_ok]. destruct a as [|c a]; [done|]. cbn [truthy negb andb].
    rewrite ret_bind. cbn [fmt2]. rewrite (bind_ok _ _ _ _ _ (alias_lookup_ran _ _ _ _ _ _ _ E)).
    by destruct so.
Qed.

(** The subcommands, state by state. *)
Definition verb_of_state : list (pystr * pystr) :=
  [(#"started", #"start"); (#"stopped", #"stop"); (#"rebooted", #"reboot"); (#"absent", #"delete")].

Lemma verb_subcommand st verb : (st, verb) ∈ verb_of_state →
  subcommand_of st = verb ∧ (st =s #"present") = false ∧
  bool_decide (st ∈ [#"started"; #"stopped"; #"rebooted"; #"absent"]) = true.
Proof.
  unfold verb_of_state. rewrite !elem_of_cons, elem_of_nil.
  intros [[= -> ->]|[[= -> ->]|[[= -> ->]|[[= -> ->]|[]]]]]; by vm_compute.
Qed.

(** The branch of a task. *)
Lemma change_branch p path w st verb uuid alias manifest proplist machine cmds w1 rc so se w2 :
  (st, verb) ∈ verb_of_state → located path w uuid alias machine cmds w1 →
  run_command (path ++ #" " ++ verb ++ #" " ++ machine) w1 = (Ok (rc, so, se), w2) →
  branch p path st uuid alias manifest proplist w = (Ok (startswith #"Successfully" se, (rc, so, se)), w2) ∧
  ran w w2 (cmds ++ [path ++ #" " ++ verb ++ #" " ++ machine]).
Proof.
  intros (Hv & Hp & Hs)%verb_subcommand [El Hl]%locate_located E. split.
  - unfold branch, other_state. rewrite Hp, (bind_ok _ _ _ _ _ El), Hs.
    unfold state_change. rewrite Hv, (bind_ok _ _ _ _ _ E). rewrite (eqb_find_0 _ se). reflexivity.
  - eapply ran_trans; [exact Hl|by eapply run_command_ok].
Qed.

(** C11: starting, stopping, rebooting and deleting a machine.  Given the machine
    by uuid, or by an alias that is looked up first, the module runs exactly the
    subcommand for the state and exits; it succeeds when the tool returns 0 and
    then reports a change exactly when the error output of the tool starts with
    "Successfully". *)
Theorem vmadm_changes_state w p path w2 st verb uuid alias manifest proplist machine cmds w3 rc so se w4 :
  ready w p path w2 → task (PyStr st) uuid alias manifest proplist p →
  (st, verb) ∈ verb_of_state → located path w2 uuid alias machine cmds w3 →
  run_command (path ++ #" " ++ verb ++ #" " ++ machine) w3 = (Ok (rc, so, se), w4) →
  finished w (main w) (cmds ++ [path ++ #" " ++ verb ++ #" " ++ machine])
    (reported (startswith #"Successfully" se) rc so se).
Proof.
  intros Hr Ht Hv El E. destruct (change_branch p path w2 st verb uuid alias manifest proplist _ _ _ _ _ _ _ Hv El E).
  by eapply branch_finished.
Qed.

(** The state [present], up to the lookup of the alias. *)
Lemma present_lookup p path w2 m st w3 text w4 data a :
  dict_get #"manifest" p = Some (PyStr m) → m ≠ [] →
  isfile m w2 = (Ok true, w3) → open_read m w3 = (Ok (Ok text), w4) →
  loads2 text = Ok (PyDict data) → dict_get #"alias" data = Some a →
  state_present p path st (PyStr m) w2 =
    (uuid ← vmadm_alias_lookup path (fmt2 dict_order a);
     match uuid with
     | None => r ← run_command (path ++ #" create -f " ++ m); mret (true, r)
     | Some _ => mret (false, (0%Z, [], []))
     end) w4.
Proof.
  intros Hg Hm E1 E2 E3 E4.
  unfold state_present, check_subparam, dict_get_default. rewrite Hg. destruct m as [|c m]; [done|].
  cbn [truthy negb]. rewrite ret_bind, (lift_ok _ _ _ (c :: m)) by done.
  rewrite (bind_ok _ _ _ _ _ E1), ret_bind. unfold open_and_load_json_data.
  rewrite bind_assoc, (bind_ok _ _ _ _ _ (try_ok _ _ _ _ _ E2)).
  rewrite (bind_ok _ _ _ (PyDict data) w4).
  - rewrite (bind_ok _ _ _ a w4); [done|]. apply try_ok. unfold lift. cbn [getitem_str]. by rewrite E4.
  - apply try_ok. rewrite (lift_ok _ _ _ text) by done. unfold lift. by rewrite E3.
Qed.

(** The manifest of a task: a readable file with a JSON object. *)
Definition manifest_read (w : W) (m : pystr) (data : dict pyval) (w' : W) : Prop :=
  m ≠ [] ∧ ∃ w1 text, isfile m w = (Ok true, w1) ∧ open_read m w1 = (Ok (Ok text), w') ∧
    loads2 text = Ok (PyDict data).

Lemma manifest_ran w m data w' : manifest_read w m data w' → ran w w' [].
Proof.
  intros (_ & w1 & text & E1 & E2 & _). apply logged_nil.
  destruct (isfile_law m w) as (b & w1' & E & H1). rewrite E1 in E. injection E as _ <-.
  destruct (open_read_law m w1) as (r & w2' & E & H2 & _). rewrite E2 in E. injection E as _ <-. congruence.
Qed.

(** C9: creating a machine is idempotent.  If a machine with the alias of the
    manifest exists, the only command the module runs is the lookup, and it
    reports success without a change. *)
Theorem vmadm_present_idempotent w p path w2 uuid alias m proplist data w3 a rc so se w4 :
  ready w p path w2 → task (PyStr #"present") uuid alias (PyStr m) proplist p →
  manifest_read w2 m data w3 → dict_get #"alias" data = Some a →
  run_command (lookup_cmd path (fmt2 dict_order a)) w3 = (Ok (rc, so, se), w4) → so ≠ [] →
  finished w (main w) [lookup_cmd path (fmt2 dict_order a)]
    (Exited [(#"changed", PyBool false); (#"msg", PyStr [])]).
Proof.
  intros Hr Ht Hm Ha E Hso. pose proof (manifest_ran _ _ _ _ Hm) as Hl.
  destruct Hm as (Hm & w1 & text & E1 & E2 & E3).
  eapply (branch_finished _ _ _ _ _ _ _ _ _ _ false 0 [] [] _ Hr Ht).
  - unfold branch. rewrite bool_decide_eq_true_2 by done.
    rewrite (present_lookup _ _ _ _ _ _ _ _ _ _ (proj1 (proj2 (proj2 (proj2 Ht)))) Hm E1 E2 E3 Ha).
    rewrite (bind_ok _ _ _ _ _ (alias_lookup_ran _ _ _ _ _ _ _ E)). by destruct so.
  - eapply (ran_trans _ _ _ [] _ Hl). by eapply run_command_ok.
Qed.

Lemma create_branch p path w uuid alias m proplist data w1 a rc0 se0 w2 rc so se w3 :
  dict_get #"manifest" p = Some (PyStr m) →
  manifest_read w m data w1 → dict_get #"alias" data = Some a →
  run_command (lookup_cmd path (fmt2 dict_order a)) w1 = (Ok (rc0, [], se0), w2) →
  run_command (path ++ #" create -f " ++ m) w2 = (Ok (rc, so, se), w3) →
  branch p path #"present" uuid alias (PyStr m) proplist w = (Ok (true, (rc, so, se)), w3) ∧
  ran w w3 [lookup_cmd path (fmt2 dict_order a); path ++ #" create -f " ++ m].
Proof.
  intros Hg Hm Ha E E'. pose proof (manifest_ran _ _ _ _ Hm) as Hl.
  destruct Hm as (Hm & w' & text & E1 & E2 & E3). split.
  - unfold branch. rewrite bool_decide_eq_true_2 by done.
    rewrite (present_lookup _ _ _ _ _ _ _ _ _ _ Hg Hm E1 E2 E3 Ha).
    rewrite (bind_ok _ _ _ _ _ (alias_lookup_ran _ _ _ _ _ _ _ E)). cbn [length Nat.eqb].
    rewrite (bind_ok _ _ _ _ _ E'). reflexivity.
  - eapply (ran_trans _ _ _ [] _ Hl). eapply (ran_trans _ _ _ [_] [_]); by eapply run_command_ok.
Qed.

(** C10: creating a machine.  If no machine has the alias of the manifest, the
    tool is run once with the manifest; a return code of 0 is reported as a
    change with the tool's output, any other code as a failure with its error
    output. *)
Theorem vmadm_present_creates w p path w2 uuid alias m proplist data w3 a rc0 se0 w4 rc so se w5 :
  ready w p path w2 → task (PyStr #"present") uuid alias (PyStr m) proplist p →
  manifest_read w2 m data w3 → dict_get #"alias" data = Some a →
  run_command (lookup_cmd path (fmt2 dict_order a)) w3 = (Ok (rc0, [], se0), w4) →
  run_command (path ++ #" create -f " ++ m) w4 = (Ok (rc, so, se), w5) →
  finished w (main w) [lookup_cmd path (fmt2 dict_order a); path ++ #" create -f " ++ m]
    (reported true rc so se).
Proof.
  intros Hr Ht Hm Ha E E'.
  destruct (create_branch p path w2 uuid alias m proplist _ _ _ _ _ _ _ _ _ _ (proj1 (proj2 (proj2 (proj2 Ht)))) Hm Ha E E').
  by eapply branch_finished.
Qed.

(** ** Updates *)

Definition get_cmd (path u : pystr) : pystr := path ++ #" get " ++ u.

(** The tool prints a description that can be read and printed again. *)
Definition described (path u : pystr) (w : W) (text : pystr) (w' : W) : Prop :=
  ∃ so se v, run_command (get_cmd path u) w = (Ok (0%Z, so, se), w') ∧
    loads_stripped so = Ok v ∧ str2 dict_order v = Ok text.

Lemma description_ok path u w text w' : described path u w text w' →
  vmadm_get_vm_json_description path u w = (Ok text, w') ∧ ran w w' [get_cmd path u].
Proof.
  intros (so & se & v & E & E1 & E2). split; [|by eapply run_command_ok].
  unfold vmadm_get_vm_json_description. rewrite (bind_ok _ _ _ _ _ E). cbn [Z.eqb].
  rewrite ret_bind, (lift_ok _ _ _ _ E1). unfold lift. by rewrite E2.
Qed.

(** The update command of a task: a property list is preferred to a manifest. *)
Definition update_cmd (path u proplist manifest : pystr) : pystr :=
  match proplist with
  | [] => path ++ #" update " ++ u ++ #" -f " ++ manifest
  | _ => path ++ #" update " ++ u ++ #" " ++ proplist
  end.

Definition opt_text (s : pystr) : pyval := match s with [] => PyNone | _ => PyStr s end.

Lemma update_command path u pl mf w :
  (if truthy (opt_text pl)
   then run_command (path ++ #" update " ++ u ++ #" " ++ fmt2 dict_order (opt_text pl))
   else run_command (path ++ #" update " ++ u ++ #" -f " ++ fmt2 dict_order (opt_text mf))) w
  = match mf, pl with [], [] => run_command (path ++ #" update " ++ u ++ #" -f None") w
    | _, _ => run_command (update_cmd path u pl mf) w end.
Proof. by destruct pl, mf. Qed.

(** What an update comes to. *)
Definition update_progress (rc : Z) (so se d1 d2 : pystr) : progress :=
  if Z.eqb rc 0 then
    if sha1_hex d1 =s sha1_hex d2 then (false, (0%Z, [], [])) else (true, (rc, so, se))
  else (false, (rc, so, se)).

Lemma update_branch p path w uuid alias mf pl machine cmds w1 d1 w2 rc so se w3 d2 w4 :
  (mf ≠ [] ∨ pl ≠ []) → located path w uuid alias machine cmds w1 →
  described path machine w1 d1 w2 →
  run_command (update_cmd path machine pl mf) w2 = (Ok (rc, so, se), w3) →
  described path machine w3 d2 w4 →
  branch p path #"updated" uuid alias (opt_text mf) (opt_text pl) w = (Ok (update_progress rc so se d1 d2), w4) ∧
  ran w w4 (cmds ++ [get_cmd path machine; update_cmd path machine pl mf; get_cmd path machine]).
Proof.
  intros Hg [El Hl]%locate_located [E1 H1]%description_ok E [E2 H2]%description_ok. split.
  - unfold branch, other_state. change (#"updated" =s #"present") with false. cbv iota.
    rewrite (bind_ok _ _ _ _ _ El). change (bool_decide (#"updated" ∈ _)) with false.
    change (#"updated" =s #"updated") with true. cbv iota. unfold state_updated.
    assert (negb (truthy (opt_text pl)) && negb (truthy (opt_text mf)) = false) as ->
      by (destruct mf, pl; naive_solver).
    rewrite ret_bind, (bind_ok _ _ _ _ _ E1). cbv zeta.
    rewrite (bind_ok _ _ w2 (rc, so, se) w3)
      by (rewrite update_command, <- E; destruct mf, pl; naive_solver).
    by rewrite (bind_ok _ _ _ _ _ E2).
  - eapply ran_trans; [exact Hl|]. eapply (ran_trans _ _ _ [_]); [exact H1|].
    eapply (ran_trans _ _ _ [_] [_]); [by eapply run_command_ok|exact H2].
Qed.

(** How an update is reported. *)
Lemma update_finished w p path w2 uuid alias mf pl rc so se d1 d2 w4 cmds :
  ready w p path w2 → task (PyStr #"updated") uuid alias mf pl p →
  branch p path #"updated" uuid alias mf pl w2 = (Ok (update_progress rc so se d1 d2), w4) → ran w2 w4 cmds →
  finished w (main w) cmds
    (if Z.eqb rc 0 && (sha1_hex d1 =s sha1_hex d2)
     then Exited [(#"changed", PyBool false); (#"msg", PyStr [])]
     else reported true rc so se).
Proof.
  intros Hr Ht. unfold update_progress.
  destruct (Z.eqb rc 0) eqn:Erc; [destruct (sha1_hex d1 =s sha1_hex d2)|]; cbn [andb]; intros Hb Hc;
    (eapply eq_rect; [eapply (branch_finished _ _ _ _ _ _ _ _ _ _ _ _ _ _ _ Hr Ht Hb Hc)|]);
    unfold reported; by rewrite ?Erc.
Qed.

(** C8: updating a machine.  The description is read before and after the one
    update command; the module reports a change exactly when the update succeeds
    and the SHA-1 digests of the two descriptions differ, and then the tool's
    output; without a difference it reports no output at all. *)
Theorem vmadm_updates w p path w2 uuid alias mf pl machine cmds w3 d1 w4 rc so se w5 d2 w6 :
  ready w p path w2 → task (PyStr #"updated") uuid alias (opt_text mf) (opt_text pl) p →
  (mf ≠ [] ∨ pl ≠ []) → located path w2 uuid alias machine cmds w3 →
  described path machine w3 d1 w4 →
  run_command (update_cmd path machine pl mf) w4 = (Ok (rc, so, se), w5) →
  described path machine w5 d2 w6 →
  finished w (main w)
    (cmds ++ [get_cmd path machine; update_cmd path machine pl mf; get_cmd path machine])
    (if Z.eqb rc 0 && (sha1_hex d1 =s sha1_hex d2)
     then Exited [(#"changed", PyBool false); (#"msg", PyStr [])]
     else reported true rc so se).
Proof.
  intros Hr Ht Hg El E1 E E2. destruct (update_branch p path w2 uuid alias _ _ _ _ _ _ _ _ _ _ _ _ _ Hg El E1 E E2).
  by eapply update_finished.
Qed.

(** C12: a description with a [last_modified] key at its top stops an update
    before anything is changed: the key is deleted while the dictionary is being
    visited, and the module ends with a [RuntimeError] after its first [get]. *)
Theorem vmadm_update_last_modified w p path w2 uuid alias mf pl machine cmds w3 so se d w4 :
  ready w p path w2 → task (PyStr #"updated") uuid alias (opt_text mf) (opt_text pl) p →
  (mf ≠ [] ∨ pl ≠ []) → located path w2 uuid alias machine cmds w3 →
  run_command (get_cmd path machine) w3 = (Ok (0%Z, so, se), w4) →
  loads2 so = Ok (PyDict d) → dict_mem #"last_modified" d = true →
  main w = (Raise RuntimeError, w4) ∧ ran w w4 (cmds ++ [get_cmd path machine]).
Proof.
  intros Hr Ht Hg [El Hl]%locate_located E Hd Hm. split.
  - rewrite (main_ready _ _ _ _ _ _ _ _ _ Hr Ht). apply bind_raised.
    unfold branch, other_state. change (#"updated" =s #"present") with false. cbv iota.
    rewrite (bind_ok _ _ _ _ _ El). change (bool_decide (#"updated" ∈ _)) with false.
    change (#"updated" =s #"updated") with true. cbv iota. unfold state_updated.
    assert (negb (truthy (opt_text pl)) && negb (truthy (opt_text mf)) = false) as ->
      by (destruct mf, pl; naive_solver).
    rewrite ret_bind. apply bind_raised. unfold vmadm_get_vm_json_description.
    rewrite (bind_ok _ _ _ _ _ E). cbn [Z.eqb]. rewrite ret_bind.
    apply lift_raised. by eapply loads_stripped_fails.
  - eapply (ran_trans _ _ _ [] _ (ready_ran _ _ _ _ Hr)). eapply ran_trans; [exact Hl|by eapply run_command_ok].
Qed.
(** ** Every run *)

(** The parameters the module gets always make a task. *)
Lemma conforming_task p : conforms spec p = true →
  ∃ st uuid alias manifest proplist, task (PyStr st) uuid alias manifest proplist p ∧
    (manifest = PyNone ∨ ∃ m, manifest = PyStr m).
Proof.
  intros Hp. pose proof (conforms_option spec p) as Hg.
  destruct (Hg _ Hp ltac:(left)) as (vs & Es & (st & -> & _)%always_text); [|done|by left].
  destruct (Hg _ Hp ltac:(do 1 right; left)) as (uuid & Eu & _).
  destruct (Hg _ Hp ltac:(do 2 right; left)) as (alias & Ea & _).
  destruct (Hg _ Hp ltac:(do 3 right; left)) as (mf & Em & Hm%text_or_none); [|done..].
  destruct (Hg _ Hp ltac:(do 4 right; left)) as (pl & Ep & _).
  exists st, uuid, alias, mf, pl. split; [by split_and!|]. naive_solver.
Qed.

(** The exceptions that may leave the module: a description that is not JSON or
    not ASCII, one with the key [last_modified], and a manifest that is not an
    object. *)
Definition may_escape (e : exn) : Prop := is_ValueError e = true ∨ e = RuntimeError ∨ e = TypeError.
Abbreviation vmadm_behaves := (behaves may_escape).

(** Reading a file fails with an [Exception], if at all. *)
Context (Hread : ∀ path w e w', open_read path w = (Ok (Raise e), w') → is_Exception e = true).

Lemma vmadm_run_behaves c : vmadm_behaves (λ _, True) (run_command c).
Proof. apply behaves_run. intros m. by left. Qed.

Lemma escapes_value e : is_ValueError e = true → escapes (P := may_escape) e.
Proof. intros He. split; [by left|]. by intros n ->. Qed.

Lemma alias_lookup_behaves path a : vmadm_behaves (λ _, True) (vmadm_alias_lookup path a).
Proof.
  unfold vmadm_alias_lookup. eapply behaves_bind; [apply vmadm_run_behaves|]. intros [[rc so] se] _. by apply behaves_ret.
Qed.

Lemma description_behaves path u : vmadm_behaves (λ _, True) (vmadm_get_vm_json_description path u).
Proof.
  unfold vmadm_get_vm_json_description. eapply behaves_bind; [apply vmadm_run_behaves|]. intros [[rc so] se] _.
  apply (behaves_bind (λ _, True)); [case_match; [by apply behaves_ret|apply behaves_fail]|]. intros _ _.
  apply (behaves_bind (λ _, True)).
  - apply behaves_lift. assert (agree RuntimeError (loads_stripped so) (loads2 so)) as [->| ->]
      by apply (loads_with_agree None RuntimeError _ strip_hook so).
    + destruct (loads2 so) as [|e] eqn:El; [done|]. by eapply escapes_value, loads2_errors.
    + split; [by right; left|done].
  - intros v _. apply behaves_lift. unfold str2. destruct v; try done.
    destruct (forallb _ s); [done|by apply escapes_value].
Qed.

Lemma open_behaves m : vmadm_behaves (λ _, True) (open_and_load_json_data m).
Proof.
  unfold open_and_load_json_data.
  apply (behaves_bind (λ t : outcome pystr, ∀ e, t = Raise e → is_Exception e = true)).
  - apply behaves_try. intros w. destruct (open_read_law m w) as (r & w' & E & El & He). rewrite E. cbn [fst snd].
    split; [by apply logged_nil|]. destruct r as [t|e].
    + intros e ->. by eapply Hread.
    + destruct (He e eq_refl) as [t ->]. apply behaves_fail.
  - intros t Ht. apply behaves_try. intros w.
    assert (∀ e, (t ← lift t; lift (loads2 t) : M W pyval) w = (Raise e, w) → is_Exception e = true) as Hx.
    { intros e. destruct t as [t|e'].
      - rewrite (lift_ok _ _ _ t) by done. unfold lift. intros [= Hl]. apply loads2_errors in Hl. by destruct e.
      - rewrite (lift_raised _ _ _ e') by done. intros [= <-]. by apply Ht. }
    assert (((t ← lift t; lift (loads2 t) : M W pyval) w).2 = w) as Hw by (by destruct t).
    destruct ((t ← lift t; lift (loads2 t) : M W pyval) w) as [[x|e] w1] eqn:E; cbn [fst snd] in *; subst w1;
      (split; [apply logged_refl|]); [done|]. rewrite (Hx e eq_refl). apply behaves_fail.
Qed.

Lemma present_behaves p path st mf : dict_get #"manifest" p = Some mf → (mf = PyNone ∨ ∃ m, mf = PyStr m) →
  vmadm_behaves (λ _, True) (state_present p path st mf).
Proof.
  intros Hg Hm. unfold state_present. apply (behaves_bind (λ _, ∃ m, mf = PyStr m)).
  { unfold check_subparam, dict_get_default. rewrite Hg. destruct Hm as [->|[m ->]]; [apply behaves_fail|].
    case_match; [apply behaves_fail|]. apply behaves_ret. by exists m. }
  intros _ [m ->]. apply (behaves_bind (λ x, x = m)); [by apply behaves_lift|]. intros ? ->.
  apply (behaves_bind (λ _, True)).
  { intros w. destruct (isfile_law m w) as (b & w' & E & El). rewrite E. exists []. cbn.
    split; [by apply logged_nil|]. by split; [constructor|]. }
  intros found _. apply (behaves_bind (λ _, True)); [case_match; [by apply behaves_ret|apply behaves_fail]|]. intros _ _.
  apply (behaves_bind (λ _, True)); [apply open_behaves|]. intros data _.
  apply (behaves_bind (λ _, True)).
  { apply behaves_try. intros w. unfold lift. cbn [fst snd]. split; [apply logged_refl|].
    unfold getitem_str. destruct data; try (split; [by do 2 right|done]).
    destruct (dict_get #"alias" d); [done|apply behaves_fail]. }
  intros a _. apply (behaves_bind (λ _, True)); [apply alias_lookup_behaves|]. intros [u'|] _; [by apply behaves_ret|].
  eapply behaves_bind; [apply vmadm_run_behaves|]. intros r _. by apply behaves_ret.
Qed.

Lemma other_behaves p path st uuid alias mf pl :
  vmadm_behaves (λ _, True) (other_state p path st uuid alias mf pl).
Proof.
  unfold other_state. apply (behaves_bind (λ _, True)).
  { unfold locate. apply (behaves_bind (λ _, True)); [case_match; [apply behaves_fail|by apply behaves_ret]|]. intros _ _.
    case_match; [|by apply behaves_ret]. apply (behaves_bind (λ _, True)); [apply alias_lookup_behaves|].
    intros [u'|] _; [by apply behaves_ret|apply behaves_fail]. }
  intros u' _. case_match.
  - unfold state_change. eapply behaves_bind; [apply vmadm_run_behaves|]. intros [[rc so] se] _. by apply behaves_ret.
  - case_match; [|by apply behaves_ret]. unfold state_updated.
    apply (behaves_bind (λ _, True)); [case_match; [apply behaves_fail|by apply behaves_ret]|]. intros _ _.
    apply (behaves_bind (λ _, True)); [apply description_behaves|]. intros d1 _.
    apply (behaves_bind (λ _, True)); [case_match; apply vmadm_run_behaves|]. intros [[rc so] se] _.
    apply (behaves_bind (λ _, True)); [apply description_behaves|]. intros d2 _. by apply behaves_ret.
Qed.

(** C13: whatever the task and the host, a run of the module ends: it prints
    exactly one report, after everything else, and exits with a code that agrees
    with it, or one of three kinds of exceptions escapes: [ValueError] and
    [RuntimeError] for the description of a machine, [ValueError] for a command
    with unbalanced quotes, and [TypeError] for a manifest that is not an object. *)
Theorem vmadm_well_typed : behaves may_escape (λ _ : unit, False) main.
Proof using AnsibleLaws0 FilesLaws0 Hread.
  unfold main. eapply behaves_bind; [apply behaves_init|]. intros p Hp. cbv beta in Hp.
  eapply behaves_bind; [apply behaves_bin_path|]. intros path _.
  destruct (conforming_task p Hp) as (st & uuid & alias & mf & pl & (Hs & Hu & Ha & Hm & Hpl) & Hmf).
  assert (∀ name v, dict_get name p = Some v → vmadm_behaves (λ x, x = v) (param p name)) as Hparam.
  { intros name v E. apply behaves_lift. unfold getitem_str. by rewrite E. }
  do 5 (eapply behaves_bind; [by apply Hparam|]; intros ? ->).
  apply (behaves_bind (λ _, True)).
  - case_match; [by apply present_behaves|apply other_behaves].
  - intros [changed [[rc so] se]] _. unfold finish. case_match; [apply behaves_fail|apply behaves_exit].
Qed.
End vmadm.

(** * Concrete runs *)

Definition demo_order (d : dict pystr) : dict pystr := d.
Definition demo_exc (e : exn) : pystr := [].
Abbreviation demo_main := (main (W := demo_host) demo_order demo_exc).

Definition demo_params (state uuid alias manifest proplist : pyval) : dict pyval :=
  [(#"state", state); (#"uuid", uuid); (#"alias", alias); (#"manifest", manifest); (#"proplist", proplist)].

Definition vmadm_path : pystr := #"/usr/sbin/vmadm".

Lemma demo_ready p files answers : conforms spec p = true →
  ready (DemoHost p files answers []) p vmadm_path (DemoHost p files answers []).
Proof. intros E. eexists. unfold am_init. cbn [demo_ansible dh_params]. by rewrite E. Qed.

Lemma demo_task st uuid alias manifest proplist :
  task st uuid alias manifest proplist (demo_params st uuid alias manifest proplist).
Proof. by split_and!. Qed.

Definition demo_json (l : list (pystr * pystr)) : pystr :=
  dumps (PyDict (map (λ kv, (kv.1, PyStr kv.2)) l)).

Definition demo_start : dict pyval := demo_params (PyStr #"started") PyNone (PyStr #"web") PyNone PyNone.

Lemma vmadm_changes_state_witness :
  let h := DemoHost demo_start [] [(0%Z, #"u-1", []); (0%Z, [], #"Successfully started VM u-1")] [] in
  (#"started", #"start") ∈ verb_of_state ∧
  finished h (demo_main h) [#"/usr/sbin/vmadm lookup alias=web"; #"/usr/sbin/vmadm start u-1"]
    (Exited [(#"changed", PyBool true); (#"msg", PyStr [])]).
Proof.
  intros h. assert ((#"started", #"start") ∈ verb_of_state) as Hv by constructor.
  split; [exact Hv|].
  refine (vmadm_changes_state demo_order demo_exc h demo_start vmadm_path h #"started" #"start"
    PyNone (PyStr #"web") PyNone PyNone #"u-1" [lookup_cmd vmadm_path #"web"] _ 0 [] #"Successfully started VM u-1" _
    (demo_ready demo_start _ _ eq_refl) (demo_task _ _ _ _ _) Hv _ _).
  - eapply by_alias; [vm_compute; discriminate|vm_compute; discriminate|vm_compute; reflexivity].
  - vm_compute. reflexivity.
Defined.

Definition demo_manifest : dict pystr := [(#"/m.json", demo_json [(#"alias", #"web")])].

Definition demo_present : dict pyval := demo_params (PyStr #"present") PyNone PyNone (PyStr #"/m.json") PyNone.

Lemma demo_read p answers : manifest_read (DemoHost p demo_manifest answers []) #"/m.json"
  [(#"alias", PyStr #"web")] (DemoHost p demo_manifest answers []).
Proof.
  split; [done|]. exists (DemoHost p demo_manifest answers []), (demo_json [(#"alias", #"web")]).
  split; [reflexivity|]. split; [reflexivity|]. vm_compute. reflexivity.
Qed.

Lemma vmadm_present_idempotent_witness :
  let h := DemoHost demo_present demo_manifest [(0%Z, #"u-1", [])] [] in
  finished h (demo_main h) [#"/usr/sbin/vmadm lookup alias=web"]
    (Exited [(#"changed", PyBool false); (#"msg", PyStr [])]).
Proof.
  intros h.
  refine (vmadm_present_idempotent demo_order demo_exc h demo_present vmadm_path h
    PyNone PyNone #"/m.json" PyNone _ _ (PyStr #"web") 0 #"u-1" [] _
    (demo_ready demo_present _ _ eq_refl) (demo_task _ _ _ _ _) (demo_read _ _) _ _ _).
  - vm_compute. reflexivity.
  - vm_compute. reflexivity.
  - vm_compute. discriminate.
Defined.

Lemma vmadm_present_creates_witness :
  let h := DemoHost demo_present demo_manifest [(0%Z, [], []); (0%Z, #"created", [])] [] in
  finished h (demo_main h) [#"/usr/sbin/vmadm lookup alias=web"; #"/usr/sbin/vmadm create -f /m.json"]
    (Exited [(#"changed", PyBool true); (#"msg", PyStr #"created")]).
Proof.
  intros h.
  refine (vmadm_present_creates demo_order demo_exc h demo_present vmadm_path h
    PyNone PyNone #"/m.json" PyNone _ _ (PyStr #"web") 0 [] _ 0 #"created" [] _
    (demo_ready demo_present _ _ eq_refl) (demo_task _ _ _ _ _) (demo_read _ _) _ _ _).
  - vm_compute. reflexivity.
  - vm_compute. reflexivity.
  - vm_compute. reflexivity.
Defined.

Definition demo_update : dict pyval :=
  demo_params (PyStr #"updated") (PyStr #"u-1") PyNone PyNone (PyStr #"ram=256").

Definition demo_answer (l : list (pystr * pystr)) : Z * pystr * pystr := (0%Z, demo_json l, []).

Lemma vmadm_updates_witness :
  let h := DemoHost demo_update []
    [demo_answer [(#"ram", #"128")]; (0%Z, #"done", []); demo_answer [(#"ram", #"256")]] [] in
  finished h (demo_main h)
    [#"/usr/sbin/vmadm get u-1"; #"/usr/sbin/vmadm update u-1 ram=256"; #"/usr/sbin/vmadm get u-1"]
    (Exited [(#"changed", PyBool true); (#"msg", PyStr #"done")]).
Proof.
  intros h.
  refine (vmadm_updates demo_order demo_exc h demo_update vmadm_path h (PyStr #"u-1") PyNone [] #"ram=256"
    #"u-1" [] h (repr2 demo_order (PyDict [(#"ram", PyStr #"128")])) _ 0 #"done" [] _
    (repr2 demo_order (PyDict [(#"ram", PyStr #"256")])) _
    (demo_ready demo_update _ _ eq_refl) (demo_task _ _ _ _ _) _ _ _ _ _).
  - right. vm_compute. discriminate.
  - apply by_uuid. vm_compute. discriminate.
  - do 3 eexists. split; [vm_compute; reflexivity|].
    split; [vm_compute; reflexivity|]. vm_compute. reflexivity.
  - vm_compute. reflexivity.
  - do 3 eexists. split; [vm_compute; reflexivity|].
    split; [vm_compute; reflexivity|]. vm_compute. reflexivity.
Defined.

Lemma vmadm_update_last_modified_witness :
  let h := DemoHost demo_update [] [demo_answer [(#"ram", #"128"); (#"last_modified", #"2019")]] [] in
  (demo_main h).1 = Raise RuntimeError ∧ dh_log (demo_main h).2 = [Ran #"/usr/sbin/vmadm get u-1"].
Proof.
  intros h.
  destruct (vmadm_update_last_modified demo_order demo_exc h demo_update vmadm_path h (PyStr #"u-1") PyNone
    [] #"ram=256" #"u-1" [] h (demo_answer [(#"ram", #"128"); (#"last_modified", #"2019")]).1.2 []
    [(#"ram", PyStr #"128"); (#"last_modified", PyStr #"2019")]
    (DemoHost demo_update [] [] [Ran #"/usr/sbin/vmadm get u-1"])
    (demo_ready demo_update _ _ eq_refl) (demo_task _ _ _ _ _)) as [E1 E2].
  - right. vm_compute. discriminate.
  - apply by_uuid. vm_compute. discriminate.
  - vm_compute. reflexivity.
  - vm_compute. reflexivity.
  - vm_compute. reflexivity.
  - rewrite E1. split; reflexivity.
Defined.

Lemma vmadm_well_typed_witness :
  behaves may_escape (λ _ : unit, False) demo_main ∧
  (demo_main (DemoHost demo_present [(#"/m.json", #"[]")] [] [])).1 = Raise TypeError.
Proof.
  split; [|vm_compute; reflexivity]. apply (vmadm_well_typed demo_order demo_exc).
  intros path w e w'. unfold open_read. cbn [demo_file_system]. by destruct (dict_get path (dh_files w)).
Defined.
