(* ===== verification/CfgdbDisco.v ===== *)
(** The cfgdb discovery service ([cfgdb_disco_server.py]): UDP datagrams that
    start with [cfgdb_discovery] are answered with the name of the data centre,
    which is asked for once and kept. *)
From S2P Require Export PyRepr PyUtf8.
From Stdlib Require Import NArith ZArith Lia.

(** * [repr] of a byte string, as ['%s'] prints it in Python 3 *)

Definition repr_byte (quote c : N) : pystr :=
  if N.eqb c quote || N.eqb c 92 then [92%N; c]
  else if N.eqb c 9 then #"\t"
  else if N.eqb c 10 then #"\n"
  else if N.eqb c 13 then #"\r"
  else if N.ltb c 32 || N.leb 127 c then #"\x" ++ hex2 c
  else [c].

Definition repr_bytes (s : bytes) : pystr :=
  let quote := if char_in 39 s && negb (char_in 34 s) then 34%N else 39%N in
  #"b" ++ [quote] ++ mjoin (repr_byte quote <$> s) ++ [quote].

Section disco.
Context {W Addr : Type}.
(** [subprocess.check_output] and [socket.sendto] *)
Variable check_output : list pystr → M W bytes.
Variable sendto : bytes → Addr → M W unit.
(** [s.bind((host, port))] on a new UDP socket, and [addr[0]]. *)
Variable bind : pystr → Z → M W unit.
Variable host : Addr → pystr.
(** [str(exc)] *)
Variable exc_str : exn → pystr.

Definition PORT : Z := 5430.
Definition BUFFER_SIZE : nat := 1024.
Definition DISCO_MESSAGE : pystr := #"cfgdb_discovery".

(** The process: [DISCO_REPLY], what has been sent, how often the name has been
    asked for, the lines on standard error, and the outside world. *)
Record disco := Disco {
  DISCO_REPLY : option pystr;
  sent : list (bytes * Addr);
  queries : nat;
  stderr : list pystr;
  around : W
}.

Definition on_world {A} (m : M W A) : M disco A := λ s,
  let '(r, w) := m (around s) in (r, Disco (DISCO_REPLY s) (sent s) (queries s) (stderr s) w).

Definition eprint (line : pystr) : M disco unit := modify (λ s,
  Disco (DISCO_REPLY s) (sent s) (queries s) (stderr s ++ [line]) (around s)).

(** A name is a byte string from the command or the text ['<unknown>']. *)
Inductive dc_name := NameBytes (b : bytes) | NameText (s : pystr).

Definition fmt_name (n : dc_name) : pystr :=
  match n with NameBytes b => repr_bytes b | NameText s => s end.

Definition get_dc_name : M disco dc_name :=
  dc_name ← try_except
    (eprint #"Determining datacenter name...";;
     modify (λ s, Disco (DISCO_REPLY s) (sent s) (S (queries s)) (stderr s) (around s));;
     out ← on_world (check_output [#"query_cfgdb"; #"get"; #"/esdc/settings/dc/datacenter_name"]);
     mret (NameBytes (strip out)))
    (λ exc,
      match exc with
      | OSError _ | CalledProcessError _ => Some (eprint (exc_str exc);; mret (NameText #"<unknown>"))
      | _ => None
      end);
  eprint (#"Got datacenter name: " ++ [34%N] ++ fmt_name dc_name ++ [34%N]);;
  mret dc_name.

(** The text of the reply, computed for the first request. *)
Definition disco_reply : M disco pystr :=
  s ← get_state;
  match DISCO_REPLY s with
  | Some r => mret r
  | None =>
      n ← get_dc_name;
      let r := #"cfgdb_reply:" ++ fmt_name n in
      modify (λ s, Disco (Some r) (sent s) (queries s) (stderr s) (around s));;
      mret r
  end.

(** One turn of the loop, on the datagram that has arrived: [recvfrom] keeps its
    first [BUFFER_SIZE] bytes. *)
Definition handle_datagram (d : bytes * Addr) : M disco unit :=
  let '(datagram, addr) := d in
  let data := take BUFFER_SIZE datagram in
  if startswith DISCO_MESSAGE data then
    r ← disco_reply;
    eprint (#"Got discovery request from " ++ host addr ++ #", sending reply...");;
    payload ← lift (encode r);
    on_world (sendto payload addr);;
    modify (λ s, Disco (DISCO_REPLY s) (sent s ++ [(payload, addr)]) (queries s) (stderr s) (around s))
  else mret tt.

Definition disco_loop (l : list (bytes * Addr)) : M disco unit := for_each l handle_datagram.

(** The program, on the datagrams that arrive. *)
Definition disco_server (l : list (bytes * Addr)) : M disco unit :=
  eprint (#"Running discovery server on port " ++ str_of_Z PORT);;
  on_world (bind [] PORT);;
  disco_loop l.

Definition disco_start (w : W) : disco := Disco None [] 0 [] w.

(** * Properties *)

(** The name as it is printed, and the reply to a name found, or to none. *)
Definition name_text (r : outcome bytes) : pystr :=
  match r with Ok out => repr_bytes (strip out) | Raise _ => #"<unknown>" end.
Definition reply_text (r : outcome bytes) : pystr := #"cfgdb_reply:" ++ name_text r.

(** The lines on standard error while the name is found, and for a request. *)
Definition query_lines (r : outcome bytes) : list pystr :=
  #"Determining datacenter name..." ::
  match r with Ok _ => [] | Raise e => [exc_str e] end ++
  [#"Got datacenter name: " ++ [34%N] ++ name_text r ++ [34%N]].
Definition request_line (d : bytes * Addr) : pystr :=
  #"Got discovery request from " ++ host d.2 ++ #", sending reply...".

Definition is_discovery (d : bytes * Addr) : bool := startswith DISCO_MESSAGE (take BUFFER_SIZE d.1).

(** [check_output] fails with its documented exceptions, on bytes. *)
Definition query_ok (r : outcome bytes) : Prop :=
  match r with
  | Ok out => Forall (λ c, (c < 256)%N) out
  | Raise e => (∃ m, e = OSError m) ∨ (∃ rc, e = CalledProcessError rc)
  end.

Definition sendto_works : Prop := ∀ b a w, ∃ w', sendto b a w = (Ok tt, w').

Lemma hex2_ascii c : (c < 256)%N → ascii (hex2 c).
Proof.
  intros Hc. unfold hex2, ascii. pose proof (N.le_0_l (c mod 16)).
  pose proof (N.mod_lt c 16 ltac:(done)). assert (c / 16 < 16)%N by (apply N.Div0.div_lt_upper_bound; lia).
  repeat constructor; by apply hex_digit_ascii.
Qed.

Lemma repr_byte_ascii q c : (c < 256)%N → (q < 128)%N → ascii (repr_byte q c).
Proof.
  intros Hc Hq. unfold repr_byte.
  destruct (N.eqb_spec c q); cbn [orb]; [subst; by repeat constructor|].
  destruct (N.eqb_spec c 92); [subst; by repeat constructor|].
  destruct (N.eqb_spec c 9); [by repeat constructor|].
  destruct (N.eqb_spec c 10); [by repeat constructor|].
  destruct (N.eqb_spec c 13); [by repeat constructor|].
  destruct (N.ltb_spec c 32); cbn [orb].
  { apply ascii_app; [by repeat constructor|by apply hex2_ascii]. }
  destruct (N.leb_spec 127 c); [apply ascii_app; [by repeat constructor|by apply hex2_ascii]|].
  repeat constructor. lia.
Qed.

Lemma mjoin_ascii {A} (f : A → pystr) l : Forall (λ c, ascii (f c)) l → ascii (mjoin (f <$> l)).
Proof. induction 1; [by constructor|]. cbn. by apply ascii_app. Qed.

Lemma repr_bytes_ascii s : Forall (λ c, (c < 256)%N) s → ascii (repr_bytes s).
Proof.
  intros Hs. unfold repr_bytes. cbv zeta. set (q := if char_in 39 s && negb (char_in 34 s) then 34%N else 39%N).
  assert (q < 128)%N as Hq by (unfold q; destruct (char_in 39 s && negb (char_in 34 s)); done).
  repeat apply ascii_app; try by repeat constructor.
  apply mjoin_ascii. eapply Forall_impl; [exact Hs|]. intros c Hc. by apply repr_byte_ascii.
Qed.

(** A byte string that needs no escapes. *)
Lemma repr_bytes_plain s : Forall (λ c, (32 <= c < 127)%N ∧ c ≠ 39%N ∧ c ≠ 92%N) s →
  repr_bytes s = #"b'" ++ s ++ #"'".
Proof.
  intros Hs. unfold repr_bytes. assert (char_in 39 s = false) as ->.
  { apply bool_decide_eq_false. intros Hin. rewrite Forall_forall in Hs. by apply Hs in Hin as (_ & ? & _). }
  cbn [andb]. cbv zeta. assert (mjoin (repr_byte 39 <$> s) = s) as ->; [|done].
  induction Hs as [|c s (Hc & H1 & H2) _ IH]; [done|]. cbn [fmap list_fmap mjoin list_join].
  change (repr_byte 39 c ++ mjoin (repr_byte 39 <$> s) = c :: s). rewrite IH. unfold repr_byte.
  rewrite (proj2 (N.eqb_neq _ _) H1), (proj2 (N.eqb_neq _ _) H2). cbn [orb].
  rewrite !(proj2 (N.eqb_neq _ _)) by lia. rewrite (proj2 (N.ltb_ge _ _)), (proj2 (N.leb_gt _ _)) by lia.
  reflexivity.
Qed.

Lemma strip_Forall (P : N → Prop) s : Forall P s → Forall P (strip s).
Proof.
  intros H. unfold strip, strip_by, rstrip_by. apply Forall_rev.
  assert (∀ t, Forall P t → Forall P (lstrip_by is_space t)) as Hl.
  { intros t Ht. destruct (lstrip_by_suffix is_space t) as (u & E & _). rewrite E in Ht.
    by apply Forall_app in Ht as [_ Ht]. }
  apply Hl, Forall_rev, Hl, H.
Qed.

Lemma reply_ascii r : query_ok r → ascii (reply_text r).
Proof.
  intros Hr. unfold reply_text. apply ascii_app; [by repeat constructor|].
  destruct r as [out|e]; [apply repr_bytes_ascii, strip_Forall, Hr|by repeat constructor].
Qed.

Definition query_cmd : list pystr := [#"query_cfgdb"; #"get"; #"/esdc/settings/dc/datacenter_name"].

Lemma get_dc_name_eq s r w : check_output query_cmd (around s) = (r, w) → query_ok r →
  ∃ n, get_dc_name s = (Ok n, Disco (DISCO_REPLY s) (sent s) (S (queries s)) (stderr s ++ query_lines r) w) ∧
    fmt_name n = name_text r.
Proof.
  intros E Hr. unfold get_dc_name, try_except, eprint, mbind, M_bind, modify, on_world. cbn [around stderr].
  change [_; _; _] with query_cmd. rewrite E. unfold query_lines.
  destruct r as [out|e].
  { exists (NameBytes (strip out)). split; [|done]. cbn. by rewrite <- app_assoc. }
  exists (NameText #"<unknown>"). split; [|done].
  destruct Hr as [[m ->]|[rc ->]]; cbn; by rewrite <- !app_assoc.
Qed.

(** A datagram once the reply is known. *)
Lemma handle_known d t s : DISCO_REPLY s = Some t → ascii t → is_discovery d = true → sendto_works →
  ∃ w, handle_datagram d s =
    (Ok tt, Disco (Some t) (sent s ++ [(t, d.2)]) (queries s) (stderr s ++ [request_line d]) w).
Proof.
  destruct d as [datagram addr]. intros Hk Ht Hd Hs. unfold is_discovery in Hd. cbn [fst snd] in *.
  unfold handle_datagram. rewrite Hd. rewrite (bind_ok _ _ _ t s)
    by (unfold disco_reply, get_state, mbind, M_bind; by rewrite Hk).
  rewrite (bind_ok (eprint _) _ s tt _ eq_refl), (lift_ok _ _ _ t) by by apply encode_ascii.
  destruct (Hs t addr (around s)) as [w Hw]. unfold on_world, modify, mbind, M_bind. cbn [around]. rewrite Hw.
  cbn. rewrite Hk. by exists w.
Qed.

Lemma handle_other d s : is_discovery d = false → handle_datagram d s = (Ok tt, s).
Proof. destruct d as [datagram addr]. unfold is_discovery, handle_datagram. cbn [fst]. by intros ->. Qed.

(** The state once the name has been asked for. *)
Definition known (r : outcome bytes) (s : disco) (w : W) : disco :=
  Disco (Some (reply_text r)) (sent s) (S (queries s)) (stderr s ++ query_lines r) w.

(** The first request asks for the name and goes on as the others do. *)
Lemma handle_first d s r w : DISCO_REPLY s = None → check_output query_cmd (around s) = (r, w) →
  query_ok r → is_discovery d = true → handle_datagram d s = handle_datagram d (known r s w).
Proof.
  destruct d as [datagram addr]. intros Hk E Hr Hd. unfold is_discovery in Hd. cbn [fst] in Hd.
  unfold handle_datagram. rewrite Hd. destruct (get_dc_name_eq s r w E Hr) as (n & En & Ht).
  assert (disco_reply s = (Ok (reply_text r), known r s w)) as Hf.
  { unfold disco_reply, get_state, mbind at 1, M_bind at 1. rewrite Hk.
    rewrite (bind_ok _ _ _ _ _ En), Ht. reflexivity. }
  by rewrite (bind_ok _ _ _ _ _ Hf).
Qed.

(** The answers to the requests of a list of datagrams. *)
Definition requests_of (l : list (bytes * Addr)) : list (bytes * Addr) := filter (λ d, is_discovery d = true) l.
Definition answers (t : bytes) (l : list (bytes * Addr)) : list (bytes * Addr) := (λ d, (t, d.2)) <$> requests_of l.

Lemma loop_known l t s : DISCO_REPLY s = Some t → ascii t → sendto_works →
  ∃ w, disco_loop l s =
    (Ok tt, Disco (Some t) (sent s ++ answers t l) (queries s) (stderr s ++ (request_line <$> requests_of l)) w).
Proof.
  intros Hk Ht Hs. unfold answers, requests_of. revert s Hk.
  induction l as [|d l IH]; intros s Hk; unfold disco_loop; cbn [for_each].
  { exists (around s). cbn. rewrite !app_nil_r. destruct s. cbn in *. by subst. }
  destruct (is_discovery d) eqn:Ed.
  - destruct (handle_known d t s Hk Ht Ed Hs) as [w E]. rewrite (bind_ok _ _ _ _ _ E), filter_cons_True by done.
    destruct (IH (Disco (Some t) (sent s ++ [(t, d.2)]) (queries s) (stderr s ++ [request_line d]) w) eq_refl)
      as [w' E']. exists w'. unfold disco_loop in E'. rewrite E'. cbn. by rewrite <- !app_assoc.
  - rewrite (bind_ok _ _ _ _ _ (handle_other _ _ Ed)). rewrite filter_cons_False by (by rewrite Ed).
    by apply IH.
Qed.

(** From a state in which the name is not known yet. *)
Lemma loop_unknown l s r w1 : DISCO_REPLY s = None → check_output query_cmd (around s) = (r, w1) →
  query_ok r → sendto_works →
  (requests_of l = [] ∧ disco_loop l s = (Ok tt, s)) ∨
  (requests_of l ≠ [] ∧ disco_loop l s = disco_loop l (known r s w1)).
Proof.
  intros Hk E Hr Hs. unfold requests_of. induction l as [|d l IH]; [by left|]. unfold disco_loop in *. cbn [for_each].
  destruct (is_discovery d) eqn:Ed.
  - right. rewrite filter_cons_True by done. split; [done|]. unfold mbind, M_bind.
    by rewrite (handle_first d s r w1 Hk E Hr Ed).
  - rewrite filter_cons_False by (by rewrite Ed). by rewrite !(bind_ok _ _ _ _ _ (handle_other _ _ Ed)).
Qed.

(** C40: the discovery service answers exactly the datagrams that start with the
    message, each to its sender and in order of arrival, all with the same text,
    and asks for the name of the data centre at most once: when the first of
    them arrives.  It reports each of these steps on standard error. *)
Theorem disco_answers l w w0 r w1 : bind [] PORT w = (Ok tt, w0) → check_output query_cmd w0 = (r, w1) →
  query_ok r → sendto_works →
  ∃ s', disco_server l (disco_start w) = (Ok tt, s') ∧
    sent s' = answers (reply_text r) l ∧
    queries s' = (match requests_of l with [] => 0 | _ => 1 end) ∧
    stderr s' = #"Running discovery server on port 5430" ::
      match requests_of l with [] => [] | rs => query_lines r ++ (request_line <$> rs) end.
Proof.
  intros Eb E Hr Hs. unfold disco_server. rewrite (bind_ok (eprint _) _ (disco_start w) tt _ eq_refl).
  set (s0 := Disco None [] 0 [#"Running discovery server on port 5430"] w0).
  rewrite (bind_ok _ _ _ tt s0) by (unfold on_world, disco_start; cbn [around]; by rewrite Eb).
  destruct (loop_unknown l s0 r w1 eq_refl E Hr Hs) as [[Hn El]|[Hn El]]; rewrite El.
  - exists s0. split; [done|]. unfold answers. by rewrite Hn.
  - destruct (loop_known l (reply_text r) (known r s0 w1) eq_refl (reply_ascii r Hr) Hs) as [w2 E2]. rewrite E2.
    eexists. split; [done|]. cbn [sent queries stderr known]. destruct (requests_of l); [done|].
    split_and!; [done|done|]. cbn. by rewrite <- !app_assoc.
Qed.

(** The answer carries the printed form of a byte string, not the name: when
    the name is made of printable ASCII characters other than quotes and
    backslashes, the reply is the name between [b'] and a quote. *)
Theorem disco_reply_is_repr out s w1 d : DISCO_REPLY s = None →
  check_output query_cmd (around s) = (Ok out, w1) →
  Forall (λ c, (32 <= c < 127)%N ∧ c ≠ 39%N ∧ c ≠ 92%N) (strip out) → Forall (λ c, (c < 256)%N) out →
  sendto_works → is_discovery d = true →
  sent (handle_datagram d s).2 = sent s ++ [(#"cfgdb_reply:b'" ++ strip out ++ #"'", d.2)].
Proof.
  intros Hk E Hp Hb Hs Hd. rewrite (handle_first d s (Ok out) w1 Hk E Hb Hd).
  destruct (handle_known d (reply_text (Ok out)) (known (Ok out) s w1) eq_refl (reply_ascii (Ok out) Hb) Hd Hs) as [w2 ->].
  cbn [snd sent known]. do 3 f_equal. unfold reply_text, name_text. by rewrite (repr_bytes_plain _ Hp).
Qed.
End disco.

(** * Concrete runs *)

Definition demo_query (argv : list pystr) : M unit bytes := λ w, (Ok (#"dc1" ++ [10%N]), w).
Definition demo_sendto (b : bytes) (addr : pystr) : M unit unit := λ w, (Ok tt, w).
Definition demo_bind (a : pystr) (port : Z) : M unit unit := λ w, (Ok tt, w).

Lemma demo_sendto_works : sendto_works demo_sendto.
Proof. intros b a w. by exists w. Qed.

Definition demo_datagrams : list (bytes * pystr) :=
  [(#"hello", #"a"); (#"cfgdb_discovery", #"b"); (#"cfgdb_discovery!", #"c")].

Lemma disco_answers_witness :
  ∃ s', disco_server demo_query demo_sendto demo_bind id (λ _, []) demo_datagrams (disco_start tt) = (Ok tt, s') ∧
    sent s' = [(#"cfgdb_reply:b'dc1'", #"b"); (#"cfgdb_reply:b'dc1'", #"c")] ∧ queries s' = 1.
Proof.
  destruct (disco_answers demo_query demo_sendto demo_bind id (λ _, []) demo_datagrams tt tt
    (Ok (#"dc1" ++ [10%N])) tt eq_refl eq_refl (ltac:(vm_compute; by repeat constructor)) demo_sendto_works)
    as (s' & E & Hs & Hq & _).
  exists s'. split; [exact E|]. split; [rewrite Hs; vm_compute; reflexivity|]. rewrite Hq. vm_compute. reflexivity.
Defined.

Lemma disco_reply_is_repr_witness :
  sent (handle_datagram demo_query demo_sendto id (λ _, []) (#"cfgdb_discovery", #"x") (disco_start tt)).2
  = [(#"cfgdb_reply:b'dc1'", #"x")].
Proof.
  apply (disco_reply_is_repr demo_query demo_sendto id (λ _, []) (#"dc1" ++ [10%N]) (disco_start tt) tt (#"cfgdb_discovery", #"x")).
  - reflexivity.
  - reflexivity.
  - vm_compute. repeat constructor; discriminate.
  - vm_compute. repeat constructor.
  - apply demo_sendto_works.
  - vm_compute. reflexivity.
Defined.
