(* ===== verification/Imgadm.v ===== *)
(** The Ansible module [imgadm] ([library/imgadm.py]): image sources and images
    are added, updated and removed by running the [imgadm] tool. *)
From S2P Require Export ModuleTyping PyRepr.
From Stdlib Require Import NArith ZArith Lia.

Section imgadm.
Context {W : Type} `{AnsibleModule W}.
(** The order of a dictionary when it is printed. *)
Variable dict_order : dict pystr → dict pystr.
(** [v in BOOLEANS_TRUE], a constant of Ansible. *)
Variable in_booleans_true : pyval → bool.

Definition check_subparam (subparam : pystr) (params : dict pyval) (command : pystr) : M W unit :=
  if negb (truthy (dict_get_default subparam (PyBool false) params))
  then fail_msg (subparam ++ #" subparam required for command " ++ command)
  else mret tt.

Definition spec : arg_spec := ArgSpec
  [Arg #"command" [] true PyNone [#"sources"; #"image"] TStr;
   Arg #"url" [] false PyNone [] TStr;
   Arg #"state" [] false (PyStr #"present") [#"present"; #"absent"] TStr;
   Arg #"uuid" [#"name"] false PyNone [] TStr;
   Arg #"zpool" [] false (PyStr #"zones") [] TStr;
   Arg #"update" [] false (PyStr #"no") [] TBool]
  [].

Definition param (p : dict pyval) (name : pystr) : M W pyval := lift (getitem_str (PyDict p) name).

(** [changed], [rc], [so] and [se] *)
Definition progress : Type := bool * (Z * pystr * pystr).
Definition no_run : progress := (false, (1%Z, [], [])).

(** [if cmd == 'sources']: the first word of the output tells what happened. *)
Definition sources (p : dict pyval) (imgadm_path cmd : pystr) (state : pyval) : M W progress :=
  for_each [#"url"; #"state"] (λ check_this, check_subparam check_this p cmd);;
  '(rc, so, se) ←
    (if is_str state #"present" then
       url ← param p #"url";
       run_command (imgadm_path ++ #" sources -a " ++ fmt2 dict_order url)
     else if is_str state #"absent" then
       url ← param p #"url";
       run_command (imgadm_path ++ #" sources -d " ++ fmt2 dict_order url)
     else mret (1%Z, [], []));
  word ← lift (or_raise IndexError (head (split_ws so)));
  mret (bool_decide (word ∈ [#"Added"; #"Deleted"]) && Z.eqb rc 0, (rc, so, se)).

Definition image_command (p : dict pyval) (imgadm_path cmd : pystr) (state uuid : pyval)
    : M W (Z * pystr * pystr) :=
  if is_str state #"present" then
    update ← param p #"update";
    if in_booleans_true update then
      if truthy uuid then run_command (imgadm_path ++ #" update " ++ fmt2 dict_order uuid)
      else run_command (imgadm_path ++ #" update")
    else
      check_subparam #"uuid" p cmd;;
      u ← param p #"uuid";
      run_command (imgadm_path ++ #" import -q " ++ fmt2 dict_order u)
  else if is_str state #"absent" then
    u ← param p #"uuid";
    run_command (imgadm_path ++ #" delete " ++ fmt2 dict_order u)
  else mret (1%Z, [], []).

(** What the output of the tool says about a change. *)
Definition image_changed (so : pystr) : bool :=
  Z.ltb 0 (str_find #"Imported image" so) || Z.eqb (str_find #"Deleted image" so) 0
  || Z.eqb (str_find #"Updated" so) 0.

(** [if cmd == 'image'] *)
Definition image (p : dict pyval) (imgadm_path cmd : pystr) (state : pyval) : M W progress :=
  let uuid := dict_get_default #"uuid" PyNone p in
  '(rc, so, se) ← image_command p imgadm_path cmd state uuid;
  mret (image_changed so, (rc, so, se)).

Definition finish (x : progress) : M W unit :=
  let '(changed, (rc, so, se)) := x in
  if negb (Z.eqb rc 0) then fail_msg se else exit_changed changed so.

Definition main : M W unit :=
  p ← am_init spec;
  imgadm_path ← get_bin_path #"imgadm";
  cmd ← param p #"command";
  let state := dict_get_default #"state" PyNone p in
  x ← (if is_str cmd #"sources" then sources p imgadm_path #"sources" state
       else if is_str cmd #"image" then image p imgadm_path #"image" state
       else mret no_run);
  finish x.

(** * Properties *)

Context `{!AnsibleLaws W}.

Definition ready (w : W) (p : dict pyval) (path : pystr) (w' : W) : Prop :=
  ∃ w1, am_init spec w = (Ok p, w1) ∧ get_bin_path #"imgadm" w1 = (Ok path, w').

Lemma image_ready_ran w p path w' : ready w p path w' → ran w w' [].
Proof.
  intros (w1 & E1 & E2). eapply (ran_trans _ _ _ [] []); [by eapply am_init_ran|by eapply bin_path_ran].
Qed.

(** The parameters that matter. *)
Definition task (cmd state : pystr) (url uuid update : pyval) (p : dict pyval) : Prop :=
  dict_get #"command" p = Some (PyStr cmd) ∧ dict_get #"state" p = Some (PyStr state) ∧
  dict_get #"url" p = Some url ∧ dict_get #"uuid" p = Some uuid ∧ dict_get #"update" p = Some update.

Definition branch (p : dict pyval) (path cmd state : pystr) : M W progress :=
  if cmd =s #"sources" then sources p path #"sources" (PyStr state)
  else if cmd =s #"image" then image p path #"image" (PyStr state)
  else mret no_run.

Lemma image_main_ready w p path w2 cmd state url uuid update :
  ready w p path w2 → task cmd state url uuid update p →
  main w = (branch p path cmd state ≫= finish) w2.
Proof.
  intros (w1 & E1 & E2) (H1 & H2 & _). unfold main.
  rewrite (bind_ok _ _ _ _ _ E1), (bind_ok _ _ _ _ _ E2). unfold param, getitem_str, dict_get_default.
  rewrite H1, H2, (lift_ok _ _ _ (PyStr cmd)) by done. reflexivity.
Qed.

Lemma image_branch_finished w p path w2 cmd state url uuid update cmds changed rc so se w3 :
  ready w p path w2 → task cmd state url uuid update p →
  branch p path cmd state w2 = (Ok (changed, (rc, so, se)), w3) → ran w2 w3 cmds →
  finished w (main w) cmds (reported changed rc so se).
Proof.
  intros Hr Ht E Hc. rewrite (image_main_ready _ _ _ _ _ _ _ _ _ Hr Ht).
  apply (finished_after _ _ _ [] _ _ (image_ready_ran _ _ _ _ Hr)). rewrite <- (app_nil_r cmds).
  eapply finished_bind; [exact E|exact Hc|apply report_finished].
Qed.

(** Text, or an absent option. *)
Definition given (u : option pystr) : pyval := of_opt_str u.

Lemma check_passes name p cmd v w :
  dict_get name p = Some v → truthy v = true → check_subparam name p cmd w = (Ok tt, w).
Proof. intros E Ht. unfold check_subparam, dict_get_default. by rewrite E, Ht. Qed.

Lemma check_fails name p cmd v w :
  dict_get name p = Some v → truthy v = false →
  finished w (check_subparam name p cmd w) []
    (Failed [(#"msg", PyStr (name ++ #" subparam required for command " ++ cmd))]).
Proof. intros E Ht. unfold check_subparam, dict_get_default. rewrite E, Ht. apply fail_finished. Qed.

Definition sources_flag : list (pystr * pystr) := [(#"present", #" sources -a "); (#"absent", #" sources -d ")].

(** The branch of a source, once its command has run. *)
Lemma sources_branch p path st flag url uuid update w rc so se w1 :
  task #"sources" st (PyStr url) uuid update p → (st, flag) ∈ sources_flag → url ≠ [] →
  run_command (path ++ flag ++ url) w = (Ok (rc, so, se), w1) →
  branch p path #"sources" st w =
    (word ← lift (or_raise IndexError (head (split_ws so)));
     mret (bool_decide (word ∈ [#"Added"; #"Deleted"]) && Z.eqb rc 0, (rc, so, se))) w1.
Proof.
  intros (_ & Hs & Hurl & _) Hf Hu E.
  change (branch p path #"sources" st) with (sources p path #"sources" (PyStr st)).
  unfold sources. cbn [for_each]. rewrite !bind_assoc.
  rewrite (bind_ok _ _ _ _ _ (check_passes #"url" p #"sources" (PyStr url) w Hurl ltac:(by destruct url))).
  unfold sources_flag in Hf. rewrite !elem_of_cons, elem_of_nil in Hf.
  rewrite bind_assoc, (bind_ok _ _ _ _ _ (check_passes #"state" p #"sources" (PyStr st) w Hs
    ltac:(by destruct Hf as [[= -> ->]|[[= -> ->]|[]]]))), ret_bind.
  erewrite (bind_ok _ _ w (rc, so, se) w1); [done|]. unfold param, getitem_str. rewrite Hurl.
  destruct Hf as [[= -> ->]|[[= -> ->]|[]]]; exact E.
Qed.

(** A run on a source whose tool printed something. *)
Lemma sources_finished w p path w2 st flag url uuid update rc so se w3 word ws :
  ready w p path w2 → task #"sources" st (PyStr url) uuid update p → (st, flag) ∈ sources_flag → url ≠ [] →
  run_command (path ++ flag ++ url) w2 = (Ok (rc, so, se), w3) → split_ws so = word :: ws →
  finished w (main w) [path ++ flag ++ url]
    (reported (bool_decide (word ∈ [#"Added"; #"Deleted"]) && Z.eqb rc 0) rc so se).
Proof.
  intros Hr Ht Hf Hu E Hso. pose proof (sources_branch _ path _ _ _ _ _ _ _ _ _ _ Ht Hf Hu E) as Hb. rewrite Hso in Hb.
  eapply (image_branch_finished _ _ _ _ _ _ _ _ _ _ _ _ _ _ _ Hr Ht Hb). by eapply run_command_ok.
Qed.

(** C21: adding and removing image sources.  The module runs one command with the
    URL; it reports a change when the tool returns 0 and the first word of its
    output is "Added" or "Deleted".  When the tool prints nothing, as it does
    when it fails, the module ends with an [IndexError] instead of a report. *)
Theorem imgadm_sources w p path w2 st flag url uuid update rc so se w3 :
  ready w p path w2 → task #"sources" st (PyStr url) uuid update p →
  (st, flag) ∈ sources_flag → url ≠ [] →
  run_command (path ++ flag ++ url) w2 = (Ok (rc, so, se), w3) →
  match split_ws so with
  | word :: _ =>
      finished w (main w) [path ++ flag ++ url]
        (reported (bool_decide (word ∈ [#"Added"; #"Deleted"]) && Z.eqb rc 0) rc so se)
  | [] => main w = (Raise IndexError, w3) ∧ ran w w3 [path ++ flag ++ url]
  end.
Proof.
  intros Hr Ht Hf Hu E. destruct (split_ws so) as [|word ws] eqn:Hso; [|by eapply sources_finished].
  split; [|exact (ran_trans _ _ _ [] _ (image_ready_ran _ _ _ _ Hr) (run_command_ok _ _ _ _ E))].
  rewrite (image_main_ready _ _ _ _ _ _ _ _ _ Hr Ht). apply bind_raised.
  rewrite (sources_branch _ path _ _ _ _ _ _ _ _ _ _ Ht Hf Hu E). by rewrite Hso.
Qed.

(** The command for an image: updates take one image or all of them. *)
Definition image_cmd (path st : pystr) (upd : bool) (uuid : option pystr) : option pystr :=
  if st =s #"present" then
    match upd, uuid with
    | true, Some u => Some (path ++ #" update " ++ u)
    | true, None => Some (path ++ #" update")
    | false, Some u => Some (path ++ #" import -q " ++ u)
    | false, None => None
    end
  else if st =s #"absent" then Some (path ++ #" delete " ++ default #"None" uuid)
  else None.

(** The announcements that count as a change. *)
Definition announced (so : pystr) : bool :=
  (str_contains #"Imported image" so && negb (startswith #"Imported image" so))
  || startswith #"Deleted image" so || startswith #"Updated" so.

(** [True] is in [BOOLEANS_TRUE] and [False] is not. *)
Definition booleans_law : Prop := ∀ b, in_booleans_true (PyBool b) = b.

Lemma image_command_eq p path st url uuid upd c w :
  booleans_law → task #"image" st url (given uuid) (PyBool upd) p →
  (∀ u, uuid = Some u → u ≠ []) → image_cmd path st upd uuid = Some c →
  image_command p path #"image" (PyStr st) (given uuid) w = run_command c w.
Proof.
  intros Hb (_ & _ & _ & Hu & Hp) Hne Hc. unfold image_command, image_cmd in *. cbn [is_str].
  unfold param, getitem_str. rewrite Hu, Hp.
  destruct (st =s #"present").
  - rewrite (lift_ok _ _ _ (PyBool upd)) by done. rewrite Hb.
    destruct uuid as [i|]; [pose proof (Hne i eq_refl) as Hi|].
    + assert (truthy (given (Some i)) = true) as Ht by (by destruct i).
      destruct upd; injection Hc as <-; [by rewrite Ht|].
      rewrite (bind_ok _ _ _ _ _ (check_passes #"uuid" p #"image" (given (Some i)) w Hu Ht)).
      by rewrite (lift_ok _ _ _ (PyStr i)).
    + destruct upd; [by injection Hc as <-|done].
  - destruct (st =s #"absent"); [|done]. injection Hc as <-.
    rewrite (lift_ok _ _ _ (given uuid)) by done. by destruct uuid.
Qed.

Lemma image_branch p path st url uuid upd c w rc so se w1 :
  booleans_law → task #"image" st url (given uuid) (PyBool upd) p →
  (∀ u, uuid = Some u → u ≠ []) → image_cmd path st upd uuid = Some c →
  run_command c w = (Ok (rc, so, se), w1) →
  branch p path #"image" st w = (Ok (announced so, (rc, so, se)), w1).
Proof.
  intros Hb Ht Hne Hc E. pose proof Ht as (_ & _ & _ & Hu & _).
  unfold branch. change (#"image" =s #"sources") with false. change (#"image" =s #"image") with true.
  cbv iota. unfold image, dict_get_default. rewrite Hu. cbv zeta.
  rewrite (bind_ok _ _ w (rc, so, se) w1) by (rewrite <- E; by eapply image_command_eq).
  unfold image_changed, announced. rewrite ltb_0_find, !eqb_find_0. reflexivity.
Qed.

(** C20: importing, updating and deleting images.  The module runs exactly the
    command of the task (one for all images when an update names none; [delete
    None] when a deletion names none) and reports a change exactly when the
    output of the tool announces one. *)
Theorem imgadm_image w p path w2 st url uuid upd c rc so se w3 :
  booleans_law → ready w p path w2 → task #"image" st url (given uuid) (PyBool upd) p →
  (∀ u, uuid = Some u → u ≠ []) → image_cmd path st upd uuid = Some c →
  run_command c w2 = (Ok (rc, so, se), w3) →
  finished w (main w) [c] (reported (announced so) rc so se).
Proof.
  intros Hb Hr Ht Hne Hc E. eapply (image_branch_finished _ _ _ _ _ _ _ _ _ _ _ _ _ _ _ Hr Ht);
    [by eapply image_branch|by eapply run_command_ok].
Qed.

(** A task without the option its command needs fails with a message that
    names the option, and runs nothing. *)
Theorem imgadm_requires w p path w2 cmd st url uuid upd name :
  booleans_law → ready w p path w2 → task cmd st (given url) (given uuid) (PyBool upd) p →
  (cmd = #"sources" ∧ url = None ∧ name = #"url") ∨
  (cmd = #"image" ∧ st = #"present" ∧ upd = false ∧ uuid = None ∧ name = #"uuid") →
  finished w (main w) [] (Failed [(#"msg", PyStr (name ++ #" subparam required for command " ++ cmd))]).
Proof.
  intros Hb Hr Ht Hc. rewrite (image_main_ready _ _ _ _ _ _ _ _ _ Hr Ht).
  apply (finished_after _ _ _ [] _ _ (image_ready_ran _ _ _ _ Hr)). apply finished_early.
  destruct Ht as (_ & Hs & Hurl & Hu & Hp). destruct Hc as [(-> & -> & ->)|(-> & -> & -> & -> & ->)].
  - change (branch p path #"sources" st) with (sources p path #"sources" (PyStr st)). unfold sources.
    apply finished_early. cbn [for_each]. apply finished_early. by eapply check_fails.
  - change (branch p path #"image" #"present") with (image p path #"image" (PyStr #"present")).
    unfold image. cbv zeta. apply finished_early. unfold image_command, param, getitem_str.
    change (is_str (PyStr #"present") #"present") with true. cbv iota. rewrite Hp, (lift_ok _ _ _ (PyBool false)) by done.
    rewrite Hb. apply finished_early. by eapply check_fails.
Qed.
(** ** Every run *)

(** The parameters the module gets always make a task. *)
Lemma image_conforming_task p : conforms spec p = true →
  ∃ cmd st url uuid upd, task cmd st url uuid (PyBool upd) p ∧ cmd ∈ [#"sources"; #"image"] ∧ st ∈ [#"present"; #"absent"].
Proof.
  intros Hp. pose proof (conforms_option spec p) as Hg.
  destruct (Hg _ Hp ltac:(left)) as (vc & Ec & (cmd & -> & Hc)%always_text); [|done|by left].
  destruct (Hg _ Hp ltac:(do 1 right; left)) as (url & Eurl & _).
  destruct (Hg _ Hp ltac:(do 2 right; left)) as (vs & Es & (st & -> & Hs)%always_text); [|done|by right].
  destruct (Hg _ Hp ltac:(do 3 right; left)) as (uuid & Euuid & _).
  destruct (Hg _ Hp ltac:(do 5 right; left)) as (vu & Eu & [upd ->]%a_bool); [|done].
  exists cmd, st, url, uuid, upd. split; [by split_and!|]. cbn in Hc, Hs. split.
  - by destruct (Hc ltac:(done)).
  - destruct (Hs ltac:(done)) as [|[= <-]]; [done|left].
Qed.

(** What escapes from a run: the output of the tool has no first word, or the
    command cannot be split into words. *)
Definition imgadm_escapes (e : exn) : Prop := e = IndexError ∨ ∃ m, e = ValueError m.
Abbreviation imgadm_behaves := (behaves imgadm_escapes).

Lemma imgadm_run_behaves c : imgadm_behaves (λ _, True) (run_command c).
Proof. apply behaves_run. intros m. right. by eexists. Qed.

Lemma check_behaves name p cmd : imgadm_behaves (λ _, True) (check_subparam name p cmd).
Proof. unfold check_subparam. case_match; [apply behaves_fail|by apply behaves_ret]. Qed.

Lemma param_behaves p name v : dict_get name p = Some v → imgadm_behaves (λ x, x = v) (param p name).
Proof. intros E. apply behaves_lift. unfold getitem_str. by rewrite E. Qed.

Lemma sources_behaves p path st url : dict_get #"url" p = Some url → st ∈ [#"present"; #"absent"] →
  imgadm_behaves (λ _, True) (sources p path #"sources" (PyStr st)).
Proof.
  intros Hu Hs. unfold sources. apply (behaves_bind (λ _, True)).
  { cbn [for_each]. apply (behaves_bind (λ _, True)); [apply check_behaves|]. intros _ _.
    apply (behaves_bind (λ _, True)); [apply check_behaves|]. intros _ _. by apply behaves_ret. }
  intros _ _. apply (behaves_bind (λ _, True)).
  { cbn [is_str]. case_match; [|case_match; [|by apply behaves_ret]];
      (eapply behaves_bind; [by apply param_behaves|intros ? _; apply imgadm_run_behaves]). }
  intros [[rc so] se] _. apply (behaves_bind (λ _, True)); [|intros word _; by apply behaves_ret].
  apply behaves_lift. destruct (head (split_ws so)); [done|]. by split; [left|].
Qed.

Lemma image_behaves p path st uuid upd : dict_get #"uuid" p = Some uuid → dict_get #"update" p = Some upd →
  imgadm_behaves (λ _, True) (image p path #"image" (PyStr st)).
Proof.
  intros Hu Hp. unfold image. apply (behaves_bind (λ _, True)).
  - unfold image_command. cbn [is_str]. case_match; [|case_match; [|by apply behaves_ret]].
    + eapply behaves_bind; [by apply param_behaves|]. intros ? _. case_match; [case_match; apply imgadm_run_behaves|].
      apply (behaves_bind (λ _, True)); [apply check_behaves|]. intros _ _.
      eapply behaves_bind; [by apply param_behaves|intros ? _; apply imgadm_run_behaves].
    + eapply behaves_bind; [by apply param_behaves|intros ? _; apply imgadm_run_behaves].
  - intros [[rc so] se] _. by apply behaves_ret.
Qed.

(** C14: whatever the task and the host, a run of the module ends: it prints
    exactly one report, after everything else, and exits with a code that agrees
    with it, or one of two exceptions escapes before any report: [IndexError], for
    an output without a first word, or the [ValueError] of [run_command], for a
    command with unbalanced quotes.  No access to a parameter and no operation on
    one ever fails. *)
Theorem imgadm_well_typed :
  behaves (λ e, e = IndexError ∨ ∃ m, e = ValueError m) (λ _ : unit, False) main.
Proof.
  unfold main. eapply behaves_bind; [apply behaves_init|]. intros p Hp. cbv beta in Hp.
  eapply behaves_bind; [apply behaves_bin_path|]. intros path _.
  destruct (image_conforming_task p Hp) as (cmd & st & url & uuid & upd & (Hc & Hs & Hurl & Hu & Hupd) & Hcmd & Hst).
  eapply behaves_bind; [by apply param_behaves|]. intros ? ->. unfold dict_get_default. rewrite Hs.
  apply (behaves_bind (λ _, True)).
  - cbn [is_str]. case_match; [by eapply sources_behaves|]. case_match; [by eapply image_behaves|by apply behaves_ret].
  - intros [changed [[rc so] se]] _. unfold finish. case_match; [apply behaves_fail|apply behaves_exit].
Qed.
End imgadm.

(** * Concrete runs *)

Definition demo_order (d : dict pystr) : dict pystr := d.
(** [True] and the other values of the constant *)
Definition demo_booleans_true (v : pyval) : bool :=
  match v with
  | PyBool b => b
  | PyInt z => Z.eqb z 1
  | PyStr s => bool_decide (s ∈ [#"yes"; #"on"; #"1"; #"true"])
  | _ => false
  end.

Lemma demo_booleans : booleans_law demo_booleans_true.
Proof. by intros []. Qed.

Abbreviation demo_main := (main (W := demo_host) demo_order demo_booleans_true).

Definition demo_params (cmd state : pystr) (url uuid : pyval) (update : bool) : dict pyval :=
  [(#"command", PyStr cmd); (#"url", url); (#"state", PyStr state); (#"uuid", uuid);
   (#"zpool", PyStr #"zones"); (#"update", PyBool update)].

Definition imgadm_path : pystr := #"/usr/sbin/imgadm".

Lemma image_demo_ready p answers : conforms spec p = true →
  ready (DemoHost p [] answers []) p imgadm_path (DemoHost p [] answers []).
Proof. intros E. eexists. unfold am_init. cbn [demo_ansible dh_params]. by rewrite E. Qed.

Lemma image_demo_task cmd state url uuid update :
  task cmd state url uuid (PyBool update) (demo_params cmd state url uuid update).
Proof. by split_and!. Qed.

Definition demo_add : dict pyval := demo_params #"sources" #"present" (PyStr #"http://x/") PyNone false.

Lemma imgadm_sources_witness :
  let h := DemoHost demo_add [] [(0%Z, #"Added http://x/ source", [])] [] in
  let h' := DemoHost demo_add [] [(1%Z, [], #"error")] [] in
  finished h (demo_main h) [#"/usr/sbin/imgadm sources -a http://x/"]
    (Exited [(#"changed", PyBool true); (#"msg", PyStr #"Added http://x/ source")]) ∧
  (demo_main h').1 = Raise IndexError.
Proof.
  intros h h'. assert ((#"present", #" sources -a ") ∈ sources_flag) as Hf by constructor. split.
  - refine (imgadm_sources demo_order demo_booleans_true h demo_add imgadm_path h #"present"
      #" sources -a " #"http://x/" PyNone (PyBool false) 0 #"Added http://x/ source" [] _
      (image_demo_ready demo_add _ eq_refl) (image_demo_task _ _ _ _ _) Hf _ _); [discriminate|reflexivity].
  - assert (demo_main h' = (Raise IndexError, DemoHost demo_add [] [] [Ran #"/usr/sbin/imgadm sources -a http://x/"])) as ->; [|done].
    refine (proj1 (imgadm_sources demo_order demo_booleans_true h' demo_add imgadm_path h' #"present"
      #" sources -a " #"http://x/" PyNone (PyBool false) 1 [] #"error" _
      (image_demo_ready demo_add _ eq_refl) (image_demo_task _ _ _ _ _) Hf _ _)); [discriminate|reflexivity].
Defined.

Definition demo_delete : dict pyval := demo_params #"image" #"absent" PyNone PyNone false.

Lemma imgadm_image_witness :
  let h := DemoHost demo_delete [] [(1%Z, [], #"image None was not found")] [] in
  booleans_law demo_booleans_true ∧
  finished h (demo_main h) [#"/usr/sbin/imgadm delete None"]
    (Failed [(#"msg", PyStr #"image None was not found")]).
Proof.
  intros h. split; [apply demo_booleans|].
  refine (imgadm_image demo_order demo_booleans_true h demo_delete imgadm_path h #"absent" PyNone None false
    _ 1 [] #"image None was not found" _ demo_booleans
    (image_demo_ready demo_delete _ eq_refl) (image_demo_task _ _ _ _ _) _ _ _); [discriminate|reflexivity|reflexivity].
Defined.

Definition demo_import : dict pyval := demo_params #"image" #"present" PyNone PyNone false.

Lemma imgadm_requires_witness :
  let h := DemoHost demo_import [] [] [] in
  finished h (demo_main h) [] (Failed [(#"msg", PyStr #"uuid subparam required for command image")]).
Proof.
  intros h.
  refine (imgadm_requires demo_order demo_booleans_true h demo_import imgadm_path h #"image" #"present"
    None None false #"uuid" demo_booleans (image_demo_ready demo_import _ eq_refl) (image_demo_task _ _ _ _ _) _).
  right. split_and!; reflexivity.
Defined.

(** A url with a quote in it, given to a host that splits commands into words. *)
Definition demo_quote : dict pyval := demo_params #"sources" #"present" (PyStr #"http://o'hara/") PyNone false.

Lemma imgadm_well_typed_witness :
  behaves (W := demo_host) (λ e, e = IndexError ∨ ∃ m, e = ValueError m) (λ _ : unit, False) demo_main ∧
  demo_main (DemoHost demo_quote [] [(0%Z, #"Added", [])] []) =
    (Raise (ValueError #"No closing quotation"), DemoHost demo_quote [] [(0%Z, #"Added", [])] []).
Proof.
  split; [apply (imgadm_well_typed demo_order demo_booleans_true)|]. vm_compute. reflexivity.
Defined.
