(* ===== verification/Selinux.v ===== *)
(** The Ansible module [selinux_permissive]
    ([roles/selinux/library/selinux_permissive.py]): a domain is added to, or
    removed from, the permissive domains of the SELinux policy. *)
From S2P Require Export ModuleTyping.
From Stdlib Require Import NArith ZArith Lia.

(** * The library [seobject]

    One [permissiveRecords] object, and the policy behind it. *)

Class Seobject (W : Type) := {
  permissiveRecords : pystr → M W unit;
  (** ['set_reload' in dir(permissive_domains)] *)
  has_set_reload : bool;
  set_reload : bool → M W unit;
  get_all : M W (list pystr);
  pr_add : pystr → M W unit;
  pr_delete : pystr → M W unit
}.

(** The permissive domains of the policy, and the reload flag of the object.
    Adding and removing may be refused; what they do is said for a domain that is
    not, or is, permissive. *)
Class SeobjectLaws (W : Type) `{AnsibleLaws W} `{Seobject W} := {
  domains : W → list pystr;
  reload : W → bool;
  records_law : ∀ store w, ∃ r w', permissiveRecords store w = (r, w') ∧ am_log w' = am_log w ∧
    domains w' = domains w ∧ ∀ e, r = Raise e → ∃ m, e = ValueError m;
  set_reload_law : has_set_reload = true → ∀ b w, ∃ w', set_reload b w = (Ok tt, w') ∧
    am_log w' = am_log w ∧ domains w' = domains w ∧ reload w' = b;
  get_all_law : ∀ w, get_all w = (Ok (domains w), w);
  pr_add_law : ∀ d w, ∃ r w', pr_add d w = (r, w') ∧ am_log w' = am_log w ∧ reload w' = reload w ∧
    (r = Ok tt → d ∉ domains w → ∀ x, x ∈ domains w' ↔ x = d ∨ x ∈ domains w);
  pr_delete_law : ∀ d w, ∃ r w', pr_delete d w = (r, w') ∧ am_log w' = am_log w ∧ reload w' = reload w ∧
    (r = Ok tt → d ∈ domains w → ∀ x, x ∈ domains w' ↔ x ≠ d ∧ x ∈ domains w);
  exit_keeps : ∀ A kw w, let w' := (@exit_json W _ A kw w).2 in domains w' = domains w ∧ reload w' = reload w;
  fail_keeps : ∀ A kw w, domains (@fail_json W _ A kw w).2 = domains w
}.

Section selinux.
Context {W : Type} `{AnsibleModule W} `{Seobject W}.
(** [str(exc)] *)
Variable exc_str : exn → pystr.

Definition spec : arg_spec := ArgSpec
  [Arg #"domain" [#"name"] true PyNone [] TStr;
   Arg #"store" [] false (PyStr []) [] TStr;
   Arg #"permissive" [] true PyNone [] TBool;
   Arg #"no_reload" [] false (PyBool false) [] TBool]
  [].

Definition param (p : dict pyval) (name : pystr) : M W pyval := lift (getitem_str (PyDict p) name).

(** The text of a parameter the library takes as text. *)
Definition text (v : pyval) : M W pystr := lift (or_raise TypeError (as_str v)).

(** [permissive_domains = seobject.permissiveRecords(store)]: [fail_json] does
    not return, so the [AssertionError] behind it is never raised. *)
Definition open_records (store domain : pyval) : M W unit :=
  s ← text store;
  try_except (permissiveRecords s) (λ e,
    if is_ValueError e
    then Some (fail_json (A := unit) [(#"domain", domain); (#"msg", PyStr (exc_str e))];; raise AssertionError)
    else None).

(** The change, if one is needed: [changed] *)
Definition apply_permissive (permissive : bool) (domain : pystr) : M W bool :=
  if permissive then
    all ← get_all;
    if bool_decide (domain ∉ all) then pr_add domain;; mret true else mret false
  else
    all ← get_all;
    if bool_decide (domain ∈ all) then pr_delete domain;; mret true else mret false.

Definition main : M W unit :=
  params ← am_init spec;
  store ← param params #"store";
  permissive ← param params #"permissive";
  domain ← param params #"domain";
  no_reload ← param params #"no_reload";
  open_records store domain;;
  (if has_set_reload then set_reload (negb (truthy no_reload)) else mret tt);;
  d ← text domain;
  changed ← apply_permissive (truthy permissive) d;
  exit_json [(#"changed", PyBool changed); (#"store", store); (#"permissive", permissive); (#"domain", domain)].

(** * Properties *)

Context `{!AnsibleLaws W} `{!SeobjectLaws W}.

Definition task (domain store : pystr) (permissive no_reload : bool) (p : dict pyval) : Prop :=
  dict_get #"domain" p = Some (PyStr domain) ∧ dict_get #"store" p = Some (PyStr store) ∧
  dict_get #"permissive" p = Some (PyBool permissive) ∧ dict_get #"no_reload" p = Some (PyBool no_reload).

(** The rest of [main] for a task. *)
Definition body (domain store : pystr) (permissive no_reload : bool) : M W unit :=
  open_records (PyStr store) (PyStr domain);;
  (if has_set_reload then set_reload (negb no_reload) else mret tt);;
  changed ← apply_permissive permissive domain;
  exit_json [(#"changed", PyBool changed); (#"store", PyStr store);
             (#"permissive", PyBool permissive); (#"domain", PyStr domain)].

Lemma main_body w p w1 domain store permissive no_reload :
  am_init spec w = (Ok p, w1) → task domain store permissive no_reload p →
  main w = body domain store permissive no_reload w1.
Proof.
  intros E (H1 & H2 & H3 & H4). unfold main. rewrite (bind_ok _ _ _ _ _ E).
  unfold param, getitem_str. rewrite H1, H2, H3, H4. reflexivity.
Qed.

(** The call of the library that makes a domain permissive, or no longer so. *)
Definition change (permissive : bool) : pystr → M W unit := if permissive then pr_add else pr_delete.

Lemma apply_unneeded permissive domain w : (domain ∈ domains w ↔ permissive = true) →
  apply_permissive permissive domain w = (Ok false, w).
Proof.
  intros Hd. unfold apply_permissive. destruct permissive; rewrite (bind_ok _ _ _ _ _ (get_all_law w)).
  - rewrite bool_decide_eq_false_2; [done|]. intros Hn. apply Hn. by apply Hd.
  - rewrite bool_decide_eq_false_2; [done|]. intros Hn. by apply Hd in Hn.
Qed.

Lemma apply_needed permissive domain w : ¬ (domain ∈ domains w ↔ permissive = true) →
  apply_permissive permissive domain w = (change permissive domain;; mret true) w.
Proof.
  intros Hd. unfold apply_permissive. destruct permissive; rewrite (bind_ok _ _ _ _ _ (get_all_law w)).
  - rewrite bool_decide_eq_true_2; [done|]. intros Hn. by apply Hd.
  - rewrite bool_decide_eq_true_2; [done|]. destruct (decide (domain ∈ domains w)); [done|]. by destruct Hd.
Qed.

(** What the call does when it is needed. *)
Lemma change_law permissive domain w : ¬ (domain ∈ domains w ↔ permissive = true) →
  ∃ r w', change permissive domain w = (r, w') ∧ am_log w' = am_log w ∧ reload w' = reload w ∧
    (r = Ok tt → ∀ x, x ∈ domains w' ↔ if decide (x = domain) then permissive = true else x ∈ domains w).
Proof.
  intros Hd. destruct permissive; cbn [change].
  - destruct (pr_add_law domain w) as (r & w' & E & Hl & Hr & Hx). exists r, w'. split_and!; try done.
    intros Hok x. rewrite (Hx Hok) by (intros ?; by apply Hd). destruct (decide (x = domain)); naive_solver.
  - destruct (pr_delete_law domain w) as (r & w' & E & Hl & Hr & Hx). exists r, w'. split_and!; try done.
    assert (domain ∈ domains w) as Hin by (destruct (decide (domain ∈ domains w)); [done|by destruct Hd]).
    intros Hok x. rewrite (Hx Hok Hin). destruct (decide (x = domain)); naive_solver.
Qed.

(** What a run that got through reports. *)
Definition outcome_of (changed : bool) (domain store : pystr) (permissive : bool) : dict pyval :=
  [(#"changed", PyBool changed); (#"store", PyStr store); (#"permissive", PyBool permissive);
   (#"domain", PyStr domain)].

Lemma exit_outcome w2 w3 kw (b : bool) : reload w3 = b → (has_set_reload = true → b = w2) →
  ∃ w', exit_json (A := unit) kw w3 = (Raise (SystemExit 0), w') ∧ am_log w' = am_log w3 ++ [Exited kw] ∧
    domains w' = domains w3 ∧ (has_set_reload = true → reload w' = w2).
Proof.
  intros Hb Hr. destruct (exit_json_law unit kw w3) as (w' & E & Hl).
  pose proof (exit_keeps unit kw w3) as [Hd Hr']. rewrite E in Hd, Hr'. cbn [snd] in Hd, Hr'.
  exists w'. split_and!; try done. intros Hh. rewrite Hr', Hb. by apply Hr.
Qed.

(** C22: the module makes the policy what the task asks for.  Once the store is
    open, the reload flag is set to the opposite of [no_reload] where the library
    has one, which leads to a state [w3] with the policy unchanged.  If the domain
    is already as asked, the module exits with [changed=false] and an unchanged
    policy.  If not, the one call that changes it is made: when it is accepted,
    the module exits with [changed=true], the domain is permissive exactly when
    the task says so and every other domain is as before; when it is refused, the
    exception of the library escapes, with nothing reported. *)
Theorem selinux_converges w p w1 w2 domain store permissive no_reload :
  am_init spec w = (Ok p, w1) → task domain store permissive no_reload p →
  permissiveRecords store w1 = (Ok tt, w2) →
  ∃ w3, (if has_set_reload then set_reload (negb no_reload) w2 = (Ok tt, w3) else w3 = w2) ∧
    if decide (domain ∈ domains w1 ↔ permissive = true) then
      ∃ w', main w = (Raise (SystemExit 0), w') ∧
        am_log w' = am_log w ++ [Exited (outcome_of false domain store permissive)] ∧
        domains w' = domains w1 ∧ (has_set_reload = true → reload w' = negb no_reload)
    else
      match change permissive domain w3 with
      | (Ok tt, _) =>
          ∃ w', main w = (Raise (SystemExit 0), w') ∧
            am_log w' = am_log w ++ [Exited (outcome_of true domain store permissive)] ∧
            (∀ x, x ∈ domains w' ↔ if decide (x = domain) then permissive = true else x ∈ domains w1) ∧
            (has_set_reload = true → reload w' = negb no_reload)
      | (Raise e, w4) => main w = (Raise e, w4) ∧ am_log w4 = am_log w
      end.
Proof.
  intros Ei Ht Eo. rewrite (main_body _ _ _ _ _ _ _ Ei Ht). pose proof (am_init_ran _ _ _ _ Ei) as Hl1.
  unfold ran, logged in Hl1. rewrite app_nil_r in Hl1.
  destruct (records_law store w1) as (r & w2' & E & Hl2 & Hd2 & _). rewrite Eo in E. injection E as <- <-.
  assert (open_records (PyStr store) (PyStr domain) w1 = (Ok tt, w2)) as Eor.
  { unfold open_records, text. rewrite (lift_ok _ _ _ store) by done. by apply try_ok. }
  assert (∃ w3, (if has_set_reload then set_reload (negb no_reload) else mret tt) w2 = (Ok tt, w3) ∧
    (if has_set_reload then set_reload (negb no_reload) w2 = (Ok tt, w3) else w3 = w2) ∧
    am_log w3 = am_log w ∧ domains w3 = domains w1 ∧
    (has_set_reload = true → reload w3 = negb no_reload)) as (w3 & E3 & E3' & Hl3 & Hd3 & Hr3).
  { destruct has_set_reload eqn:Eh; [|exists w2; split_and!; (done || congruence)].
    destruct (set_reload_law Eh (negb no_reload) w2) as (w3 & E3 & Hl3 & Hd3 & Hr3).
    exists w3. split_and!; (done || congruence). }
  exists w3. split; [exact E3'|]. unfold body.
  rewrite (bind_ok _ _ _ _ _ Eor), (bind_ok _ _ _ _ _ E3), <- Hd3.
  destruct (decide (domain ∈ domains w3 ↔ permissive = true)) as [Hn|Hn].
  - rewrite (bind_ok _ _ _ _ _ (apply_unneeded _ _ _ Hn)), <- Hl3. by eapply exit_outcome.
  - destruct (change_law _ _ _ Hn) as (r & w4 & Ec & Hl4 & Hr4 & Hx). rewrite Ec.
    assert (apply_permissive permissive domain w3 = (r ≫= λ _, Ok true, w4)) as Ea.
    { rewrite (apply_needed _ _ _ Hn). unfold mbind, M_bind. rewrite Ec. by destruct r. }
    destruct r as [[]|e].
    + rewrite (bind_ok _ _ _ _ _ Ea).
      destruct (exit_outcome (negb no_reload) w4 (outcome_of true domain store permissive) _ Hr4 Hr3)
        as (w5 & E5 & Hl5 & Hd5 & Hr5).
      exists w5. split_and!; [exact E5|congruence| |done]. intros x. rewrite Hd5. by apply Hx.
    + rewrite (bind_raised _ _ _ _ _ Ea). split; [done|congruence].
Qed.

(** A store that cannot be opened is reported as a failure for the domain,
    with the policy untouched; the [AssertionError] after the report is never
    reached. *)
Theorem selinux_bad_store w p w1 w2 domain store permissive no_reload e :
  am_init spec w = (Ok p, w1) → task domain store permissive no_reload p →
  permissiveRecords store w1 = (Raise e, w2) →
  finished w (main w) [] (Failed [(#"domain", PyStr domain); (#"msg", PyStr (exc_str e))]) ∧
  domains (main w).2 = domains w1.
Proof.
  intros Ei Ht Eo. rewrite (main_body _ _ _ _ _ _ _ Ei Ht). pose proof (am_init_ran _ _ _ _ Ei) as Hl1.
  unfold ran, logged in Hl1.
  destruct (records_law store w1) as (r & w2' & E & Hl2 & Hd2 & He). rewrite Eo in E. injection E as <- <-.
  destruct (He e eq_refl) as [m ->]. set (kw := [(#"domain", PyStr domain); (#"msg", _)]).
  destruct (fail_json_law unit kw w2) as (w3 & E3 & Hl3).
  pose proof (fail_keeps unit kw w2) as Hd3. rewrite E3 in Hd3. cbn [snd] in Hd3.
  assert (open_records (PyStr store) (PyStr domain) w1 = (Raise (SystemExit 1), w3)) as Eor.
  { unfold open_records, text. rewrite (lift_ok _ _ _ store) by done.
    erewrite try_caught; [|exact Eo|reflexivity]. by apply bind_raised. }
  unfold body. rewrite (bind_raised _ _ _ _ _ Eor). split; [|cbn [snd]; congruence].
  split; [|by exists 1%Z]. cbn [snd]. rewrite Hl3, Hl2, Hl1. by rewrite app_nil_r.
Qed.
(** ** Every run *)

Lemma selinux_conforming_task p : conforms spec p = true →
  ∃ domain store permissive no_reload, task domain store permissive no_reload p.
Proof.
  intros Hp. pose proof (conforms_option spec p) as Hg.
  destruct (Hg _ Hp ltac:(left)) as (? & Ed & (domain & -> & _)%always_text); [|done|by left].
  destruct (Hg _ Hp ltac:(do 1 right; left)) as (? & Es & (store & -> & _)%always_text); [|done|by right].
  destruct (Hg _ Hp ltac:(do 2 right; left)) as (? & Ep & [permissive ->]%a_bool); [|done].
  destruct (Hg _ Hp ltac:(do 3 right; left)) as (? & En & [no_reload ->]%a_bool); [|done].
  by exists domain, store, permissive, no_reload.
Qed.

(** A call of the library that returns a value. *)
Lemma behaves_quiet {A} {P : exn → Prop} (Q : A → Prop) (m : M W A) :
  (∀ w, am_log (m w).2 = am_log w ∧ match (m w).1 with Ok x => Q x | Raise e => escapes (P := P) e end) →
  behaves P Q m.
Proof.
  intros Hm w. destruct (Hm w) as [L Hw]. exists []. split; [by apply logged_nil|].
  destruct ((m w).1) as [x|e]; [by split; [constructor|]|]. destruct Hw as [Hp Hn].
  destruct e; try by split; [constructor|]. by destruct (Hn code).
Qed.

(** Whatever the task and the host, a run of the module ends: it prints
    exactly one report and exits with a code that agrees with it, or an exception
    escapes that the library raised while it changed the policy. *)
Theorem selinux_well_typed (P : exn → Prop) :
  (∀ d w e w', pr_add d w = (Raise e, w') ∨ pr_delete d w = (Raise e, w') → escapes (P := P) e) →
  behaves P (λ _ : unit, False) main.
Proof.
  intros Hp. unfold main. eapply behaves_bind; [apply behaves_init|]. intros p Hc. cbv beta in Hc.
  destruct (selinux_conforming_task p Hc) as (domain & store & permissive & no_reload & Hd & Hs & Hpe & Hn).
  assert (∀ name v, dict_get name p = Some v → behaves P (λ x, x = v) (param p name)) as Hparam.
  { intros name v E. apply behaves_lift. unfold getitem_str. by rewrite E. }
  do 4 (eapply behaves_bind; [by apply Hparam|]; intros ? ->).
  apply (behaves_bind (λ _, True)).
  { unfold open_records, text. eapply (behaves_bind (λ x, x = store)); [by apply behaves_lift|]. intros ? ->.
    apply behaves_try. intros w. destruct (records_law store w) as (r & w' & E & El & _ & He). rewrite E. cbn [fst snd].
    split; [by apply logged_nil|]. destruct r as [|e]; [done|]. destruct (He e eq_refl) as [m ->].
    apply (behaves_bind (λ _, False)); [apply behaves_fail|done]. }
  intros _ _. apply (behaves_bind (λ _, True)).
  { destruct has_set_reload eqn:Eh; [|by apply behaves_ret]. apply behaves_quiet. intros w.
    destruct (set_reload_law Eh (negb (truthy (PyBool no_reload))) w) as (w' & E & El & _). by rewrite E. }
  intros _ _. eapply (behaves_bind (λ x, x = domain)); [by apply behaves_lift|]. intros ? ->.
  apply (behaves_bind (λ _, True)); [|intros changed _; apply behaves_exit].
  assert (behaves P (λ _, True) (get_all : M W _)) as Hall.
  { apply behaves_quiet. intros w. by rewrite get_all_law. }
  unfold apply_permissive. case_match; (eapply behaves_bind; [exact Hall|]; intros all _;
    case_bool_decide; [|by apply behaves_ret]; apply (behaves_bind (λ _, True)); [|intros _ _; by apply behaves_ret];
    apply behaves_quiet; intros w).
  - destruct (pr_add_law domain w) as (r & w' & E & El & _). rewrite E. split; [done|].
    destruct r; [done|]. by eapply Hp; left.
  - destruct (pr_delete_law domain w) as (r & w' & E & El & _). rewrite E. split; [done|].
    destruct r; [done|]. by eapply Hp; right.
Qed.
End selinux.

(** * Concrete runs: a policy as a list of domains *)

(** The permissive domains and the reload flag. *)
Abbreviation demo_policy := (demo_world (list pystr * bool)).

#[export] Instance demo_seobject : Seobject demo_policy := {
  permissiveRecords store := λ s,
    (if store =s [] then Ok tt else Raise (ValueError #"no such store"), s);
  has_set_reload := true;
  set_reload b := modify (λ s, DemoWorld (dw_host s) ((dw_extra s).1, b));
  get_all := gets (λ s, (dw_extra s).1);
  pr_add d := modify (λ s, DemoWorld (dw_host s) (d :: (dw_extra s).1, (dw_extra s).2));
  pr_delete d := λ s,
    if bool_decide (d ∈ (dw_extra s).1)
    then (Ok tt, DemoWorld (dw_host s) (filter (λ x, x ≠ d) (dw_extra s).1, (dw_extra s).2))
    else (Raise (ValueError #"not permissive"), s)
}.

#[export] Instance demo_seobject_laws : SeobjectLaws demo_policy.
Proof.
  refine {| domains s := (dw_extra s).1; reload s := (dw_extra s).2 |}.
  - intros store s. unfold permissiveRecords, demo_seobject. do 2 eexists. split_and!; [done..|].
    intros e. case_bool_decide; [done|]. intros [= <-]. by eexists.
  - intros _ b s. by eexists.
  - done.
  - intros d s. do 2 eexists. split_and!; [done..|]. intros _ _ x. cbn. by rewrite elem_of_cons.
  - intros d s. unfold pr_delete, demo_seobject. case_bool_decide; do 2 eexists; (split_and!; [done..|]); [|done].
    intros _ _ x. cbn. by rewrite list_elem_of_filter.
  - done.
  - done.
Defined.

Definition demo_exc (e : exn) : pystr := match e with ValueError m => m | _ => [] end.
Definition demo_params (store : pystr) (permissive : bool) : dict pyval :=
  [(#"domain", PyStr #"httpd_t"); (#"store", PyStr store); (#"permissive", PyBool permissive);
   (#"no_reload", PyBool false)].
Definition demo_start (store : pystr) : demo_policy :=
  DemoWorld (DemoHost (demo_params store true) [] [] []) ([#"ftpd_t"], false).

Lemma selinux_converges_witness :
  ∃ w', main (W := demo_policy) demo_exc (demo_start []) = (Raise (SystemExit 0), w') ∧
    (dw_extra w').2 = true ∧ #"httpd_t" ∈ (dw_extra w').1 ∧ #"ftpd_t" ∈ (dw_extra w').1.
Proof.
  destruct (selinux_converges demo_exc (demo_start []) (demo_params [] true) (demo_start []) (demo_start [])
    #"httpd_t" [] true false) as (w3 & E3 & H).
  - reflexivity.
  - repeat split.
  - reflexivity.
  - cbn in E3. injection E3 as <-. rewrite decide_False in H.
    2:{ intros [_ Hx]. specialize (Hx eq_refl). apply (bool_decide_eq_true_2 _) in Hx. by vm_compute in Hx. }
    destruct H as (w' & E & _ & Hd & Hr).
    exists w'. split; [exact E|]. split; [by apply Hr|]. split; apply (Hd _); [by destruct decide|].
    destruct decide; [done|]. vm_compute. constructor.
Defined.

Lemma selinux_bad_store_witness :
  finished (demo_start #"x") (main (W := demo_policy) demo_exc (demo_start #"x")) []
    (Failed [(#"domain", PyStr #"httpd_t"); (#"msg", PyStr #"no such store")]).
Proof.
  refine (proj1 (selinux_bad_store demo_exc (demo_start #"x") (demo_params #"x" true) (demo_start #"x")
    (demo_start #"x") #"httpd_t" #"x" true false (ValueError #"no such store") _ _ _)).
  - reflexivity.
  - repeat split.
  - reflexivity.
Defined.

Lemma selinux_well_typed_witness :
  behaves (λ e, is_ValueError e = true) (λ _ : unit, False) (main (W := demo_policy) demo_exc).
Proof.
  apply (selinux_well_typed demo_exc (λ e, is_ValueError e = true)).
  intros d w e w' [E|E]; [discriminate E|]. unfold pr_delete, demo_seobject in E.
  destruct (bool_decide _); [done|]. by injection E as <- _.
Defined.
