(* ===== verification/XmlTree.v ===== *)
(** Element trees, the pretty printer [indent] of [zabbix_template.py] and
    [xml.etree.ElementTree.tostring] of Python 2.7.

    The trees are those of [ElementTree.fromstring]: no element occurs twice, so
    the assignments of [indent] to [elem.text] and [elem.tail] are a function on
    trees. *)
From S2P Require Export PyVal.
From Stdlib Require Import NArith ZArith Lia.

(** An element with its attributes, the text before its first child, the text
    after its end tag, and its children. *)
Inductive xml : Type :=
| Elem (tag : pystr) (attrib : list (pystr * pystr)) (text tail : option pystr) (children : list xml).

Definition x_tag (e : xml) : pystr := let 'Elem t _ _ _ _ := e in t.
Definition x_attrib (e : xml) : list (pystr * pystr) := let 'Elem _ a _ _ _ := e in a.
Definition x_text (e : xml) : option pystr := let 'Elem _ _ t _ _ := e in t.
Definition x_tail (e : xml) : option pystr := let 'Elem _ _ _ t _ := e in t.
Definition x_children (e : xml) : list xml := let 'Elem _ _ _ _ c := e in c.

Definition set_tail (t : option pystr) (e : xml) : xml :=
  let 'Elem g a x _ c := e in Elem g a x t c.

Section xml_ind.
Variable P : xml → Prop.
Hypothesis HElem : ∀ g a x t c, Forall P c → P (Elem g a x t c).

Fixpoint xml_ind' (e : xml) : P e :=
  match e with
  | Elem g a x t c =>
      HElem g a x t c ((fix go (c : list xml) : Forall P c :=
        match c with
        | [] => Forall_nil_2 _
        | y :: c' => Forall_cons_2 _ y c' (xml_ind' y) (go c')
        end) c)
  end.
End xml_ind.

(** * [indent] *)

(** The white space that [strip] removes from the text of a document. *)
Definition is_xml_space (c : N) : bool :=
  is_space c || bool_decide (c ∈ [133; 160; 5760; 6158; 8232; 8233; 8239; 8287; 12288]%N)
  || (N.leb 8192 c && N.leb c 8202).

(** [not t or not t.strip()] *)
Definition blank (t : option pystr) : bool :=
  match t with None => true | Some s => forallb is_xml_space s end.

(** ["\n" + level * "  "] *)
Definition newline_indent (level : nat) : pystr := 10%N :: mjoin (replicate level #"  ").

Definition fill (t : option pystr) (i : pystr) : option pystr := if blank t then Some i else t.

(** The last assignment of the loop's owner: [elem] is then the last child. *)
Fixpoint fill_last_tail (i : pystr) (c : list xml) : list xml :=
  match c with
  | [] => []
  | [e] => [set_tail (fill (x_tail e) i) e]
  | e :: c' => e :: fill_last_tail i c'
  end.

Fixpoint indent (level : nat) (elem : xml) : xml :=
  let i := newline_indent level in
  match elem with
  | Elem tag attrib text tail children =>
      match children with
      | [] => Elem tag attrib text (if Nat.eqb level 0 then tail else fill tail i) []
      | _ =>
          Elem tag attrib (fill text (i ++ #"  ")) (fill tail i)
            (fill_last_tail i (map (indent (S level)) children))
      end
  end.

(** * [ElementTree.tostring] without namespaces *)

Definition escape_with (table : list (N * pystr)) (s : pystr) : pystr :=
  mjoin ((λ c, match List.find (λ e, N.eqb e.1 c) table with
               | Some e => e.2
               | None => if N.ltb c 128 then [c] else #"&#" ++ str_of_N c ++ #";"
               end) <$> s).

Definition escape_cdata : pystr → pystr :=
  escape_with [(38, #"&amp;"); (60, #"&lt;"); (62, #"&gt;")]%N.
Definition escape_attrib : pystr → pystr :=
  escape_with [(38, #"&amp;"); (60, #"&lt;"); (62, #"&gt;"); (34, #"&quot;"); (10, #"&#10;")]%N.

Definition opt_cdata (t : option pystr) : pystr :=
  match t with None => [] | Some s => escape_cdata s end.

(** Attributes are written in the order of their names. *)
Definition attribs (a : list (pystr * pystr)) : pystr :=
  mjoin ((λ kv, #" " ++ kv.1 ++ [61; 34]%N ++ escape_attrib kv.2 ++ [34%N]) <$> sort_items a).

Fixpoint tostring (elem : xml) : pystr :=
  match elem with
  | Elem tag attrib text tail children =>
      #"<" ++ tag ++ attribs attrib ++
      match text, children with
      | None, [] | Some [], [] => #" />"
      | _, _ => #">" ++ opt_cdata text ++ mjoin (map tostring children) ++ #"</" ++ tag ++ #">"
      end ++ opt_cdata tail
  end.

(** * What [indent] keeps and what it does *)

(** White space, as Python lists it, less the control characters no document can
    hold; a text that is nothing else, or is missing; and where a line at a level
    starts.  These say what a layout is, apart from the code. *)
Definition white_space : list N :=
  [9; 10; 11; 12; 13; 32; 133; 160; 5760; 6158; 8192; 8193; 8194; 8195; 8196; 8197; 8198; 8199; 8200; 8201;
   8202; 8232; 8233; 8239; 8287; 12288]%N.
Definition white_only (t : option pystr) : bool :=
  match t with None => true | Some s => bool_decide (Forall (λ c, c ∈ white_space) s) end.
Definition line_start (level : nat) : pystr := 10%N :: replicate (2 * level) 32%N.

(** The content of a tree: white space around the children of an element does not
    count, everything else does. *)
Fixpoint content_of (e : xml) : xml :=
  match e with
  | Elem g a x t c =>
      Elem g a (match c with [] => x | _ => if white_only x then None else x end)
        (if white_only t then None else t) (map content_of c)
  end.

(** The code agrees with them. *)
Lemma xml_space_white c : is_xml_space c = true ↔ c ∈ white_space.
Proof.
  unfold is_xml_space, is_space, white_space. rewrite !orb_true_iff, !andb_true_iff, !N.leb_le, N.eqb_eq,
    bool_decide_eq_true, !elem_of_cons, elem_of_nil. lia.
Qed.

Lemma white_blank t : white_only t = blank t.
Proof.
  destruct t as [s|]; [|done]. cbn. apply eq_true_iff_eq. rewrite bool_decide_eq_true, forallb_Forall.
  apply Forall_iff. intros c. by rewrite xml_space_white.
Qed.

Lemma newline_line level : newline_indent level = line_start level.
Proof.
  unfold newline_indent, line_start. f_equal. induction level as [|n IH]; [done|].
  replace (2 * S n) with (S (S (2 * n))) by lia. cbn [replicate].
  change (mjoin (#"  " :: replicate n #"  ")) with (32%N :: 32%N :: mjoin (replicate n #"  ")). by rewrite IH.
Qed.

Lemma newline_blank level : blank (Some (newline_indent level)) = true.
Proof. cbn. induction level as [|n IH]; [done|]. exact IH. Qed.

Lemma newline_S level : newline_indent level ++ #"  " = newline_indent (S level).
Proof.
  unfold newline_indent. cbn [app]. f_equal. induction level as [|n IH]; [done|].
  cbn [replicate]. change (mjoin (#"  " :: replicate n #"  ")) with (#"  " ++ mjoin (replicate n #"  ")).
  rewrite <- app_assoc, IH. reflexivity.
Qed.

Lemma fill_content t i : blank (Some i) = true →
  (if white_only (fill t i) then None else fill t i) = (if white_only t then None else t).
Proof. intros Hi. rewrite !white_blank. unfold fill. destruct (blank t) eqn:E; [by rewrite Hi|by rewrite E]. Qed.

(** Filling twice with white space is filling once, with what came last. *)
Lemma fill_fill t i j : blank (Some i) = true → fill (fill t i) j = fill t j.
Proof. intros Hi. unfold fill. destruct (blank t) eqn:E; [by rewrite Hi|by rewrite E]. Qed.

Lemma content_set_tail e i : blank (Some i) = true →
  content_of (set_tail (fill (x_tail e) i) e) = content_of e.
Proof. intros Hi. destruct e as [g a x t c]. cbn. by rewrite fill_content. Qed.

Lemma content_fill_last i c : blank (Some i) = true →
  map content_of (fill_last_tail i c) = map content_of c.
Proof.
  intros Hi. induction c as [|e [|e' c] IH]; [done|cbn; by rewrite content_set_tail|].
  cbn [map fill_last_tail] in *. by rewrite IH.
Qed.

Lemma fill_last_cons i c : fill_last_tail i c = [] ↔ c = [].
Proof. by destruct c as [|e [|]]. Qed.

Lemma content_indent e level : content_of (indent level e) = content_of e.
Proof.
  revert level. induction e as [g a x t c IH] using xml_ind'. intros level.
  destruct c as [|e c]; cbn [indent].
  - cbn. destruct (Nat.eqb level 0); [done|]. by rewrite fill_content by apply newline_blank.
  - set (l := map (indent (S level)) (e :: c)). rewrite newline_S.
    assert (map content_of (fill_last_tail (newline_indent level) l) = map content_of (e :: c)) as Hc.
    { rewrite content_fill_last by apply newline_blank. unfold l. rewrite map_map. apply map_ext_Forall.
      eapply Forall_impl; [exact IH|]. cbn. intros y Hy. apply Hy. }
    destruct (fill_last_tail (newline_indent level) l) as [|e' c'] eqn:El; [by apply fill_last_cons in El|].
    cbn [content_of]. rewrite Hc, !fill_content by apply newline_blank. reflexivity.
Qed.

(** At a level of its own, [indent] only looks at the tail to fill it. *)
Lemma indent_set_tail level t e :
  indent (S level) (set_tail t e) = set_tail (fill t (newline_indent (S level))) (indent (S level) e).
Proof. destruct e as [g a x t' [|y c]]; reflexivity. Qed.

Lemma set_tail_set_tail t t' e : set_tail t (set_tail t' e) = set_tail t e.
Proof. by destruct e. Qed.

Lemma x_tail_set_tail t e : x_tail (set_tail t e) = t.
Proof. by destruct e. Qed.

Lemma fill_last_again level c : Forall (λ e, indent (S level) e = e) c →
  fill_last_tail (newline_indent level) (map (indent (S level)) (fill_last_tail (newline_indent level) c))
  = fill_last_tail (newline_indent level) c.
Proof.
  induction 1 as [|e c He Hc IH]; [done|]. destruct c as [|e' c].
  - cbn [fill_last_tail map]. rewrite indent_set_tail, x_tail_set_tail, set_tail_set_tail, He.
    by rewrite !fill_fill by apply newline_blank.
  - change (fill_last_tail (newline_indent level) (e :: e' :: c))
      with (e :: fill_last_tail (newline_indent level) (e' :: c)). cbn [map]. rewrite He.
    destruct (fill_last_tail _ (e' :: c)) as [|y l] eqn:E; [by apply fill_last_cons in E|].
    cbn [map] in *. change (fill_last_tail (newline_indent level) (e :: ?a :: ?b))
      with (e :: fill_last_tail (newline_indent level) (a :: b)). f_equal. exact IH.
Qed.

Lemma indent_indent e level : indent level (indent level e) = indent level e.
Proof.
  revert level. induction e as [g a x t c IH] using xml_ind'. intros level.
  destruct c as [|e c]; cbn [indent].
  - destruct (Nat.eqb level 0); [done|]. by rewrite fill_fill by apply newline_blank.
  - set (l := map (indent (S level)) (e :: c)).
    assert (Forall (λ y, indent (S level) y = y) l) as Hl.
    { unfold l. apply Forall_map. eapply Forall_impl; [exact IH|]. intros y Hy. apply Hy. }
    pose proof (fill_last_again level l Hl) as Hf.
    destruct (fill_last_tail (newline_indent level) l) as [|e' c'] eqn:El; [by apply fill_last_cons in El|].
    cbn [indent]. rewrite newline_S, Hf, !fill_fill by apply newline_blank. reflexivity.
Qed.

(** ** The layout *)

(** White space has become the given white space. *)
Definition placed (i : pystr) (t : option pystr) : Prop := white_only t = false ∨ t = Some i.

(** The tails of the children of an element: the end tag comes after the last. *)
Fixpoint tails_placed (inner last : pystr) (c : list xml) : Prop :=
  match c with
  | [] => True
  | [e] => placed last (x_tail e)
  | e :: c' => placed inner (x_tail e) ∧ tails_placed inner last c'
  end.

(** Every child starts on a line of its own, two spaces further in than its
    parent, and the end tag of the parent is on a line of its own below. *)
Fixpoint laid_out (level : nat) (e : xml) : Prop :=
  match e with
  | Elem _ _ text _ children =>
      match children with
      | [] => True
      | _ =>
          placed (line_start (S level)) text ∧
          tails_placed (line_start (S level)) (line_start level) children ∧
          foldr (λ y P, laid_out (S level) y ∧ P) True children
      end
  end.

Lemma fill_placed t i : placed i (fill t i).
Proof. unfold placed, fill. rewrite white_blank. destruct (blank t) eqn:E; [by right|by left]. Qed.

Lemma fill_last_placed inner i c : Forall (λ e, placed inner (x_tail e)) c →
  tails_placed inner i (fill_last_tail i c).
Proof.
  induction 1 as [|e c He Hc IH]; [done|]. destruct c as [|e' c].
  - cbn [fill_last_tail tails_placed]. rewrite x_tail_set_tail. apply fill_placed.
  - change (fill_last_tail i (e :: e' :: c)) with (e :: fill_last_tail i (e' :: c)).
    destruct (fill_last_tail i (e' :: c)) as [|y l] eqn:E; [by apply fill_last_cons in E|]. by split.
Qed.

Lemma indent_tail_placed level e : placed (newline_indent (S level)) (x_tail (indent (S level) e)).
Proof. destruct e as [g a x t [|y c]]; apply fill_placed. Qed.

Lemma laid_out_set_tail level t e : laid_out level (set_tail t e) ↔ laid_out level e.
Proof. by destruct e. Qed.

Lemma laid_out_fill_last level i c :
  foldr (λ y P, laid_out level y ∧ P) True c → foldr (λ y P, laid_out level y ∧ P) True (fill_last_tail i c).
Proof.
  induction c as [|e c IH]; [done|]. intros [He Hc]. destruct c as [|e' c].
  - split; [by apply laid_out_set_tail|done].
  - change (fill_last_tail i (e :: e' :: c)) with (e :: fill_last_tail i (e' :: c)). by split; [|apply IH].
Qed.

Lemma indent_laid_out e level : laid_out level (indent level e).
Proof.
  revert level. induction e as [g a x t c IH] using xml_ind'. intros level.
  destruct c as [|e c]; [by destruct level|]. cbn [indent]. rewrite newline_S.
  set (l := map (indent (S level)) (e :: c)).
  assert (foldr (λ y P, laid_out (S level) y ∧ P) True l) as Hl.
  { unfold l. clear -IH. induction IH as [|z cs Hz _ IHc]; [done|]. cbn. split; [apply Hz|exact IHc]. }
  assert (Forall (λ y, placed (newline_indent (S level)) (x_tail y)) l) as Ht.
  { unfold l. apply Forall_map, Forall_forall. intros y _. apply indent_tail_placed. }
  apply (fill_last_placed _ (newline_indent level)) in Ht.
  apply (laid_out_fill_last _ (newline_indent level)) in Hl.
  destruct (fill_last_tail (newline_indent level) l) as [|e' c'] eqn:El; [by apply fill_last_cons in El|].
  cbn [laid_out]. rewrite <- !newline_line. split; [apply fill_placed|done].
Qed.

(** C23: pretty printing a template changes only white space: the content of the
    tree stays, printing again changes nothing more, and the result is laid out
    with each child on a line of its own, two spaces further in than its parent,
    wherever there was no text. *)
Theorem indent_pretty e :
  content_of (indent 0 e) = content_of e ∧ indent 0 (indent 0 e) = indent 0 e ∧ laid_out 0 (indent 0 e).
Proof. split; [apply content_indent|]. split; [apply indent_indent|apply indent_laid_out]. Qed.
