(* ===== verification/XmlParse.v ===== *)
(** [xml.etree.ElementTree.fromstring] of Python 2.7: a parser of XML documents,
    and the round trip with [tostring].

    The parser covers the documents without a document type and without
    namespaces, in an encoding that is ASCII on ASCII text; a document that needs
    one of these is passed on to [beyond]. *)
From S2P Require Export XmlTree.
From Stdlib Require Import NArith ZArith Lia.

(** * The result of a parser *)

Inductive parsed (A : Type) : Type :=
| Parsed (a : A)
| Malformed
| Beyond
| NoFuel.
Arguments Parsed {A} a.
Arguments Malformed {A}.
Arguments Beyond {A}.
Arguments NoFuel {A}.

#[export] Instance parsed_ret : MRet parsed := λ A a, Parsed a.
#[export] Instance parsed_bind : MBind parsed := λ A B f m,
  match m with Parsed a => f a | Malformed => Malformed | Beyond => Beyond | NoFuel => NoFuel end.

(** * Characters and names *)

(** The characters a document may have, in its text or by a reference. *)
Definition is_xml_char (c : N) : bool :=
  bool_decide (c ∈ [9; 10; 13]%N) || (N.leb 32 c && N.leb c 55295) ||
  (N.leb 57344 c && N.leb c 65533) || (N.leb 65536 c && N.leb c 1114111).

(** White space in markup. *)
Definition is_blank (c : N) : bool := bool_decide (c ∈ [32; 9; 10; 13]%N).
Definition skip_blanks (s : pystr) : pystr := lstrip_by is_blank s.

Definition name_start (c : N) : bool := is_lower c || is_upper c || N.eqb c 95.
Definition name_char (c : N) : bool := name_start c || is_digit c || N.eqb c 45 || N.eqb c 46.

Fixpoint span (p : N → bool) (s : pystr) : pystr * pystr :=
  match s with
  | c :: s' => if p c then let '(a, r) := span p s' in (c :: a, r) else ([], s)
  | [] => ([], [])
  end.

(** What follows [p], if the text starts with it. *)
Definition after (p s : pystr) : option pystr :=
  if startswith p s then Some (drop (length p) s) else None.

(** A name; a colon in it belongs to a namespace. *)
Definition scan_name (s : pystr) : parsed (pystr * pystr) :=
  let '(n, r) := span name_char s in
  if bool_decide (head r = Some 58%N) then Beyond
  else
    match n with
    | c :: _ => if name_start c then Parsed (n, r) else Malformed
    | [] => Malformed
    end.

(** * References *)

Definition is_hex_digit (c : N) : bool :=
  is_digit c || (N.leb 97 c && N.leb c 102) || (N.leb 65 c && N.leb c 70).
Definition hex_digit_val (c : N) : N :=
  if is_digit c then (c - 48)%N else if N.leb 97 c then (c - 87)%N else (c - 55)%N.
Definition hex_val_of (s : pystr) : N := foldl (λ a c, 16 * a + hex_digit_val c)%N 0%N s.

Definition entities : dict N :=
  [(#"lt", 60); (#"gt", 62); (#"amp", 38); (#"quot", 34); (#"apos", 39)]%N.

(** [;] at the end of a reference to the character [c]. *)
Definition close_ref (ok : bool) (c : N) (r : pystr) : parsed (N * pystr) :=
  match after #";" r with
  | Some r' => if ok && is_xml_char c then Parsed (c, r') else Malformed
  | None => Malformed
  end.

(** A reference, after its [&]. *)
Definition scan_ref (s : pystr) : parsed (N * pystr) :=
  match after #"#x" s with
  | Some s' =>
      let '(d, r) := span is_hex_digit s' in close_ref (negb (bool_decide (d = []))) (hex_val_of d) r
  | None =>
      match after #"#" s with
      | Some s' =>
          let '(d, r) := span is_digit s' in close_ref (negb (bool_decide (d = []))) (digits_val d) r
      | None =>
          '(n, r) ← scan_name s;
          match dict_get n entities with
          | Some c => close_ref true c r
          | None => Malformed
          end
      end
  end.

(** * Tags *)

(** The value of an attribute, up to its closing quote [q]: white space becomes a
    space unless a reference stands for it. *)
Fixpoint att_value (fuel : nat) (q : N) (s : pystr) : parsed (pystr * pystr) :=
  match fuel with
  | O => NoFuel
  | S f =>
      match s with
      | [] => Malformed
      | c :: s' =>
          if N.eqb c q then Parsed ([], s')
          else if N.eqb c 60 then Malformed
          else if N.eqb c 38 then
            '(x, r) ← scan_ref s';
            '(v, r') ← att_value f q r;
            mret (x :: v, r')
          else if is_xml_char c then
            '(v, r') ← att_value f q s';
            mret ((if is_blank c then 32%N else c) :: v, r')
          else Malformed
      end
  end.

(** An equals sign and a value in quotes. *)
Definition scan_eq_value (s : pystr) : parsed (pystr * pystr) :=
  match after #"=" (skip_blanks s) with
  | Some s' =>
      match skip_blanks s' with
      | q :: r => if N.eqb q 34 || N.eqb q 39 then att_value (S (length r)) q r else Malformed
      | [] => Malformed
      end
  | None => Malformed
  end.

(** The attributes of a start tag up to its end; the boolean tells whether the
    element is closed by the tag. *)
Fixpoint scan_attrs (fuel : nat) (s : pystr) : parsed (list (pystr * pystr) * bool * pystr) :=
  match fuel with
  | O => NoFuel
  | S f =>
      let t := skip_blanks s in
      match after #"/>" t with
      | Some r => Parsed ([], true, r)
      | None =>
          match after #">" t with
          | Some r => Parsed ([], false, r)
          | None =>
              if Nat.eqb (length t) (length s) then Malformed
              else
                '(k, r) ← scan_name t;
                if bool_decide (k = #"xmlns") then Beyond
                else
                  '(v, r') ← scan_eq_value r;
                  '(l, closed, r'') ← scan_attrs f r';
                  mret ((k, v) :: l, closed, r'')
          end
      end
  end.

(** * Comments, processing instructions and character data *)

(** A comment, after [<!--]. *)
Fixpoint scan_comment (s : pystr) : parsed pystr :=
  match s with
  | [] => Malformed
  | c :: s' =>
      match after #"--" s with
      | Some r => match after #">" r with Some r' => Parsed r' | None => Malformed end
      | None => if is_xml_char c then scan_comment s' else Malformed
      end
  end.

(** The rest of a processing instruction. *)
Fixpoint scan_pi_data (s : pystr) : parsed pystr :=
  match s with
  | [] => Malformed
  | c :: s' =>
      match after #"?>" s with
      | Some r => Parsed r
      | None => if is_xml_char c then scan_pi_data s' else Malformed
      end
  end.

(** A processing instruction, after [<?]. *)
Definition scan_pi (s : pystr) : parsed pystr :=
  '(n, r) ← scan_name s;
  if bool_decide (str_lower n = #"xml") then Malformed
  else
    match after #"?>" r with
    | Some r' => Parsed r'
    | None => if Nat.eqb (length (skip_blanks r)) (length r) then Malformed else scan_pi_data r
    end.

(** A section of character data, after its opening. *)
Fixpoint scan_section (s : pystr) : parsed (pystr * pystr) :=
  match s with
  | [] => Malformed
  | c :: s' =>
      match after #"]]>" s with
      | Some r => Parsed ([], r)
      | None =>
          if is_xml_char c then '(t, r) ← scan_section s'; mret (c :: t, r) else Malformed
      end
  end.

(** * Elements *)

(** No text is [None], as in an element without character data. *)
Definition text_of (t : pystr) : option pystr := match t with [] => None | _ => Some t end.

(** An element, after its [<], given the parser of its content. *)
Definition element_step (content : pystr → parsed (pystr * list xml * pystr)) (s : pystr) :
    parsed (xml * pystr) :=
  '(tag, r) ← scan_name s;
  '(a, closed, r) ← scan_attrs (S (length r)) r;
  if negb (bool_decide (NoDup (keys a))) then Malformed
  else if (closed : bool) then mret (Elem tag a None None [], r)
  else
    '(t, c, r) ← content r;
    match after #"</" r with
    | None => Malformed
    | Some r =>
        '(n, r) ← scan_name r;
        if bool_decide (n = tag) then
          match after #">" (skip_blanks r) with
          | Some r => mret (Elem tag a (text_of t) None c, r)
          | None => Malformed
          end
        else Malformed
    end.

(** The content of an element up to its end tag: the text before the first child
    and the children, each with the text after it. *)
Fixpoint content (fuel : nat) (s : pystr) : parsed (pystr * list xml * pystr) :=
  match fuel with
  | O => NoFuel
  | S f =>
      match s with
      | [] => Malformed
      | c :: s' =>
          if startswith #"</" s then Parsed ([], [], s)
          else match after #"<!--" s with Some r => r ← scan_comment r; content f r | None =>
          match after #"<![CDATA[" s with
          | Some r => '(d, r) ← scan_section r; '(t, l, r) ← content f r; mret (d ++ t, l, r) | None =>
          match after #"<?" s with Some r => r ← scan_pi r; content f r | None =>
          if N.eqb c 60 then
            '(e, r) ← element_step (content f) s';
            '(t, l, r) ← content f r;
            mret ([], set_tail (text_of t) e :: l, r)
          else if N.eqb c 38 then
            '(x, r) ← scan_ref s'; '(t, l, r) ← content f r; mret (x :: t, l, r)
          else if startswith #"]]>" s then Malformed
          else if is_xml_char c then '(t, l, r) ← content f s'; mret (c :: t, l, r)
          else Malformed
          end end end
      end
  end.

(** * Documents *)

(** What may stand before and after the root: white space, comments and
    processing instructions. *)
Fixpoint scan_misc (fuel : nat) (s : pystr) : parsed pystr :=
  match fuel with
  | O => NoFuel
  | S f =>
      let t := skip_blanks s in
      match after #"<!--" t with
      | Some r => r ← scan_comment r; scan_misc f r
      | None =>
          match after #"<?" t with
          | Some r => r ← scan_pi r; scan_misc f r
          | None => Parsed t
          end
      end
  end.

(** A value in quotes of the declaration. *)
Definition decl_value (s : pystr) : parsed (pystr * pystr) :=
  match after #"=" (skip_blanks s) with
  | Some s' =>
      match skip_blanks s' with
      | q :: r =>
          let '(v, r') := span name_char r in
          if (N.eqb q 34 || N.eqb q 39) && bool_decide (head r' = Some q)
          then Parsed (v, tail r') else Malformed
      | [] => Malformed
      end
  | None => Malformed
  end.

(** The pseudo attributes of the declaration, up to its end. *)
Fixpoint decl_attrs (fuel : nat) (s : pystr) : parsed (list (pystr * pystr) * pystr) :=
  match fuel with
  | O => NoFuel
  | S f =>
      let t := skip_blanks s in
      match after #"?>" t with
      | Some r => Parsed ([], r)
      | None =>
          if Nat.eqb (length t) (length s) then Malformed
          else
            '(k, r) ← scan_name t;
            '(v, r) ← decl_value r;
            '(l, r) ← decl_attrs f r;
            mret ((k, v) :: l, r)
      end
  end.

(** The encodings that read ASCII text as itself and need no conversion. *)
Definition ascii_encodings : list pystr := [#"utf-8"; #"us-ascii"; #"iso-8859-1"].

Definition check_encoding (name : pystr) : parsed () :=
  if bool_decide (str_lower name ∈ ascii_encodings) then Parsed () else Beyond.
Definition check_standalone (v : pystr) : parsed () :=
  if bool_decide (v ∈ [#"yes"; #"no"]) then Parsed () else Malformed.

(** A version, an encoding and a statement on being standalone, in this order,
    of which only the version must be there. *)
Definition check_decl (l : list (pystr * pystr)) : parsed () :=
  match l with
  | (v, _) :: l' =>
      if negb (bool_decide (v = #"version")) then Malformed
      else
        match l' with
        | [] => Parsed ()
        | [(k, x)] =>
            if bool_decide (k = #"encoding") then check_encoding x
            else if bool_decide (k = #"standalone") then check_standalone x
            else Malformed
        | [(k, x); (k', x')] =>
            if bool_decide (k = #"encoding") && bool_decide (k' = #"standalone")
            then check_standalone x';; check_encoding x
            else Malformed
        | _ => Malformed
        end
  | [] => Malformed
  end.

(** [<?xml], if white space follows it. *)
Definition scan_decl (s : pystr) : parsed pystr :=
  match after #"<?xml" s with
  | Some r =>
      if Nat.eqb (length (skip_blanks r)) (length r) then Parsed s
      else '(l, r) ← decl_attrs (S (length r)) r; check_decl l;; mret r
  | None => Parsed s
  end.

(** A document whose line ends are line feeds. *)
Definition document (s : pystr) : parsed xml :=
  r ← scan_decl s;
  r ← scan_misc (S (length r)) r;
  if startswith #"<!DOCTYPE" r then Beyond
  else
    match after #"<" r with
    | Some r =>
        '(e, r) ← element_step (content (length r)) r;
        r ← scan_misc (S (length r)) r;
        match r with [] => mret e | _ => Malformed end
    | None => Malformed
    end.

(** Line ends are read as line feeds. *)
Fixpoint line_feeds (s : pystr) : pystr :=
  match s with
  | [] => []
  | c :: s' =>
      if N.eqb c 13 then
        match s' with
        | d :: s'' => if N.eqb d 10 then 10%N :: line_feeds s'' else 10%N :: line_feeds s'
        | [] => [10%N]
        end
      else c :: line_feeds s'
  end.

Section fromstring.
(** [fromstring] on the other documents. *)
Variable beyond : pystr → outcome xml.

(** The text is a [unicode] object, which the parser converts to ASCII. *)
Definition fromstring (s : pystr) : outcome xml :=
  if forallb (λ c, N.ltb c 128) s then
    match document (line_feeds s) with
    | Parsed e => Ok e
    | Malformed => Raise (ExcOther #"ParseError")
    | Beyond => beyond s
    | NoFuel => Raise OutOfFuel
    end
  else Raise (ValueError #"UnicodeEncodeError").
End fromstring.

(** * What the parser gives *)

Definition valid_name (n : pystr) : bool :=
  match n with c :: _ => name_start c && forallb name_char n | [] => false end.
Definition valid_attr (kv : pystr * pystr) : bool :=
  valid_name kv.1 && negb (bool_decide (kv.1 = #"xmlns")) && forallb is_xml_char kv.2.
Definition valid_text (t : option pystr) : bool :=
  match t with None => true | Some s => negb (bool_decide (s = [])) && forallb is_xml_char s end.

(** The trees a document can stand for. *)
Fixpoint valid (e : xml) : bool :=
  match e with
  | Elem tag a x t c =>
      valid_name tag && forallb valid_attr a && bool_decide (NoDup (keys a)) &&
      valid_text x && valid_text t && forallb valid c
  end.

(** A parser that is given enough fuel ends in [Q] if it accepts. *)
Definition ends {A} (Q : A → Prop) (m : parsed A) : Prop :=
  match m with Parsed a => Q a | NoFuel => False | _ => True end.

Lemma ends_bind {A B} (P : A → Prop) (Q : B → Prop) m (f : A → parsed B) :
  ends P m → (∀ a, P a → ends Q (f a)) → ends Q (m ≫= f).
Proof. destruct m; cbn; auto. Qed.

Lemma ends_impl {A} (P Q : A → Prop) m : ends P m → (∀ a, P a → Q a) → ends Q m.
Proof. destruct m; cbn; auto. Qed.

Lemma after_spec p s r : after p s = Some r ↔ s = p ++ r.
Proof.
  unfold after. destruct (startswith p s) eqn:E.
  - apply startswith_spec in E as [t ->]. rewrite drop_app_length. split; [by intros [= ->]|].
    by intros ->%app_inv_head.
  - split; [done|]. intros ->. by rewrite startswith_self in E.
Qed.

Lemma after_length p s r : after p s = Some r → length s = length p + length r.
Proof. intros ->%after_spec. apply length_app. Qed.

(** The length of what a literal prefix leaves. *)
Ltac after_lens := repeat
  match goal with
  | H : after (u ?l) _ = Some _ |- _ =>
      apply after_length in H;
      let n := eval vm_compute in (length (u l)) in change (length (u l)) with n in H
  end.
Ltac fits := after_lens; cbn [length fst snd] in *; lia.

Lemma skip_blanks_length s : length (skip_blanks s) ≤ length s.
Proof. destruct (lstrip_by_suffix is_blank s) as (t & E & _). rewrite E at 2. rewrite length_app. unfold skip_blanks. lia. Qed.

Lemma span_spec p s a r : span p s = (a, r) →
  s = a ++ r ∧ forallb p a = true ∧ ∀ c, head r = Some c → p c = false.
Proof.
  revert a. induction s as [|c s IH]; cbn; intros a.
  - intros [= <- <-]. by split_and!.
  - destruct (p c) eqn:Ec.
    + destruct (span p s) as [b t]. intros [= <- <-]. destruct (IH b eq_refl) as (-> & Hb & Hr).
      cbn. rewrite Ec. by split_and!.
    + intros [= <- <-]. split_and!; [done|done|]. by intros d [= <-].
Qed.

Lemma scan_name_ends s :
  ends (λ nr, valid_name nr.1 = true ∧ length nr.2 < length s) (scan_name s).
Proof.
  unfold scan_name. destruct (span name_char s) as [n r] eqn:E. apply span_spec in E as (-> & Hn & _).
  case_bool_decide; [done|]. destruct n as [|c n]; [done|]. destruct (name_start c) eqn:Ec; [|done].
  cbn [ends fst snd]. rewrite length_app. split; [|cbn; lia]. unfold valid_name. by rewrite Ec, Hn.
Qed.

Lemma close_ref_ends ok c r : ends (λ cr, is_xml_char cr.1 = true ∧ length cr.2 < length r) (close_ref ok c r).
Proof.
  unfold close_ref. destruct (after _ r) as [r'|] eqn:E; [|done].
  destruct (ok && is_xml_char c) eqn:Ec; [|done]. apply andb_true_iff in Ec as [_ Ec].
  split; [done|]. fits.
Qed.

Lemma scan_ref_ends s : ends (λ cr, is_xml_char cr.1 = true ∧ length cr.2 < length s) (scan_ref s).
Proof.
  assert (∀ p ok f t, length t ≤ length s →
    ends (λ cr, is_xml_char cr.1 = true ∧ length cr.2 < length s)
      (let '(d, r) := span p t in close_ref (ok d) (f d) r)) as Hs.
  { intros p ok f t Ht. destruct (span p t) as [d r] eqn:E. apply span_spec in E as (-> & _).
    rewrite length_app in Ht. eapply ends_impl; [apply close_ref_ends|]. intros a [? ?]. split; [done|lia]. }
  unfold scan_ref. destruct (after #"#x" s) as [s'|] eqn:E1.
  { apply (Hs is_hex_digit (λ d, negb (bool_decide (d = [])))). fits. }
  destruct (after #"#" s) as [s'|] eqn:E2.
  { apply (Hs is_digit (λ d, negb (bool_decide (d = [])))). fits. }
  eapply ends_bind; [apply scan_name_ends|]. intros [n r] [_ Hr]. cbn in Hr.
  destruct (dict_get n entities) as [c|]; [|done].
  eapply ends_impl; [apply close_ref_ends|]. intros a [? ?]. split; [done|lia].
Qed.

Lemma att_value_ends fuel q s : length s < fuel →
  ends (λ vr, forallb is_xml_char vr.1 = true ∧ length vr.2 < length s) (att_value fuel q s).
Proof.
  revert s. induction fuel as [|f IH]; intros s Hf; [lia|]. destruct s as [|c s]; [done|]. cbn in Hf |- *.
  destruct (N.eqb c q); [split; [done|fits]|]. destruct (N.eqb c 60); [done|]. destruct (N.eqb c 38).
  - eapply ends_bind; [apply scan_ref_ends|]. intros [x r] [Hx Hr]. cbn in Hx, Hr.
    eapply ends_bind; [apply IH; lia|]. intros [v r'] [Hv Hr']. cbn in *. by rewrite Hx, Hv; split; [|lia].
  - destruct (is_xml_char c) eqn:Ec; [|done].
    eapply ends_bind; [apply IH; lia|]. intros [v r'] [Hv Hr']. cbn in *. rewrite Hv.
    by destruct (is_blank c); [|rewrite Ec]; (split; [|lia]).
Qed.

Lemma scan_eq_value_ends s :
  ends (λ vr, forallb is_xml_char vr.1 = true ∧ length vr.2 < length s) (scan_eq_value s).
Proof.
  unfold scan_eq_value. pose proof (skip_blanks_length s).
  destruct (after _ _) as [s'|] eqn:E; [|done]. pose proof (skip_blanks_length s').
  destruct (skip_blanks s') as [|q r]; [done|]. destruct (_ || _); [|done].
  eapply ends_impl; [apply att_value_ends; lia|]. intros a [? ?]. split; [done|fits].
Qed.

Lemma scan_attrs_ends fuel s : length s < fuel →
  ends (λ x, forallb valid_attr x.1.1 = true ∧ length x.2 < length s) (scan_attrs fuel s).
Proof.
  revert s. induction fuel as [|f IH]; intros s Hf; [lia|]. cbn. pose proof (skip_blanks_length s).
  destruct (after #"/>" _) as [r|] eqn:E1; [split; [done|fits]|].
  destruct (after #">" _) as [r|] eqn:E2; [split; [done|fits]|].
  case (Nat.eqb_spec (length (skip_blanks s)) (length s)) as [|Hn]; [done|].
  eapply ends_bind; [apply scan_name_ends|]. intros [k r] [Hk Hr]. cbn in Hk, Hr.
  case_bool_decide as Hx; [done|]. eapply ends_bind; [apply scan_eq_value_ends|]. intros [v r'] [Hv Hr'].
  cbn in Hv, Hr'. eapply ends_bind; [apply IH; lia|]. intros [[l b] r''] [Hl Hr'']. cbn in *.
  unfold valid_attr at 1. cbn. rewrite Hk, Hv, Hl, bool_decide_eq_false_2 by done. split; [done|lia].
Qed.

Lemma scan_comment_ends s : ends (λ r, length r < length s) (scan_comment s).
Proof.
  induction s as [|c s IH]; [done|]. cbn -[after]. destruct (after #"--" _) as [r|] eqn:E1.
  - destruct (after #">" r) as [r'|] eqn:E2; [|done]. cbn. fits.
  - destruct (is_xml_char c); [|done]. eapply ends_impl; [exact IH|]. cbn. lia.
Qed.

Lemma scan_pi_ends s : ends (λ r, length r < length s) (scan_pi s).
Proof.
  assert (∀ s, ends (λ r, length r < length s) (scan_pi_data s)) as Hd.
  { clear s. intros s. induction s as [|c s IH]; [done|]. cbn -[after].
    destruct (after #"?>" _) as [r|] eqn:E1; [cbn; fits|].
    destruct (is_xml_char c); [|done]. eapply ends_impl; [exact IH|]. cbn. lia. }
  unfold scan_pi. eapply ends_bind; [apply scan_name_ends|]. intros [n r] [_ Hr]. cbn in Hr.
  case_bool_decide; [done|]. destruct (after #"?>" r) as [r'|] eqn:E; [cbn; fits|].
  destruct (Nat.eqb _ _); [done|]. eapply ends_impl; [apply Hd|]. cbn. lia.
Qed.

Lemma scan_section_ends s :
  ends (λ tr, forallb is_xml_char tr.1 = true ∧ length tr.2 < length s) (scan_section s).
Proof.
  induction s as [|c s IH]; [done|]. cbn -[after]. destruct (after _ _) as [r|] eqn:E1; [split; [done|fits]|].
  destruct (is_xml_char c) eqn:Ec; [|done]. eapply ends_bind; [exact IH|]. intros [t r] [Ht Hr]. cbn in *.
  rewrite Ec, Ht. split; [done|lia].
Qed.

(** What the parser of a content gives. *)
Definition content_ok (n : nat) (x : pystr * list xml * pystr) : Prop :=
  forallb is_xml_char x.1.1 = true ∧ forallb valid x.1.2 = true ∧ length x.2 ≤ n.

Lemma valid_text_of t : forallb is_xml_char t = true → valid_text (text_of t) = true.
Proof. by destruct t. Qed.

Lemma valid_set_tail t e : valid e = true → valid_text t = true → valid (set_tail t e) = true.
Proof.
  destruct e as [g a x t' c]. cbn. rewrite !andb_true_iff. naive_solver.
Qed.

Lemma element_step_ends c s : (∀ r, length r < length s → ends (content_ok (length r)) (c r)) →
  ends (λ er, (valid er.1 = true ∧ x_tail er.1 = None) ∧ length er.2 < length s) (element_step c s).
Proof.
  intros Hc. unfold element_step. eapply ends_bind; [apply scan_name_ends|]. intros [tag r] [Htag Hr].
  cbn in Htag, Hr. eapply ends_bind; [apply scan_attrs_ends; lia|]. intros [[a b] r1] [Ha Hr1]. cbn in Ha, Hr1.
  case_bool_decide as Hnd; [|done]. cbn [negb]. destruct b.
  { cbn. rewrite Htag, Ha, bool_decide_eq_true_2 by done. split; [done|lia]. }
  eapply ends_bind; [apply Hc; lia|]. intros [[t l] r2] (Ht & Hl & Hr2). cbn in Ht, Hl, Hr2.
  destruct (after #"</" r2) as [r3|] eqn:E3; [|done]. eapply ends_bind; [apply scan_name_ends|].
  intros [n r4] [_ Hr4]. cbn in Hr4. case_bool_decide; [|done]. pose proof (skip_blanks_length r4).
  destruct (after #">" _) as [r5|] eqn:E5; [|done]. cbn [ends mret parsed_ret fst snd valid x_tail].
  rewrite Htag, Ha, bool_decide_eq_true_2, valid_text_of, Hl by done. split; [done|fits].
Qed.
Lemma content_bind n (m : parsed (pystr * list xml * pystr)) d :
  ends (content_ok n) m → forallb is_xml_char d = true →
  ends (content_ok n) ('(t, l, r) ← m; mret (d ++ t, l, r)).
Proof.
  intros Hm Hd. eapply ends_bind; [exact Hm|]. intros [[t l] r] (Ht & Hl & Hr). cbn in *.
  split_and!; cbn; [by rewrite forallb_app, Hd, Ht|done|done].
Qed.

Lemma content_ok_le n n' m : n ≤ n' → ends (content_ok n) m → ends (content_ok n') m.
Proof. intros Hn Hm. eapply ends_impl; [exact Hm|]. intros x (?&?&?). split_and!; try done. lia. Qed.

Lemma content_ends fuel s : length s < fuel → ends (content_ok (length s)) (content fuel s).
Proof.
  revert s. induction fuel as [|f IH]; intros s Hf; [lia|]. destruct s as [|c s']; [done|].
  assert (∀ r, length r < length (c :: s') → ends (content_ok (length (c :: s'))) (content f r)) as Hrec.
  { intros r Hr. eapply content_ok_le; [|apply IH; lia]. lia. }
  cbn [content]. destruct (startswith #"</" (c :: s')); [by split_and!|].
  destruct (after #"<!--" _) as [r|] eqn:E1.
  { eapply ends_bind; [apply scan_comment_ends|]. intros r' Hr'. apply Hrec. fits. }
  destruct (after #"<![CDATA[" _) as [r|] eqn:E2.
  { eapply ends_bind; [apply scan_section_ends|]. intros [d r'] [Hd Hr']. cbn in Hd, Hr'.
    apply content_bind; [apply Hrec; fits|done]. }
  destruct (after #"<?" _) as [r|] eqn:E3.
  { eapply ends_bind; [apply scan_pi_ends|]. intros r' Hr'. apply Hrec. fits. }
  destruct (N.eqb c 60).
  { eapply ends_bind; [apply element_step_ends; intros r Hr; apply IH; cbn in Hf; lia|].
    intros [e r] [[He _] Hr]. cbn in He, Hr. eapply ends_bind; [apply Hrec; cbn; lia|].
    intros [[t l] r'] (Ht & Hl & Hr'). cbn in *. split_and!; [done| |done]. cbn.
    by rewrite valid_set_tail, Hl by (done || by apply valid_text_of). }
  destruct (N.eqb c 38).
  { eapply ends_bind; [apply scan_ref_ends|]. intros [x r] [Hx Hr]. cbn in Hx, Hr.
    refine (content_bind _ _ [x] _ _); [apply Hrec; cbn; lia|]. cbn. by rewrite Hx. }
  destruct (startswith _ _); [done|]. destruct (is_xml_char c) eqn:Ec; [|done].
  refine (content_bind _ _ [c] _ _); [apply Hrec; cbn; lia|]. cbn. by rewrite Ec.
Qed.

Lemma scan_misc_ends fuel s : length s < fuel → ends (λ r, length r ≤ length s) (scan_misc fuel s).
Proof.
  revert s. induction fuel as [|f IH]; intros s Hf; [lia|]. cbn. pose proof (skip_blanks_length s).
  destruct (after #"<!--" _) as [r|] eqn:E1.
  { eapply ends_bind; [apply scan_comment_ends|]. intros r' Hr'. cbn in Hr'.
    eapply ends_impl; [apply IH; fits|]. cbn. fits. }
  destruct (after #"<?" _) as [r|] eqn:E2; [|done].
  eapply ends_bind; [apply scan_pi_ends|]. intros r' Hr'. cbn in Hr'.
  eapply ends_impl; [apply IH; fits|]. cbn. fits.
Qed.

Lemma decl_value_ends s : ends (λ vr, length vr.2 < length s) (decl_value s).
Proof.
  unfold decl_value. pose proof (skip_blanks_length s). destruct (after _ _) as [s'|] eqn:E; [|done].
  pose proof (skip_blanks_length s'). destruct (skip_blanks s') as [|q r]; [done|].
  destruct (span name_char r) as [v r'] eqn:Es. apply span_spec in Es as (-> & _).
  destruct (_ && _); [|done]. rewrite <- (app_nil_r v) in *. cbn. cbn in *. rewrite !length_app in *.
  assert (length (tail r') ≤ length r') by (destruct r'; cbn; lia). fits.
Qed.

Lemma scan_decl_ends s : ends (λ r, length r ≤ length s) (scan_decl s).
Proof.
  assert (∀ fuel s, length s < fuel → ends (λ x, length x.2 ≤ length s) (decl_attrs fuel s)) as Hd.
  { clear s. intros fuel. induction fuel as [|f IH]; intros s Hf; [lia|]. cbn. pose proof (skip_blanks_length s).
    destruct (after #"?>" _) as [r|] eqn:E1; [cbn; fits|].
    destruct (Nat.eqb _ _); [done|]. eapply ends_bind; [apply scan_name_ends|]. intros [k r] [_ Hr]. cbn in Hr.
    eapply ends_bind; [apply decl_value_ends|]. intros [v r'] Hr'. cbn in Hr'.
    eapply ends_bind; [apply IH; lia|]. intros [l r''] Hr''. cbn in *. lia. }
  assert (∀ l, ends (λ _, True) (check_decl l)) as Hc.
  { intros l. unfold check_decl, check_encoding, check_standalone. repeat (case_match; try done). }
  unfold scan_decl. destruct (after _ s) as [r|] eqn:E; [|cbn; lia]. destruct (Nat.eqb _ _); [cbn; lia|].
  eapply ends_bind; [apply Hd; lia|]. intros [l r'] Hr'. cbn in Hr'.
  eapply ends_bind; [apply Hc|]. intros _ _. cbn. fits.
Qed.

(** The parser ends on every text, with a tree that a document can stand for. *)
Lemma document_ends s : ends (λ e, valid e = true ∧ x_tail e = None) (document s).
Proof.
  unfold document. eapply ends_bind; [apply scan_decl_ends|]. intros r0 _.
  eapply ends_bind; [apply scan_misc_ends; lia|]. intros r1 _.
  destruct (startswith _ _); [done|]. destruct (after #"<" r1) as [r2|] eqn:E; [|done].
  eapply ends_bind; [apply element_step_ends; intros r Hr; by apply content_ends|].
  intros [e r3] [He _]. cbn in He. eapply ends_bind; [apply scan_misc_ends; lia|]. intros [|] _; done.
Qed.

Example parse_small :
  fromstring (λ _, Raise OutOfFuel)
    (#"<?xml version='1.0' encoding='UTF-8'?><!-- c --><a k='1&lt;' j='x y'>t&#233;<b/> u<![CDATA[<&]]></a>" ++ [13; 10]%N) =
  Ok (Elem #"a" [(#"k", #"1<"); (#"j", #"x y")] (Some [116; 233]%N) None
        [Elem #"b" [] None (Some #" u<&") []]).
Proof. vm_compute. reflexivity. Qed.

Example parse_bad :
  map (fromstring (λ _, Raise OutOfFuel)) [#"<a><b></a></b>"; #"<a b='1' b='2'/>"; #"<a>]]></a>"; #"<a/><b/>"; []; #"<a>&x;</a>"]
  = replicate 6 (Raise (ExcOther #"ParseError")).
Proof. vm_compute. reflexivity. Qed.
