(* ===== verification/XmlRoundTrip.v ===== *)
(** [fromstring] reads what [tostring] writes, and a pretty printed document is
    read back with the content it had. *)
From S2P Require Export XmlParse.
From stdpp Require Import sorting.
From Stdlib Require Import NArith ZArith Lia.

(** * The trees that are written without loss *)

(** Line ends and tabs that only a reference can bring into a document are
    written as they are, and read back as other white space. *)
Definition plain_value (v : pystr) : bool := forallb (λ c, negb (char_in c [9; 13]%N)) v.
Definition plain_text (t : option pystr) : bool :=
  match t with None => true | Some s => forallb (λ c, negb (N.eqb c 13)) s end.

Fixpoint plain (e : xml) : bool :=
  match e with
  | Elem tag a x t c =>
      forallb (λ kv, plain_value kv.2) a && plain_text x && plain_text t && forallb plain c
  end.

(** The tree with the attributes in the order in which they are written. *)
Fixpoint canon (e : xml) : xml :=
  match e with
  | Elem tag a x t c => Elem tag (sort_items a) x t (map canon c)
  end.

(** * Characters *)

Lemma escape_cons table c t : escape_with table (c :: t) = escape_with table [c] ++ escape_with table t.
Proof. unfold escape_with. cbn. by rewrite app_nil_r. Qed.

Lemma span_app p a r : forallb p a = true → (∀ c, head r = Some c → p c = false) → span p (a ++ r) = (a, r).
Proof.
  intros Ha Hr. induction a as [|c a IH]; cbn.
  - destruct r as [|c r]; [done|]. cbn. by rewrite (Hr c).
  - apply andb_true_iff in Ha as [Hc Ha]. by rewrite Hc, IH.
Qed.

Lemma after_app p r : after p (p ++ r) = Some r.
Proof. by apply after_spec. Qed.

(** A character reference in decimal is read as its character. *)
Lemma scan_ref_number c s : is_xml_char c = true → scan_ref (#"#" ++ str_of_N c ++ #";" ++ s) = Parsed (c, s).
Proof.
  intros Hc. destruct (str_of_N_spec c) as (Hv & Hd & d & ds & Es & _).
  assert (after #"#x" (#"#" ++ str_of_N c ++ #";" ++ s) = None) as E.
  { destruct (after _ _) as [r|] eqn:E; [|done]. apply after_spec in E. rewrite Es in E. injection E as E _.
    rewrite Es in Hd. apply Forall_cons in Hd as [Hd _]. by subst d. }
  unfold scan_ref. rewrite E, after_app, span_app.
  - unfold close_ref. rewrite after_app, Hv, Hc, Es. by rewrite bool_decide_eq_false_2 by done.
  - by apply forallb_Forall.
  - by intros ? [= <-].
Qed.

(** An escaped character is the character itself or a reference to it. *)
Lemma escape_char table c : is_xml_char c = true →
  Forall (λ e, ∃ z, e.2 = 38%N :: z ∧ ∀ s, scan_ref (z ++ s) = Parsed (e.1, s)) table →
  (escape_with table [c] = [c] ∧ (c ∉ table.*1) ∧ (c < 128)%N) ∨
  (∃ z, escape_with table [c] = 38%N :: z ∧ ∀ s, scan_ref (z ++ s) = Parsed (c, s)).
Proof.
  intros Hc Ht. unfold escape_with. cbn [fmap list_fmap mjoin list_join]. rewrite app_nil_r.
  destruct (List.find _ table) as [e|] eqn:E.
  - right. apply find_some in E as [Hin <-%N.eqb_eq]. rewrite Forall_forall in Ht.
    apply Ht. by apply list_elem_of_In.
  - destruct (N.ltb_spec c 128).
    + left. split_and!; [done| |done]. intros (e & -> & Hin%list_elem_of_In)%list_elem_of_fmap.
      pose proof (find_none _ _ E _ Hin) as Hn. cbn beta in Hn. by rewrite N.eqb_refl in Hn.
    + right. exists (#"#" ++ str_of_N c ++ #";"). split; [done|]. intros s.
      rewrite <- !app_assoc. by apply scan_ref_number.
Qed.

Lemma cdata_char c : is_xml_char c = true →
  (escape_cdata [c] = [c] ∧ (c ∉ [38; 60; 62]%N) ∧ (c < 128)%N) ∨
  ∃ z, escape_cdata [c] = 38%N :: z ∧ ∀ s, scan_ref (z ++ s) = Parsed (c, s).
Proof.
  intros Hc. apply (escape_char [(38, #"&amp;"); (60, #"&lt;"); (62, #"&gt;")]%N c Hc).
  repeat constructor; eexists; (split; [reflexivity|]); reflexivity.
Qed.

Lemma attrib_char c : is_xml_char c = true →
  (escape_attrib [c] = [c] ∧ (c ∉ [38; 60; 62; 34; 10]%N) ∧ (c < 128)%N) ∨
  ∃ z, escape_attrib [c] = 38%N :: z ∧ ∀ s, scan_ref (z ++ s) = Parsed (c, s).
Proof.
  intros Hc.
  apply (escape_char [(38, #"&amp;"); (60, #"&lt;"); (62, #"&gt;"); (34, #"&quot;"); (10, #"&#10;")]%N c Hc).
  repeat constructor; eexists; (split; [reflexivity|]); reflexivity.
Qed.

(** * Text *)

(** A prefix that does not fit the first character. *)
Lemma startswith_other a p c s : head p = Some a → a ≠ c → startswith p (c :: s) = false.
Proof. destruct p as [|b p]; [done|]. intros [= ->] Hn. cbn. by rewrite (proj2 (N.eqb_neq _ _) Hn). Qed.

Lemma after_other a p c s : head p = Some a → a ≠ c → after p (c :: s) = None.
Proof. intros Hp Hn. unfold after. by rewrite (startswith_other a). Qed.

(** Character data that is neither markup nor a reference. *)
Lemma content_char c s f :
  c ≠ 38%N → c ≠ 60%N → startswith #"]]>" (c :: s) = false → is_xml_char c = true →
  content (S f) (c :: s) = ('(t, l, r) ← content f s; mret (c :: t, l, r)).
Proof.
  intros H1 H2 H3 Hc. cbn [content].
  rewrite (startswith_other 60 #"</"), !(after_other 60) by done.
  rewrite (proj2 (N.eqb_neq _ _) H1), (proj2 (N.eqb_neq _ _) H2), H3, Hc. reflexivity.
Qed.

Lemma content_ref s f : content (S f) (38%N :: s) =
  ('(x, r) ← scan_ref s; '(t, l, r) ← content f r; mret (x :: t, l, r)).
Proof. reflexivity. Qed.

(** Escaped text never starts with the end of a section. *)
Lemma no_gt t s : forallb is_xml_char t = true → startswith #">" (escape_cdata t ++ 60%N :: s) = false.
Proof.
  destruct t as [|c t]; [done|]. intros [Hc _]%andb_true_iff. unfold escape_cdata. rewrite escape_cons, <- app_assoc.
  destruct (cdata_char c Hc) as [(E & Hn & _)|(z & E & _)]; unfold escape_cdata in E; rewrite E; [|done].
  apply (startswith_other 62); [done|set_solver].
Qed.

Lemma no_section_end c t s : forallb is_xml_char t = true →
  startswith #"]]>" (c :: escape_cdata t ++ 60%N :: s) = false.
Proof.
  intros Ht. change (N.eqb 93 c && startswith #"]>" (escape_cdata t ++ 60%N :: s) = false).
  apply andb_false_iff. right. destruct t as [|d t]; [done|]. apply andb_true_iff in Ht as [Hd Ht].
  unfold escape_cdata. rewrite escape_cons, <- app_assoc.
  destruct (cdata_char d Hd) as [(E & _)|(z & E & _)]; unfold escape_cdata in E; rewrite E; [|done].
  change (N.eqb 93 d && startswith #">" (escape_cdata t ++ 60%N :: s) = false).
  rewrite no_gt by done. apply andb_false_r.
Qed.

Lemma content_text t fuel s t' l r :
  forallb is_xml_char t = true → length (escape_cdata t ++ 60%N :: s) < fuel →
  (∀ f, length (60%N :: s) < f → content f (60%N :: s) = Parsed (t', l, r)) →
  content fuel (escape_cdata t ++ 60%N :: s) = Parsed (t ++ t', l, r).
Proof.
  revert fuel. induction t as [|c t IH]; intros fuel Ht Hf Hs; [by apply Hs|].
  apply andb_true_iff in Ht as [Hc Ht]. unfold escape_cdata in Hf |- *. rewrite escape_cons, <- app_assoc in Hf |- *.
  fold escape_cdata in Hf |- *. destruct fuel as [|fuel]; [lia|].
  destruct (cdata_char c Hc) as [(E & Hn & _)|(z & E & Hz)]; rewrite E in Hf |- *; rewrite length_app in Hf; cbn [length app] in Hf |- *.
  - rewrite content_char; [|set_solver..|by apply no_section_end|done]. rewrite IH by (done || lia). reflexivity.
  - rewrite content_ref, Hz. cbn [mbind parsed_bind]. rewrite IH by (done || lia). reflexivity.
Qed.

(** * Names and attributes *)

Lemma scan_name_app n c s : valid_name n = true → name_char c = false → c ≠ 58%N →
  scan_name (n ++ c :: s) = Parsed (n, c :: s).
Proof.
  intros Hn Hc H58. unfold scan_name. destruct n as [|d n]; [done|]. apply andb_true_iff in Hn as [Hd Hn].
  rewrite span_app; [|done|by intros ? [= <-]]. rewrite bool_decide_eq_false_2 by (by intros [= ->]).
  by rewrite Hd.
Qed.

Lemma name_start_other d a : name_start d = true → name_start a = false → a ≠ d.
Proof. intros ? ? ->. congruence. Qed.

Lemma skip_blanks_name d s : name_start d = true → skip_blanks (d :: s) = d :: s.
Proof.
  intros Hd. apply lstrip_by_id. intros c s' [= <- <-]. unfold is_blank. apply bool_decide_eq_false_2.
  rewrite !not_elem_of_cons. split_and!; try (apply not_eq_sym, (name_start_other d _ Hd); reflexivity). apply not_elem_of_nil.
Qed.

Lemma blank_plain c : negb (char_in c [9; 13]%N) = true → c ≠ 10%N → (if is_blank c then 32%N else c) = c.
Proof.
  intros Hc H10. unfold is_blank. case_bool_decide as Hb; [|done]. rewrite !elem_of_cons in Hb.
  by destruct Hb as [->|[->|[->|[->|[]%elem_of_nil]]]].
Qed.

Lemma att_value_escape v fuel s :
  forallb is_xml_char v = true → plain_value v = true → length (escape_attrib v ++ 34%N :: s) < fuel →
  att_value fuel 34 (escape_attrib v ++ 34%N :: s) = Parsed (v, s).
Proof.
  revert fuel. induction v as [|c v IH]; intros fuel Hv Hp Hf; (destruct fuel as [|fuel]; [lia|]); [done|].
  apply andb_true_iff in Hv as [Hc Hv], Hp as [Hpc Hp].
  unfold escape_attrib in Hf |- *. rewrite escape_cons, <- app_assoc in Hf |- *. fold escape_attrib in Hf |- *.
  destruct (attrib_char c Hc) as [(E & Hn & _)|(z & E & Hz)]; rewrite E in Hf |- *; rewrite length_app in Hf; cbn [length app] in Hf |- *.
  - rewrite !not_elem_of_cons in Hn. destruct Hn as (H38 & H60 & _ & H34 & H10 & _). cbn [att_value].
    rewrite (proj2 (N.eqb_neq c 34)), (proj2 (N.eqb_neq c 60)), (proj2 (N.eqb_neq c 38)) by done.
    rewrite Hc, IH by (done || lia). cbn. by rewrite blank_plain.
  - cbn [att_value]. change (N.eqb 38 34) with false. change (N.eqb 38 60) with false. change (N.eqb 38 38) with true.
    cbv iota. rewrite Hz. cbn [mbind parsed_bind]. rewrite IH by (done || lia). reflexivity.
Qed.

(** The attributes as they are written. *)
Definition attr_text (kv : pystr * pystr) : pystr := #" " ++ kv.1 ++ [61; 34]%N ++ escape_attrib kv.2 ++ [34%N].

Lemma scan_attrs_step f kv s : valid_attr kv = true → plain_value kv.2 = true →
  scan_attrs (S f) (attr_text kv ++ s) =
    ('(l, closed, r) ← scan_attrs f s; mret (kv :: l, closed, r)).
Proof.
  destruct kv as [k v]. unfold valid_attr, attr_text. cbn [fst snd].
  intros [[Hk Hx]%andb_true_iff Hv]%andb_true_iff Hp. apply negb_true_iff, bool_decide_eq_false in Hx.
  rewrite <- !app_assoc. destruct k as [|d k]; [done|]. pose proof Hk as [Hd _]%andb_true_iff.
  change (#" " ++ (d :: k) ++ ?x) with (32%N :: d :: k ++ x). cbn [scan_attrs].
  change (skip_blanks (32%N :: ?x)) with (skip_blanks x). rewrite skip_blanks_name by done.
  rewrite (after_other 47), (after_other 62) by (done || by apply (name_start_other d)).
  rewrite (proj2 (Nat.eqb_neq _ _)) by (cbn; lia).
  change (d :: k ++ [61; 34]%N ++ ?x) with ((d :: k) ++ 61%N :: 34%N :: x). rewrite scan_name_app by done.
  cbn [mbind parsed_bind]. rewrite bool_decide_eq_false_2 by done.
  assert (scan_eq_value (61%N :: 34%N :: escape_attrib v ++ [34%N] ++ s) = Parsed (v, s)) as E.
  { change (att_value (S (length (escape_attrib v ++ 34%N :: s))) 34 (escape_attrib v ++ 34%N :: s) = Parsed (v, s)).
    apply att_value_escape; [done|done|lia]. }
  by rewrite E.
Qed.

Lemma scan_attrs_written l fuel closed r :
  Forall (λ kv, valid_attr kv = true ∧ plain_value kv.2 = true) l →
  length (mjoin (attr_text <$> l)) < fuel →
  scan_attrs fuel (mjoin (attr_text <$> l) ++ (if closed : bool then #" />" else #">") ++ r) = Parsed (l, closed, r).
Proof.
  intros Hl. revert fuel. induction Hl as [|kv l [Hv Hp] _ IH]; intros fuel Hf; (destruct fuel as [|fuel]; [lia|]).
  - by destruct closed.
  - change (mjoin (attr_text <$> kv :: l)) with (attr_text kv ++ mjoin (attr_text <$> l)) in Hf |- *.
    rewrite length_app in Hf. rewrite <- app_assoc, scan_attrs_step by done.
    rewrite IH; [done|]. assert (length (attr_text kv) ≠ 0) by done. lia.
Qed.

(** * Elements *)

(** What is written for an element between its first [<] and its tail. *)
Definition body (e : xml) : pystr :=
  match e with
  | Elem tag a x _ c =>
      tag ++ attribs a ++
      match x, c with
      | None, [] | Some [], [] => #" />"
      | _, _ => #">" ++ opt_cdata x ++ mjoin (map tostring c) ++ #"</" ++ tag ++ #">"
      end
  end.

Lemma tostring_body e : tostring e = 60%N :: body e ++ opt_cdata (x_tail e).
Proof. destruct e as [g a x t c]. cbn [tostring body x_tail]. by rewrite <- !app_assoc. Qed.

(** Every element is read back, with sorted attributes and without its tail. *)
Definition reads (e : xml) : Prop := ∀ fuel s, length (body e ++ s) ≤ fuel →
  element_step (content fuel) (body e ++ s) = Parsed (set_tail None (canon e), s).

Lemma content_end fuel s : 0 < fuel → content fuel (#"</" ++ s) = Parsed ([], [], #"</" ++ s).
Proof. destruct fuel; [lia|done]. Qed.

Lemma opt_cdata_text t : opt_cdata t = escape_cdata (default [] t).
Proof. by destruct t. Qed.

Lemma text_of_default t : valid_text t = true → text_of (default [] t) = t.
Proof. destruct t as [[|c t]|]; done. Qed.

Lemma valid_text_chars t : valid_text t = true → forallb is_xml_char (default [] t) = true.
Proof. destruct t; [|done]. by intros [_ ?]%andb_true_iff. Qed.

Lemma canon_set_tail t e : canon (set_tail t e) = set_tail t (canon e).
Proof. by destruct e. Qed.

Lemma set_tail_same e : set_tail (x_tail e) e = e.
Proof. by destruct e. Qed.

Lemma valid_tail e : valid e = true → valid_text (x_tail e) = true.
Proof. destruct e. cbn. rewrite !andb_true_iff. tauto. Qed.

Lemma x_tail_canon e : x_tail (canon e) = x_tail e.
Proof. by destruct e. Qed.

(** The children of an element begin with [<], and so does its end tag. *)
Lemma children_start c s : ∃ z, mjoin (map tostring c) ++ #"</" ++ s = 60%N :: z.
Proof. destruct c as [|e c]; [by eexists|]. cbn [map mjoin list_join]. rewrite tostring_body. by eexists. Qed.

(** The first character of an element is one of its name. *)
Lemma body_start e : valid e = true → ∃ d z, body e = d :: z ∧ name_start d = true.
Proof.
  destruct e as [[|d g] a x t c]; [done|]. cbn. rewrite !andb_true_iff. intros [[[[[[Hd _] _] _] _] _] _].
  by eexists _, _.
Qed.

Lemma content_child f d z : name_start d = true →
  content (S f) (60%N :: d :: z) =
    ('(e, r) ← element_step (content f) (d :: z);
     '(t, l, r) ← content f r;
     mret ([], set_tail (text_of t) e :: l, r)).
Proof.
  intros Hd. cbn [content].
  assert (∀ p a, head p = Some a → name_start a = false → after (60%N :: p) (60%N :: d :: z) = None) as Ha.
  { intros p a Hp Hs. pose proof (after_other a p d z Hp (name_start_other _ _ Hd Hs)) as E.
    unfold after in E |- *. change (startswith (60%N :: p) (60%N :: d :: z)) with (startswith p (d :: z)).
    destruct (startswith p (d :: z)); done. }
  change #"<!--" with (60%N :: #"!--"). change #"<![CDATA[" with (60%N :: #"![CDATA["). change #"<?" with (60%N :: #"?").
  rewrite (Ha _ 33%N), (Ha _ 33%N), (Ha _ 63%N) by done.
  change (startswith #"</" (60%N :: d :: z)) with (startswith #"/" (d :: z)).
  by rewrite (startswith_other 47) by (done || by apply (name_start_other d)).
Qed.

(** The content of an element is read back. *)
Lemma content_written c : Forall (λ e, valid e = true ∧ reads e) c →
  ∀ x fuel s, valid_text x = true →
    length (opt_cdata x ++ mjoin (map tostring c) ++ #"</" ++ s) < fuel →
    content fuel (opt_cdata x ++ mjoin (map tostring c) ++ #"</" ++ s) =
      Parsed (default [] x, map canon c, #"</" ++ s).
Proof.
  induction 1 as [|e c [He Hr] _ IH]; intros x fuel s Hx Hf; rewrite opt_cdata_text in Hf |- *.
  - rewrite <- (app_nil_r (default [] x)) at 2. apply content_text; [by apply valid_text_chars|done|].
    intros f Hf'. apply content_end. lia.
  - change (mjoin (map tostring (e :: c))) with (tostring e ++ mjoin (map tostring c)) in Hf |- *.
    rewrite tostring_body, <- !app_assoc in Hf |- *. cbn [app] in Hf |- *.
    rewrite <- (app_nil_r (default [] x)) at 2. apply content_text; [by apply valid_text_chars|done|].
    intros f Hf'. destruct (body_start e He) as (d & z & Eb & Hd). destruct f as [|f]; [lia|].
    cbn [length] in Hf'. rewrite <- app_assoc in Hf'|- *. rewrite Eb. cbn [app].
    rewrite content_child by done. change (d :: z ++ ?y) with ((d :: z) ++ y). rewrite <- Eb.
    rewrite Hr by lia. cbn [mbind parsed_bind]. rewrite IH; [|by apply valid_tail|rewrite length_app in Hf'; lia].
    cbn. rewrite text_of_default by by apply valid_tail. by rewrite set_tail_set_tail, <- x_tail_canon, set_tail_same.
Qed.

(** What follows the name of an element ends the name. *)
Lemma attribs_start l (closed : bool) r :
  ∃ c z, mjoin (attr_text <$> l) ++ (if closed then #" />" else #">") ++ r = c :: z ∧
    name_char c = false ∧ c ≠ 58%N.
Proof.
  destruct l as [|kv l]; [destruct closed; by eexists _, _|].
  eexists 32%N, _. split; [|done]. reflexivity.
Qed.

(** The start tag of an element is read back. *)
Lemma start_tag tag a (closed : bool) r c :
  valid_name tag = true → forallb valid_attr a = true → forallb (λ kv, plain_value kv.2) a = true →
  NoDup (keys a) →
  element_step c (tag ++ attribs a ++ (if closed then #" />" else #">") ++ r) =
    (if closed then Parsed (Elem tag (sort_items a) None None [], r)
     else
       '(t, l, r) ← c r;
       match after #"</" r with
       | None => Malformed
       | Some r =>
           '(n, r) ← scan_name r;
           if bool_decide (n = tag) then
             match after #">" (skip_blanks r) with
             | Some r => mret (Elem tag (sort_items a) (text_of t) None l, r)
             | None => Malformed
             end
           else Malformed
       end).
Proof.
  intros Htag Ha Hp Hnd. unfold element_step. change (attribs a) with (mjoin (attr_text <$> sort_items a)).
  destruct (attribs_start (sort_items a) closed r) as (d & z & Ed & Hd & H58). rewrite Ed, scan_name_app by done.
  cbn [mbind parsed_bind]. rewrite <- Ed, scan_attrs_written.
  - cbn [mbind parsed_bind]. rewrite bool_decide_eq_true_2; [by destruct closed|].
    unfold keys. by rewrite sort_items_perm.
  - rewrite sort_items_perm. apply forallb_Forall in Ha, Hp. by apply Forall_and.
  - rewrite length_app. lia.
Qed.

Lemma end_tag tag r : valid_name tag = true →
  scan_name (tag ++ #">" ++ r) = Parsed (tag, #">" ++ r) ∧ after #">" (skip_blanks (#">" ++ r)) = Some r.
Proof. intros Ht. split; [by apply scan_name_app|done]. Qed.

Lemma element_reads e : valid e = true → plain e = true → reads e.
Proof.
  induction e as [tag a x t c IH] using xml_ind'. cbn [valid plain]. rewrite !andb_true_iff.
  intros [[[[[Htag Ha] Hnd%bool_decide_eq_true] Hx] Ht] Hc] [[[Hpa Hpx] Hpt] Hpc] fuel s Hf.
  assert (Forall (λ e, valid e = true ∧ reads e) c) as Hcs.
  { apply forallb_Forall in Hc, Hpc. rewrite Forall_forall in *. intros e He. split; [by apply Hc|].
    apply IH; auto. }
  assert (body (Elem tag a x t c) = tag ++ attribs a ++
    match x, c with
    | None, [] => #" />"
    | _, _ => #">" ++ opt_cdata x ++ mjoin (map tostring c) ++ #"</" ++ tag ++ #">"
    end) as Eb by by destruct x as [[|]|], c.
  rewrite Eb in Hf |- *. rewrite <- !app_assoc in Hf |- *.
  destruct (bool_decide (x = None ∧ c = [])) eqn:Ec.
  - apply bool_decide_eq_true in Ec as [-> ->]. by rewrite (start_tag _ _ true).
  - replace (match x, c with None, [] => _ | _, _ => _ end)
      with (#">" ++ opt_cdata x ++ mjoin (map tostring c) ++ #"</" ++ tag ++ #">") in Hf |- *
      by by destruct x, c.
    rewrite <- !app_assoc in Hf |- *. rewrite (start_tag _ _ false) by done.
    rewrite (length_app tag), (length_app (attribs a)), (length_app #">") in Hf.
    change (length #">") with 1 in Hf. rewrite content_written by (done || lia).
    cbn [mbind parsed_bind]. rewrite after_app. destruct (end_tag tag s Htag) as [-> E].
    cbn [mbind parsed_bind]. rewrite bool_decide_eq_true_2, E by done.
    cbn. by rewrite text_of_default.
Qed.

(** * Documents *)

(** The tail of a root is white space. *)
Definition root_ok (e : xml) : bool := forallb is_blank (default [] (x_tail e)).

Lemma skip_all_blanks s : forallb is_blank s = true → skip_blanks s = [].
Proof. induction s as [|c s IH]; [done|]. intros [Hc Hs]%andb_true_iff. cbn. rewrite Hc. by apply IH. Qed.

Lemma blank_escape s : forallb is_blank s = true → escape_cdata s = s.
Proof.
  induction s as [|c s IH]; [done|]. intros [Hc Hs]%andb_true_iff. unfold escape_cdata. rewrite escape_cons.
  fold escape_cdata. rewrite IH by done. apply bool_decide_eq_true in Hc.
  rewrite !elem_of_cons in Hc. by destruct Hc as [->|[->|[->|[->|[]%elem_of_nil]]]].
Qed.

Lemma document_tostring e : valid e = true → plain e = true → root_ok e = true →
  document (tostring e) = Parsed (set_tail None (canon e)).
Proof.
  intros Hv Hp Ht. rewrite tostring_body. destruct (body_start e Hv) as (d & z & Eb & Hd).
  assert (∀ p a, head p = Some a → name_start a = false →
    startswith (60%N :: p) (60%N :: body e ++ opt_cdata (x_tail e)) = false) as Hs.
  { intros p a Hpa Hn. rewrite Eb. change (startswith p (d :: z ++ opt_cdata (x_tail e)) = false).
    apply (startswith_other a); [done|by apply (name_start_other d)]. }
  assert (∀ p a, head p = Some a → name_start a = false →
    after (60%N :: p) (60%N :: body e ++ opt_cdata (x_tail e)) = None) as Ha.
  { intros p a Hpa Hn. unfold after. by rewrite (Hs p a). }
  unfold document, scan_decl. change #"<?xml" with (60%N :: #"?xml"). rewrite (Ha _ 63%N) by done.
  cbn [mbind parsed_bind scan_misc]. change (skip_blanks (60%N :: ?x)) with (60%N :: x).
  change #"<!--" with (60%N :: #"!--"). change #"<?" with (60%N :: #"?").
  rewrite (Ha _ 33%N), (Ha _ 63%N) by done. cbn [mbind parsed_bind].
  change #"<!DOCTYPE" with (60%N :: #"!DOCTYPE"). rewrite (Hs _ 33%N) by done.
  change (after #"<" (60%N :: ?x)) with (Some (drop 0 x)). rewrite drop_0. cbv iota.
  rewrite (element_reads e Hv Hp) by lia. cbn [mbind parsed_bind]. rewrite opt_cdata_text, blank_escape by done.
  cbn [scan_misc]. rewrite skip_all_blanks by done. reflexivity.
Qed.

(** ** The written text *)

Definition ascii_text (s : pystr) : bool := forallb (λ c, N.ltb c 128 && negb (N.eqb c 13)) s.

Lemma text_app s t : ascii_text (s ++ t) = ascii_text s && ascii_text t.
Proof. apply forallb_app. Qed.

Lemma ascii_mjoin l : Forall (λ s, ascii_text s = true) l → ascii_text (mjoin l) = true.
Proof. induction 1 as [|s l Hs _ IH]; [done|]. change (mjoin (s :: l)) with (s ++ mjoin l). by rewrite text_app, Hs, IH. Qed.

Lemma ascii_number n : ascii_text (str_of_N n) = true.
Proof.
  destruct (str_of_N_spec n) as (_ & Hd & _). apply forallb_Forall. eapply Forall_impl; [exact Hd|].
  intros c [H1%N.leb_le H2%N.leb_le]%andb_true_iff. apply andb_true_iff. rewrite N.ltb_lt, negb_true_iff, N.eqb_neq. lia.
Qed.

Lemma ascii_escape table s : Forall (λ e, ascii_text e.2 = true) table → forallb (λ c, negb (N.eqb c 13)) s = true →
  ascii_text (escape_with table s) = true.
Proof.
  intros Ht Hs. apply ascii_mjoin, Forall_fmap. apply forallb_Forall in Hs. eapply Forall_impl; [exact Hs|].
  intros c Hc. unfold compose. cbn beta. destruct (List.find (λ e, N.eqb e.1 c) table) as [e|] eqn:E.
  - apply find_some in E as [Hin _]. rewrite Forall_forall in Ht. apply Ht. by apply list_elem_of_In.
  - destruct (N.ltb_spec c 128) as [Hlt|_].
    + cbn. by rewrite (proj2 (N.ltb_lt c 128) Hlt), Hc.
    + by rewrite !text_app, ascii_number.
Qed.

Lemma ascii_cdata t : plain_text t = true → ascii_text (opt_cdata t) = true.
Proof. destruct t as [s|]; [|done]. apply ascii_escape. by repeat constructor. Qed.

Lemma ascii_attrib v : plain_value v = true → ascii_text (escape_attrib v) = true.
Proof.
  intros Hv. apply ascii_escape; [by repeat constructor|]. apply forallb_Forall in Hv. apply forallb_Forall.
  eapply Forall_impl; [exact Hv|]. intros c Hc. apply negb_true_iff, bool_decide_eq_false in Hc.
  apply negb_true_iff, N.eqb_neq. intros ->. apply Hc. by right; left.
Qed.

Lemma ascii_name n : valid_name n = true → ascii_text n = true.
Proof.
  destruct n as [|c n]; [done|]. intros [_ Hn]%andb_true_iff. apply forallb_Forall in Hn. apply forallb_Forall.
  eapply Forall_impl; [exact Hn|]. intros d Hd. unfold name_char, name_start, is_lower, is_upper, is_digit in Hd.
  rewrite !orb_true_iff, !andb_true_iff, !N.leb_le, !N.eqb_eq in Hd.
  apply andb_true_iff. rewrite N.ltb_lt, negb_true_iff, N.eqb_neq. lia.
Qed.

Lemma tostring_ascii e : valid e = true → plain e = true → ascii_text (tostring e) = true.
Proof.
  induction e as [tag a x t c IH] using xml_ind'. cbn [valid plain]. rewrite !andb_true_iff.
  intros [[[[[Htag Ha] Hnd] Hx] Ht] Hc] [[[Hpa Hpx] Hpt] Hpc].
  assert (ascii_text (attribs a) = true) as Eat.
  { apply ascii_mjoin, Forall_fmap. rewrite sort_items_perm. apply forallb_Forall in Ha, Hpa.
    pose proof (proj2 (Forall_and _ _) (conj Ha Hpa)) as H. eapply Forall_impl; [exact H|]. intros [k v] [Hk Hv].
    change (ascii_text (attr_text (k, v)) = true). unfold attr_text. cbn [fst snd] in Hv |- *.
    apply andb_true_iff in Hk as [[Hk _]%andb_true_iff _]. rewrite !text_app, ascii_attrib, (ascii_name k) by done. done. }
  assert (ascii_text (mjoin (map tostring c)) = true) as Ec.
  { apply ascii_mjoin, Forall_map. apply forallb_Forall in Hc, Hpc. rewrite Forall_forall in *. intros e He.
    apply IH; auto. }
  cbn [tostring]. rewrite !text_app, (ascii_name tag), Eat, (ascii_cdata t) by done. cbn [andb].
  rewrite andb_true_r. destruct x as [[|]|], c; try done;
    rewrite !text_app, Ec, (ascii_name tag), ascii_cdata by done; reflexivity.
Qed.

(** [fromstring] reads what [tostring] writes. *)
Lemma line_feeds_id s : forallb (λ c, negb (N.eqb c 13)) s = true → line_feeds s = s.
Proof.
  induction s as [|c s IH]; [done|]. intros [Hc%negb_true_iff Hs]%andb_true_iff. cbn. by rewrite Hc, IH.
Qed.

Lemma fromstring_tostring beyond e : valid e = true → plain e = true → root_ok e = true →
  fromstring beyond (tostring e) = Ok (set_tail None (canon e)).
Proof.
  intros Hv Hp Ht. pose proof (tostring_ascii e Hv Hp) as Ha. apply forallb_Forall in Ha.
  unfold fromstring. rewrite (proj2 (forallb_Forall (λ c, N.ltb c 128) (tostring e))).
  - rewrite line_feeds_id; [by rewrite document_tostring|]. apply forallb_Forall.
    eapply Forall_impl; [exact Ha|]. by intros c [_ Hc]%andb_true_iff.
  - eapply Forall_impl; [exact Ha|]. by intros c [Hc _]%andb_true_iff.
Qed.

(** * Pretty printing *)

(** A property of trees that only looks at texts one by one, and accepts the
    white space of [indent], holds of the pretty printed tree. *)
Section kept.
Variable ok_tag : pystr → list (pystr * pystr) → bool.
Variable ok_text : option pystr → bool.
Hypothesis newline_ok : ∀ level, ok_text (Some (newline_indent level)) = true.

Fixpoint all_ok (e : xml) : bool :=
  match e with
  | Elem tag a x t c => ok_tag tag a && ok_text x && ok_text t && forallb all_ok c
  end.

Lemma fill_ok t level : ok_text t = true → ok_text (fill t (newline_indent level)) = true.
Proof. intros Ht. unfold fill. by destruct (blank t). Qed.

Lemma all_ok_set_tail t e : all_ok e = true → ok_text t = true → all_ok (set_tail t e) = true.
Proof. destruct e. cbn. rewrite !andb_true_iff. naive_solver. Qed.

Lemma all_ok_tail e : all_ok e = true → ok_text (x_tail e) = true.
Proof. destruct e. cbn. rewrite !andb_true_iff. tauto. Qed.

Lemma fill_last_ok level c : forallb all_ok c = true → forallb all_ok (fill_last_tail (newline_indent level) c) = true.
Proof.
  induction c as [|e [|e' c] IH]; [done| |].
  - intros [He _]%andb_true_iff. cbn. by rewrite all_ok_set_tail by (done || by apply fill_ok, all_ok_tail).
  - intros [He Hc]%andb_true_iff.
    change (fill_last_tail ?i (e :: e' :: c)) with (e :: fill_last_tail i (e' :: c)).
    apply andb_true_iff. by split; [|apply IH].
Qed.

Lemma indent_ok e level : all_ok e = true → all_ok (indent level e) = true.
Proof.
  revert level. induction e as [tag a x t c IH] using xml_ind'. intros level. cbn [all_ok].
  rewrite !andb_true_iff. intros [[[Ha Hx] Ht] Hc]. destruct c as [|e c].
  - cbn. rewrite Ha, Hx. by destruct (Nat.eqb level 0); [rewrite Ht|rewrite fill_ok].
  - cbn [indent]. rewrite newline_S. cbn [all_ok]. rewrite Ha, !fill_ok by done.
    apply fill_last_ok. apply forallb_Forall, Forall_map. apply forallb_Forall in Hc.
    rewrite Forall_forall in *. auto.
Qed.
End kept.

Lemma newline_spaces level (P : N → bool) : P 10%N = true → P 32%N = true → forallb P (newline_indent level) = true.
Proof. intros H1 H2. unfold newline_indent. cbn [forallb]. rewrite H1. induction level as [|n IH]; [done|].
  cbn [replicate]. change (mjoin (#"  " :: replicate n #"  ")) with (#"  " ++ mjoin (replicate n #"  ")).
  rewrite forallb_app. change #"  " with [32; 32]%N. cbn [forallb]. by rewrite H2.
Qed.

Lemma valid_all_ok e : valid e =
  all_ok (λ tag a, valid_name tag && forallb valid_attr a && bool_decide (NoDup (keys a))) valid_text e.
Proof. reflexivity. Qed.

Lemma plain_all_ok e : plain e = all_ok (λ _ a, forallb (λ kv, plain_value kv.2) a) plain_text e.
Proof. reflexivity. Qed.

Lemma valid_indent level e : valid e = true → valid (indent level e) = true.
Proof.
  rewrite !valid_all_ok. apply indent_ok. intros l. apply andb_true_iff. split; [done|]. by apply newline_spaces.
Qed.

Lemma plain_indent level e : plain e = true → plain (indent level e) = true.
Proof. rewrite !plain_all_ok. apply indent_ok. intros l. by apply newline_spaces. Qed.

(** ** The order of the attributes *)

Lemma sort_items_idem {V} (d : dict V) : NoDup (keys d) → sort_items (sort_items d) = sort_items d.
Proof.
  intros Hnd. apply (Sorted_unique_strong item_le); [|apply sort_items_sorted..|apply sort_items_perm].
  intros [k v] [k' v'] H1 H2 L1 L2. rewrite !sort_items_perm in H1. rewrite sort_items_perm in H2.
  assert (k = k') as <-.
  { unfold item_le in L1, L2. cbn in L1, L2. clear -L1 L2. revert k' L1 L2.
    induction k as [|x k IH]; intros [|y k']; cbn; try done.
    rewrite !orb_true_iff, !andb_true_iff, !N.ltb_lt, !N.eqb_eq.
    intros [?|[E1 L1]] [?|[E2 L2]]; try lia. f_equal; [done|]. by apply IH. }
  f_equal. apply (dict_get_elem k v d Hnd) in H1. apply (dict_get_elem k v' d Hnd) in H2. congruence.
Qed.

Lemma canon_idem e : valid e = true → canon (canon e) = canon e.
Proof.
  induction e as [tag a x t c IH] using xml_ind'. cbn [valid]. rewrite !andb_true_iff.
  intros [[[[_ Hnd%bool_decide_eq_true] _] _] Hc]. cbn. rewrite sort_items_idem by done. f_equal.
  rewrite map_map. apply map_ext_Forall. apply forallb_Forall in Hc. rewrite Forall_forall in *. auto.
Qed.

Lemma tostring_canon e : valid e = true → tostring (canon e) = tostring e.
Proof.
  induction e as [tag a x t c IH] using xml_ind'. cbn [valid]. rewrite !andb_true_iff.
  intros [[[[_ Hnd%bool_decide_eq_true] _] _] Hc].
  assert (map tostring (map canon c) = map tostring c) as E.
  { rewrite map_map. apply map_ext_Forall. apply forallb_Forall in Hc. rewrite Forall_forall in *. auto. }
  cbn [canon tostring]. rewrite E. unfold attribs. rewrite sort_items_idem by done.
  by destruct x as [[|]|], c.
Qed.

Lemma content_canon e : content_of (canon e) = canon (content_of e).
Proof.
  induction e as [tag a x t c IH] using xml_ind'. cbn. f_equal; [by destruct c|].
  rewrite !map_map. by apply map_ext_Forall.
Qed.

Lemma fill_last_canon i c : map canon (fill_last_tail i c) = fill_last_tail i (map canon c).
Proof.
  induction c as [|e [|e' c] IH]; [done| |].
  - cbn. by rewrite canon_set_tail, x_tail_canon.
  - change (canon e :: map canon (fill_last_tail i (e' :: c)) = canon e :: fill_last_tail i (map canon (e' :: c))).
    by rewrite IH.
Qed.

Lemma indent_canon e level : indent level (canon e) = canon (indent level e).
Proof.
  revert level. induction e as [tag a x t c IH] using xml_ind'. intros level. destruct c as [|e c]; [done|].
  cbn [canon indent]. change (map canon (e :: c)) with (canon e :: map canon c). cbn iota.
  f_equal. rewrite fill_last_canon, map_map. f_equal.
  change (canon e :: map canon c) with (map canon (e :: c)). rewrite map_map.
  apply map_ext_Forall. rewrite Forall_forall in *. auto.
Qed.

(** ** Reading a pretty printed document *)

Lemma document_valid s e : document s = Parsed e → valid e = true ∧ x_tail e = None.
Proof. intros E. pose proof (document_ends s) as H. by rewrite E in H. Qed.

Lemma indent_root e : x_tail e = None →
  root_ok (indent 0 e) = true ∧ indent 0 (set_tail None (indent 0 e)) = indent 0 e.
Proof.
  destruct e as [tag a x t [|y c]]; cbn [x_tail]; intros ->; [done|]. split; [done|].
  set (e := Elem tag a x None (y :: c)). pose proof (indent_indent e 0) as E.
  assert (x_tail (indent 0 e) = Some (newline_indent 0)) as Et by done.
  destruct (indent 0 e) as [tag' a' x' t' c'] eqn:Ee. cbn [x_tail set_tail] in *. subst t'.
  destruct c' as [|y' c']; [|exact E]. exfalso. apply (f_equal x_children) in Ee. cbn [x_children] in Ee.
  unfold e in Ee. cbn [indent x_children] in Ee. by apply fill_last_cons in Ee.
Qed.

(** A pretty printed document is read back with the content it had, and pretty
    printing it again changes nothing. *)
Lemma pretty_document beyond s e : document s = Parsed e → plain e = true →
  ∃ e', fromstring beyond (tostring (indent 0 e)) = Ok e' ∧ content_of e' = canon (content_of e) ∧
    tostring (indent 0 e') = tostring (indent 0 e).
Proof.
  intros [Hv Ht]%document_valid Hp. destruct (indent_root e Ht) as [Hr Hi].
  exists (set_tail None (canon (indent 0 e))). split_and!.
  - apply fromstring_tostring; [by apply valid_indent|by apply plain_indent|done].
  - rewrite <- canon_set_tail, content_canon. f_equal. rewrite <- (content_indent e 0).
    assert (x_tail (content_of (indent 0 e)) = None) as Hn.
    { rewrite content_indent. destruct e as [tag a x t c]. cbn in Ht |- *. by subst. }
    destruct (indent 0 e) as [tag a x t c]. cbn in Hn |- *. by rewrite Hn.
  - rewrite <- canon_set_tail, indent_canon, Hi. apply tostring_canon. by apply valid_indent.
Qed.
