(* ===== verification/ZabbixApi.v ===== *)
(** What the Zabbix modules under [roles/esdc-mon/library/] share: the interface
    of the external package [zabbix_api], and connecting to the server. *)
From S2P Require Export AnsibleModule.
From Stdlib Require Import NArith ZArith Lia.

(** A client object is kept in the state of the host.  A call to [zbx.a.b(params)]
    is a call of the method ["a.b"]; it may fail with any exception. *)
Class Zabbix (W : Type) := {
  zbx_available : bool;
  ZabbixAPI : pyval → pyval → pyval → M W unit;
  zbx_login : pyval → pyval → M W unit;
  zbx_call : pystr → pyval → M W pyval
}.

(** Every call is logged, whatever its outcome; nothing else is, and files are
    not touched. *)
Class ZabbixLaws (W : Type) `{FilesLaws W} `{Zabbix W} := {
  zbx_api_law : ∀ s t v w, ∃ r w', ZabbixAPI s t v w = (r, w') ∧ am_log w' = am_log w ∧ file_text w' = file_text w;
  zbx_login_law : ∀ u p w, ∃ r w', zbx_login u p w = (r, w') ∧ am_log w' = am_log w ∧ file_text w' = file_text w;
  zbx_call_law : ∀ m p w, ∃ r w', zbx_call m p w = (r, w') ∧ am_log w' = am_log w ++ [Called m p] ∧
    file_text w' = file_text w
}.

Section connect.
Context {W : Type} `{AnsibleModule W} `{Zabbix W}.
(** [str(exc)] *)
Variable exc_str : exn → pystr.

(** [module.params[name]] *)
Definition param (p : dict pyval) (name : pystr) : M W pyval := lift (getitem_str (PyDict p) name).

(** [module.fail_json(msg=...); raise AssertionError] *)
Definition fail_assert {A} (msg : pystr) : M W A := fail_msg (A := unit) msg;; raise AssertionError.

(** [if not ZabbixAPI: ...] *)
Definition require_api : M W unit :=
  if zbx_available then mret tt
  else fail_assert (#"Missing required zabbix-api module (check docs or install with: "
                    ++ #"pip install zabbix-api-erigones)").

(** [zbx = ZabbixAPI(server=..., timeout=..., ssl_verify=...); zbx.login(...)] *)
Definition connect (server_url timeout ssl_verify login_user login_password : pyval) : M W unit :=
  try_except (ZabbixAPI server_url timeout ssl_verify;; zbx_login login_user login_password)
    (λ e, if is_Exception e
          then Some (fail_assert (#"Failed to connect to Zabbix server: " ++ exc_str e))
          else None).

Context `{!AnsibleLaws W}.

Lemma fail_assert_ended {A} m (w : W) : ended (A := A) w (fail_assert m w) [] (Failed [(#"msg", PyStr m)]).
Proof. apply ended_early, fail_ended. Qed.
Context `{Files W} `{!FilesLaws W} `{!ZabbixLaws W}.

Lemma connect_logged server timeout verify user password w r w' :
  connect server timeout verify user password w = (Ok r, w') → logged w w' [].
Proof.
  unfold connect, try_except, mbind, M_bind. intros E. apply logged_nil. revert E.
  destruct (zbx_api_law server timeout verify w) as (r1 & w1 & -> & Hl1 & _).
  destruct (zbx_login_law user password w1) as (r2 & w2 & E2 & Hl2 & _).
  assert (∀ m w, (fail_assert (A := unit) m w).1 ≠ Ok r) as Hf.
  { intros m w3. destruct (fail_assert_ended (A := unit) m w3) as [_ (n & -> & _)]. done. }
  destruct r1 as [[]|e]; [rewrite E2; destruct r2 as [[]|e]|].
  - intros [= _ <-]. congruence.
  - destruct (is_Exception e); [|done]. intros E3. exfalso. by eapply Hf; rewrite E3.
  - destruct (is_Exception e); [|done]. intros E3. exfalso. by eapply Hf; rewrite E3.
Qed.

End connect.

(** A call that returned, or failed, is in the log. *)
Lemma zbx_call_logged {W} `{ZabbixLaws W} m p (w w' : W) r :
  zbx_call m p w = (r, w') → logged w w' [Called m p] ∧ file_text w' = file_text w.
Proof.
  intros E. destruct (zbx_call_law m p w) as (r' & w2 & E' & Hl & Hf). rewrite E in E'.
  by injection E' as _ <-.
Qed.

(** * A server for concrete runs: the answers of the calls, in order *)

Abbreviation demo_server := (demo_world (list (outcome pyval))).

#[export] Instance demo_zabbix : Zabbix demo_server := {
  zbx_available := true;
  ZabbixAPI _ _ _ := mret tt;
  zbx_login _ _ := mret tt;
  zbx_call m p := λ s,
    let h := dh_add [Called m p] (dw_host s) in
    match dw_extra s with
    | a :: l => (a, DemoWorld h l)
    | [] => (Raise (ZabbixAPIException #"no answer"), DemoWorld h [])
    end
}.

#[export] Instance demo_zabbix_laws : ZabbixLaws demo_server.
Proof.
  split.
  - intros s t v w. by do 2 eexists.
  - intros u p w. by do 2 eexists.
  - intros m p [h l]. cbn. destruct l as [|a l]; by do 2 eexists.
Qed.
