(* ===== verification/ZabbixTemplate.v ===== *)
(** The Ansible module [zabbix_template]
    ([roles/esdc-mon/library/zabbix_template.py]): a Zabbix template is imported
    from a file, exported to a file, or removed. *)
From S2P Require Export ZabbixApi XmlRoundTrip PyRepr.
From Stdlib Require Import NArith ZArith Lia.

Section zabbix_template.
Context {W : Type} `{AnsibleModule W} `{Files W} `{Zabbix W}.
(** [str(exc)] *)
Variable exc_str : exn → pystr.
(** The order in which Python 2 visits a dictionary. *)
Variable dict_order : dict pyval → dict pyval.
(** [ElementTree.fromstring] on documents with a document type or namespaces. *)
Variable beyond : pystr → outcome xml.

(** [open(filename).read()] *)
Definition read_file (filename : pystr) : M W pystr :=
  f ← open_read filename; lift f.

Definition get_template_name (filename : pystr) : M W pyval :=
  data ← try_except (t ← read_file filename; lift (loads2 t))
    (λ e, if is_Exception e then Some (fail_assert (#"Invalid JSON: " ++ exc_str e)) else None);
  lift (export ← getitem_str data #"zabbix_export";
        templates ← getitem_str export #"templates";
        first ← getitem_nat templates 0;
        getitem_str first #"name").

(** The query for a template. *)
Definition get_params (name : pystr) : pyval :=
  PyDict [(#"output", PyList [PyStr #"templateid"]);
          (#"filter", PyDict [(#"host", PyList [PyStr name])])].

Definition get_template_id (name : pystr) : M W pyval :=
  result ← try_except (zbx_call #"template.get" (get_params name))
    (λ e, if is_Exception e then Some (fail_assert (#"Zabbix API problem: " ++ exc_str e)) else None);
  try_except (lift (first ← getitem_nat result 0; getitem_str first #"templateid"))
    (λ e,
      match e with
      | IndexError | KeyError _ => Some (raise (ValueError (#"Template " ++ [34%N] ++ name ++ [34%N] ++ #" not found")))
      | _ => None
      end).

Definition check_template (name : pystr) : M W bool :=
  try_except (v ← get_template_id name; mret (truthy v))
    (λ e,
      if is_ValueError e then Some (mret false)
      else if is_Exception e
      then Some (fail_msg (A := unit) (#"Zabbix API problem: " ++ exc_str e);; mret false)
      else None).

(** The kinds of objects an import creates and updates. *)
Definition import_kinds : list pystr :=
  [#"items"; #"graphs"; #"applications"; #"triggers"; #"templates"; #"templateScreens";
   #"templateLinkage"; #"discoveryRules"].

Definition import_rules : pyval :=
  PyDict (map (λ k, (k, PyDict [(#"createMissing", PyBool true); (#"updateExisting", PyBool true)]))
    import_kinds).

Definition import_params (fmt : pyval) (data : pystr) : pyval :=
  PyDict [(#"format", fmt); (#"source", PyStr data); (#"rules", import_rules)].

Definition import_template (filename : pystr) (fmt : pyval) : M W pyval :=
  found ← path_exists filename;
  (if (found : bool) then mret tt else fail_msg (#"template file " ++ filename ++ #" not found"));;
  data ← read_file filename;
  try_except (zbx_call #"configuration.import_" (import_params fmt data))
    (λ e, Some (fail_assert (#"Zabbix API problem: " ++ exc_str e))).

Definition export_params (template_id fmt : pyval) : pyval :=
  PyDict [(#"format", fmt); (#"options", PyDict [(#"templates", PyList [template_id])])].

(** The text of the template file: pretty printed XML or JSON. *)
Definition export_text (fmt : pyval) (result : pyval) : outcome pystr :=
  text ← or_raise TypeError (as_str result);
  if is_str fmt #"xml" then
    xml ← fromstring beyond text;
    mret (tostring (XmlTree.indent 0 xml))
  else
    data ← loads2 text;
    mret (enc pretty_opts 0 (reorder dict_order data)).

Definition export_template (template_id : pyval) (target : pystr) (fmt : pyval) : M W unit :=
  result ← try_except (zbx_call #"configuration.export" (export_params template_id fmt))
    (λ e, Some (fail_assert (#"Zabbix API problem: " ++ exc_str e)));
  data ← lift (export_text fmt result);
  try_except (open_write target data)
    (λ e, Some (fail_assert (#"Error writing template file " ++ target ++ #": " ++ exc_str e))).

Definition remove_template (template_id : pyval) : M W pyval :=
  try_except (zbx_call #"template.delete" (PyList [template_id]))
    (λ e, Some (fail_assert (#"Zabbix API problem: " ++ exc_str e))).

Definition spec : arg_spec := ArgSpec
  [Arg #"server_url" [#"url"] true PyNone [] TStr;
   Arg #"login_user" [] true PyNone [] TStr;
   Arg #"login_password" [] true PyNone [] TStr;
   Arg #"template" [] true PyNone [] TStr;
   Arg #"state" [] false (PyStr #"present") [] TStr;
   Arg #"timeout" [] false (PyInt 10) [] TInt;
   Arg #"target" [] false PyNone [] TStr;
   Arg #"format" [] false (PyStr #"xml") [] TStr;
   Arg #"validate_certs" [] false (PyBool false) [] TBool]
  [].

Definition is_import (state : pystr) : bool := bool_decide (state ∈ [#"present"; #"import"]).

(** [module.exit_json(changed=...)] *)
Definition exit_with (changed : bool) : M W unit := exit_json [(#"changed", PyBool changed)].

(** The checks before anything is done. *)
Definition check_state (state template : pystr) (target : pyval) : M W unit :=
  if is_import state then
    found ← path_exists template;
    if (found : bool) then get_template_name template;; mret tt
    else fail_assert (template ++ #" not found")
  else if state =s #"absent" then mret tt
  else if state =s #"export" then
    match target with
    | PyNone => fail_assert (#"with state=" ++ state ++ #" target is required")
    | _ => mret tt
    end
  else fail_assert (#"Invalid state: '" ++ state ++ #"'").

(** The work: whether something changed. *)
Definition run_state (state template : pystr) (target fmt : pyval) : M W bool :=
  present ← check_template template;
  if (present : bool) then
    changed ← (if state =s #"absent" then
                 template_id ← get_template_id template;
                 remove_template template_id;; mret true
               else mret false);
    if state =s #"export" then
      template_id ← get_template_id template;
      path ← lift (or_raise TypeError (as_str target));
      export_template template_id path fmt;; mret true
    else mret changed
  else mret false.

Definition main : M W unit :=
  params ← am_init spec;
  require_api;;
  server_url ← param params #"server_url";
  login_user ← param params #"login_user";
  login_password ← param params #"login_password";
  template_p ← param params #"template";
  state_p ← param params #"state";
  timeout ← param params #"timeout";
  target ← param params #"target";
  fmt ← param params #"format";
  ssl_verify ← param params #"validate_certs";
  connect exc_str server_url timeout ssl_verify login_user login_password;;
  template ← lift (or_raise TypeError (as_str template_p));
  state ← lift (or_raise TypeError (as_str state_p));
  check_state state template target;;
  check ← check_mode;
  (if (check : bool) then exit_with true else mret tt);;
  (if is_import state then import_template template fmt;; exit_with true else mret tt);;
  changed ← run_state state template target fmt;
  exit_with changed.

(** * Properties *)

Context `{!AnsibleLaws W} `{!FilesLaws W} `{!ZabbixLaws W}.

(** The parameters of a task. *)
Definition task (state template : pystr) (target fmt : pyval) (p : dict pyval) : Prop :=
  dict_get #"state" p = Some (PyStr state) ∧ dict_get #"template" p = Some (PyStr template) ∧
  dict_get #"target" p = Some target ∧ dict_get #"format" p = Some fmt.

(** The module has its parameters and a connection to the server. *)
Definition ready (w : W) (p : dict pyval) (w' : W) : Prop :=
  zbx_available = true ∧ ∃ w1 server user password timeout verify,
    am_init spec w = (Ok p, w1) ∧
    dict_get #"server_url" p = Some server ∧ dict_get #"login_user" p = Some user ∧
    dict_get #"login_password" p = Some password ∧ dict_get #"timeout" p = Some timeout ∧
    dict_get #"validate_certs" p = Some verify ∧
    connect exc_str server timeout verify user password w1 = (Ok tt, w').

(** What is left of [main] then. *)
Definition body (state template : pystr) (target fmt : pyval) : M W unit :=
  check_state state template target;;
  check ← check_mode;
  (if (check : bool) then exit_with true else mret tt);;
  (if is_import state then import_template template fmt;; exit_with true else mret tt);;
  changed ← run_state state template target fmt;
  exit_with changed.

Lemma ready_body w p w' state template target fmt :
  ready w p w' → task state template target fmt p →
  main w = body state template target fmt w' ∧ logged w w' [].
Proof.
  intros (Ha & w1 & sv & us & pw & ti & ve & Ei & P1 & P2 & P3 & P4 & P5 & Ec) (T1 & T2 & T3 & T4). split.
  - unfold main. rewrite (bind_ok _ _ _ _ _ Ei). unfold require_api. rewrite Ha, ret_bind.
    unfold param, getitem_str. rewrite P1, P2, P3, P4, P5, T1, T2, T3, T4. cbn [or_raise].
    do 9 (erewrite lift_ok by reflexivity). by rewrite (bind_ok _ _ _ _ _ Ec).
  - eapply (logged_trans _ _ _ [] []); [eapply (am_init_ran _ _ _ _ Ei)|by eapply connect_logged].
Qed.

(** The first template of an answer. *)
Definition lookup_id (result : pyval) : outcome pyval :=
  first ← getitem_nat result 0; getitem_str first #"templateid".

Definition get_event (name : pystr) : am_event := Called #"template.get" (get_params name).

Lemma get_template_id_ok name w res w' id :
  zbx_call #"template.get" (get_params name) w = (Ok res, w') → lookup_id res = Ok id →
  get_template_id name w = (Ok id, w').
Proof.
  intros E El. unfold get_template_id. rewrite (bind_ok _ _ _ _ _ (try_ok _ _ _ _ _ E)).
  apply try_ok. unfold lift. by unfold lookup_id in El; rewrite El.
Qed.

(** No template: the answer is empty or has no identifier. *)
Definition not_found (res : pyval) : Prop :=
  lookup_id res = Raise IndexError ∨ ∃ k, lookup_id res = Raise (KeyError k).

Lemma check_template_missing name w res w' :
  zbx_call #"template.get" (get_params name) w = (Ok res, w') → not_found res →
  check_template name w = (Ok false, w').
Proof.
  intros E Hn. unfold check_template.
  assert (∃ m, get_template_id name w = (Raise (ValueError m), w')) as [m Em].
  { unfold get_template_id. rewrite (bind_ok _ _ _ _ _ (try_ok _ _ _ _ _ E)).
    unfold not_found, lookup_id in Hn. unfold try_except, lift.
    destruct Hn as [-> | [k ->]]; by eexists. }
  by erewrite try_caught; [|by apply bind_raised|reflexivity].
Qed.

Lemma check_template_found name w res w' id :
  zbx_call #"template.get" (get_params name) w = (Ok res, w') → lookup_id res = Ok id →
  check_template name w = (Ok (truthy id), w').
Proof.
  intros E El. unfold check_template. apply try_ok.
  by rewrite (bind_ok _ _ _ _ _ (get_template_id_ok _ _ _ _ _ E El)).
Qed.

(** The states that look the template up. *)
Lemma body_lookup state template target fmt w :
  (state = #"absent" ∨ state = #"export" ∧ target ≠ PyNone) → check_mode w = (Ok false, w) →
  body state template target fmt w =
    (changed ← run_state state template target fmt; exit_with changed) w.
Proof.
  intros Hs Hc. unfold body.
  assert (check_state state template target w = (Ok tt, w) ∧ is_import state = false) as [E Hi].
  { destruct Hs as [->|[-> Ht]]; (split; [|reflexivity]); unfold check_state.
    - reflexivity.
    - change (is_import #"export") with false. change (#"export" =s #"absent") with false.
      change (#"export" =s #"export") with true. cbv iota. by destruct target. }
  rewrite (bind_ok _ _ _ _ _ E), (bind_ok _ _ _ _ _ Hc), ret_bind, Hi, ret_bind. reflexivity.
Qed.

Lemma exit_with_ended changed (w : W) : ended w (exit_with changed w) [] (Exited [(#"changed", PyBool changed)]).
Proof. apply exit_ended. Qed.

Lemma zbx_logged m p (w w' : W) r : zbx_call m p w = (r, w') → logged w w' [Called m p].
Proof. intros E. apply (zbx_call_logged _ _ _ _ _ E). Qed.

(** Removing or exporting a template that the server does not have asks the
    server once, changes nothing and succeeds without a change. *)
Theorem template_missing w p w1 state template target fmt res w2 :
  ready w p w1 → task state template target fmt p →
  (state = #"absent" ∨ state = #"export" ∧ target ≠ PyNone) → check_mode w1 = (Ok false, w1) →
  zbx_call #"template.get" (get_params template) w1 = (Ok res, w2) → not_found res →
  ended w (main w) [get_event template] (Exited [(#"changed", PyBool false)]).
Proof.
  intros Hr Ht Hs Hc E Hn. destruct (ready_body _ _ _ _ _ _ _ Hr Ht) as [-> Hl].
  eapply (ended_after _ _ _ [] _ _ Hl). rewrite body_lookup by done.
  apply (ended_bind _ _ _ false w2 [_] []); [|by eapply zbx_logged|apply exit_with_ended].
  unfold run_state. by rewrite (bind_ok _ _ _ _ _ (check_template_missing _ _ _ _ E Hn)).
Qed.

(** C28: removing a template that the server has: it is looked up twice, deleted
    once by its identifier, and a change is reported. *)
Theorem template_removed w p w1 template target fmt res id w2 res' id' w3 r w4 :
  ready w p w1 → task #"absent" template target fmt p → check_mode w1 = (Ok false, w1) →
  zbx_call #"template.get" (get_params template) w1 = (Ok res, w2) → lookup_id res = Ok id → truthy id = true →
  zbx_call #"template.get" (get_params template) w2 = (Ok res', w3) → lookup_id res' = Ok id' →
  zbx_call #"template.delete" (PyList [id']) w3 = (Ok r, w4) →
  ended w (main w) [get_event template; get_event template; Called #"template.delete" (PyList [id'])]
    (Exited [(#"changed", PyBool true)]).
Proof.
  intros Hr Ht Hc E Hi Hid E' Hi' Ed. destruct (ready_body _ _ _ _ _ _ _ Hr Ht) as [-> Hl].
  eapply (ended_after _ _ _ [] _ _ Hl). rewrite body_lookup by (try done; by left).
  apply (ended_bind _ _ _ true w4 [_; _; _] []); [| |apply exit_with_ended].
  - unfold run_state. rewrite (bind_ok _ _ _ _ _ (check_template_found _ _ _ _ _ E Hi)), Hid.
    change (#"absent" =s #"absent") with true. change (#"absent" =s #"export") with false. cbv iota.
    rewrite bind_assoc, (bind_ok _ _ _ _ _ (get_template_id_ok _ _ _ _ _ E' Hi')), bind_assoc.
    by rewrite (bind_ok _ _ _ _ _ (try_ok _ _ _ _ _ Ed : remove_template id' w3 = _)).
  - eapply (logged_trans _ _ _ [_] [_; _]); [by eapply zbx_logged|].
    eapply (logged_trans _ _ _ [_] [_]); by eapply zbx_logged.
Qed.

(** The state of an export up to its text. *)
Lemma export_run template target fmt res id res' id' result w1 w2 w3 w4 :
  zbx_call #"template.get" (get_params template) w1 = (Ok res, w2) → lookup_id res = Ok id → truthy id = true →
  zbx_call #"template.get" (get_params template) w2 = (Ok res', w3) → lookup_id res' = Ok id' →
  zbx_call #"configuration.export" (export_params id' fmt) w3 = (Ok result, w4) →
  run_state #"export" template (PyStr target) fmt w1 =
    (match export_text fmt result with
     | Ok text =>
         try_except (open_write target text)
           (λ e, Some (fail_assert (#"Error writing template file " ++ target ++ #": " ++ exc_str e)));;
         mret true
     | Raise e => raise e
     end) w4 ∧
  logged w1 w4 [get_event template; get_event template; Called #"configuration.export" (export_params id' fmt)].
Proof.
  intros E Hi Hid E' Hi' Ee. split.
  - unfold run_state. rewrite (bind_ok _ _ _ _ _ (check_template_found _ _ _ _ _ E Hi)), Hid.
    change (#"export" =s #"absent") with false. change (#"export" =s #"export") with true. cbv iota.
    rewrite ret_bind, (bind_ok _ _ _ _ _ (get_template_id_ok _ _ _ _ _ E' Hi')).
    rewrite (lift_ok _ _ _ target) by done.
    unfold export_template. rewrite bind_assoc, (bind_ok _ _ _ _ _ (try_ok _ _ _ _ _ Ee)), bind_assoc.
    destruct (export_text fmt result) as [text|e] eqn:Et; [by rewrite (lift_ok _ _ _ text)|].
    by rewrite (lift_raised _ _ _ e).
  - eapply (logged_trans _ _ _ [_] [_; _]); [by eapply zbx_logged|].
    eapply (logged_trans _ _ _ [_] [_]); by eapply zbx_logged.
Qed.

(** A run that exports a template: the text the server sent, the text that is
    written, and the state in which it has been. *)
Definition exports (w : W) (p : dict pyval) (template target : pystr) (fmt id' result : pyval) (text : pystr) (w' : W) : Prop :=
  ∃ w1 res id w2 res' w3 w4, ready w p w1 ∧ task #"export" template (PyStr target) fmt p ∧
    check_mode w1 = (Ok false, w1) ∧
    zbx_call #"template.get" (get_params template) w1 = (Ok res, w2) ∧ lookup_id res = Ok id ∧ truthy id = true ∧
    zbx_call #"template.get" (get_params template) w2 = (Ok res', w3) ∧ lookup_id res' = Ok id' ∧
    zbx_call #"configuration.export" (export_params id' fmt) w3 = (Ok result, w4) ∧
    export_text fmt result = Ok text ∧ open_write target text w4 = (Ok tt, w').

Lemma exports_finished w p template target fmt id' result text w5 :
  exports w p template target fmt id' result text w5 →
  ended w (main w)
    [get_event template; get_event template; Called #"configuration.export" (export_params id' fmt)]
    (Exited [(#"changed", PyBool true)]) ∧
  file_text (main w).2 target = Some text.
Proof.
  intros (w1 & res & id & w2 & res' & w3 & w4 & Hr & Ht & Hc & E & Hi & Hid & E' & Hi' & Ee & Etext & Ew). destruct (ready_body _ _ _ _ _ _ _ Hr Ht) as [-> Hl].
  rewrite body_lookup by (try done; by right).
  destruct (export_run _ target _ _ _ _ _ _ _ _ _ _ E Hi Hid E' Hi' Ee) as [Er Hl4]. rewrite Etext in Er.
  rewrite (bind_ok _ _ w4 tt w5) in Er by by apply try_ok.
  destruct (open_write_law target text w4) as (r & w5' & Ew' & Hlw & Hfile). rewrite Ew in Ew'.
  injection Ew' as <- <-. split.
  - eapply (ended_after _ _ _ [] _ _ Hl).
    apply (ended_bind _ _ _ true w5 [_; _; _] []); [exact Er| |apply exit_with_ended].
    rewrite <- (app_nil_r [_; _; _]). eapply logged_trans; [exact Hl4|by apply logged_nil].
  - rewrite (bind_ok _ _ _ _ _ Er). unfold exit_with. rewrite exit_keeps_files. by apply Hfile.
Qed.

(** C24: exporting a template: it is looked up, exported once in the format of the
    task, and the target file then holds the pretty printed text. *)
Theorem template_exported w p w1 template target fmt res id w2 res' id' w3 result text w4 w5 :
  ready w p w1 → task #"export" template (PyStr target) fmt p → check_mode w1 = (Ok false, w1) →
  zbx_call #"template.get" (get_params template) w1 = (Ok res, w2) → lookup_id res = Ok id → truthy id = true →
  zbx_call #"template.get" (get_params template) w2 = (Ok res', w3) → lookup_id res' = Ok id' →
  zbx_call #"configuration.export" (export_params id' fmt) w3 = (Ok result, w4) →
  export_text fmt result = Ok text → open_write target text w4 = (Ok tt, w5) →
  ended w (main w)
    [get_event template; get_event template; Called #"configuration.export" (export_params id' fmt)]
    (Exited [(#"changed", PyBool true)]) ∧
  file_text (main w).2 target = Some text.
Proof. intros. eapply exports_finished. by do 7 eexists; split_and!. Qed.

(** C26: a template with a character outside ASCII cannot be exported as XML: after
    the export the parser is given a [unicode] text, and the module ends with an
    exception that it does not report, before it opens the target. *)
Theorem export_not_ascii w p w1 template target fmt res id w2 res' id' w3 s w4 :
  ready w p w1 → task #"export" template (PyStr target) fmt p → check_mode w1 = (Ok false, w1) →
  zbx_call #"template.get" (get_params template) w1 = (Ok res, w2) → lookup_id res = Ok id → truthy id = true →
  zbx_call #"template.get" (get_params template) w2 = (Ok res', w3) → lookup_id res' = Ok id' →
  zbx_call #"configuration.export" (export_params id' fmt) w3 = (Ok (PyStr s), w4) →
  is_str fmt #"xml" = true → Exists (λ c, (128 <= c)%N) s →
  main w = (Raise (ValueError #"UnicodeEncodeError"), w4) ∧
  logged w w4 [get_event template; get_event template; Called #"configuration.export" (export_params id' fmt)].
Proof.
  intros Hr Ht Hc E Hi Hid E' Hi' Ee Hf Hs. destruct (ready_body _ _ _ _ _ _ _ Hr Ht) as [-> Hl].
  rewrite body_lookup by (try done; by right).
  destruct (export_run _ target _ _ _ _ _ _ _ _ _ _ E Hi Hid E' Hi' Ee) as [Er Hl4].
  assert (export_text fmt (PyStr s) = Raise (ValueError #"UnicodeEncodeError")) as Et.
  { unfold export_text. cbn [as_str or_raise mbind outcome_bind]. rewrite Hf. unfold fromstring.
    destruct (forallb (λ c, N.ltb c 128) s) eqn:Ea; [|done]. apply forallb_Forall in Ea.
    apply Exists_exists in Hs as (c & Hin & Hc128). rewrite Forall_forall in Ea.
    apply Ea, N.ltb_lt in Hin. lia. }
  rewrite Et in Er. split; [exact (bind_raised _ _ _ _ _ Er)|]. exact (logged_trans _ _ _ [] _ Hl Hl4).
Qed.

(** A template file: it exists, and this is what reading it gives. *)
Definition file_read (f : pystr) (w : W) (r : outcome pystr) (w' : W) : Prop :=
  path_exists f w = (Ok true, w) ∧ read_file f w = (r, w').

Lemma read_file_logged f w r w' : read_file f w = (r, w') → logged w w' [].
Proof.
  intros E. apply logged_nil. unfold read_file, mbind, M_bind, lift in E.
  destruct (open_read_law f w) as (r1 & w1 & E1 & Hl & _). rewrite E1 in E. by destruct r1; injection E as _ <-.
Qed.

(** The name [get_template_name] takes from a file, or why it does not. *)
Definition json_name (t : pystr) : outcome pyval :=
  data ← loads2 t;
  export ← getitem_str data #"zabbix_export";
  templates ← getitem_str export #"templates";
  first ← getitem_nat templates 0;
  getitem_str first #"name".

(** A task that [main] accepts. *)
Definition acceptable (state template : pystr) (target : pyval) (w w' : W) : Prop :=
  (is_import state = true ∧ ∃ text name, file_read template w (Ok text) w' ∧ json_name text = Ok name) ∨
  ((state = #"absent" ∨ state = #"export" ∧ target ≠ PyNone) ∧ w' = w).

Lemma check_state_ok state template target w w' : acceptable state template target w w' →
  check_state state template target w = (Ok tt, w') ∧ logged w w' [].
Proof.
  intros [(Hi & text & name & [Ex Er] & Hn)|[Hs ->]]; unfold check_state.
  - split; [|by eapply read_file_logged]. rewrite Hi, (bind_ok _ _ _ _ _ Ex). unfold get_template_name.
    unfold json_name in Hn. destruct (loads2 text) as [data|] eqn:Ed; [|done].
    rewrite bind_assoc, (bind_ok _ _ w data w').
    + by rewrite (lift_ok _ _ _ name) by exact Hn.
    + apply try_ok. rewrite (bind_ok _ _ _ _ _ Er). unfold lift. by rewrite Ed.
  - split; [|apply logged_refl]. destruct Hs as [->|[-> Ht]]; [done|].
    change (is_import #"export") with false. change (#"export" =s #"absent") with false.
    change (#"export" =s #"export") with true. cbv iota. by destruct target.
Qed.

(** An acceptable import reads the file and sends it. *)
Lemma import_call w p w1 state template target fmt w2 text w3 :
  ready w p w1 → task state template target fmt p → is_import state = true →
  acceptable state template target w1 w2 → check_mode w2 = (Ok false, w2) →
  file_read template w2 (Ok text) w3 →
  logged w w3 [] ∧
  main w = ((try_except (zbx_call #"configuration.import_" (import_params fmt text))
               (λ e, Some (fail_assert (#"Zabbix API problem: " ++ exc_str e)));; exit_with true);;
            changed ← run_state state template target fmt; exit_with changed) w3.
Proof.
  intros Hr Ht Hi Ha Hc [Ex Er]. destruct (ready_body _ _ _ _ _ _ _ Hr Ht) as [-> Hl].
  destruct (check_state_ok _ _ _ _ _ Ha) as [Es Hl2]. split.
  - eapply (logged_trans _ _ _ [] [] Hl), (logged_trans _ _ _ [] [] Hl2). by eapply read_file_logged.
  - unfold body. rewrite (bind_ok _ _ _ _ _ Es), (bind_ok _ _ _ _ _ Hc), ret_bind, Hi.
    rewrite !bind_assoc. unfold import_template. rewrite bind_assoc, (bind_ok _ _ _ _ _ Ex), bind_assoc, ret_bind, bind_assoc.
    by rewrite (bind_ok _ _ _ _ _ Er).
Qed.

Lemma import_sent w p w1 state template target fmt w2 text w3 r w4 :
  ready w p w1 → task state template target fmt p → is_import state = true →
  acceptable state template target w1 w2 → check_mode w2 = (Ok false, w2) →
  file_read template w2 (Ok text) w3 →
  zbx_call #"configuration.import_" (import_params fmt text) w3 = (Ok r, w4) →
  ended w (main w) [Called #"configuration.import_" (import_params fmt text)] (Exited [(#"changed", PyBool true)]).
Proof.
  intros Hr Ht Hi Ha Hc Hf E. destruct (import_call _ _ _ _ _ _ _ _ _ _ Hr Ht Hi Ha Hc Hf) as [Hl ->].
  apply (ended_after _ _ _ [] [_] _ Hl), ended_early.
  apply (ended_bind _ _ _ r w4 [_] []); [by apply try_ok|by eapply zbx_logged|apply exit_with_ended].
Qed.

(** What a full import asks for, key by key. *)
Definition full_import (fmt : pyval) (text : pystr) : pyval :=
  let both := PyDict [(#"createMissing", PyBool true); (#"updateExisting", PyBool true)] in
  PyDict [(#"format", fmt); (#"source", PyStr text);
    (#"rules", PyDict
      [(#"items", both); (#"graphs", both); (#"applications", both); (#"triggers", both); (#"templates", both);
       (#"templateScreens", both); (#"templateLinkage", both); (#"discoveryRules", both)])].

Lemma import_params_full fmt text : import_params fmt text = full_import fmt text.
Proof. done. Qed.

(** C27: importing a template: the file is checked to be a JSON export and then
    sent once, as it is, in the format of the task, with the rule to create what
    is missing and to update what exists for each of the eight kinds of objects:
    items, graphs, applications, triggers, templates, template screens, template
    linkage and discovery rules; a change is reported. *)
Theorem template_imported w p w1 state template target fmt text name w2 text' w3 r w4 :
  ready w p w1 → task state template target fmt p → is_import state = true →
  file_read template w1 (Ok text) w2 → json_name text = Ok name → check_mode w2 = (Ok false, w2) →
  file_read template w2 (Ok text') w3 →
  zbx_call #"configuration.import_" (full_import fmt text') w3 = (Ok r, w4) →
  ended w (main w) [Called #"configuration.import_" (full_import fmt text')]
    (Exited [(#"changed", PyBool true)]).
Proof.
  rewrite <- import_params_full.
  intros Hr Ht Hi Hf Hn Hc Hf' E. eapply import_sent; [exact Hr|exact Ht|done| |exact Hc|exact Hf'|exact E].
  left. split; [done|]. by exists text, name.
Qed.

Lemma value_error_exception e : is_ValueError e = true → is_Exception e = true.
Proof. by destruct e. Qed.

(** A template file that is not JSON is refused before anything is sent,
    whatever the format of the task: the default format [xml] can only be
    imported from a file that is JSON as well. *)
Theorem import_needs_json w p w1 state template target fmt text e w2 :
  ready w p w1 → task state template target fmt p → is_import state = true →
  file_read template w1 (Ok text) w2 → loads2 text = Raise e →
  ended w (main w) [] (Failed [(#"msg", PyStr (#"Invalid JSON: " ++ exc_str e))]).
Proof.
  intros Hr Ht Hi [Ex Er] He. destruct (ready_body _ _ _ _ _ _ _ Hr Ht) as [-> Hl].
  eapply (ended_after _ _ _ [] _ _ Hl). unfold body. apply ended_early.
  unfold check_state. rewrite Hi, (bind_ok _ _ _ _ _ Ex). apply ended_early.
  unfold get_template_name. apply ended_early.
  erewrite try_caught; [| |by rewrite (value_error_exception e (loads2_errors _ _ He))].
  - eapply (ended_after _ _ _ [] []); [by eapply read_file_logged|apply fail_assert_ended].
  - rewrite (bind_ok _ _ _ _ _ Er). by apply lift_raised_last.
Qed.

(** C29: in check mode an acceptable task calls no method of the server, writes no
    file and reports a change. *)
Theorem check_mode_changes_nothing w p w1 state template target fmt w2 :
  ready w p w1 → task state template target fmt p → acceptable state template target w1 w2 →
  check_mode w2 = (Ok true, w2) →
  ended w (main w) [] (Exited [(#"changed", PyBool true)]) ∧ file_text (main w).2 = file_text w2.
Proof.
  intros Hr Ht Ha Hc. destruct (ready_body _ _ _ _ _ _ _ Hr Ht) as [-> Hl].
  destruct (check_state_ok _ _ _ _ _ Ha) as [E Hl2].
  unfold body. rewrite (bind_ok _ _ _ _ _ E), (bind_ok _ _ _ _ _ Hc). split.
  - apply (ended_after _ _ _ [] [] _ Hl), (ended_after _ _ _ [] [] _ Hl2), ended_early, exit_with_ended.
  - unfold exit_with. pose proof (exit_keeps_files unit [(#"changed", PyBool true)] w2) as Hf.
    destruct (exit_json_law unit [(#"changed", PyBool true)] w2) as (w3 & Ee & _).
    rewrite (bind_raised _ _ _ _ _ Ee). by rewrite Ee in Hf.
Qed.

(** An import the server refuses, with whatever exception, ends in a failure
    with its text; the [AssertionError] after it is never raised. *)
Theorem import_refused w p w1 state template target fmt w2 text' w3 e w4 :
  ready w p w1 → task state template target fmt p → is_import state = true →
  acceptable state template target w1 w2 → check_mode w2 = (Ok false, w2) →
  file_read template w2 (Ok text') w3 →
  zbx_call #"configuration.import_" (import_params fmt text') w3 = (Raise e, w4) →
  ended w (main w) [Called #"configuration.import_" (import_params fmt text')]
    (Failed [(#"msg", PyStr (#"Zabbix API problem: " ++ exc_str e))]).
Proof.
  intros Hr Ht Hi Ha Hc Hf E. destruct (import_call _ _ _ _ _ _ _ _ _ _ Hr Ht Hi Ha Hc Hf) as [Hl ->].
  apply (ended_after _ _ _ [] [_] _ Hl). do 2 apply ended_early. erewrite try_caught by (done || exact E).
  eapply (ended_after _ _ _ [_] []); [by eapply zbx_logged|apply fail_assert_ended].
Qed.

(** The JSON text written by an export reads back as what the server sent,
    up to the order of the entries of its objects. *)
Theorem export_json_roundtrip fmt t v : (∀ d, Permutation (dict_order d) d) →
  is_str fmt #"xml" = false → loads2 t = Ok v → json_ok None v = true →
  ∃ text, export_text fmt (PyStr t) = Ok text ∧ loads2 text = Ok (reorder dict_order v).
Proof.
  intros Ho Hf Hl Hv. exists (enc pretty_opts 0 (reorder dict_order v)). split.
  - unfold export_text. cbn [as_str or_raise mbind outcome_bind]. by rewrite Hf, Hl.
  - apply loads_with_enc; [apply pretty_opts_ok|by apply json_ok_reorder].
Qed.

(** C25: the XML text an export writes reads back as what the server sent, when
    the server sent ASCII text that is a document without a document type and
    namespaces, and no carriage return, and no tab in an attribute, comes from a
    character reference (those are written as they are, and read back as other
    white space): the content is the same, up to the order of the attributes,
    only the white space between tags differs, and pretty printing the written
    text again gives the same text. *)
Theorem export_xml_roundtrip fmt s e : is_str fmt #"xml" = true →
  forallb (λ c, N.ltb c 128) s = true → document (line_feeds s) = Parsed e → plain e = true →
  ∃ text e', export_text fmt (PyStr s) = Ok text ∧ fromstring beyond text = Ok e' ∧
    content_of e' = canon (content_of e) ∧ export_text fmt (PyStr text) = Ok text.
Proof.
  intros Hf Hs Hd Hp. destruct (pretty_document beyond _ _ Hd Hp) as (e' & Ee & Hc & Ht).
  exists (tostring (XmlTree.indent 0 e)), e'. unfold export_text. cbn [as_str or_raise mbind outcome_bind].
  rewrite Hf, Ee. cbn [mbind outcome_bind]. rewrite Ht. split_and!; try done.
  unfold fromstring. by rewrite Hs, Hd.
Qed.
End zabbix_template.

(** * Concrete runs *)

Definition demo_exc (e : exn) : pystr := match e with ZabbixAPIException m => m | _ => [] end.
Definition demo_order (d : dict pyval) : dict pyval := d.
Definition demo_beyond (s : pystr) : outcome xml := Raise (ExcOther #"not supported").

Abbreviation demo_main := (main (W := demo_server) demo_exc demo_order demo_beyond).

Definition demo_params (state template : pystr) (target : pyval) (fmt : pystr) (check : bool) : dict pyval :=
  [(#"server_url", PyStr #"http://z/"); (#"login_user", PyStr #"u"); (#"login_password", PyStr #"p");
   (#"template", PyStr template); (#"state", PyStr state); (#"timeout", PyInt 10); (#"target", target);
   (#"format", PyStr fmt); (#"validate_certs", PyBool false)]
  ++ (if check then [(#"_ansible_check_mode", PyBool true)] else []).

Definition demo_world_of (p : dict pyval) (files : dict pystr) (answers : list (outcome pyval)) : demo_server :=
  DemoWorld (DemoHost p files [] []) answers.

Lemma template_demo_ready p files answers : conforms spec p = true →
  (∃ a b c d e, dict_get #"server_url" p = Some a ∧ dict_get #"login_user" p = Some b ∧
     dict_get #"login_password" p = Some c ∧ dict_get #"timeout" p = Some d ∧
     dict_get #"validate_certs" p = Some e) →
  ready demo_exc (demo_world_of p files answers) p (demo_world_of p files answers).
Proof.
  intros E (a & b & c & d & e & H1 & H2 & H3 & H4 & H5). split; [done|].
  exists (demo_world_of p files answers), a, b, c, d, e. split_and!; try done.
  unfold am_init, world_ansible, on_host, am_init. cbn [demo_ansible demo_world_of dw_host dh_params]. by rewrite E.
Qed.

Lemma demo_ready_params state template target fmt check files answers :
  conforms spec (demo_params state template target fmt check) = true →
  ready demo_exc (demo_world_of (demo_params state template target fmt check) files answers)
    (demo_params state template target fmt check)
    (demo_world_of (demo_params state template target fmt check) files answers).
Proof. intros E. apply template_demo_ready; [done|]. do 5 eexists. by split_and!. Qed.

Lemma template_demo_task state template target fmt check :
  task state template target (PyStr fmt) (demo_params state template target fmt check).
Proof. by split_and!. Qed.

Definition found (id : pystr) : outcome pyval := Ok (PyList [PyDict [(#"templateid", PyStr id)]]).

Lemma template_missing_witness :
  let w := demo_world_of (demo_params #"absent" #"t" PyNone #"xml" false) [] [Ok (PyList [])] in
  ended w (demo_main w) [get_event #"t"] (Exited [(#"changed", PyBool false)]).
Proof.
  intros w.
  refine (template_missing demo_exc demo_order demo_beyond w _ w #"absent" #"t" PyNone (PyStr #"xml")
    (PyList []) _ (demo_ready_params _ _ _ _ _ _ _ _) (template_demo_task _ _ _ _ _) _ _ _ _).
  - reflexivity.
  - by left.
  - reflexivity.
  - reflexivity.
  - by left.
Defined.

Lemma template_removed_witness :
  let w := demo_world_of (demo_params #"absent" #"t" PyNone #"xml" false) []
             [found #"7"; found #"7"; Ok PyNone] in
  ended w (demo_main w) [get_event #"t"; get_event #"t"; Called #"template.delete" (PyList [PyStr #"7"])]
    (Exited [(#"changed", PyBool true)]).
Proof.
  intros w.
  refine (template_removed demo_exc demo_order demo_beyond w _ w #"t" PyNone (PyStr #"xml")
    (PyList [PyDict [(#"templateid", PyStr #"7")]]) (PyStr #"7") _
    (PyList [PyDict [(#"templateid", PyStr #"7")]]) (PyStr #"7") _ PyNone _
    (demo_ready_params _ _ _ _ _ _ _ _) (template_demo_task _ _ _ _ _) _ _ _ _ _ _ _); reflexivity.
Defined.

Lemma template_exported_witness :
  let w := demo_world_of (demo_params #"export" #"t" (PyStr #"/f") #"xml" false) []
             [found #"7"; found #"7"; Ok (PyStr #"<?xml version='1.0'?><a><b>t</b></a>")] in
  file_text (demo_main w).2 #"/f" = Some (#"<a>" ++ [10%N] ++ #"  <b>t</b>" ++ [10%N] ++ #"</a>" ++ [10%N]).
Proof.
  intros w.
  refine (proj2 (template_exported demo_exc demo_order demo_beyond w
    (demo_params #"export" #"t" (PyStr #"/f") #"xml" false) w #"t" #"/f" (PyStr #"xml")
    (PyList [PyDict [(#"templateid", PyStr #"7")]]) (PyStr #"7") _
    (PyList [PyDict [(#"templateid", PyStr #"7")]]) (PyStr #"7") _ (PyStr #"<?xml version='1.0'?><a><b>t</b></a>")
    (#"<a>" ++ [10%N] ++ #"  <b>t</b>" ++ [10%N] ++ #"</a>" ++ [10%N]) _ _
    (demo_ready_params _ _ _ _ _ _ _ _) (template_demo_task _ _ _ _ _) _ _ _ _ _ _ _ _ _));
    (reflexivity || (vm_compute; reflexivity)).
Defined.

Lemma export_not_ascii_witness :
  let w := demo_world_of (demo_params #"export" #"t" (PyStr #"/f") #"xml" false) []
             [found #"7"; found #"7"; Ok (PyStr (#"<a>" ++ [233%N] ++ #"</a>"))] in
  (demo_main w).1 = Raise (ValueError #"UnicodeEncodeError").
Proof.
  intros w.
  refine (f_equal fst (proj1 (export_not_ascii demo_exc demo_order demo_beyond w
    (demo_params #"export" #"t" (PyStr #"/f") #"xml" false) w #"t" #"/f" (PyStr #"xml")
    (PyList [PyDict [(#"templateid", PyStr #"7")]]) (PyStr #"7") _
    (PyList [PyDict [(#"templateid", PyStr #"7")]]) (PyStr #"7") _ (#"<a>" ++ [233%N] ++ #"</a>") _
    (demo_ready_params _ _ _ _ _ _ _ _) (template_demo_task _ _ _ _ _) _ _ _ _ _ _ _ _ _)));
    try reflexivity.
  apply Exists_exists. exists 233%N. split; [by do 3 right; left|done].
Defined.

Definition demo_file : pystr :=
  dumps (PyDict [(#"zabbix_export", PyDict [(#"templates", PyList [PyDict [(#"name", PyStr #"t")]])])]).

Lemma template_imported_witness :
  let w := demo_world_of (demo_params #"present" #"/t.json" PyNone #"json" false) [(#"/t.json", demo_file)]
             [Ok (PyBool true)] in
  ended w (demo_main w) [Called #"configuration.import_" (full_import (PyStr #"json") demo_file)]
    (Exited [(#"changed", PyBool true)]).
Proof.
  intros w.
  refine (template_imported demo_exc demo_order demo_beyond w _ w #"present" #"/t.json" PyNone
    (PyStr #"json") demo_file (PyStr #"t") w demo_file w (PyBool true) _
    (demo_ready_params _ _ _ _ _ _ _ _) (template_demo_task _ _ _ _ _) _ _ _ _ _ _).
  - reflexivity.
  - reflexivity.
  - by split.
  - vm_compute. reflexivity.
  - reflexivity.
  - by split.
  - reflexivity.
Defined.

Lemma import_needs_json_witness :
  let w := demo_world_of (demo_params #"present" #"/t.xml" PyNone #"xml" false) [(#"/t.xml", #"<zabbix_export/>")]
             [] in
  ended w (demo_main w) [] (Failed [(#"msg", PyStr #"Invalid JSON: ")]).
Proof.
  intros w.
  refine (import_needs_json demo_exc demo_order demo_beyond w _ w #"present" #"/t.xml" PyNone
    (PyStr #"xml") #"<zabbix_export/>" JSONDecodeError w
    (demo_ready_params _ _ _ _ _ _ _ _) (template_demo_task _ _ _ _ _) _ _ _).
  - reflexivity.
  - reflexivity.
  - by split.
  - vm_compute. reflexivity.
Defined.

Lemma check_mode_changes_nothing_witness :
  let w := demo_world_of (demo_params #"absent" #"t" PyNone #"xml" true) [] [] in
  ended w (demo_main w) [] (Exited [(#"changed", PyBool true)]).
Proof.
  intros w.
  refine (proj1 (check_mode_changes_nothing demo_exc demo_order demo_beyond w _ w #"absent" #"t" PyNone
    (PyStr #"xml") w (demo_ready_params _ _ _ _ _ _ _ _) (template_demo_task _ _ _ _ _) _ _)).
  - reflexivity.
  - right. split; [by left|reflexivity].
  - reflexivity.
Defined.

Lemma import_refused_witness :
  let w := demo_world_of (demo_params #"present" #"/t.json" PyNone #"json" false) [(#"/t.json", demo_file)]
             [Raise (ZabbixAPIException #"no permission")] in
  ended w (demo_main w) [Called #"configuration.import_" (import_params (PyStr #"json") demo_file)]
    (Failed [(#"msg", PyStr #"Zabbix API problem: no permission")]).
Proof.
  intros w.
  refine (import_refused demo_exc demo_order demo_beyond w _ w #"present" #"/t.json" PyNone
    (PyStr #"json") w demo_file w (ZabbixAPIException #"no permission") _
    (demo_ready_params _ _ _ _ _ _ _ _) (template_demo_task _ _ _ _ _) _ _ _ _ _).
  - reflexivity.
  - reflexivity.
  - left. split; [reflexivity|]. exists demo_file, (PyStr #"t"). split; [by split|]. vm_compute. reflexivity.
  - reflexivity.
  - by split.
  - reflexivity.
Defined.

Lemma export_json_roundtrip_witness :
  ∃ text, export_text demo_order demo_beyond (PyStr #"json") (PyStr demo_file) = Ok text ∧
    loads2 text = loads2 demo_file.
Proof.
  destruct (export_json_roundtrip demo_order demo_beyond (PyStr #"json") demo_file
    (PyDict [(#"zabbix_export", PyDict [(#"templates", PyList [PyDict [(#"name", PyStr #"t")]])])]))
    as (text & E1 & E2).
  - intros d. reflexivity.
  - reflexivity.
  - vm_compute. reflexivity.
  - vm_compute. reflexivity.
  - exists text. split; [exact E1|]. rewrite E2. vm_compute. reflexivity.
Defined.

Lemma export_xml_roundtrip_witness :
  ∃ text e', export_text demo_order demo_beyond (PyStr #"xml") (PyStr #"<a y='1' x='&lt;'> <b/>t&#233;</a>") = Ok text ∧
    fromstring demo_beyond text = Ok e' ∧
    content_of e' = Elem #"a" [(#"x", #"<"); (#"y", #"1")] None None [Elem #"b" [] None (Some [116; 233]%N) []] ∧
    export_text demo_order demo_beyond (PyStr #"xml") (PyStr text) = Ok text.
Proof.
  exact (export_xml_roundtrip demo_order demo_beyond (PyStr #"xml") #"<a y='1' x='&lt;'> <b/>t&#233;</a>"
    (Elem #"a" [(#"y", #"1"); (#"x", #"<")] (Some #" ") None [Elem #"b" [] None (Some [116; 233]%N) []])
    eq_refl eq_refl eq_refl eq_refl).
Defined.
