(* ===== verification/ZabbixTransfer.v ===== *)
(** Moving a template with two runs of [zabbix_template]: what one run exports,
    another imports. *)
From S2P Require Export ZabbixTemplate.
From Stdlib Require Import NArith ZArith Lia.

(** * Values in another order *)

Lemma dict_get_Permutation {V} k (d d' : dict V) : NoDup (keys d) → Permutation d' d →
  dict_get k d' = dict_get k d.
Proof.
  intros Hnd HP. assert (NoDup (keys d')) as Hnd' by (unfold keys in *; by rewrite HP).
  destruct (dict_get k d) as [v|] eqn:E.
  - apply dict_get_elem; [done|]. rewrite HP. by apply dict_get_elem.
  - apply dict_get_None in E. apply dict_get_None. unfold keys in *. by rewrite HP.
Qed.

Lemma dict_get_map {V X} (f : V → X) k (d : dict V) :
  dict_get k (map (λ kv, (kv.1, f kv.2)) d) = f <$> dict_get k d.
Proof. induction d as [|[k' v] d IH]; [done|]. cbn. by case_bool_decide. Qed.

Section reorder.
Context (order : dict pyval → dict pyval) (Horder : ∀ d, Permutation (order d) d).

Lemma getitem_str_reorder v k x : json_ok None v = true → getitem_str v k = Ok x →
  getitem_str (reorder order v) k = Ok (reorder order x) ∧ json_ok None x = true.
Proof.
  intros Hv. destruct v as [| | | | | |d]; try done. cbn [getitem_str reorder].
  apply json_ok_dict in Hv as [Hnd Hd].
  set (d' := map (λ kv, (kv.1, reorder order kv.2)) d).
  rewrite (dict_get_Permutation k d' (order d')); [| |apply Horder]; unfold d'.
  - rewrite dict_get_map. destruct (dict_get k d) as [y|] eqn:E; [|done]. cbn. intros [= <-]. split; [done|].
    apply dict_get_elem in E; [|done]. rewrite Forall_forall in Hd. by apply Hd in E as [_ ?].
  - unfold keys. change (map ?f d) with (f <$> d). by rewrite <- list_fmap_compose.
Qed.

Lemma getitem_nat_reorder v i x : json_ok None v = true → getitem_nat v i = Ok x →
  getitem_nat (reorder order v) i = Ok (reorder order x) ∧ json_ok None x = true.
Proof.
  intros Hv. destruct v as [| | | |s|l|]; try done; cbn [getitem_nat reorder].
  - destruct (s !! i) as [c|] eqn:E; [|done]. intros [= <-]. split; [done|].
    cbn in Hv |- *. unfold scalars in *. rewrite forallb_forall in Hv. cbn. rewrite andb_true_r.
    apply Hv. apply list_elem_of_In. by eapply list_elem_of_lookup_2.
  - change (map ?f l) with (f <$> l). rewrite list_lookup_fmap. destruct (l !! i) as [y|] eqn:E; [|done].
    cbn. intros [= <-]. split; [done|]. apply json_ok_list in Hv. rewrite Forall_lookup in Hv. by eapply Hv.
Qed.

(** The name in an exported document does not depend on the order. *)
Lemma json_name_reorder t text v name : loads2 t = Ok v → json_ok None v = true → json_name t = Ok name →
  loads2 text = Ok (reorder order v) → json_name text = Ok (reorder order name).
Proof.
  intros Et Hv Hn Etext. unfold json_name in *. rewrite Et in Hn. rewrite Etext. cbn [mbind outcome_bind] in *.
  apply outcome_bind_inv in Hn as (e & He & Hn). apply outcome_bind_inv in Hn as (ts & Hts & Hn).
  apply outcome_bind_inv in Hn as (f & Hf & Hn).
  destruct (getitem_str_reorder _ _ _ Hv He) as [-> Hv1]. cbn [mbind outcome_bind].
  destruct (getitem_str_reorder _ _ _ Hv1 Hts) as [-> Hv2]. cbn [mbind outcome_bind].
  destruct (getitem_nat_reorder _ _ _ Hv2 Hf) as [-> Hv3]. cbn [mbind outcome_bind].
  by destruct (getitem_str_reorder _ _ _ Hv3 Hn) as [-> _].
Qed.
End reorder.

(** XML is not JSON. *)
Lemma markup_not_json s : loads2 (60%N :: s) = Raise JSONDecodeError.
Proof.
  unfold loads2, loads_with. change (skip_ws (60%N :: s)) with (60%N :: s).
  replace (2 * length (60%N :: s) + 2) with (S (2 * length (60%N :: s) + 1)) by lia.
  by rewrite scan_value_S.
Qed.

(** * Export, then import *)

Section transfer.
Context {W : Type} `{FilesLaws W} `{!Zabbix W} `{!ZabbixLaws W}.
Variable exc_str : exn → pystr.
Variable dict_order : dict pyval → dict pyval.
Variable beyond : pystr → outcome xml.

(** The order of a dictionary is one of its orders; a file that was written can be
    read back. *)
Context (Horder : ∀ d, Permutation (dict_order d) d).
Context (Hfiles : ∀ f w t, file_text w f = Some t →
  path_exists f w = (Ok true, w) ∧ ∃ w', open_read f w = (Ok (Ok t), w') ∧ file_text w' = file_text w).

Lemma written_read f w t : file_text w f = Some t →
  ∃ w', file_read f w (Ok t) w' ∧ file_text w' f = Some t.
Proof.
  intros E. destruct (Hfiles f w t E) as (Ex & w' & Er & Ef). exists w'. unfold file_read, read_file.
  rewrite (bind_ok _ _ _ _ _ Er), Ef. done.
Qed.

(** The text of an export: JSON in some order, or markup. *)
Lemma export_text_json fmt t v text : is_str fmt #"xml" = false → loads2 t = Ok v → json_ok None v = true →
  export_text dict_order beyond fmt (PyStr t) = Ok text → loads2 text = Ok (reorder dict_order v).
Proof.
  unfold export_text. cbn [as_str or_raise mbind outcome_bind]. intros -> -> Hv [= <-].
  apply loads_with_enc; [apply pretty_opts_ok|by apply json_ok_reorder].
Qed.

Lemma export_text_xml fmt t text : is_str fmt #"xml" = true →
  export_text dict_order beyond fmt (PyStr t) = Ok text → loads2 text = Raise JSONDecodeError.
Proof.
  unfold export_text. cbn [as_str or_raise mbind outcome_bind]. intros ->.
  intros (x & _ & [= <-])%outcome_bind_inv. rewrite tostring_body. apply markup_not_json.
Qed.

(** Once the file has been read, the module is not in check mode, and once it has
    been read again, the server accepts the text. *)
Definition import_possible (w : W) (target : pystr) (fmt : pyval) (text : pystr) : Prop :=
  ∀ w1, file_read target w (Ok text) w1 → check_mode w1 = (Ok false, w1) ∧
    ∀ w2, file_read target w1 (Ok text) w2 →
      ∃ r w3, zbx_call #"configuration.import_" (import_params fmt text) w2 = (Ok r, w3).

(** C30: moving a template.  A run exports a template to a file, and another run,
    on whatever server, imports that file.  When the first run exports JSON, the
    second accepts the file and sends its text once, which reads as what the first
    server sent, up to the order of entries; when it exports XML, the default, the
    second run refuses the file and sends nothing, whatever its own format is. *)
Theorem export_then_import w p template target fmt id' t text w5 w6 p' w7 state target' fmt' :
  exports exc_str dict_order beyond w p template target fmt id' (PyStr t) text w5 →
  ready exc_str w6 p' w7 → task state target target' fmt' p' → is_import state = true →
  file_text w7 target = file_text (main exc_str dict_order beyond w).2 target →
  (∀ v name, is_str fmt #"xml" = false → loads2 t = Ok v → json_ok None v = true → json_name t = Ok name →
     import_possible w7 target fmt' text →
     ended w6 (main exc_str dict_order beyond w6) [Called #"configuration.import_" (import_params fmt' text)]
       (Exited [(#"changed", PyBool true)]) ∧
     loads2 text = Ok (reorder dict_order v)) ∧
  (is_str fmt #"xml" = true →
     ended w6 (main exc_str dict_order beyond w6) []
       (Failed [(#"msg", PyStr (#"Invalid JSON: " ++ exc_str JSONDecodeError))])).
Proof.
  intros He Hr Ht Hi Hf. pose proof He as (w1 & res & id & w2 & res' & w3 & w4 & He').
  assert (export_text dict_order beyond fmt (PyStr t) = Ok text) as Etext by apply He'.
  destruct (exports_finished exc_str dict_order beyond _ _ _ _ _ _ _ _ _ He) as [_ Hfile]. rewrite <- Hf in Hfile.
  destruct (written_read _ _ _ Hfile) as (w8 & Hr1 & Hf1). split.
  - intros v name Hx Et Hv Hn Hp. destruct (Hp _ Hr1) as [Hc Hz]. pose proof (export_text_json _ _ _ _ Hx Et Hv Etext) as El.
    split; [|done]. destruct (written_read _ _ _ Hf1) as (w9 & Hr2 & _). destruct (Hz w9 Hr2) as (r & w10 & Ez).
    eapply (import_sent exc_str dict_order beyond w6 p' w7 state target target' fmt' w8 text w9 r w10 Hr Ht Hi); [|done..].
    left. split; [done|]. exists text, (reorder dict_order name). split; [exact Hr1|].
    by apply (json_name_reorder dict_order Horder t text v name).
  - intros Hx. apply (import_needs_json exc_str dict_order beyond w6 p' w7 state target target' fmt' text _ w8 Hr Ht Hi Hr1).
    by eapply export_text_xml.
Qed.
End transfer.

(** * A concrete transfer *)

Lemma demo_files_back f (w : demo_server) t : file_text w f = Some t →
  path_exists f w = (Ok true, w) ∧ ∃ w', open_read f w = (Ok (Ok t), w') ∧ file_text w' = file_text w.
Proof.
  intros E. assert (dict_get f (dh_files (dw_host w)) = Some t) as E' by exact E. destruct w as [h x]. cbn in E'. split.
  - unfold path_exists, world_files, on_host. cbn. unfold gets, dict_mem. cbn.
    by rewrite bool_decide_eq_true_2 by by eapply dict_get_Some_keys.
  - exists (DemoWorld h x). unfold open_read, world_files, on_host. cbn. by rewrite E'.
Qed.

(** The template, the text an export writes, the run that writes it, and one that
    imports the file from the state it has left. *)
Definition demo_value : pyval :=
  PyDict [(#"zabbix_export", PyDict [(#"templates", PyList [PyDict [(#"name", PyStr #"t")]])])].
Definition demo_text : pystr := enc pretty_opts 0 demo_value.

Definition demo_exporting : demo_server :=
  demo_world_of (demo_params #"export" #"t" (PyStr #"/f") #"json" false) [] [found #"7"; found #"7"; Ok (PyStr demo_file)].
Definition demo_importing : demo_server :=
  demo_world_of (demo_params #"import" #"/f" PyNone #"json" false) [(#"/f", demo_text)] [Ok (PyBool true)].

Lemma demo_exports : exports demo_exc demo_order demo_beyond demo_exporting
  (demo_params #"export" #"t" (PyStr #"/f") #"json" false) #"t" #"/f" (PyStr #"json") (PyStr #"7") (PyStr demo_file)
  demo_text (open_write #"/f" demo_text (DemoWorld (dh_add
     [get_event #"t"; get_event #"t"; Called #"configuration.export" (export_params (PyStr #"7") (PyStr #"json"))]
     (dw_host demo_exporting)) [])).2.
Proof.
  exists demo_exporting, (PyList [PyDict [(#"templateid", PyStr #"7")]]), (PyStr #"7"). do 4 eexists.
  split; [by apply demo_ready_params|]. split; [apply template_demo_task|].
  split_and!; vm_compute; reflexivity.
Qed.

Lemma export_then_import_witness :
  ended demo_importing (demo_main demo_importing)
    [Called #"configuration.import_" (import_params (PyStr #"json") demo_text)] (Exited [(#"changed", PyBool true)]) ∧
  loads2 demo_text = Ok demo_value.
Proof.
  refine (proj1 (export_then_import demo_exc demo_order demo_beyond (λ d, reflexivity d) demo_files_back
    demo_exporting _ #"t" #"/f" (PyStr #"json") (PyStr #"7") demo_file demo_text _
    demo_importing _ demo_importing #"import" PyNone (PyStr #"json") demo_exports
    (demo_ready_params _ _ _ _ _ _ _ _) (template_demo_task _ _ _ _ _) _ _) demo_value (PyStr #"t") _ _ _ _ _).
  - vm_compute. reflexivity.
  - vm_compute. reflexivity.
  - vm_compute. reflexivity.
  - reflexivity.
  - vm_compute. reflexivity.
  - vm_compute. reflexivity.
  - vm_compute. reflexivity.
  - assert (∀ w1, file_read #"/f" demo_importing (Ok demo_text) w1 → w1 = demo_importing) as Hw.
    { intros w1 [_ E]. vm_compute in E. injection E as <-. by vm_compute. }
    intros w1 ->%Hw. split; [vm_compute; reflexivity|]. intros w2 ->%Hw. do 2 eexists. vm_compute. reflexivity.
Defined.
