(* ===== verification/ZabbixCall.v ===== *)
(** The Ansible module [zabbix] ([roles/esdc-mon/library/zabbix.py]): one call of
    a method of the Zabbix API; and the Jinja2 parameters of
    [files/opnsense/j2filters.py]. *)
From S2P Require Export ZabbixApi.
From Stdlib Require Import NArith ZArith Lia.

Section zabbix_call.
Context {W : Type} `{AnsibleModule W} `{Files W} `{Zabbix W}.
(** [str(exc)] *)
Variable exc_str : exn → pystr.

Definition spec : arg_spec := ArgSpec
  [Arg #"server_url" [#"url"] true PyNone [] TStr;
   Arg #"login_user" [] true PyNone [] TStr;
   Arg #"login_password" [] true PyNone [] TStr;
   Arg #"api_method" [] true PyNone [] TStr;
   Arg #"api_params_dict" [] false (PyDict []) [] TDict;
   Arg #"api_params_list" [] false (PyList []) [] TList;
   Arg #"timeout" [] false (PyInt 10) [] TInt;
   Arg #"validate_certs" [] false (PyBool false) [] TBool]
  [].

(** [a or b] *)
Definition py_or (a b : pyval) : pyval := if truthy a then a else b.

(** [zbx.call(...)] and its two [except] clauses *)
Definition call_api (api_method : pystr) (api_params : pyval) : M W pyval :=
  try_except (zbx_call api_method api_params) (λ e,
    match e with
    | ZabbixAPIException _ => Some (fail_assert (#"Zabbix API error: " ++ exc_str e))
    | _ => if is_Exception e then Some (fail_assert (#"Unknown failure: " ++ exc_str e)) else None
    end).

(** [api_method.endswith(('.get', '.isreadable', '.iswritable'))] *)
Definition is_query (api_method : pystr) : bool :=
  endswith #".get" api_method || endswith #".isreadable" api_method || endswith #".iswritable" api_method.

Definition main : M W unit :=
  params ← am_init spec;
  require_api;;
  server_url ← param params #"server_url";
  login_user ← param params #"login_user";
  login_password ← param params #"login_password";
  api_method ← param params #"api_method";
  params_list ← param params #"api_params_list";
  params_dict ← param params #"api_params_dict";
  let api_params := py_or params_list params_dict in
  timeout ← param params #"timeout";
  ssl_verify ← param params #"validate_certs";
  connect exc_str server_url timeout ssl_verify login_user login_password;;
  name ← lift (or_raise TypeError (as_str api_method));
  result ← call_api name api_params;
  let changed := if is_query name then false else true in
  exit_json [(#"changed", PyBool changed); (#"result", result)].

(** * Properties *)

Context `{!AnsibleLaws W} `{!FilesLaws W} `{!ZabbixLaws W}.

(** The module is connected, with this call to make. *)
Definition ready (w : W) (api_method : pystr) (api_params : pyval) (w' : W) : Prop :=
  zbx_available = true ∧ ∃ p w1 server user password timeout verify l d,
    am_init spec w = (Ok p, w1) ∧
    dict_get #"server_url" p = Some server ∧ dict_get #"login_user" p = Some user ∧
    dict_get #"login_password" p = Some password ∧ dict_get #"timeout" p = Some timeout ∧
    dict_get #"validate_certs" p = Some verify ∧ dict_get #"api_method" p = Some (PyStr api_method) ∧
    dict_get #"api_params_list" p = Some l ∧ dict_get #"api_params_dict" p = Some d ∧
    api_params = py_or l d ∧
    connect exc_str server timeout verify user password w1 = (Ok tt, w').

Lemma ready_main w m ps w' : ready w m ps w' →
  main w = (result ← call_api m ps;
            exit_json [(#"changed", PyBool (if is_query m then false else true)); (#"result", result)]) w'
  ∧ logged w w' [].
Proof.
  intros (Ha & p & w1 & sv & us & pw & ti & ve & l & d & Ei & P1 & P2 & P3 & P4 & P5 & P6 & P7 & P8 & -> & Ec).
  split; [|eapply (logged_trans _ _ _ [] []); [eapply (am_init_ran _ _ _ _ Ei)|by eapply connect_logged]].
  unfold main. rewrite (bind_ok _ _ _ _ _ Ei). unfold require_api. rewrite Ha, ret_bind.
  unfold param, getitem_str. rewrite P1, P2, P3, P4, P5, P6, P7, P8. cbn [or_raise].
  do 6 (erewrite lift_ok by reflexivity). cbv zeta. do 2 (erewrite lift_ok by reflexivity).
  rewrite (bind_ok _ _ _ _ _ Ec). by erewrite lift_ok by reflexivity.
Qed.

(** C31: the method is called exactly once, with the list of parameters or, if that
    is empty, with the dictionary; its result is returned, and a change is
    reported unless the name of the method ends like that of a query.  Check mode
    makes no difference, although the module claims to support it. *)
Theorem zabbix_call_result w m ps w1 r w2 :
  ready w m ps w1 → zbx_call m ps w1 = (Ok r, w2) →
  ended w (main w) [Called m ps]
    (Exited [(#"changed", PyBool (negb (existsb (λ s, endswith s m) [#".get"; #".isreadable"; #".iswritable"])));
             (#"result", r)]).
Proof.
  intros Hr E. destruct (ready_main _ _ _ _ Hr) as [-> Hl].
  apply (ended_after _ _ _ [] [_] _ Hl).
  apply (ended_bind _ _ _ r w2 [_] []); [by apply try_ok|eapply (zbx_call_logged _ _ _ _ _ E)|].
  assert ((if is_query m then false else true)
    = negb (existsb (λ s, endswith s m) [#".get"; #".isreadable"; #".iswritable"])) as ->; [|apply exit_ended].
  unfold is_query. cbn [existsb]. rewrite orb_false_r, orb_assoc. by destruct (_ || _).
Qed.

(** A call that fails is reported as a failure: an error of the API as such,
    any other exception as unknown; an interruption is passed on. *)
Theorem zabbix_call_failure w m ps w1 e w2 :
  ready w m ps w1 → zbx_call m ps w1 = (Raise e, w2) →
  if is_Exception e then
    ended w (main w) [Called m ps]
      (Failed [(#"msg", PyStr ((match e with
                                | ZabbixAPIException _ => #"Zabbix API error: "
                                | _ => #"Unknown failure: "
                                end) ++ exc_str e))])
  else main w = (Raise e, w2).
Proof.
  intros Hr E. destruct (ready_main _ _ _ _ Hr) as [-> Hl].
  assert (logged w1 w2 [Called m ps]) as Hc by eapply (zbx_call_logged _ _ _ _ _ E).
  destruct (is_Exception e) eqn:Ee.
  - apply (ended_after _ _ _ [] [_] _ Hl). apply ended_early.
    unfold call_api. destruct e; try done;
      (erewrite try_caught by (done || exact E)); (apply (ended_after _ _ _ [_] [] _ Hc), fail_assert_ended).
  - apply bind_raised. apply try_uncaught; [exact E|]. by destruct e.
Qed.
End zabbix_call.

(** [j2_environment_params] of [j2filters.py]; the tuple is a list here. *)
Definition j2_environment_params : dict pyval :=
  [(#"extensions", PyList [PyStr #"jinja2_base64_filters.Base64Filters"])].

(** * Concrete runs *)

Definition demo_exc (e : exn) : pystr := match e with ZabbixAPIException m => m | _ => #"?" end.

Definition demo_params (m : pystr) : dict pyval :=
  [(#"server_url", PyStr #"http://z/"); (#"login_user", PyStr #"u"); (#"login_password", PyStr #"p");
   (#"api_method", PyStr m); (#"api_params_dict", PyDict [(#"hostids", PyStr #"1")]);
   (#"api_params_list", PyList []); (#"timeout", PyInt 10); (#"validate_certs", PyBool false);
   (#"_ansible_check_mode", PyBool true)].

Definition demo_start (m : pystr) (answer : outcome pyval) : demo_server :=
  DemoWorld (DemoHost (demo_params m) [] [] []) [answer].

Lemma call_demo_ready m answer :
  ready demo_exc (demo_start m answer) m (PyDict [(#"hostids", PyStr #"1")]) (demo_start m answer).
Proof.
  split; [done|]. do 9 eexists. split; [reflexivity|]. by split_and!.
Qed.

Lemma zabbix_call_result_witness :
  ended (demo_start #"host.delete" (Ok PyNone)) (main (W := demo_server) demo_exc (demo_start #"host.delete" (Ok PyNone)))
    [Called #"host.delete" (PyDict [(#"hostids", PyStr #"1")])]
    (Exited [(#"changed", PyBool true); (#"result", PyNone)]).
Proof.
  refine (zabbix_call_result demo_exc _ #"host.delete" (PyDict [(#"hostids", PyStr #"1")]) _ PyNone _
    (call_demo_ready _ _) _). reflexivity.
Defined.

Lemma zabbix_call_failure_witness :
  ended (demo_start #"host.get" (Raise (ZabbixAPIException #"denied")))
    (main (W := demo_server) demo_exc (demo_start #"host.get" (Raise (ZabbixAPIException #"denied"))))
    [Called #"host.get" (PyDict [(#"hostids", PyStr #"1")])]
    (Failed [(#"msg", PyStr #"Zabbix API error: denied")]).
Proof.
  refine (zabbix_call_failure demo_exc _ #"host.get" (PyDict [(#"hostids", PyStr #"1")]) _
    (ZabbixAPIException #"denied") _ (call_demo_ready _ _) _). reflexivity.
Defined.
