(* ===== verification/AnsibleDocs.v ===== *)
(** The documentation of the Ansible modules: what [DOCUMENTATION] says about the
    options of each, as the value its YAML stands for, against the argument
    specification of the code; and the tasks of [EXAMPLES], with what they run. *)
From S2P Require Import Vmadm.
From S2P Require Import Imgadm.
From S2P Require Import Selinux.
From S2P Require Import ZabbixTemplate.
From Stdlib Require Import NArith ZArith Lia.

Definition text (s : pystr) : pyval := PyStr s.
Definition texts (l : list pystr) : pyval := PyList (PyStr <$> l).

(** * The texts *)

Definition vmadm_DOCUMENTATION : pyval := PyDict
  [(#"module", text #"vmadm");
   (#"author", text #"Hugo Silva");
   (#"version_added", text #"1.8.2");
   (#"short_description", text #"Manage SmartOS virtual machines");
   (#"description", texts
     [#"The vmadm tool allows you to interact with virtual machines on a SmartOS system. All 3 of: OS Virtual Machines (SmartOS zones), LX Virtual Machines and KVM Virtual Machines can be managed. vmadm allows you to create, inspect, modify and delete virtual machines on the local system."]);
   (#"options", PyDict
     [(#"state", PyDict
        [(#"required", PyBool true);
         (#"choices", texts [#"present"; #"absent"; #"rebooted"; #"started"; #"stopped"; #"updated"]);
         (#"description", texts [#"which state the virtual machine should be in"])]);
      (#"uuid", PyDict
        [(#"required", PyBool false);
         (#"description", texts [#"virtual machine uuid (either this or alias)"])]);
      (#"alias", PyDict
        [(#"required", PyBool false);
         (#"description", texts [#"virtual machine alias (either this or uuid)"])]);
      (#"manifest", PyDict
        [(#"required", PyBool false);
         (#"description", texts [#"a valid json file for create/update"])]);
      (#"proplist", PyDict
        [(#"required", PyBool false);
         (#"description", texts [#"a k=v whitespace-separated list to pass to vmadm update"])])])].

Definition imgadm_DOCUMENTATION : pyval := PyDict
  [(#"module", text #"imgadm");
   (#"author", text #"Hugo Silva");
   (#"version_added", text #"1.8.2");
   (#"short_description", text #"Manage SmartOS VM images");
   (#"description", texts
     [#"The imgadm tool allows you to interact with virtual machine images on a SmartOS system. Virtual machine images (also sometimes referred to as 'datasets') are snapshots of pre-installed virtual machines which are prepared for generic and repeated deployments."]);
   (#"options", PyDict
     [(#"command", PyDict
        [(#"required", PyBool true);
         (#"choices", texts [#"sources"; #"import"; #"update"]);
         (#"description", texts [#"which subcommand to run"])]);
      (#"url", PyDict
        [(#"required", PyBool false);
         (#"description", texts [#"url for a imgapi server (used for 'sources')"])]);
      (#"state", PyDict
        [(#"required", PyBool false);
         (#"choices", texts [#"present"; #"absent"]);
         (#"default", text #"present");
         (#"description", texts [#"describe the desired state"])]);
      (#"uuid", PyDict
        [(#"required", PyBool false);
         (#"aliases", texts [#"name"]);
         (#"description", texts [#"uuid of the dataset to import/update/delete"])]);
      (#"zpool", PyDict
        [(#"required", PyBool false);
         (#"default", text #"zones");
         (#"description", texts [#"an alternative zpool name. used for importing/deleted"])]);
      (#"update", PyDict
        [(#"required", PyBool false);
         (#"default", PyBool false);
         (#"choices", PyList [PyBool true; PyBool false; PyBool true; PyBool false; PyInt 1; PyInt 0; PyBool true; PyBool false]);
         (#"description", texts
           [#"update image list, or optionally a single image. Used with command='image'"])])])].

Definition selinux_permissive_DOCUMENTATION : pyval := PyDict
  [(#"module", text #"selinux_permissive");
   (#"short_description", text #"Change permissive domain in SELinux policy");
   (#"description", texts [#"Add and remove domain from the list of permissive domain."]);
   (#"version_added", text #"1.8");
   (#"options", PyDict
     [(#"domain", PyDict
        [(#"description", texts
           [#"the domain that will be added or removed from the list of permissive domains"]);
         (#"required", PyBool true)]);
      (#"permissive", PyDict
        [(#"description", texts
           [#"indicate if the domain should or should not be set as permissive"]);
         (#"required", PyBool true)]);
      (#"no_reload", PyDict
        [(#"description", texts
           [#"automatically reload the policy after a change";
            #"default is 'true' as that's what most people would want after changing one domain";
            #"Note that this doesn't work on older version of the library (example EL 6), the module will silently ignore it in this case"]);
         (#"required", PyBool false);
         (#"default", PyBool false)]);
      (#"store", PyDict
        [(#"description", texts [#"name of the SELinux policy store to use"]);
         (#"required", PyBool false);
         (#"default", PyNone)])]);
   (#"notes", texts [#"Requires a version of SELinux recent enough ( ie EL 6 or newer )"]);
   (#"requirements", texts [#"policycoreutils-python"]);
   (#"author", text #"Michael Scherer <misc@zarb.org>")].

Definition zabbix_template_DOCUMENTATION : pyval := PyDict
  [(#"module", text #"zabbix_template");
   (#"short_description", text #"Import templates to Zabbix");
   (#"description", texts [#"Import Zabbix templates via Zabbix API"]);
   (#"version_added", text #"1.8");
   (#"author", text (#"Adam " ++ [352%N] ++ #"tevko"));
   (#"requirements", texts [#"zabbix-api python module"]);
   (#"options", PyDict
     [(#"server_url", PyDict
        [(#"description", texts
           [#"Url of Zabbix server, with protocol (http or https). C(url) is an alias for C(server_url)."]);
         (#"required", PyBool true);
         (#"default", PyNone);
         (#"aliases", texts [#"url"])]);
      (#"login_user", PyDict
        [(#"description", texts [#"Zabbix user name."]);
         (#"required", PyBool true);
         (#"default", PyNone)]);
      (#"login_password", PyDict
        [(#"description", texts [#"Zabbix user password."]);
         (#"required", PyBool true);
         (#"default", PyNone)]);
      (#"state", PyDict
        [(#"description", texts [#"Import or delete Zabbix template."]);
         (#"required", PyBool false);
         (#"default", text #"present");
         (#"choices", texts [#"present"; #"absent"; #"import"; #"export"])]);
      (#"template", PyDict
        [(#"description", texts [#"Location of template file."]);
         (#"required", PyBool true)]);
      (#"timeout", PyDict
        [(#"description", texts [#"The timeout of API request(seconds)."]);
         (#"default", PyInt 10)]);
      (#"validate_certs", PyDict
        [(#"description", texts [#"Whether to perform HTTPS certificate verification."]);
         (#"default", PyBool false)]);
      (#"format", PyDict
        [(#"description", texts [#"Output format of exported template"]);
         (#"default", text #"xml");
         (#"choices", texts [#"xml"; #"json"])])]);
   (#"notes", texts
     [#"Too many concurrent updates to the same group may cause Zabbix to return errors, see examples for a workaround if needed."])].

(** A task of [EXAMPLES]: the comment above it and its arguments. *)
Record example := Example { e_comment : pystr; e_args : dict pystr }.

Definition a_uuid : pystr := #"e19429c2-f412-4210-b0cf-5ed59b81b8f1".
Definition ram_quota : pystr := #"ram=256 quota=64".

Definition vmadm_EXAMPLES : list example :=
  [Example #"Create a vm"
     [(#"manifest", #"/opt/custom/zones/webserver.json"); (#"state", #"present")];
   Example #"Start a previously created vm (by alias)" [(#"alias", #"webserver"); (#"state", #"started")];
   Example #"Start a previously created vm (by uuid)" [(#"uuid", a_uuid); (#"state", #"started")];
   Example #"Stop a previously created vm (by alias)" [(#"alias", #"webserver"); (#"state", #"stopped")];
   Example #"Stop a previously created vm (by uuid)" [(#"uuid", a_uuid); (#"state", #"stopped")];
   Example #"Reboot a vm (by alias)" [(#"alias", #"webserver"); (#"state", #"rebooted")];
   Example #"Reboot a vm (by uuid)" [(#"uuid", a_uuid); (#"state", #"rebooted")];
   Example #"Update a vm, using a property list (by alias)"
     [(#"alias", #"webserver"); (#"proplist", ram_quota); (#"state", #"updated")];
   Example #"Update a vm, using a property list (by uuid)"
     [(#"uuid", a_uuid); (#"proplist", ram_quota); (#"state", #"updated")];
   Example #"Update a vm, using payload from a json file (by alias)"
     [(#"alias", #"webserver"); (#"manifest", #"/tmp/update.json"); (#"state", #"updated")];
   Example #"Update a vm, using payload from a json file (by uuid)"
     [(#"uuid", a_uuid); (#"manifest", #"/tmp/update.json"); (#"state", #"updated")];
   Example #"Delete a VM (by alias)" [(#"alias", #"webserver"); (#"state", #"absent")];
   Example #"Delete a VM (by uuid)" [(#"uuid", a_uuid); (#"state", #"absent")]].

Definition base64_image : pystr := #"62f148f8-6e84-11e4-82c5-efca60348b9f".

Definition imgadm_EXAMPLES : list example :=
  [Example #"Install base64 14.3.0 image" [(#"command", #"image"); (#"uuid", base64_image)];
   Example #"Delete base64 14.3.0 image"
     [(#"command", #"image"); (#"uuid", base64_image); (#"state", #"absent")];
   Example #"Update base64 14.3.0 image"
     [(#"command", #"image"); (#"uuid", base64_image); (#"update", #"yes")];
   Example #"Update ALL images" [(#"command", #"image"); (#"update", #"yes")];
   Example #"Add a new image source" [(#"command", #"sources"); (#"url", #"http://datasets.at/")];
   Example #"Delete a image source"
     [(#"command", #"sources"); (#"url", #"http://datasets.at/"); (#"state", #"absent")]].

Definition selinux_permissive_EXAMPLES : list example :=
  [Example [] [(#"name", #"httpd_t"); (#"permissive", #"true")]].

(** * The parameters of a task

    [AnsibleModule] looks an option up by its name and its aliases, converts the
    words for a truth value and fills in the defaults. *)

Definition to_bool (v : pyval) : bool :=
  match v with
  | PyBool b => b
  | PyStr s => bool_decide (s ∈ [#"yes"; #"on"; #"1"; #"true"])
  | _ => false
  end.

Definition given_for (args : dict pystr) (a : arg) : option pystr :=
  head (omap (λ n, dict_get n args) (a_name a :: a_aliases a)).

Definition supplied (args : dict pystr) (a : arg) : pyval :=
  let v := match given_for args a with Some s => PyStr s | None => a_default a end in
  match a_type a with TBool => PyBool (to_bool v) | _ => v end.

Definition stands_for (spec : arg_spec) (args : dict pystr) (p : dict pyval) : Prop :=
  Forall (λ a, dict_get (a_name a) p = Some (supplied args a)) (arguments spec).

(** An argument of an example, or [None]. *)
Definition e_arg (ex : example) (name : pystr) : pyval := of_opt_str (dict_get name (e_args ex)).

Definition e_text (ex : example) (name : pystr) : pystr := default [] (dict_get name (e_args ex)).

(** What the comment says is done: its first word. *)
Definition e_verb (ex : example) : pystr := str_lower (default [] (head (split_ws (e_comment ex)))).

Lemma stands_option spec args p a : stands_for spec args p → a ∈ arguments spec →
  dict_get (a_name a) p = Some (supplied args a).
Proof. unfold stands_for. rewrite Forall_forall. auto. Qed.

(** A text option under its own name. *)
Lemma supplied_text args a : a_type a = TStr → omap (λ n, dict_get n args) (a_aliases a) = [] →
  supplied args a = match dict_get (a_name a) args with Some s => PyStr s | None => a_default a end.
Proof.
  intros Ht Ha. unfold supplied, given_for. rewrite Ht. cbn [omap list_omap].
  destruct (dict_get (a_name a) args); [done|]. by rewrite Ha.
Qed.

Lemma stands_text spec args p a : stands_for spec args p → a ∈ arguments spec → a_type a = TStr →
  a_default a = PyNone → omap (λ n, dict_get n args) (a_aliases a) = [] →
  dict_get (a_name a) p = Some (of_opt_str (dict_get (a_name a) args)).
Proof.
  intros Hp Ha Ht Hd Hn. rewrite (stands_option _ _ _ _ Hp Ha), (supplied_text _ _ Ht Hn), Hd.
  by destruct (dict_get (a_name a) args).
Qed.

(** * vmadm *)

Lemma vmadm_example_task ex p st : dict_get #"name" (e_args ex) = None → dict_get #"state" (e_args ex) = Some st →
  stands_for Vmadm.spec (e_args ex) p →
  Vmadm.task (PyStr st) (e_arg ex #"uuid") (e_arg ex #"alias") (e_arg ex #"manifest") (e_arg ex #"proplist") p.
Proof.
  intros Hn Hs Hp. pose proof (λ a, stands_text _ _ _ a Hp) as Hg.
  assert (omap (λ n, dict_get n (e_args ex)) [#"name"] = []) as Hn' by (cbn; by rewrite Hn).
  unfold Vmadm.task, e_arg. split_and!.
  - change (PyStr st) with (of_opt_str (Some st)). rewrite <- Hs. exact (Hg _ ltac:(left) eq_refl eq_refl eq_refl).
  - exact (Hg _ ltac:(do 1 right; left) eq_refl eq_refl Hn').
  - exact (Hg _ ltac:(do 2 right; left) eq_refl eq_refl eq_refl).
  - exact (Hg _ ltac:(do 3 right; left) eq_refl eq_refl eq_refl).
  - exact (Hg _ ltac:(do 4 right; left) eq_refl eq_refl eq_refl).
Qed.

(** What the examples have in common, by what they do. *)
Definition vmadm_example_kind (ex : example) : Prop :=
  dict_get #"name" (e_args ex) = None ∧
  ((e_verb ex = #"create" ∧ dict_get #"state" (e_args ex) = Some #"present" ∧
      (∃ m, dict_get #"manifest" (e_args ex) = Some m)) ∨
   (e_verb ex = #"update" ∧ dict_get #"state" (e_args ex) = Some #"updated" ∧
      e_arg ex #"manifest" = opt_text (e_text ex #"manifest") ∧
      e_arg ex #"proplist" = opt_text (e_text ex #"proplist") ∧
      (e_text ex #"manifest" ≠ [] ∨ e_text ex #"proplist" ≠ [])) ∨
   ((e_verb ex ∉ [#"create"; #"update"]) ∧
      (∃ st, dict_get #"state" (e_args ex) = Some st ∧ (st, e_verb ex) ∈ verb_of_state))).

Lemma vmadm_example_kinds : Forall vmadm_example_kind vmadm_EXAMPLES.
Proof.
  unfold vmadm_EXAMPLES. rewrite !Forall_cons, Forall_nil. unfold vmadm_example_kind.
  split_and!; try done;
    first [ left; split_and!; [vm_compute; reflexivity..|by eexists]
          | right; left; split_and!; [vm_compute; reflexivity..|by (left + right)]
          | right; right; split; [vm_compute; set_solver|];
            eexists; split; [reflexivity|]; unfold verb_of_state; vm_compute; set_solver ].
Qed.

Section vmadm_examples.
Context {W : Type} `{FilesLaws W}.
Variable dict_order : dict pystr → dict pystr.
Variable exc_str : exn → pystr.

Lemma vmadm_change_args ex : vmadm_example_kind ex → e_verb ex ∉ [#"create"; #"update"] →
  ∃ st, dict_get #"state" (e_args ex) = Some st ∧ (st, e_verb ex) ∈ verb_of_state.
Proof. unfold vmadm_example_kind. intros (_ & [(E & _)|[(E & _)|(_ & Hst)]]) Hv; [destruct Hv; rewrite E; left|destruct Hv; rewrite E; right; left|done]. Qed.

(** What an example promises on a host whose tools answer: its commands and its
    report.  One that creates a machine runs [create] on its manifest when no
    machine has the alias; one that updates a machine runs one [update] with its
    properties or its manifest, between two readings of the description; every
    other one runs the command that is the first word of its comment. *)
Inductive vmadm_promise (path : pystr) (w : W) (ex : example) : list pystr → am_event → Prop :=
| promise_create data w3 a rc0 se0 w4 rc so se w5 : e_verb ex = #"create" →
    manifest_read w (e_text ex #"manifest") data w3 → dict_get #"alias" data = Some a →
    run_command (lookup_cmd path (fmt2 dict_order a)) w3 = (Ok (rc0, [], se0), w4) →
    run_command (path ++ #" create -f " ++ e_text ex #"manifest") w4 = (Ok (rc, so, se), w5) →
    vmadm_promise path w ex
      [lookup_cmd path (fmt2 dict_order a); path ++ #" create -f " ++ e_text ex #"manifest"]
      (reported true rc so se)
| promise_update machine cmds w3 d1 w4 rc so se w5 d2 w6 : e_verb ex = #"update" →
    let update := update_cmd path machine (e_text ex #"proplist") (e_text ex #"manifest") in
    located path w (e_arg ex #"uuid") (e_arg ex #"alias") machine cmds w3 →
    described dict_order path machine w3 d1 w4 → run_command update w4 = (Ok (rc, so, se), w5) →
    described dict_order path machine w5 d2 w6 →
    vmadm_promise path w ex (cmds ++ [get_cmd path machine; update; get_cmd path machine])
      (if Z.eqb rc 0 && (sha1_hex d1 =s sha1_hex d2)
       then Exited [(#"changed", PyBool false); (#"msg", PyStr [])] else reported true rc so se)
| promise_change machine cmds w3 rc so se w4 : e_verb ex ∉ [#"create"; #"update"] →
    located path w (e_arg ex #"uuid") (e_arg ex #"alias") machine cmds w3 →
    run_command (path ++ #" " ++ e_verb ex ++ #" " ++ machine) w3 = (Ok (rc, so, se), w4) →
    vmadm_promise path w ex (cmds ++ [path ++ #" " ++ e_verb ex ++ #" " ++ machine])
      (reported (startswith #"Successfully" se) rc so se).

(** The examples in the documentation of [vmadm] and the properties of the module
    together: where the tools answer as the comment of an example expects, a task
    that stands for the example runs the commands its comment promises, and no
    others, and reports their result.  (Where they do not, the properties of
    [Vmadm] say what happens instead: a machine that is there is not created
    again, and an update stops at a description with [last_modified].) *)
Theorem vmadm_examples_run w p path w2 ex cmds res : ex ∈ vmadm_EXAMPLES →
  Vmadm.ready w p path w2 → stands_for Vmadm.spec (e_args ex) p →
  vmadm_promise path w2 ex cmds res → finished w (Vmadm.main dict_order exc_str w) cmds res.
Proof.
  intros Hin Hr Hp Hpr. pose proof vmadm_example_kinds as Hk. rewrite Forall_forall in Hk. apply Hk in Hin. clear Hk.
  pose proof (vmadm_example_task ex p) as Ht. pose proof Hin as [Hn Hk].
  destruct Hpr as [data w3 a rc0 se0 w4 rc so se w5 Hv Hm Ha E1 E2|machine cmds w3 d1 w4 rc so se w5 d2 w6 Hv update El E1 E2 E3|machine cmds w3 rc so se w4 Hv El E].
  - destruct Hk as [(_ & Hs & m & Hmf)|[(E & _)|(E & _)]]; [|by rewrite Hv in E|destruct E; rewrite Hv; left].
    specialize (Ht _ Hn Hs Hp). unfold e_arg in Ht at 3. unfold e_text in *. rewrite Hmf in *. cbn [of_opt_str default] in *.
    destruct (create_branch dict_order exc_str p path w2 (e_arg ex #"uuid") (e_arg ex #"alias") m (e_arg ex #"proplist")
      _ _ _ _ _ _ _ _ _ _ (proj1 (proj2 (proj2 (proj2 Ht)))) Hm Ha E1 E2).
    by eapply branch_finished.
  - destruct Hk as [(E & _)|[(_ & Hs & Hmf & Hpl & Hne)|(E & _)]]; [by rewrite Hv in E| |destruct E; rewrite Hv; right; left].
    specialize (Ht _ Hn Hs Hp). rewrite Hmf, Hpl in Ht. 
    destruct (update_branch dict_order exc_str p path w2 (e_arg ex #"uuid") (e_arg ex #"alias") _ _ _ _ _ _ _ _ _ _ _ _ _ Hne El E1 E2 E3).
    by eapply update_finished.
  - destruct (vmadm_change_args ex Hin Hv) as (st & Hs & Hst). specialize (Ht _ Hn Hs Hp).
    destruct (change_branch dict_order exc_str p path w2 st (e_verb ex) (e_arg ex #"uuid") (e_arg ex #"alias")
      (e_arg ex #"manifest") (e_arg ex #"proplist") _ _ _ _ _ _ _ Hst El E).
    by eapply branch_finished.
Qed.
End vmadm_examples.

(** * imgadm *)

(** What the comments of the examples mean, in their order. *)
Definition imgadm_intents : list pystr :=
  [#" import -q " ++ base64_image; #" delete " ++ base64_image; #" update " ++ base64_image; #" update";
   #" sources -a http://datasets.at/"; #" sources -d http://datasets.at/"].

Lemma imgadm_example_task ex p : dict_get #"name" (e_args ex) = None → stands_for Imgadm.spec (e_args ex) p →
  Imgadm.task (e_text ex #"command") (default #"present" (dict_get #"state" (e_args ex)))
    (e_arg ex #"url") (e_arg ex #"uuid") (PyBool (to_bool (PyStr (default #"no" (dict_get #"update" (e_args ex)))))) p
  ∨ dict_get #"command" (e_args ex) = None.
Proof.
  intros Hn Hp. destruct (dict_get #"command" (e_args ex)) as [cmd|] eqn:Ec; [left|by right].
  assert (omap (λ n, dict_get n (e_args ex)) [#"name"] = []) as Hn' by (cbn; by rewrite Hn).
  pose proof (λ a, stands_text _ _ _ a Hp) as Hg. unfold Imgadm.task, e_arg, e_text. rewrite Ec. split_and!.
  - change (PyStr (default [] (Some cmd))) with (of_opt_str (Some cmd)). rewrite <- Ec.
    exact (Hg _ ltac:(left) eq_refl eq_refl eq_refl).
  - pose proof (stands_option _ _ _ _ Hp ltac:(do 2 right; left)) as Hs. cbn [a_name] in Hs. rewrite Hs.
    rewrite supplied_text by done. cbn [a_name a_default]. by destruct (dict_get #"state" (e_args ex)).
  - exact (Hg _ ltac:(do 1 right; left) eq_refl eq_refl eq_refl).
  - exact (Hg _ ltac:(do 3 right; left) eq_refl eq_refl Hn').
  - pose proof (stands_option _ _ _ _ Hp ltac:(do 5 right; left)) as Hu. cbn [a_name] in Hu. rewrite Hu.
    unfold supplied, given_for. cbn [a_type a_name a_aliases a_default omap list_omap].
    by destruct (dict_get #"update" (e_args ex)).
Qed.

(** The change an example reports. *)
Definition imgadm_example_changed (ex : example) (rc : Z) (so : pystr) : bool :=
  if e_text ex #"command" =s #"sources" then
    match split_ws so with word :: _ => bool_decide (word ∈ [#"Added"; #"Deleted"]) && Z.eqb rc 0 | [] => false end
  else announced so.

(** What each pair of an example and its meaning is for the code. *)
Definition imgadm_example_kind (x : example * pystr) : Prop :=
  let '(ex, c) := x in
  let state := default #"present" (dict_get #"state" (e_args ex)) in
  let update := to_bool (PyStr (default #"no" (dict_get #"update" (e_args ex)))) in
  dict_get #"name" (e_args ex) = None ∧
  ((e_text ex #"command" = #"sources" ∧ ∃ flag url, (state, flag) ∈ sources_flag ∧
      e_arg ex #"url" = PyStr url ∧ url ≠ [] ∧ c = flag ++ url) ∨
   (e_text ex #"command" = #"image" ∧ e_arg ex #"uuid" = Imgadm.given (dict_get #"uuid" (e_args ex)) ∧
      (∀ u, dict_get #"uuid" (e_args ex) = Some u → u ≠ []) ∧
      ∀ path, image_cmd path state update (dict_get #"uuid" (e_args ex)) = Some (path ++ c))).

Lemma imgadm_example_kinds : Forall imgadm_example_kind (zip imgadm_EXAMPLES imgadm_intents).
Proof.
  unfold imgadm_EXAMPLES, imgadm_intents. cbn [zip zip_with]. rewrite !Forall_cons, Forall_nil.
  unfold imgadm_example_kind. split_and!; try done.
  all: first
    [ left; split; [reflexivity|]; eexists _, _; split; [left|]; split_and!; [reflexivity|done|reflexivity]
    | left; split; [reflexivity|]; eexists _, _; split; [right; left|]; split_and!; [reflexivity|done|reflexivity]
    | right; split_and!; [reflexivity|reflexivity|by intros u' [= <-]|by intros path] ].
Qed.

(** C15: the examples in the documentation of [imgadm] do what their comments say,
    on every host: a task that stands for one of them runs exactly the command
    its comment means, and reports its result. *)
Theorem imgadm_examples_run {W} `{AnsibleLaws W} (dict_order : dict pystr → dict pystr)
    (in_booleans_true : pyval → bool) (w w2 w3 : W) p path ex c rc so se :
  (ex, c) ∈ zip imgadm_EXAMPLES imgadm_intents → booleans_law in_booleans_true →
  Imgadm.ready w p path w2 → stands_for Imgadm.spec (e_args ex) p →
  run_command (path ++ c) w2 = (Ok (rc, so, se), w3) → split_ws so ≠ [] →
  finished w (Imgadm.main dict_order in_booleans_true w) [path ++ c]
    (reported (imgadm_example_changed ex rc so) rc so se).
Proof.
  intros Hin Hb Hr Hp E Hso. pose proof imgadm_example_kinds as Hk. rewrite Forall_forall in Hk. apply Hk in Hin. clear Hk.
  destruct Hin as [Hn Hk]. destruct (imgadm_example_task ex p Hn Hp) as [Ht|Hc].
  - destruct Hk as [(Hc & flag & url & Hf & Hu & Hne & ->)|(Hc & Hu & Hne & Hcmd)]; rewrite Hc in Ht.
    + rewrite Hu in Ht. unfold imgadm_example_changed. rewrite bool_decide_eq_true_2 by done.
      destruct (split_ws so) as [|word ws] eqn:Ews; [done|]. by eapply sources_finished.
    + rewrite Hu in Ht. unfold imgadm_example_changed. rewrite Hc, bool_decide_eq_false_2 by done.
      eapply (image_branch_finished dict_order in_booleans_true w p path w2);
        [exact Hr|exact Ht|by eapply image_branch|by eapply run_command_ok].
  - unfold e_text in Hk. rewrite Hc in Hk. by destruct Hk as [(? & _)|(? & _)].
Qed.

(** * selinux_permissive *)

Lemma selinux_example_task ex p : ex ∈ selinux_permissive_EXAMPLES → stands_for Selinux.spec (e_args ex) p →
  Selinux.task #"httpd_t" [] true false p.
Proof.
  intros ->%list_elem_of_singleton Hp. split_and!.
  - exact (stands_option _ _ _ _ Hp ltac:(left)).
  - exact (stands_option _ _ _ _ Hp ltac:(do 1 right; left)).
  - exact (stands_option _ _ _ _ Hp ltac:(do 2 right; left)).
  - exact (stands_option _ _ _ _ Hp ltac:(do 3 right; left)).
Qed.

(** * The options

    How [DOCUMENTATION] and the argument specification differ: options only one
    of them has, and fields in which they differ.  Truth values in the
    specification may be written as words; a choice of them is the type. *)

Inductive divergence :=
| Undocumented (name : pystr)
| NoOption (name : pystr)
| Differs (name field : pystr).

Definition field (k : pystr) (v : pyval) : option pyval :=
  match v with PyDict d => dict_get k d | _ => None end.
Definition doc_options (doc : pyval) : dict pyval :=
  match field #"options" doc with Some (PyDict d) => d | _ => [] end.
Definition field_texts (k : pystr) (v : pyval) : list pystr :=
  match field k v with Some (PyList l) => omap as_str l | _ => [] end.
Definition doc_required (o : pyval) : bool :=
  match field #"required" o with Some v => truthy v | None => false end.
Definition doc_default (o : pyval) : pyval := default PyNone (field #"default" o).

(** Equality of the defaults that occur. *)
Definition same_default (a b : pyval) : bool :=
  match a, b with
  | PyNone, PyNone => true
  | PyBool x, PyBool y => Bool.eqb x y
  | PyInt x, PyInt y => Z.eqb x y
  | PyStr x, PyStr y => x =s y
  | _, _ => false
  end.

Definition spec_default (a : arg) : pyval :=
  match a_type a, a_default a with TBool, PyStr s => PyBool (to_bool (PyStr s)) | _, v => v end.

Definition differs (same : bool) (a : arg) (f : pystr) : list divergence :=
  if same then [] else [Differs (a_name a) f].

Definition option_divergences (doc : pyval) (a : arg) : list divergence :=
  match dict_get (a_name a) (doc_options doc) with
  | None => [Undocumented (a_name a)]
  | Some o =>
      differs (Bool.eqb (doc_required o) (a_required a)) a #"required" ++
      differs (same_default (doc_default o) (spec_default a)) a #"default" ++
      (match a_type a with
       | TBool => []
       | _ => differs (bool_decide (field_texts #"choices" o = a_choices a)) a #"choices"
       end) ++
      differs (bool_decide (field_texts #"aliases" o = a_aliases a)) a #"aliases"
  end.

Definition divergences (doc : pyval) (spec : arg_spec) : list divergence :=
  flat_map (option_divergences doc) (arguments spec) ++
  (NoOption <$> filter (λ n, n ∉ (a_name <$> arguments spec)) (keys (doc_options doc))).

(** The whole difference between the documentation and the code. *)
Example documentation_divergences :
  divergences vmadm_DOCUMENTATION Vmadm.spec = [Differs #"uuid" #"aliases"] ∧
  divergences imgadm_DOCUMENTATION Imgadm.spec = [Differs #"command" #"choices"] ∧
  divergences selinux_permissive_DOCUMENTATION Selinux.spec =
    [Differs #"domain" #"aliases"; Differs #"store" #"default"] ∧
  divergences zabbix_template_DOCUMENTATION ZabbixTemplate.spec =
    [Differs #"state" #"choices"; Undocumented #"target"; Differs #"format" #"choices"].
Proof. vm_compute. by split_and!. Qed.

(** * Concrete tasks *)

Definition demo_doc_order (d : dict pystr) : dict pystr := d.

(** The parameters [AnsibleModule] makes of an example. *)
Definition parameters_of (spec : arg_spec) (args : dict pystr) : dict pyval :=
  map (λ a, (a_name a, supplied args a)) (arguments spec).

Definition start_example : example :=
  Example #"Start a previously created vm (by alias)" [(#"alias", #"webserver"); (#"state", #"started")].

Lemma vmadm_examples_run_witness :
  let h := DemoHost (parameters_of Vmadm.spec (e_args start_example)) []
    [(0%Z, #"u-1", []); (0%Z, [], #"Successfully started VM u-1")] [] in
  finished h (Vmadm.main demo_doc_order (λ _, []) h)
    [#"/usr/sbin/vmadm lookup alias=webserver"; #"/usr/sbin/vmadm start u-1"]
    (Exited [(#"changed", PyBool true); (#"msg", PyStr [])]).
Proof.
  intros h. refine (vmadm_examples_run demo_doc_order (λ _, []) h (dh_params h) #"/usr/sbin/vmadm" h start_example
    _ _ _ _ _ _).
  - right. left.
  - eexists. split; vm_compute; reflexivity.
  - repeat constructor.
  - refine (promise_change demo_doc_order #"/usr/sbin/vmadm" h start_example #"u-1"
      [lookup_cmd #"/usr/sbin/vmadm" #"webserver"] _ 0 [] #"Successfully started VM u-1" _ _ _ _).
    + apply (bool_decide_unpack _). vm_compute. exact I.
    + eapply by_alias; [vm_compute; discriminate|vm_compute; discriminate|vm_compute; reflexivity].
    + vm_compute. reflexivity.
Defined.

Definition source_example : example :=
  Example #"Add a new image source" [(#"command", #"sources"); (#"url", #"http://datasets.at/")].

Lemma imgadm_examples_run_witness :
  let h := DemoHost (parameters_of Imgadm.spec (e_args source_example)) []
    [(0%Z, #"Added http://datasets.at/", [])] [] in
  finished h (Imgadm.main demo_doc_order Imgadm.demo_booleans_true h) [#"/usr/sbin/imgadm sources -a http://datasets.at/"]
    (Exited [(#"changed", PyBool true); (#"msg", PyStr #"Added http://datasets.at/")]).
Proof.
  intros h. refine (imgadm_examples_run demo_doc_order Imgadm.demo_booleans_true h h _ (dh_params h)
    #"/usr/sbin/imgadm" source_example #" sources -a http://datasets.at/" 0 #"Added http://datasets.at/" []
    _ Imgadm.demo_booleans _ _ _ _).
  - do 4 right. left.
  - eexists. split; vm_compute; reflexivity.
  - repeat constructor.
  - vm_compute. reflexivity.
  - vm_compute. discriminate.
Defined.
