(* ===== verification/ZabbixConfig.v ===== *)
(** The command [es-zabbix-config] ([templates/es-zabbix-config.py.j2] of the role
    esdc-mon): one call of the Zabbix API from the command line.

    The template fills in the defaults of the options, which are parameters. *)
From S2P Require Export ZabbixApi PyArgparse PyRepr.
From Stdlib Require Import NArith ZArith Lia.

Section config.
Context {W F : Type} `{Zabbix W}.
(** Files: [open], [sys.stdin], and the methods [isatty] and [read]. *)
Variable open_file : pystr → M W F.
Variable stdin : F.
Variable isatty : F → M W bool.
Variable fread : F → M W pystr.
(** [str(exc)] *)
Variable exc_str : exn → pystr.
(** The order in which Python 2 visits a dictionary. *)
Variable dict_order : dict pyval → dict pyval.
(** The values of the template. *)
Variables zabbix_url login_user login_password : pystr.
(** What [--help] prints. *)
Variable help_text : pystr.

(** The process: its output, and the outside world. *)
Record process := Process { stdout : pystr; world : W }.

Definition on_world {A} (m : M W A) : M process A := λ s,
  let '(r, w) := m (world s) in (r, Process (stdout s) w).
Definition print (t : pystr) : M process unit := modify (λ s, Process (stdout s ++ t ++ [10%N]) (world s)).

(** [argparse.FileType('r')] *)
Definition file_type (filename : pystr) : M process F :=
  if filename =s #"-" then mret stdin
  else
    try_except (on_world (open_file filename)) (λ e,
      match e with
      | OSError _ => Some (raise (ArgumentTypeError (#"can't open '" ++ filename ++ #"': " ++ exc_str e)))
      | _ => None
      end).

(** [JSONFileType.__call__] *)
Definition json_file_type (filename : pystr) : M process pyval :=
  fp ← file_type filename;
  tty ← on_world (isatty fp);
  if (tty : bool) then mret (PyDict [])
  else
    try_except (text ← on_world (fread fp); lift (loads2 text)) (λ e,
      Some (raise (ArgumentTypeError
        (match e with OSError _ => #"Could not read file" | _ => #"Invalid json" end)))).

(** The options of the parser. *)
Definition options : list option_action :=
  [OptionAction [#"-h"; #"--help"] #"help" Help PyNone;
   OptionAction [#"-s"; #"--server"] #"server" ExactlyOne (PyStr zabbix_url);
   OptionAction [#"-u"; #"--username"] #"username" ExactlyOne (PyStr login_user);
   OptionAction [#"-p"; #"--password"] #"password" ExactlyOne (PyStr login_password);
   OptionAction [#"-d"; #"--data"] #"data" AtMostOne (PyStr #"-")].

(** The conversion of a value: only [--data] has a type, whose documented failures
    end the program. *)
Definition get_value (dest s : pystr) : M process pyval :=
  if dest =s #"data" then
    try_except (json_file_type s) (λ e,
      match e with
      | ArgumentTypeError _ | TypeError => Some error
      | _ => if is_ValueError e then Some error else None
      end)
  else mret (PyStr s).

Definition parse_command_line (args : list pystr) : M process (dict pyval) :=
  parse_args options get_value (print help_text) [#"method"] args.

(** [zapi(server_url, login_user, login_password)] *)
Definition zapi (server_url login_user login_password : pyval) : M process unit :=
  on_world (ZabbixAPI server_url (PyInt 30) (PyBool false));;
  on_world (zbx_login login_user login_password).

(** [json.dumps(v, indent=4)] of Python 2.7 *)
Definition indent_opts : dump_opts := DumpOpts #", " #": " (Some 4).

(** An attribute of the parsed arguments. *)
Definition attribute (args : dict pyval) (name : pystr) : M process pyval :=
  lift (or_raise AttributeError (dict_get name args)).

Definition main (argv : list pystr) : M process unit :=
  args ← parse_command_line (tail argv);
  server ← attribute args #"server";
  username ← attribute args #"username";
  password ← attribute args #"password";
  zapi server username password;;
  m ← attribute args #"method";
  data ← attribute args #"data";
  method ← lift (or_raise TypeError (as_str m));
  res ← on_world (zbx_call method data);
  print (enc indent_opts 0 (reorder dict_order res));;
  raise (SystemExit 0).

(** * Command lines *)

Inductive flag := Server | Username | Password | Data.

Definition flag_dest (f : flag) : pystr :=
  match f with Server => #"server" | Username => #"username" | Password => #"password" | Data => #"data" end.
Definition flag_long (f : flag) : pystr :=
  match f with Server => #"server" | Username => #"username" | Password => #"password" | Data => #"data" end.
Definition flag_short (f : flag) : pystr :=
  match f with Server => #"-s" | Username => #"-u" | Password => #"-p" | Data => #"-d" end.

(** How an option with an argument is written: [-u v], [-uv], [-u=v],
    [--username v] and [--username=v]; of a long name the first letters are
    enough, how many is up to the user. *)
Inductive form := Short | ShortJoined | ShortEquals | Long (letters : nat) | LongEquals (letters : nat).

Definition written (f : flag) (fm : form) (v : pystr) : pystr :=
  match fm with
  | Short => flag_short f
  | ShortJoined => flag_short f ++ v
  | ShortEquals => flag_short f ++ #"=" ++ v
  | Long n => #"--" ++ take n (flag_long f)
  | LongEquals n => #"--" ++ take n (flag_long f) ++ #"=" ++ v
  end.
Definition joined (fm : form) : bool :=
  match fm with Short | Long _ => false | ShortJoined | ShortEquals | LongEquals _ => true end.

(** An option with its argument: which one, in which form, and the argument.  An
    argument in a word of its own is not taken for an option; the mark [--] is
    never an argument. *)
Definition choice : Type := flag * form * pystr.
Definition choice_ok (x : choice) : Prop :=
  let '(f, fm, v) := x in
  match fm with
  | Short => plain_arg v = true
  | ShortJoined => v ≠ [] ∧ startswith #"=" v = false ∧ v ≠ #"--"
  | ShortEquals => v ≠ #"--"
  | Long n => 1 ≤ n ≤ length (flag_long f) ∧ plain_arg v = true
  | LongEquals n => 1 ≤ n ≤ length (flag_long f) ∧ v ≠ #"--"
  end.
Definition choice_words (l : list choice) : list pystr :=
  l ≫= λ x, let '(f, fm, v) := x in written f fm v :: if joined fm then [] else [v].

(** The last argument given for an option. *)
Definition given (dest : pystr) (l : list choice) : option pystr :=
  dict_get dest (rev (map (λ x, (flag_dest x.1.1, x.2)) l)).

(** What an exception that ends a conversion becomes. *)
Definition conversion_failure (e : exn) : exn :=
  match e with
  | ArgumentTypeError _ | TypeError => SystemExit 2
  | _ => if is_ValueError e then SystemExit 2 else e
  end.

(** The data in a file, or on standard input for [-]: nothing on a terminal, else
    JSON.  A file that cannot be opened and anything that goes wrong while it is
    read end the program with the exit code 2. *)
Definition read_json (filename : pystr) : M process pyval := λ s,
  let after (w : W) : process := Process (stdout s) w in
  match (if filename =s #"-" then (Ok stdin, world s) else open_file filename (world s)) with
  | (Raise (OSError _), w) => (Raise (SystemExit 2), after w)
  | (Raise e, w) => (Raise (conversion_failure e), after w)
  | (Ok file, w) =>
      match isatty file w with
      | (Raise e, w) => (Raise (conversion_failure e), after w)
      | (Ok true, w) => (Ok (PyDict []), after w)
      | (Ok false, w) =>
          match fread file w with
          | (Raise _, w) => (Raise (SystemExit 2), after w)
          | (Ok text, w) =>
              match loads2 text with
              | Ok v => (Ok v, after w)
              | Raise _ => (Raise (SystemExit 2), after w)
              end
          end
      end
  end.

(** What is read for each option, in the order of the command line. *)
Definition read_value (f : flag) (v : pystr) : M process pyval :=
  match f with Data => read_json v | _ => mret (PyStr v) end.
Fixpoint read_choices (l : list choice) : M process (dict pyval) :=
  match l with
  | [] => mret []
  | (f, _, v) :: l' => x ← read_value f v; r ← read_choices l'; mret ((flag_dest f, x) :: r)
  end.

(** The data of the call: the last that is given, or standard input. *)
Definition read_data (l : list choice) : M process pyval :=
  r ← read_choices l;
  match dict_get #"data" (rev r) with
  | Some d => mret d
  | None => read_json #"-"
  end.

(** What the command promises to do. *)
Definition reference (l : list choice) (method : pystr) : M process unit :=
  data ← read_data l;
  on_world (ZabbixAPI (PyStr (default zabbix_url (given #"server" l))) (PyInt 30) (PyBool false));;
  on_world (zbx_login (PyStr (default login_user (given #"username" l)))
    (PyStr (default login_password (given #"password" l))));;
  res ← on_world (zbx_call method data);
  print (enc indent_opts 0 (reorder dict_order res));;
  raise (SystemExit 0).

(** The conversion of the parser reads the same. *)
Lemma get_json filename s : get_value #"data" filename s = read_json filename s.
Proof.
  unfold get_value, read_json. rewrite bool_decide_eq_true_2 by done.
  unfold json_file_type, file_type, try_except, on_world, mbind, M_bind, lift.
  destruct (filename =s #"-").
  - cbn [mret M_ret]. destruct (isatty stdin (world s)) as [[[]|e] w]; [done| |by destruct e].
    cbn [world stdout]. destruct (fread stdin w) as [[text|e] w']; [|by destruct e].
    destruct (loads2 text) as [v|e]; [done|by destruct e].
  - destruct (open_file filename (world s)) as [[file|e] w0]; [|by destruct e]. cbn [world stdout].
    destruct (isatty file w0) as [[[]|e] w]; [done| |by destruct e].
    cbn [world stdout]. destruct (fread file w) as [[text|e] w']; [|by destruct e].
    destruct (loads2 text) as [v|e]; [done|by destruct e].
Qed.

Lemma get_flag f v s : get_value (flag_dest f) v s = read_value f v s.
Proof. destruct f; [done..|apply get_json]. Qed.

Definition flag_option (f : flag) : option_action :=
  match f with
  | Server => OptionAction [#"-s"; #"--server"] #"server" ExactlyOne (PyStr zabbix_url)
  | Username => OptionAction [#"-u"; #"--username"] #"username" ExactlyOne (PyStr login_user)
  | Password => OptionAction [#"-p"; #"--password"] #"password" ExactlyOne (PyStr login_password)
  | Data => OptionAction [#"-d"; #"--data"] #"data" AtMostOne (PyStr #"-")
  end.
Definition to_setting (x : choice) : setting :=
  let '(f, fm, v) := x in
  Setting (written f fm v) (flag_option f)
    (match fm with Short | ShortJoined | ShortEquals => flag_short f | _ => #"--" ++ flag_long f end) (joined fm) v.

Lemma split1_first c d s p e : c ≠ d → split1 d (c :: s) = Some (p, e) → ∃ p', p = c :: p'.
Proof.
  intros Hcd. cbn. rewrite (proj2 (N.eqb_neq _ _)) by done.
  destruct (split1 d s) as [[a b]|]; [|done]. intros [= <- _]. by exists a.
Qed.

Lemma split1_two a b t : a ≠ 61%N → b ≠ 61%N →
  split1 61 (a :: b :: t) = (λ pe, ([a; b] ++ pe.1, pe.2)) <$> split1 61 t.
Proof.
  intros Ha Hb. cbn [split1]. rewrite !(proj2 (N.eqb_neq _ _)) by done. by destruct (split1 61 t) as [[]|].
Qed.

(** A short option with its argument right behind it. *)
Lemma classify_joined f v : v ≠ [] → startswith #"=" v = false →
  classify_one options (flag_short f ++ v) = Some (ArgOption (Some (flag_option f)) (flag_short f) (Some v)).
Proof.
  intros Hv He. destruct v as [|c v]; [done|].
  assert (c ≠ 61%N) as Hc by (intros ->; done).
  assert (∀ t, split1 61 (flag_short f ++ t) = (λ pe, (flag_short f ++ pe.1, pe.2)) <$> split1 61 t) as Ht.
  { intros t. destruct f; by apply (split1_two _ _ t). }
  assert (split1 61 (flag_short f ++ c :: v) ≫= (λ pe, (λ o, (o, pe.1, pe.2)) <$> find_option options pe.1) = None) as Hs.
  { rewrite Ht. destruct (split1 61 (c :: v)) as [[p e]|] eqn:E; [|done].
    apply split1_first in E as [p' ->]; [|done]. by destruct f. }
  unfold classify_one. rewrite Hs. destruct f; reflexivity.
Qed.

Lemma to_setting_ok l : Forall choice_ok l → Forall (setting_ok options) (map to_setting l).
Proof.
  intros Hl. apply Forall_map. eapply Forall_impl; [exact Hl|]. intros [[f fm] v] Hv.
  unfold setting_ok. cbn [to_setting s_word s_option s_name s_joined s_value].
  destruct fm as [| | |n|n]; cbn [choice_ok joined written] in *.
  - by destruct f; split_and!.
  - destruct Hv as (Hn & He & Hd). rewrite (classify_joined f v Hn He).
    split_and!; [done| |by destruct f|by apply bool_decide_eq_false].
    apply bool_decide_eq_false. by destruct f.
  - split_and!; [by destruct f|by destruct f|by destruct f|by apply bool_decide_eq_false].
  - destruct Hv as [Hn Hp].
    destruct f; vm_compute length in Hn; (do 9 (destruct n as [|n]; [try lia; by split_and!|])); lia.
  - destruct Hv as [Hn Hd]. assert ((v =s #"--") = false) as Hd' by by apply bool_decide_eq_false.
    destruct f; vm_compute length in Hn; (do 9 (destruct n as [|n]; [try lia; by split_and!|])); lia.
Qed.

Lemma words_choices l : words (map to_setting l) = choice_words l.
Proof.
  induction l as [|[[f fm] v] l IH]; [done|].
  change (setting_words (to_setting (f, fm, v)) ++ words (map to_setting l) =
    (written f fm v :: if joined fm then [] else [v]) ++ choice_words l). by rewrite IH.
Qed.

Definition set_all (ns r : dict pyval) : dict pyval := foldl (λ ns kv, dict_set kv.1 kv.2 ns) ns r.

Lemma apply_choices l ns s :
  apply_settings get_value (map to_setting l) ns s = (r ← read_choices l; mret (set_all ns r)) s.
Proof.
  revert ns s. induction l as [|[[f fm] v] l IH]; intros ns s; [done|]. cbn [map apply_settings read_choices].
  cbn [to_setting s_option s_value]. assert (o_dest (flag_option f) = flag_dest f) as -> by by destruct f.
  unfold mbind, M_bind. rewrite get_flag. destruct (read_value f v s) as [[x|] s1]; [|done]. rewrite IH.
  unfold mbind, M_bind. by destruct (read_choices l s1) as [[]].
Qed.

Lemma get_set_all k ns r : dict_get k (set_all ns r) =
  match dict_get k (rev r) with Some v => Some v | None => dict_get k ns end.
Proof.
  induction r as [|[k' v] r IH] using rev_ind; [done|]. unfold set_all in *. rewrite foldl_snoc, rev_app_distr. cbn.
  rewrite dict_get_set. rewrite IH. cbn. by destruct (k =s k').
Qed.

Lemma dict_get_app {V} k (a b : dict V) :
  dict_get k (a ++ b) = match dict_get k a with Some v => Some v | None => dict_get k b end.
Proof. induction a as [|[k' v] a IH]; [done|]. cbn. by destruct (k =s k'). Qed.

Lemma read_choices_app l l' s : read_choices (l ++ l') s =
  (r ← read_choices l; r' ← read_choices l'; mret (r ++ r')) s.
Proof.
  revert s. induction l as [|[[f long] v] l IH]; intros s; cbn [read_choices app].
  - rewrite ret_bind. unfold mbind, M_bind. by destruct (read_choices l' s) as [[]].
  - unfold mbind, M_bind. destruct (read_value f v s) as [[x|] s1]; [|done]. rewrite IH.
    unfold mbind, M_bind, mret, M_ret. destruct (read_choices l s1) as [[r|] s2]; [|done].
    by destruct (read_choices l' s2) as [[]].
Qed.

Lemma given_cons dest f long v l : given dest ((f, long, v) :: l) =
  match given dest l with Some t => Some t | None => if dest =s flag_dest f then Some v else None end.
Proof. unfold given. cbn [map rev]. by rewrite dict_get_app. Qed.

(** The texts among what is read are the arguments. *)
Lemma read_text dest l s r s1 : dest ≠ #"data" → read_choices l s = (Ok r, s1) →
  dict_get dest (rev r) = PyStr <$> given dest l.
Proof.
  intros Hd. revert s r s1. induction l as [|[[f long] v] l IH]; intros s r s1; cbn [read_choices].
  { by intros [= <- _]. }
  unfold mbind, M_bind. destruct (read_value f v s) as [[x|] s2] eqn:Ex; [|done].
  destruct (read_choices l s2) as [[r'|] s3] eqn:Er; [|done]. intros [= <- _].
  rewrite given_cons. cbn [rev]. rewrite dict_get_app, (IH _ _ _ Er). destruct (given dest l) as [t|]; [done|]. cbn.
  case_bool_decide as Hf; [|done]. subst dest. destruct f; [| | |done]; by injection Ex as <- _.
Qed.

(** A default that is text. *)
Definition fill (k d : pystr) (ns : dict pyval) : dict pyval := if dict_mem k ns then ns else dict_set k (PyStr d) ns.

Lemma get_fill k' k d ns : dict_get k' (fill k d ns) =
  if k' =s k then Some (default (PyStr d) (dict_get k ns)) else dict_get k' ns.
Proof.
  unfold fill, dict_mem. case_bool_decide as Hk.
  - case_bool_decide; [subst|done]. destruct (dict_get k ns) as [v|] eqn:E; [done|]. by apply dict_get_None in E.
  - rewrite dict_get_set. case_bool_decide; [subst|done]. apply dict_get_None in Hk. by rewrite Hk.
Qed.

Lemma add_defaults_options ns s : add_defaults get_value options ns s =
  (let ns' := fill #"password" login_password (fill #"username" login_user (fill #"server" zabbix_url ns)) in
   if dict_mem #"data" ns' then mret ns'
   else v ← get_value #"data" #"-"; mret (dict_set #"data" v ns')) s.
Proof.
  unfold options. cbn [add_defaults o_arity o_dest o_default]. unfold fill.
  assert (∀ k d (f : pyval → M process (dict pyval)) s, k ≠ #"data" → (get_value k d ≫= f) s = f (PyStr d) s) as Ht.
  { intros k d f s1 Hk. unfold get_value. by rewrite bool_decide_eq_false_2. }
  destruct (dict_mem #"server" ns); [|rewrite Ht by done].
  - destruct (dict_mem #"username" _); [|rewrite Ht by done]; destruct (dict_mem #"password" _); rewrite ?Ht by done; done.
  - destruct (dict_mem #"username" _); [|rewrite Ht by done]; destruct (dict_mem #"password" _); rewrite ?Ht by done; done.
Qed.

(** What the command line stands for. *)
Definition arguments_of (l : list choice) (m : pystr) (data : pyval) (ns : dict pyval) : Prop :=
  dict_get #"server" ns = Some (PyStr (default zabbix_url (given #"server" l))) ∧
  dict_get #"username" ns = Some (PyStr (default login_user (given #"username" l))) ∧
  dict_get #"password" ns = Some (PyStr (default login_password (given #"password" l))) ∧
  dict_get #"method" ns = Some (PyStr m) ∧ dict_get #"data" ns = Some data.

Lemma read_data_key l s r s1 : read_choices l s = (Ok r, s1) → dict_get #"method" (rev r) = None.
Proof.
  intros E. rewrite (read_text #"method" l s r s1) by done. clear E.
  induction l as [|[[f long] v] l IH]; [done|]. rewrite given_cons.
  destruct (given #"method" l); [done|]. by destruct f.
Qed.

(** The values set on the way, and the defaults of the text options. *)
Lemma collected l1 l2 m s r1 s1 r2 s2 data :
  read_choices l1 s = (Ok r1, s1) → read_choices l2 s1 = (Ok r2, s2) →
  let ns := set_all (dict_set #"method" (PyStr m) (set_all [] r1)) r2 in
  let ns' := fill #"password" login_password (fill #"username" login_user (fill #"server" zabbix_url ns)) in
  dict_get #"data" ns' = dict_get #"data" (rev (r1 ++ r2)) ∧
  arguments_of (l1 ++ l2) m data (dict_set #"data" data ns') ∧
  (dict_get #"data" ns' = Some data → arguments_of (l1 ++ l2) m data ns').
Proof.
  intros E1 E2 ns ns'. assert (read_choices (l1 ++ l2) s = (Ok (r1 ++ r2), s2)) as E.
  { rewrite read_choices_app. unfold mbind, M_bind. by rewrite E1, E2. }
  assert (∀ k, dict_get k ns = if k =s #"method" then Some (PyStr m) else dict_get k (rev (r1 ++ r2))) as Hns.
  { intros k. unfold ns. rewrite get_set_all, dict_get_set, get_set_all, rev_app_distr, dict_get_app.
    case_bool_decide; [subst; by rewrite (read_data_key _ _ _ _ E2)|].
    destruct (dict_get k (rev r2)); [done|]. by destruct (dict_get k (rev r1)). }
  assert (∀ k, k ≠ #"data" → k ≠ #"method" → dict_get k ns = PyStr <$> given k (l1 ++ l2)) as Ht.
  { intros k Hd Hm. rewrite Hns, bool_decide_eq_false_2 by done. by eapply read_text. }
  assert (∀ k d, default (PyStr d) (PyStr <$> given k (l1 ++ l2)) = PyStr (default d (given k (l1 ++ l2)))) as Hf
    by (intros k d; by destruct (given k (l1 ++ l2))).
  assert (dict_get #"data" ns' = dict_get #"data" (rev (r1 ++ r2))) as Hd.
  { unfold ns'. rewrite !get_fill. repeat rewrite bool_decide_eq_false_2 by done.
    rewrite Hns. by rewrite bool_decide_eq_false_2. }
  assert (arguments_of (l1 ++ l2) m data (dict_set #"data" data ns')) as Ha.
  { unfold arguments_of. rewrite !dict_get_set. unfold ns'. rewrite !get_fill.
    change (bool_decide (#"server" = #"data")) with false. change (bool_decide (#"username" = #"data")) with false.
    vm_compute bool_decide. rewrite !Ht by done. rewrite !Hf, Hns. by split_and!. }
  split_and!; [done|done|]. intros Hdata. unfold arguments_of in *. rewrite !dict_get_set in Ha. by split_and!; try apply Ha.
Qed.
(** Reading a command line is reading the data. *)
Lemma parse_choices l1 m l2 s : Forall choice_ok l1 → Forall choice_ok l2 → plain_arg m = true →
  (∃ ns data s', parse_command_line (choice_words l1 ++ m :: choice_words l2) s = (Ok ns, s') ∧
     read_data (l1 ++ l2) s = (Ok data, s') ∧ arguments_of (l1 ++ l2) m data ns) ∨
  (∃ e s', parse_command_line (choice_words l1 ++ m :: choice_words l2) s = (Raise e, s') ∧
     read_data (l1 ++ l2) s = (Raise e, s')).
Proof.
  intros H1 H2 Hm. unfold parse_command_line, read_data. rewrite <- !words_choices.
  rewrite parse_settings by (done || by apply to_setting_ok).
  unfold mbind, M_bind. rewrite apply_choices, read_choices_app. unfold mbind, M_bind, mret, M_ret.
  destruct (read_choices l1 s) as [[r1|e] s1] eqn:E1; [|right; by eexists _, _].
  change (get_value #"method" m s1) with (Ok (PyStr m), s1). cbv beta iota.
  rewrite apply_choices. unfold mbind, M_bind, mret, M_ret.
  destruct (read_choices l2 s1) as [[r2|e] s2] eqn:E2; [|right; by eexists _, _].
  rewrite add_defaults_options. cbv zeta. unfold mbind, M_bind, mret, M_ret.
  destruct (collected l1 l2 m s r1 s1 r2 s2 PyNone E1 E2) as (Hd & _). unfold dict_mem.
  case_bool_decide as Hk.
  - destruct (dict_get #"data" (rev (r1 ++ r2))) as [d|] eqn:Ed; [|by apply dict_get_None in Hd].
    left. eexists _, d, s2. split_and!; [done|done|]. by apply (collected l1 l2 m s r1 s1 r2 s2 d E1 E2).
  - apply dict_get_None in Hk. rewrite Hk in Hd. rewrite <- Hd, get_json.
    destruct (read_json #"-" s2) as [[d|e] s3]; [left|right; by eexists _, _].
    eexists _, d, s3. split_and!; [done|done|]. by apply (collected l1 l2 m s r1 s1 r2 s2 d E1 E2).
Qed.

(** C32: whatever options with arguments are given, in whatever order and in any
    of the forms [-u v], [-uv], [-u=v], [--username v] and [--username=v] (or with
    the first letters of the long name), and wherever the method stands among
    them, the command does what it promises: it reads the data of each [--data] in
    turn, or standard input if there is none, opens the server that was named last
    (or the default one), logs in with the user and the password named last,
    calls the method once with the last data, prints the result and exits with 0.
    (A [-d] without an argument, [-h], the mark [--], and an argument that starts
    with a dash in a word of its own are not such command lines.) *)
Theorem config_reference prog l1 m l2 s :
  Forall choice_ok l1 → Forall choice_ok l2 → plain_arg m = true →
  main (prog :: choice_words l1 ++ m :: choice_words l2) s = reference (l1 ++ l2) m s.
Proof.
  intros H1 H2 Hm. unfold main, reference. cbn [tail].
  destruct (parse_choices l1 m l2 s H1 H2 Hm) as [(ns & data & s' & Ep & Er & Hs & Hu & Hp & Hmeth & Hd)|(e & s' & Ep & Er)].
  - rewrite (bind_ok _ _ _ _ _ Ep), (bind_ok _ _ _ _ _ Er). unfold attribute. rewrite Hs, Hu, Hp, Hmeth, Hd.
    do 3 (erewrite lift_ok by reflexivity). unfold zapi. rewrite bind_assoc.
    unfold mbind, M_bind. destruct (on_world (ZabbixAPI _ _ _) s') as [[[]|] s1]; [|done].
    by destruct (on_world (zbx_login _ _) s1) as [[[]|] s2].
  - by rewrite (bind_raised _ _ _ _ _ Ep), (bind_raised _ _ _ _ _ Er).
Qed.

Lemma read_no_data l s : given #"data" l = None →
  ∃ r, read_choices l s = (Ok r, s) ∧ dict_get #"data" (rev r) = None.
Proof.
  induction l as [|[[f long] v] l IH]; [by exists []|]. rewrite given_cons.
  destruct (given #"data" l) eqn:E; [done|]. intros Hf. destruct (IH eq_refl) as (r & Er & Hr).
  exists ((flag_dest f, PyStr v) :: r). cbn [read_choices rev]. split.
  - destruct f; [| | |done]; rewrite (bind_ok _ _ s (PyStr v) s) by done; by rewrite (bind_ok _ _ _ _ _ Er).
  - rewrite dict_get_app, Hr. by destruct f.
Qed.

(** Data that is not JSON. *)
Lemma bad_data s w1 w2 text e : isatty stdin (world s) = (Ok false, w1) → fread stdin w1 = (Ok text, w2) →
  loads2 text = Raise e → read_json #"-" s = (Raise (SystemExit 2), Process (stdout s) w2).
Proof.
  intros Et Er El. unfold read_json. rewrite bool_decide_eq_true_2 by done. by rewrite Et, Er, El.
Qed.

(** C33: a command line without a method, or data on standard input that is not
    JSON, ends the program with the exit code 2 before the server is asked anything:
    at most the data has been read. *)
Theorem config_refused prog l1 m l2 s :
  Forall choice_ok l1 → Forall choice_ok l2 → plain_arg m = true →
  main (prog :: choice_words l1) s = (read_choices l1;; raise (SystemExit 2)) s ∧
  (∀ w1 w2 text e, given #"data" (l1 ++ l2) = None → isatty stdin (world s) = (Ok false, w1) →
     fread stdin w1 = (Ok text, w2) → loads2 text = Raise e →
     main (prog :: choice_words l1 ++ m :: choice_words l2) s = (Raise (SystemExit 2), Process (stdout s) w2)).
Proof.
  intros H1 H2 Hm. split.
  - unfold main, parse_command_line. cbn [tail]. rewrite <- words_choices.
    unfold mbind at 1, M_bind at 1. rewrite parse_missing by (done || by apply to_setting_ok).
    unfold mbind, M_bind. rewrite apply_choices. unfold mbind, M_bind, mret, M_ret.
    by destruct (read_choices l1 s) as [[]].
  - intros w1 w2 text e Hd Et Er El.
    destruct (parse_choices l1 m l2 s H1 H2 Hm) as [(ns & data & s' & _ & Er' & _)|(e' & s' & Ep & Er')];
      destruct (read_no_data _ s Hd) as (r & E & Hr); unfold read_data in Er';
      rewrite (bind_ok _ _ _ _ _ E), Hr, (bad_data _ _ _ _ _ Et Er El) in Er'; [done|].
    injection Er' as <- <-. unfold main. cbn [tail]. by rewrite (bind_raised _ _ _ _ _ Ep).
Qed.

(** The command ends for every command line: the loops over the arguments of
    the parser always have a next argument to take. *)
Theorem config_terminates argv :
  (∀ f, never OutOfFuel (open_file f)) → (∀ f, never OutOfFuel (isatty f)) → (∀ f, never OutOfFuel (fread f)) →
  (∀ a b c, never OutOfFuel (ZabbixAPI a b c)) → (∀ a b, never OutOfFuel (zbx_login a b)) →
  (∀ a b, never OutOfFuel (zbx_call a b)) →
  never OutOfFuel (main argv).
Proof.
  intros Ho Ht Hr Ha Hl Hc.
  assert (∀ A (m : M W A), never OutOfFuel m → never OutOfFuel (on_world m)) as Hw.
  { intros A m Hm s. specialize (Hm (world s)). unfold on_world. by destruct (m (world s)). }
  assert (∀ dest v, never OutOfFuel (get_value dest v)) as Hv.
  { intros dest v. unfold get_value. case_match; [|apply never_ret]. apply never_try.
    - unfold json_file_type, file_type. apply never_bind.
      + case_match; [apply never_ret|]. apply never_try; [by apply Hw|].
        intros e k. destruct e; try done. intros [= <-]. by apply never_raise.
      + intros fp. apply never_bind; [by apply Hw|]. intros []; [apply never_ret|]. apply never_try.
        * apply never_bind; [by apply Hw|]. intros t. apply never_lift. by intros ?%loads2_errors.
        * intros e k [= <-]. by apply never_raise.
    - intros e k. destruct e; cbn; intros [= <-]; by apply never_raise. }
  assert (never OutOfFuel (parse_command_line (tail argv))) as Hp.
  { apply parse_args_never; [done|]. apply never_modify. }
  unfold main, attribute, zapi. never_steps; by apply Hw.
Qed.
End config.

(** * A small world *)

(** The calls of the API that have been made; the only file is [f]. *)
Definition demo_state : Type := list (pystr * pyval).

#[export] Instance demo_zabbix_log : Zabbix demo_state := {|
  zbx_available := true;
  ZabbixAPI s t v w := (Ok tt, w ++ [(#"open", s)]);
  zbx_login u p w := (Ok tt, w ++ [(#"login", PyList [u; p])]);
  zbx_call m p w := (Ok (PyList [PyInt 1; PyInt 2]), w ++ [(m, p)])
|}.

Definition demo_open (f : pystr) : M demo_state pystr :=
  if f =s #"f" then mret #"{ }" else raise (OSError #"no such file").
Abbreviation demo_main :=
  (main demo_open #"[1]" (λ _, mret false) (λ t, mret t) (λ _, []) (λ d, d) #"http://z/" #"user" #"pw" #"help").

Definition runs (argv : list pystr) : outcome unit * list (pystr * pyval) :=
  let '(r, s) := demo_main argv (Process [] []) in (r, world s).

Example run_default : runs [#"es"; #"host.get"] =
  (Raise (SystemExit 0),
   [(#"open", PyStr #"http://z/"); (#"login", PyList [PyStr #"user"; PyStr #"pw"]); (#"host.get", PyList [PyInt 1])]).
Proof. vm_compute. reflexivity. Qed.

Example run_options : runs [#"es"; #"--serv=s"; #"-uadmin"; #"host.get"; #"-d"; #"f"; #"-p"; #"-"] =
  (Raise (SystemExit 0),
   [(#"open", PyStr #"s"); (#"login", PyList [PyStr #"admin"; PyStr #"-"]); (#"host.get", PyDict [])]).
Proof. vm_compute. reflexivity. Qed.

Example run_data_alone : runs [#"es"; #"-d"; #"--"; #"host.get"] =
  (Raise (SystemExit 0),
   [(#"open", PyStr #"http://z/"); (#"login", PyList [PyStr #"user"; PyStr #"pw"]); (#"host.get", PyNone)]).
Proof. vm_compute. reflexivity. Qed.

Example run_errors :
  map runs [[#"es"]; [#"es"; #"a"; #"b"]; [#"es"; #"-x"; #"a"]; [#"es"; #"-s"]; [#"es"; #"--"; #"-d"; #"x"]; [#"es"; #"-d"; #"g"; #"m"]]
  = replicate 6 (Raise (SystemExit 2), []) ∧
  map runs [[#"es"; #"-h"]; [#"es"; #"-hsx"]; [#"es"; #"--he"]] = replicate 3 (Raise (SystemExit 0), []) ∧
  runs [#"es"; #"-h="] = (Raise IndexError, []).
Proof. vm_compute. by split_and!. Qed.

Example run_output : stdout (demo_main [#"es"; #"m"] (Process [] [])).2 =
  #"[" ++ [10%N] ++ #"    1, " ++ [10%N] ++ #"    2" ++ [10%N] ++ #"]" ++ [10%N].
Proof. vm_compute. reflexivity. Qed.

Abbreviation demo_config P :=
  (P demo_state pystr demo_zabbix_log demo_open #"[1]" (λ _, mret false) (λ t, mret t) (λ _, []) (λ d, d)
     #"http://z/" #"user" #"pw" #"help").

Definition demo_before : list choice := [(Username, ShortJoined, #"first"); (Server, LongEquals 4, #"s")].
Definition demo_after : list choice := [(Username, Long 8, #"admin"); (Password, ShortEquals, #"-x"); (Data, Short, #"f")].

Lemma config_reference_witness :
  runs [#"es"; #"-ufirst"; #"--serv=s"; #"host.get"; #"--username"; #"admin"; #"-p=-x"; #"-d"; #"f"] =
    (Raise (SystemExit 0),
     [(#"open", PyStr #"s"); (#"login", PyList [PyStr #"admin"; PyStr #"-x"]); (#"host.get", PyDict [])]).
Proof.
  assert (Forall choice_ok demo_before) as H1
    by (repeat constructor; try discriminate; apply Nat.leb_le; vm_compute; reflexivity).
  assert (Forall choice_ok demo_after) as H2
    by (repeat constructor; try discriminate; apply Nat.leb_le; vm_compute; reflexivity).
  change (runs (#"es" :: choice_words demo_before ++ #"host.get" :: choice_words demo_after) =
    (Raise (SystemExit 0),
     [(#"open", PyStr #"s"); (#"login", PyList [PyStr #"admin"; PyStr #"-x"]); (#"host.get", PyDict [])])).
  unfold runs. rewrite (demo_config (@config_reference) #"es" demo_before #"host.get" demo_after (Process [] [])
    H1 H2 eq_refl). vm_compute. reflexivity.
Defined.

Lemma config_refused_witness :
  runs [#"es"; #"-ufirst"; #"--serv=s"] = (Raise (SystemExit 2), []).
Proof.
  assert (Forall choice_ok demo_before) as H1
    by (repeat constructor; try discriminate; apply Nat.leb_le; vm_compute; reflexivity).
  change (runs (#"es" :: choice_words demo_before) = (Raise (SystemExit 2), [])).
  unfold runs. rewrite (proj1 (demo_config (@config_refused) #"es" demo_before #"m" [] (Process [] [])
    H1 ltac:(constructor) eq_refl)). vm_compute. reflexivity.
Defined.

Lemma config_terminates_witness : never OutOfFuel (demo_main [#"es"; #"-d"; #"--"; #"host.get"]).
Proof.
  apply (demo_config (@config_terminates)); try by intros.
  intros f s. unfold demo_open. case_match; done.
Defined.
