(* ===== verification/Hqsms.v ===== *)
(** The alert script [alertscripts/hqsms.py]: a text message is sent through the
    HQSMS service. *)
From S2P Require Export PyVal.
From Stdlib Require Import NArith ZArith Lia.

Section hqsms.
Context {W : Type}.
(** [requests.post(url, data)]: status code and text of the response. *)
Variable post : pystr → dict pystr → M W (Z * pystr).

Definition USERNAME : pystr := #"@USERNAME@".
Definition PASSWORD : pystr := #"@PASSWORD@".
Definition FROM : pystr := #"@FROM@".

Definition login_data : dict pystr :=
  [(#"username", USERNAME); (#"password", PASSWORD); (#"from", FROM)].

(** The process: what it has printed, on standard output and error, and the
    outside world. *)
Record process := Process { out : pystr; err : pystr; net : W }.

Definition on_net {A} (m : M W A) : M process A := λ s,
  let '(r, w) := m (net s) in (r, Process (out s) (err s) w).
Definition print (t : pystr) : M process unit := modify (λ s, Process (out s ++ t ++ [10%N]) (err s) (net s)).
Definition eprint (t : pystr) : M process unit := modify (λ s, Process (out s) (err s ++ t) (net s)).

Definition sms_send (phone message : pystr) : M process (Z * pystr) :=
  let data := login_data in
  let data := dict_set #"to" (str_replace #"+" #"" phone) data in
  let data := dict_set #"message" message data in
  on_net (post #"https://ssl.hqsms.com/sms.do" data).

(** [sys.exit(code)] *)
Definition exit {A} (code : Z) : M process A := raise (SystemExit code).

(** The body of the script; [argv] is [sys.argv]. *)
Definition main (argv : list pystr) : M process unit :=
  (if Nat.ltb (length argv) 3 then
     name ← lift (or_raise IndexError (argv !! 0));
     eprint (#"Usage: " ++ name ++ #" <phone> <message>" ++ [10%N]);;
     exit 1
   else mret tt);;
  let msg := join #" " (drop 2 argv) in
  phone ← lift (or_raise IndexError (argv !! 1));
  '(status_code, text) ← sms_send phone (take 160 msg);
  print (text ++ #" (" ++ str_of_Z status_code ++ #")");;
  (if Z.eqb status_code 200 && startswith #"OK:" text then exit 0 else mret tt);;
  exit 1.

(** * Properties *)

(** The form of a message. *)
Definition sms_form (phone message : pystr) : dict pystr :=
  login_data ++ [(#"to", filter (λ c, c ≠ 43%N) phone); (#"message", message)].

(** C34: with a phone number and at least one word, exactly one request is made:
    the number without its plus signs, and at most 160 characters of the words
    with single spaces between them.  The exit code is 0 exactly when the service
    answers 200 with a text that starts with "OK:". *)
Theorem sms_sent prog phone word words s status text w :
  post #"https://ssl.hqsms.com/sms.do" (sms_form phone (take 160 (join #" " (word :: words)))) (net s)
    = (Ok (status, text), w) →
  main (prog :: phone :: word :: words) s =
    (Raise (SystemExit (if Z.eqb status 200 && startswith #"OK:" text then 0 else 1)),
     Process (out s ++ text ++ #" (" ++ str_of_Z status ++ #")" ++ [10%N]) (err s) w).
Proof.
  intros E. unfold main.
  change (Nat.ltb (length (prog :: phone :: word :: words)) 3) with false. cbv iota. rewrite ret_bind.
  cbv zeta. change (drop 2 (prog :: phone :: word :: words)) with (word :: words).
  rewrite (lift_ok _ _ _ phone) by done.
  assert (sms_send phone (take 160 (join #" " (word :: words))) s
    = (Ok (status, text), Process (out s) (err s) w)) as Es.
  { unfold sms_send, on_net. change #"+" with [43%N]. change #"" with (@nil N).
    rewrite str_replace_delete_filter. unfold sms_form in E. cbv zeta.
    change (dict_set #"message" ?m (dict_set #"to" ?t login_data))
      with (login_data ++ [(#"to", t); (#"message", m)]). by rewrite E. }
  rewrite (bind_ok _ _ _ _ _ Es). unfold print, modify, exit, raise, mbind, M_bind.
  cbn [out err net]. rewrite <- !app_assoc. by destruct (_ && _).
Qed.

(** Without a message nothing is sent: the usage is printed and the exit code
    is 1. *)
Theorem sms_usage argv prog s : head argv = Some prog → length argv < 3 →
  main argv s = (Raise (SystemExit 1),
    Process (out s) (err s ++ #"Usage: " ++ prog ++ #" <phone> <message>" ++ [10%N]) (net s)).
Proof.
  intros Hp Hl. unfold main. rewrite (proj2 (Nat.ltb_lt _ _)) by done.
  destruct argv as [|a l]; [done|]. injection Hp as ->. reflexivity.
Qed.
End hqsms.

(** * Concrete runs *)

Definition demo_post (url : pystr) (data : dict pystr) : M (list (dict pystr)) (Z * pystr) :=
  λ w, (Ok (200%Z, #"OK:1"), w ++ [data]).

Lemma sms_sent_witness :
  main demo_post [#"hqsms.py"; #"+421 900"; #"disk"; #"full"] (Process [] [] [])
  = (Raise (SystemExit 0),
     Process (#"OK:1 (200)" ++ [10%N]) []
       [[(#"username", #"@USERNAME@"); (#"password", #"@PASSWORD@"); (#"from", #"@FROM@");
         (#"to", #"421 900"); (#"message", #"disk full")]]).
Proof.
  rewrite (sms_sent demo_post #"hqsms.py" #"+421 900" #"disk" [#"full"] (Process [] [] []) 200 #"OK:1"
    [sms_form #"+421 900" #"disk full"]); [vm_compute; reflexivity|].
  vm_compute. reflexivity.
Defined.

Lemma sms_usage_witness :
  main demo_post [#"hqsms.py"; #"+421"] (Process [] [] [])
  = (Raise (SystemExit 1), Process [] (#"Usage: hqsms.py <phone> <message>" ++ [10%N]) []).
Proof.
  rewrite (sms_usage demo_post [#"hqsms.py"; #"+421"] #"hqsms.py" (Process [] [] []) eq_refl);
    [vm_compute; reflexivity|].
  cbn. lia.
Defined.
