(* ===== verification/VmDiscovery.v ===== *)
(** The Zabbix discovery scripts [vm-discovery], [vm-disk-discovery] and
    [vm-netif-discovery]: the output of [vmadm] and [dladm] is turned into the
    JSON of a low-level discovery rule. *)
From S2P Require Export PyJson.
From Stdlib Require Import NArith ZArith Lia.

(** * The regular expressions *)

(** The ways to cut a text in two at a character of [cs], the longest first part
    first: what a greedy group of any characters, followed by one of [cs], tries. *)
Fixpoint cuts (cs s : pystr) : list (pystr * pystr) :=
  match s with
  | [] => []
  | c :: s' =>
      map (λ ab, (c :: ab.1, ab.2)) (cuts cs s') ++ (if char_in c cs then [([], s')] else [])
  end.

Fixpoint first_some {A B} (f : A → option B) (l : list A) : option B :=
  match l with
  | [] => None
  | x :: l' => match f x with Some y => Some y | None => first_some f l' end
  end.

(** The expression of [n + 1] greedy groups of any characters with colons between
    them, over the whole text: the groups.  A dot does not match a line break,
    and the text has none. *)
Fixpoint match_fields (n : nat) (s : pystr) : option (list pystr) :=
  match n with
  | O => Some [s]
  | S k => first_some (λ ab, cons ab.1 <$> match_fields k ab.2) (cuts #":" s)
  end.

(** [$]: the end, or a final line break. *)
Definition at_end (s : pystr) : bool := bool_decide (s = [] ∨ s = [10%N]).

(** [disk[0-9]+$] : the matched text. *)
Definition disk_name (s : pystr) : option pystr :=
  if startswith #"disk" s then
    let '(d, r) := span_digits (drop 4 s) in
    match d with
    | [] => None
    | _ => if at_end r then Some (#"disk" ++ d) else None
    end
  else None.

(** A greedy group of any characters, a dash or a slash, and a disk name. *)
Definition match_disk (s : pystr) : option (pystr * pystr) :=
  first_some (λ ab, pair ab.1 <$> disk_name ab.2) (cuts #"-/" s).

(** [re.search(r'^[a-z0-9-]+[-/]disk[0-9]+$', f)] *)
Definition is_disk_path (s : pystr) : bool :=
  match match_disk s with
  | Some (a, _) => negb (bool_decide (a = [])) && forallb (λ c, is_lower c || is_digit c || N.eqb c 45) a
  | None => false
  end.

(** [re.match(...).group(k)]: without a match there is no [group]. *)
Definition group (m : option (list pystr)) (k : nat) : outcome pystr :=
  gs ← or_raise AttributeError m; or_raise IndexError (gs !! (k - 1)).

(** * The scripts

    [shell] runs a command line and gives the lines of its output and errors. *)

Abbreviation record := (dict pystr).

(** [print json.dumps(data, sort_keys=True, indent=4, separators=(',', ': '))] *)
Definition data_of (array : list record) : pyval :=
  PyDict [(#"data", PyList (map (λ d, PyDict (map (λ kv, (kv.1, PyStr kv.2)) d)) array))].
Definition printed (array : list record) : pystr := dumps_sorted (data_of array) ++ [10%N].

Section discovery.
Context {W : Type}.
Variable shell : pystr → M W (list pystr).
(** [os.chdir] and [glob.glob] *)
Variable chdir : pystr → M W unit.
Variable glob : pystr → M W (list pystr).

(** A loop that builds a list, where a line may add nothing. *)
Fixpoint collect {A} (f : pystr → outcome (option A)) (lines : list pystr) : outcome (list A) :=
  match lines with
  | [] => mret []
  | line :: l =>
      x ← f (rstrip line);
      rest ← collect f l;
      mret (match x with Some a => a :: rest | None => rest end)
  end.

(** ** vm-discovery *)

Definition vm_zone (line : pystr) : outcome (option record) :=
  let m := match_fields 2 line in
  uuid ← group m 1;
  alias ← group m 3;
  short ← or_raise IndexError (head (split_char 45 uuid));
  type ← group m 2;
  mret (Some (dict_of_pairs
    [(#"{#UUID}", uuid); (#"{#ALIAS}", alias); (#"{#UUID_SHORT}", short); (#"{#TYPE}", type)])).

Definition vm_discovery : M W pystr :=
  lines ← shell #"vmadm list -Hpo uuid,type,alias";
  array ← lift (collect vm_zone lines);
  mret (printed array).

(** ** vm-netif-discovery *)

Definition netif_zone (line : pystr) : outcome (option record) :=
  let m := match_fields 1 line in
  uuid ← group m 1;
  iface ← group m 2;
  mret (Some [(#"{#UUID}", uuid); (#"{#NETIF}", iface)]).

(** [for i in range(0, len(array)): if uuid == array[i]['{#UUID}']: ...] *)
Fixpoint set_alias (uuid alias : pystr) (indices : list nat) (array : list record) : outcome (list record) :=
  match indices with
  | [] => mret array
  | i :: is' =>
      vm ← or_raise IndexError (array !! i);
      u ← or_raise (KeyError #"{#UUID}") (dict_get #"{#UUID}" vm);
      set_alias uuid alias is'
        (if uuid =s u then <[i := dict_set #"{#ALIAS}" alias vm]> array else array)
  end.

Fixpoint set_aliases (lines : list pystr) (array : list record) : outcome (list record) :=
  match lines with
  | [] => mret array
  | line :: l =>
      let m := match_fields 1 (rstrip line) in
      uuid ← group m 1;
      alias ← group m 2;
      array' ← set_alias uuid alias (seq 0 (length array)) array;
      set_aliases l array'
  end.

Definition vm_netif_discovery : M W pystr :=
  lines ← shell #"dladm show-vnic -po zone,link";
  array ← lift (collect netif_zone lines);
  lines ← shell #"vmadm list -Hpo uuid,alias";
  array ← lift (set_aliases lines array);
  mret (printed array).

(** ** vm-disk-discovery *)

(** A machine that runs and is not an OS zone. *)
Definition disk_vm (line : pystr) : outcome (option record) :=
  let m := match_fields 3 line in
  state ← group m 4;
  if negb (state =s #"running") then mret None
  else
    vm_type ← group m 2;
    if vm_type =s #"OS" then mret None
    else
      uuid ← group m 1;
      alias ← group m 3;
      mret (Some [(#"{#UUID}", uuid); (#"{#ALIAS}", alias)]).

(** The inner loop: the first machine with the identifier takes the disk, or, if
    it has one already, a new entry does. *)
Fixpoint place_disk (uuid disk : pystr) (indices : list nat) (array : list record) : outcome (list record) :=
  match indices with
  | [] => mret array
  | i :: is' =>
      vm ← or_raise IndexError (array !! i);
      u ← or_raise (KeyError #"{#UUID}") (dict_get #"{#UUID}" vm);
      if uuid =s u then
        if dict_mem #"{#DISK}" vm then
          alias ← or_raise (KeyError #"{#ALIAS}") (dict_get #"{#ALIAS}" vm);
          mret (array ++ [[(#"{#UUID}", u); (#"{#ALIAS}", alias); (#"{#DISK}", disk)]])
        else mret (<[i := dict_set #"{#DISK}" disk vm]> array)
      else place_disk uuid disk is' array
  end.

Fixpoint place_disks (disks : list pystr) (array : list record) : outcome (list record) :=
  match disks with
  | [] => mret array
  | line :: l =>
      '(uuid, disk) ← or_raise AttributeError (match_disk line);
      array' ← place_disk uuid disk (seq 0 (length array)) array;
      place_disks l array'
  end.

Definition vm_disk_discovery : M W pystr :=
  chdir #"/dev/zvol/dsk/zones";;
  f1 ← glob #"*-disk*";
  f2 ← glob #"*-*-*/*disk*";
  let disks := filter (λ f, is_disk_path f = true) (f1 ++ f2) in
  lines ← shell #"vmadm list -Hpo uuid,type,alias,state";
  array ← lift (collect disk_vm lines);
  array ← lift (place_disks disks array);
  mret (printed array).
End discovery.

(** * The regular expressions, characterised *)

Lemma cuts_spec cs s a b : (a, b) ∈ cuts cs s ↔ ∃ c, c ∈ cs ∧ s = a ++ c :: b.
Proof.
  revert a b. induction s as [|d s IH]; intros a b; cbn.
  - split; [by intros ?%not_elem_of_nil|]. intros (c & _ & E). by destruct a.
  - rewrite elem_of_app, list_elem_of_In, in_map_iff. split.
    + intros [([a' b'] & [= <- <-] & Hin%list_elem_of_In)|Hin].
      * apply IH in Hin as (c & Hc & ->). by exists c.
      * unfold char_in in Hin. case_bool_decide as Hd; [|by apply not_elem_of_nil in Hin].
        apply list_elem_of_singleton in Hin as [= -> ->]. by exists d.
    + intros (c & Hc & E). destruct a as [|x a].
      * injection E as -> ->. right. unfold char_in. rewrite bool_decide_eq_true_2 by done.
        by apply list_elem_of_singleton.
      * injection E as <- ->. left. exists (a, b). split; [done|]. apply list_elem_of_In, IH. by exists c.
Qed.

Lemma cuts_app cs g c t : c ∈ cs → ∃ rest,
  cuts cs (g ++ c :: t) = map (λ ab, (g ++ c :: ab.1, ab.2)) (cuts cs t) ++ (g, t) :: rest.
Proof.
  intros Hc. induction g as [|d g [rest IH]]; cbn [app cuts].
  - exists []. unfold char_in. by rewrite bool_decide_eq_true_2 by done.
  - rewrite IH, map_app, map_map. cbn [map]. eexists. rewrite <- app_assoc. cbn. reflexivity.
Qed.

Lemma first_some_None {A B} (f : A → option B) l : Forall (λ x, f x = None) l → first_some f l = None.
Proof. induction 1 as [|x l Hx _ IH]; [done|]. cbn. by rewrite Hx. Qed.

Lemma first_some_app {A B} (f : A → option B) l x l' :
  Forall (λ x, f x = None) l → first_some f (l ++ x :: l') = first_some f (x :: l').
Proof. induction 1 as [|y l Hy _ IH]; [done|]. cbn in *. by rewrite Hy. Qed.

Definition colons (s : pystr) : nat := length (filter (λ c, c = 58%N) s).

Lemma colons_app s t : colons (s ++ t) = colons s + colons t.
Proof. unfold colons. by rewrite filter_app, length_app. Qed.

Lemma colons_colon s : colons (58%N :: s) = S (colons s).
Proof. reflexivity. Qed.

Lemma colons_0 s : 58%N ∉ s → colons s = 0.
Proof.
  unfold colons. induction s as [|c s IH]; intros Hs; [done|].
  rewrite filter_cons_False by set_solver. apply IH. set_solver.
Qed.

(** Too few colons: no match. *)
Lemma match_fields_few k s : colons s < k → match_fields k s = None.
Proof.
  revert s. induction k as [|k IH]; intros s Hs; [lia|]. cbn. apply first_some_None, Forall_forall.
  intros [a b] (c & Hc & ->)%cuts_spec. cbn. change #":" with [58%N] in Hc.
  apply list_elem_of_singleton in Hc as ->. rewrite IH; [done|]. rewrite colons_app, colons_colon in Hs. lia.
Qed.

Lemma colons_join g gs : Forall (λ x, 58%N ∉ x) (g :: gs) → colons (join #":" (g :: gs)) = length gs.
Proof.
  revert g. induction gs as [|x gs IH]; intros g [Hg Hgs]%Forall_cons; cbn [join]; [by apply colons_0|].
  change (colons (g ++ #":" ++ join #":" (x :: gs)) = S (length gs)).
  rewrite !colons_app, (colons_0 g), IH by done. done.
Qed.

(** The expression takes apart what colons have joined, if only the first field
    may contain one. *)
Lemma match_fields_join gs g : Forall (λ x, 58%N ∉ x) gs →
  match_fields (length gs) (join #":" (g :: gs)) = Some (g :: gs).
Proof.
  revert g. induction gs as [|x gs IH]; intros g Hgs; [done|]. pose proof Hgs as [Hx Hgs']%Forall_cons.
  change (join #":" (g :: x :: gs)) with (g ++ #":" ++ join #":" (x :: gs)).
  set (t := join #":" (x :: gs)). cbn [length match_fields].
  destruct (cuts_app #":" g 58 t) as [rest E]; [by constructor|]. change #":" with [58%N] in *.
  cbn [app]. rewrite E, first_some_app.
  - cbn [first_some fst snd]. specialize (IH x Hgs'). fold t in IH. by rewrite IH.
  - apply Forall_map, Forall_forall. intros [a b] (c & Hc & Et)%cuts_spec. cbn [fst snd].
    rewrite match_fields_few; [done|]. pose proof (colons_join x gs Hgs) as Hn.
    change #":" with [58%N] in Hn. fold t in Hn. rewrite Et, colons_app in Hn.
    apply list_elem_of_singleton in Hc as ->. rewrite colons_colon in Hn. lia.
Qed.

(** ** Lines *)

(** The line of a machine: its fields and a line break.  Only the first field may
    contain a colon, and the last character is not white space. *)
Definition line_of (fields : list pystr) : pystr := join #":" fields ++ [10%N].
Definition line_ok (fields : list pystr) : Prop :=
  match fields with
  | [] => False
  | _ :: gs => Forall (λ x, 58%N ∉ x) gs ∧ rstrip (join #":" fields) = join #":" fields
  end.

Lemma rstrip_newline s : rstrip (s ++ [10%N]) = rstrip s.
Proof. unfold rstrip, rstrip_by. rewrite rev_app_distr. reflexivity. Qed.

Lemma line_match n fields : line_ok fields → length fields = S n →
  match_fields n (rstrip (line_of fields)) = Some fields.
Proof.
  destruct fields as [|g gs]; [done|]. intros [Hc Hr] [= <-]. unfold line_of.
  rewrite rstrip_newline, Hr. by apply match_fields_join.
Qed.

Lemma group_ok gs k x : gs !! (k - 1) = Some x → group (Some gs) k = Ok x.
Proof. unfold group. cbn [or_raise]. rewrite outcome_bind_Ok. by intros ->. Qed.

Lemma collect_lines {A X} (f : pystr → outcome (option A)) (g : X → option A) (line : X → pystr) l :
  Forall (λ x, f (rstrip (line x)) = Ok (g x)) l → collect f (map line l) = Ok (omap g l).
Proof.
  induction 1 as [|x l Hx _ IH]; [done|]. cbn [map collect]. rewrite Hx. cbn [mbind outcome_bind].
  rewrite IH. cbn. by destruct (g x).
Qed.

(** * Placing the disks

    An entry of the list: identifier, alias and disk, if it has one. *)

Definition entry : Type := pystr * pystr * option pystr.
Definition record_of (e : entry) : record :=
  let '(u, a, o) := e in
  [(#"{#UUID}", u); (#"{#ALIAS}", a)] ++ match o with Some d => [(#"{#DISK}", d)] | None => [] end.

Lemma record_uuid e : dict_get #"{#UUID}" (record_of e) = Some e.1.1.
Proof. destruct e as [[i a] [d|]]; reflexivity. Qed.
Lemma record_alias e : dict_get #"{#ALIAS}" (record_of e) = Some e.1.2.
Proof. destruct e as [[i a] [d|]]; reflexivity. Qed.
Lemma record_disk e : dict_mem #"{#DISK}" (record_of e) = match e.2 with Some _ => true | None => false end.
Proof. destruct e as [[i a] [d|]]; reflexivity. Qed.

(** The reference: the first entry of the machine takes the disk or is followed,
    at the end of the list, by another one. *)
Fixpoint place (uuid disk : pystr) (l : list entry) : list entry :=
  match l with
  | [] => []
  | (i, a, o) :: l' =>
      if decide (uuid = i) then
        match o with
        | None => (i, a, Some disk) :: l'
        | Some _ => (i, a, o) :: l' ++ [(i, a, Some disk)]
        end
      else (i, a, o) :: place uuid disk l'
  end.

Lemma place_disk_place uuid disk l1 l2 :
  place_disk uuid disk (seq (length l1) (length l2)) (record_of <$> l1 ++ l2)
  = Ok (record_of <$> l1 ++ place uuid disk l2).
Proof.
  revert l1. induction l2 as [|[[i a] o] l2 IH]; intros l1; [done|]. cbn [length seq place_disk].
  rewrite list_lookup_fmap, lookup_app_r, Nat.sub_diag by done. cbn [lookup list_lookup fmap option_fmap option_map or_raise].
  rewrite outcome_bind_Ok, record_uuid. cbn [or_raise fst]. rewrite outcome_bind_Ok, record_disk, record_alias.
  cbn [fst snd or_raise place].
  destruct (decide (uuid = i)) as [->|Hne].
  - rewrite bool_decide_eq_true_2 by done. destruct o as [d|]; cbn [mbind outcome_bind].
    + unfold mret, outcome_ret. f_equal. rewrite !fmap_app. cbn. by rewrite <- app_assoc, fmap_app.
    + unfold mret, outcome_ret. f_equal. rewrite !fmap_app. cbn [fmap list_fmap].
      rewrite insert_app_r_alt by (by rewrite length_fmap). by rewrite length_fmap, Nat.sub_diag.
  - rewrite bool_decide_eq_false_2 by done. specialize (IH (l1 ++ [(i, a, o)])).
    rewrite length_app, Nat.add_1_r, <- !app_assoc in IH. exact IH.
Qed.

Definition disks_of (l : list entry) : list (pystr * pystr * pystr) :=
  omap (λ e, pair e.1 <$> e.2) l.
Definition bare (l : list entry) : list (pystr * pystr) :=
  omap (λ e, match e.2 with None => Some e.1 | Some _ => None end) l.
Definition alias_of (uuid : pystr) (l : list entry) : option pystr :=
  (λ e, e.1.2) <$> List.find (λ e, uuid =s e.1.1) l.

Lemma alias_cons uuid i a o l :
  alias_of uuid ((i, a, o) :: l) = if decide (uuid = i) then Some a else alias_of uuid l.
Proof.
  unfold alias_of. cbn. destruct (decide (uuid = i)); [rewrite bool_decide_eq_true_2|rewrite bool_decide_eq_false_2]; done.
Qed.

Lemma alias_app uuid l1 l2 a : alias_of uuid l1 = Some a → alias_of uuid (l1 ++ l2) = Some a.
Proof.
  induction l1 as [|[[i b] o] l1 IH]; [done|]. cbn [app]. rewrite !alias_cons.
  by destruct (decide (uuid = i)).
Qed.

Lemma alias_place v uuid disk l : alias_of v (place uuid disk l) = alias_of v l.
Proof.
  induction l as [|[[i a] o] l IH]; [done|]. cbn [place]. rewrite alias_cons.
  destruct (decide (uuid = i)) as [->|Hne]; [|rewrite alias_cons; by rewrite IH].
  destruct o; rewrite alias_cons; destruct (decide (v = i)) as [->|Hv]; try done.
  destruct (alias_of v l) as [b|] eqn:E; [by apply alias_app|].
  clear -E Hv. induction l as [|[[j b] o] l IH]; cbn [app]; rewrite alias_cons in *.
  - by destruct (decide (v = i)).
  - destruct (decide (v = j)); [done|by apply IH].
Qed.

(** Where a machine has an entry without a disk, that is its first entry. *)
Fixpoint bare_first (l : list entry) : Prop :=
  match l with
  | [] => True
  | e :: l' => Forall (λ x, x.2 = None → x.1.1 ≠ e.1.1) l' ∧ bare_first l'
  end.

Lemma bare_first_snoc l e : bare_first l → e.2 ≠ None → bare_first (l ++ [e]).
Proof.
  induction l as [|x l IH]; intros Hl He; [by repeat constructor|]. destruct Hl as [Hx Hl]. split.
  - apply Forall_app. split; [done|]. by repeat constructor.
  - by apply IH.
Qed.

Lemma bare_first_place uuid disk l : bare_first l →
  bare_first (place uuid disk l) ∧
  ∀ i, Forall (λ x : entry, x.2 = None → x.1.1 ≠ i) l → Forall (λ x : entry, x.2 = None → x.1.1 ≠ i) (place uuid disk l).
Proof.
  induction l as [|[[i a] o] l IH]; [done|]. intros [Hx Hl]. destruct (IH Hl) as [H1 H2]. cbn [place].
  destruct (decide (uuid = i)) as [->|Hne]; [destruct o|].
  - split; [|intros j Hj; rewrite app_comm_cons; apply Forall_app; split; [done|by repeat constructor]].
    rewrite app_comm_cons. by apply bare_first_snoc.
  - split; [done|]. intros j [_ Hj]%Forall_cons. by constructor.
  - split; [by split; [apply H2|]|]. intros j [Hj Hl']%Forall_cons. constructor; [done|by apply H2].
Qed.

Lemma bare_none uuid l : Forall (λ x : entry, x.2 = None → x.1.1 ≠ uuid) l →
  filter (λ ua, ua.1 ≠ uuid) (bare l) = bare l.
Proof.
  induction 1 as [|[[i a] o] l Hx _ IH]; [done|]. destruct o as [d|]; [exact IH|].
  change (bare ((i, a, None) :: l)) with ((i, a) :: bare l).
  rewrite filter_cons_True by (by apply Hx). by rewrite IH.
Qed.

Lemma bare_app l1 l2 : bare (l1 ++ l2) = bare l1 ++ bare l2.
Proof. apply omap_app. Qed.

Lemma disks_app l1 l2 : disks_of (l1 ++ l2) = disks_of l1 ++ disks_of l2.
Proof. apply omap_app. Qed.

(** One disk: it is added to the disks once, for a machine that is there, and the
    machine is no longer without. *)
Lemma place_spec uuid disk l : bare_first l →
  disks_of (place uuid disk l) ≡ₚ
    match alias_of uuid l with Some a => [(uuid, a, disk)] | None => [] end ++ disks_of l ∧
  bare (place uuid disk l) = filter (λ ua, ua.1 ≠ uuid) (bare l).
Proof.
  induction l as [|[[i a] o] l IH]; [done|]. intros [Hx Hl]. destruct (IH Hl) as [H1 H2].
  cbn [place]. rewrite alias_cons. destruct (decide (uuid = i)) as [->|Hne].
  - pose proof (bare_none _ _ Hx) as Hb. cbn [fst] in Hb. destruct o as [d|].
    + split.
      * rewrite app_comm_cons, disks_app. apply Permutation_app_comm.
      * rewrite app_comm_cons, bare_app. change (bare [(i, a, Some disk)]) with (@nil (pystr * pystr)).
        rewrite app_nil_r. symmetry. exact Hb.
    + split; [done|]. change (bare ((i, a, None) :: l)) with ((i, a) :: bare l).
      rewrite filter_cons_False by (intros Hn; by apply Hn). by rewrite Hb.
  - destruct o as [d|].
    + split; [|exact H2]. change (disks_of ((i, a, Some d) :: ?l)) with ((i, a, d) :: disks_of l).
      rewrite H1. destruct (alias_of uuid l); [|done]. cbn. by rewrite perm_swap.
    + split; [exact H1|]. change (bare ((i, a, None) :: ?l)) with ((i, a) :: bare l).
      rewrite filter_cons_True by (cbn; congruence). by rewrite H2.
Qed.

Definition place_all (disks : list (pystr * pystr)) (l : list entry) : list entry :=
  foldl (λ l ud, place ud.1 ud.2 l) l disks.

Lemma place_disks_place lines disks l : Forall2 (λ f ud, match_disk f = Some ud) lines disks →
  place_disks lines (record_of <$> l) = Ok (record_of <$> place_all disks l).
Proof.
  intros H. revert l. induction H as [|f [uuid disk] lines disks Hf _ IH]; intros l; [done|].
  cbn [place_disks]. rewrite Hf. cbn [or_raise]. rewrite outcome_bind_Ok, length_fmap.
  pose proof (place_disk_place uuid disk [] l) as E. cbn [app length] in E. rewrite E, outcome_bind_Ok.
  apply IH.
Qed.

(** The disks of known machines, each with the alias of its machine. *)
Definition known_disks (l : list entry) (disks : list (pystr * pystr)) : list (pystr * pystr * pystr) :=
  omap (λ ud, (λ a, (ud.1, a, ud.2)) <$> alias_of ud.1 l) disks.

Lemma known_place uuid disk l disks : known_disks (place uuid disk l) disks = known_disks l disks.
Proof.
  unfold known_disks. induction disks as [|ud disks IH]; [done|]. cbn. rewrite alias_place.
  by destruct (alias_of ud.1 l); cbn; rewrite IH.
Qed.

Lemma filter_all {A} (P : A → Prop) `{∀ x, Decision (P x)} l : Forall P l → filter P l = l.
Proof. induction 1 as [|x l Hx _ IH]; [done|]. rewrite filter_cons_True by done. by rewrite IH. Qed.

Lemma place_all_spec disks l : bare_first l →
  disks_of (place_all disks l) ≡ₚ known_disks l disks ++ disks_of l ∧
  bare (place_all disks l) = filter (λ ua, ua.1 ∉ disks.*1) (bare l).
Proof.
  revert l. induction disks as [|[uuid disk] disks IH]; intros l Hl.
  { split; [done|]. symmetry. apply filter_all, Forall_forall. intros ua _. apply not_elem_of_nil. }
  destruct (bare_first_place uuid disk l Hl) as [Hl' _].
  destruct (place_spec uuid disk l Hl) as [P1 P2]. destruct (IH _ Hl') as [H1 H2].
  change (place_all ((uuid, disk) :: disks) l) with (place_all disks (place uuid disk l)). split.
  - rewrite H1, P1, known_place.
    unfold known_disks at 2. cbn [omap list_omap fst snd]. destruct (alias_of uuid l); cbn; [|done].
    by rewrite <- Permutation_middle.
  - rewrite H2, P2, list_filter_filter. apply list_filter_iff. intros ua. cbn. set_solver.
Qed.

(** ** What the script reads *)

(** A machine as [vmadm list] prints it. *)
Record vm := Vm { v_uuid : pystr; v_type : pystr; v_alias : pystr; v_state : pystr }.
Definition vm_fields (v : vm) : list pystr := [v_uuid v; v_type v; v_alias v; v_state v].

(** The machines with disks of interest: running, and not OS zones. *)
Definition wanted (v : vm) : bool := (v_state v =s #"running") && negb (v_type v =s #"OS").
Definition start_entry (v : vm) : option entry :=
  if wanted v then Some (v_uuid v, v_alias v, None) else None.

Lemma disk_vm_line v : line_ok (vm_fields v) →
  disk_vm (rstrip (line_of (vm_fields v))) = Ok (record_of <$> start_entry v).
Proof.
  intros Hv. unfold disk_vm. rewrite (line_match 3) by done. unfold group, start_entry, wanted. cbn.
  destruct (bool_decide (v_state v = #"running")); cbn; [|done].
  by destruct (bool_decide (v_type v = #"OS")).
Qed.

Lemma omap_start v vms : omap start_entry (v :: vms) =
  if wanted v then (v_uuid v, v_alias v, None) :: omap start_entry vms else omap start_entry vms.
Proof. cbn. unfold start_entry at 1. by destruct (wanted v). Qed.

Lemma start_entries_bare vms : NoDup (v_uuid <$> filter (λ v, wanted v = true) vms) →
  bare_first (omap start_entry vms) ∧ disks_of (omap start_entry vms) = [] ∧
  bare (omap start_entry vms) = (λ v, (v_uuid v, v_alias v)) <$> filter (λ v, wanted v = true) vms.
Proof.
  induction vms as [|v vms IH]; [done|]. rewrite omap_start. destruct (wanted v) eqn:Ew.
  - rewrite filter_cons_True by done. intros [Hn Hnd]%NoDup_cons. destruct (IH Hnd) as (H1 & H2 & H3).
    split_and!; [|exact H2|by rewrite fmap_cons, <- H3].
    split; [|done]. apply Forall_forall. intros [[i a] o] (v' & Hv' & E)%list_elem_of_omap _. cbn.
    unfold start_entry in E. destruct (wanted v') eqn:Ew'; [|done]. injection E as <- <- <-.
    intros Heq. apply Hn. rewrite <- Heq. apply list_elem_of_fmap. exists v'. split; [done|].
    by apply list_elem_of_filter.
  - rewrite filter_cons_False by (by rewrite Ew). apply IH.
Qed.

(** The disk files, in the order in which they are found: machine and disk. *)
Definition found_disks (files : list pystr) : list (pystr * pystr) :=
  omap match_disk (filter (λ f, is_disk_path f = true) files).

Lemma found_disks_match files :
  Forall2 (λ f ud, match_disk f = Some ud) (filter (λ f, is_disk_path f = true) files) (found_disks files).
Proof.
  unfold found_disks. induction files as [|f files IH]; [constructor|].
  destruct (is_disk_path f) eqn:Ef.
  - rewrite filter_cons_True by done. cbn. unfold is_disk_path in Ef.
    destruct (match_disk f) as [ud|] eqn:Em; [by constructor|done].
  - by rewrite filter_cons_False by (by rewrite Ef).
Qed.

(** C35: disk discovery.  From the machines [vmadm] lists and the disk files found,
    the script prints a list in which every disk of a running machine that is not
    an OS zone occurs exactly once, with the alias of its machine, and in which
    exactly the machines without a disk have an entry without one. *)
Theorem disks_discovered {W} shell chdir glob (w w1 w2 w3 w4 : W) f1 f2 vms :
  chdir #"/dev/zvol/dsk/zones" w = (Ok tt, w1) → glob #"*-disk*" w1 = (Ok f1, w2) →
  glob #"*-*-*/*disk*" w2 = (Ok f2, w3) →
  shell #"vmadm list -Hpo uuid,type,alias,state" w3 = (Ok (map (λ v, line_of (vm_fields v)) vms), w4) →
  Forall (λ v, line_ok (vm_fields v)) vms → NoDup (v_uuid <$> filter (λ v, wanted v = true) vms) →
  let running := filter (λ v, wanted v = true) vms in
  let disks := found_disks (f1 ++ f2) in
  ∃ l, vm_disk_discovery shell chdir glob w = (Ok (printed (record_of <$> l)), w4) ∧
    disks_of l ≡ₚ omap (λ ud, (λ v, (ud.1, v_alias v, ud.2)) <$> List.find (λ v, ud.1 =s v_uuid v) running) disks ∧
    bare l = (λ v, (v_uuid v, v_alias v)) <$> filter (λ v, v_uuid v ∉ disks.*1) running.
Proof.
  intros E1 E2 E3 E4 Hok Hnd running disks. exists (place_all disks (omap start_entry vms)).
  destruct (start_entries_bare vms Hnd) as (H1 & H2 & H3).
  destruct (place_all_spec disks _ H1) as [P1 P2]. split; [|split].
  - unfold vm_disk_discovery. rewrite (bind_ok _ _ _ _ _ E1), (bind_ok _ _ _ _ _ E2), (bind_ok _ _ _ _ _ E3).
    cbv zeta. rewrite (bind_ok _ _ _ _ _ E4).
    rewrite (lift_ok _ _ _ (record_of <$> omap start_entry vms)).
    + by rewrite (lift_ok _ _ _ (record_of <$> place_all disks (omap start_entry vms)))
        by apply place_disks_place, found_disks_match.
    + rewrite (collect_lines disk_vm (λ v, record_of <$> start_entry v)).
      * f_equal. clear. induction vms as [|v vms IH]; [done|]. cbn. rewrite IH. by destruct (start_entry v).
      * eapply Forall_impl; [exact Hok|]. intros v Hv. by apply disk_vm_line.
  - rewrite P1, H2, app_nil_r. unfold known_disks. apply reflexive_eq.
    clear. induction disks as [|ud disks IH]; [done|]. cbn. rewrite IH.
    assert (alias_of ud.1 (omap start_entry vms) = v_alias <$> List.find (λ v, ud.1 =s v_uuid v) running) as ->.
    { clear. unfold running. induction vms as [|v vms IH]; [done|]. rewrite omap_start.
      destruct (wanted v) eqn:Ew.
      - rewrite filter_cons_True by done. rewrite alias_cons, IH. cbn.
        destruct (decide (ud.1 = v_uuid v)); [rewrite bool_decide_eq_true_2|rewrite bool_decide_eq_false_2]; done.
      - by rewrite filter_cons_False by (by rewrite Ew). }
    by destruct (List.find _ running).
  - rewrite P2, H3. fold running. clear. induction running as [|v l IH]; [done|].
    rewrite fmap_cons. destruct (decide (v_uuid v ∈ disks.*1)).
    + rewrite filter_cons_False by (cbn; by intros ?). by rewrite (filter_cons_False _ v) by (by intros ?).
    + rewrite filter_cons_True by done. rewrite (filter_cons_True _ v) by done. by rewrite IH.
Qed.

(** * Network interfaces *)

Definition nic : Type := pystr * pystr * option pystr.
Definition nic_record (e : nic) : record :=
  let '(i, n, o) := e in
  [(#"{#UUID}", i); (#"{#NETIF}", n)] ++ match o with Some a => [(#"{#ALIAS}", a)] | None => [] end.

Definition name_nic (uuid alias : pystr) (e : nic) : nic :=
  if uuid =s e.1.1 then (e.1, Some alias) else e.

Lemma nic_uuid e : dict_get #"{#UUID}" (nic_record e) = Some e.1.1.
Proof. destruct e as [[i n] [a|]]; reflexivity. Qed.

Lemma nic_alias e a : dict_set #"{#ALIAS}" a (nic_record e) = nic_record (e.1, Some a).
Proof. destruct e as [[i n] [b|]]; reflexivity. Qed.

Lemma set_alias_map uuid alias l1 l2 :
  set_alias uuid alias (seq (length l1) (length l2)) (nic_record <$> l1 ++ l2)
  = Ok (nic_record <$> l1 ++ (name_nic uuid alias <$> l2)).
Proof.
  revert l1. induction l2 as [|e l2 IH]; intros l1; [done|]. cbn [length seq set_alias].
  rewrite list_lookup_fmap, lookup_app_r, Nat.sub_diag by done. cbn [lookup list_lookup fmap option_fmap option_map or_raise].
  rewrite outcome_bind_Ok, nic_uuid. cbn [or_raise]. rewrite outcome_bind_Ok, nic_alias.
  assert ((if uuid =s e.1.1 then <[length l1 := nic_record (e.1, Some alias)]> (nic_record <$> l1 ++ e :: l2)
    else nic_record <$> l1 ++ e :: l2) = nic_record <$> (l1 ++ [name_nic uuid alias e]) ++ l2) as ->.
  { unfold name_nic. rewrite <- app_assoc. destruct (uuid =s e.1.1); [|done].
    rewrite !fmap_app. cbn [fmap list_fmap app].
    rewrite insert_app_r_alt by (by rewrite length_fmap). by rewrite length_fmap, Nat.sub_diag. }
  specialize (IH (l1 ++ [name_nic uuid alias e])). rewrite length_app, Nat.add_1_r in IH. rewrite IH.
  by rewrite <- app_assoc.
Qed.

Definition name_all (vms : list (pystr * pystr)) (l : list nic) : list nic :=
  foldl (λ l v, name_nic v.1 v.2 <$> l) l vms.

Lemma set_aliases_map vms l : Forall (λ v, line_ok [v.1; v.2]) vms →
  set_aliases (map (λ v, line_of [v.1; v.2]) vms) (nic_record <$> l) = Ok (nic_record <$> name_all vms l).
Proof.
  intros H. revert l. induction H as [|[i a] vms Hv _ IH]; intros l; [done|]. cbn [map set_aliases].
  rewrite (line_match 1) by done. cbv zeta. cbn [fst snd]. rewrite (group_ok [i; a] 1 i eq_refl), outcome_bind_Ok.
  rewrite (group_ok [i; a] 2 a eq_refl), outcome_bind_Ok, length_fmap.
  pose proof (set_alias_map i a [] l) as E. cbn [app length] in E. rewrite E, outcome_bind_Ok. apply IH.
Qed.

(** The last name given to a machine. *)
Definition last_alias (uuid : pystr) (vms : list (pystr * pystr)) : option pystr :=
  snd <$> List.find (λ v, v.1 =s uuid) (rev vms).

Lemma find_app {A} (f : A → bool) l1 l2 :
  List.find f (l1 ++ l2) = match List.find f l1 with Some x => Some x | None => List.find f l2 end.
Proof. induction l1 as [|x l1 IH]; [done|]. cbn. by destruct (f x). Qed.

Lemma name_all_spec vms l : Forall (λ e : nic, e.2 = None) l →
  name_all vms l = (λ e, (e.1, last_alias e.1.1 vms)) <$> l.
Proof.
  intros Hl. assert (∀ l, name_all vms l = (λ e : nic, (e.1, match last_alias e.1.1 vms with Some a => Some a | None => e.2 end)) <$> l) as H.
  { clear. induction vms as [|[i a] vms IH] using rev_ind; intros l.
    - cbn. induction l as [|[e o] l IH]; [done|]. cbn. by rewrite <- IH.
    - unfold name_all. rewrite foldl_app. change (foldl _ l vms) with (name_all vms l). rewrite IH. cbn [foldl].
      rewrite <- list_fmap_compose. apply list_fmap_ext. intros _ [e o] _. unfold name_nic, last_alias, compose. cbn [fst snd].
      rewrite rev_app_distr. cbn [rev app List.find fst snd].
      by destruct (bool_decide_reflect (i = e.1)). }
  rewrite H. apply list_fmap_ext. intros k [e o] Hk. cbn. rewrite Forall_forall in Hl.
  apply list_elem_of_lookup_2, Hl in Hk. cbn in Hk. subst. by destruct (last_alias e.1 vms).
Qed.

(** C37: interface discovery.  The script prints one entry for every virtual
    interface [dladm] lists, in order, with its machine and, if [vmadm] lists that
    machine, with the alias given there. *)
Theorem netifs_discovered {W} shell (w w1 w2 : W) nics vms :
  shell #"dladm show-vnic -po zone,link" w = (Ok (map (λ e, line_of [e.1; e.2]) nics), w1) →
  shell #"vmadm list -Hpo uuid,alias" w1 = (Ok (map (λ v, line_of [v.1; v.2]) vms), w2) →
  Forall (λ e, line_ok [e.1; e.2]) nics → Forall (λ v, line_ok [v.1; v.2]) vms →
  vm_netif_discovery shell w =
    (Ok (printed (map (λ e, nic_record (e, last_alias e.1 vms)) nics)), w2).
Proof.
  intros E1 E2 H1 H2. unfold vm_netif_discovery. rewrite (bind_ok _ _ _ _ _ E1).
  rewrite (lift_ok _ _ _ (nic_record <$> ((λ e, (e, None)) <$> nics))).
  - rewrite (bind_ok _ _ _ _ _ E2).
    rewrite (lift_ok _ _ _ (nic_record <$> name_all vms ((λ e, (e, None)) <$> nics))) by by apply set_aliases_map.
    rewrite name_all_spec by (apply Forall_fmap, Forall_forall; done).
    unfold mret, M_ret. do 3 f_equal. rewrite <- !list_fmap_compose. reflexivity.
  - rewrite (collect_lines netif_zone (λ e, Some (nic_record (e, None)))).
    + f_equal. clear. induction nics as [|e nics IH]; [done|]. cbn in *. by rewrite IH.
    + eapply Forall_impl; [exact H1|]. intros [i n] He. unfold netif_zone. by rewrite (line_match 1).
Qed.

(** * Virtual machines *)

(** What the script prints for a machine, with the keys in order. *)
Definition vm_value (v : pystr * pystr * pystr) : pyval :=
  let '(uuid, type, alias) := v in
  PyDict [(#"{#ALIAS}", PyStr alias); (#"{#TYPE}", PyStr type);
          (#"{#UUID_SHORT}", PyStr (default [] (head (split_char 45 uuid)))); (#"{#UUID}", PyStr uuid)].

Definition vm_record (v : pystr * pystr * pystr) : record :=
  let '(uuid, type, alias) := v in
  [(#"{#UUID}", uuid); (#"{#ALIAS}", alias); (#"{#UUID_SHORT}", default [] (head (split_char 45 uuid)));
   (#"{#TYPE}", type)].

Lemma vm_zone_line v : line_ok [v.1.1; v.1.2; v.2] →
  vm_zone (rstrip (line_of [v.1.1; v.1.2; v.2])) = Ok (Some (vm_record v)).
Proof.
  destruct v as [[i t] a]. intros Hv. unfold vm_zone. rewrite (line_match 2) by done. cbv zeta.
  cbn [fst snd]. rewrite (group_ok [i; t; a] 1 i eq_refl), (group_ok [i; t; a] 3 a eq_refl),
    (group_ok [i; t; a] 2 t eq_refl), !outcome_bind_Ok. unfold vm_record. destruct (split_char_cons 45 i) as (b & l & ->). reflexivity.
Qed.

(** C36: machine discovery.  The script prints JSON that reads back as one object
    per machine, in order, with its identifier, the part of it before the first
    dash, its type and its alias. *)
Theorem vms_discovered {W} shell (w w1 : W) vms :
  shell #"vmadm list -Hpo uuid,type,alias" w = (Ok (map (λ v, line_of [v.1.1; v.1.2; v.2]) vms), w1) →
  Forall (λ v, line_ok [v.1.1; v.1.2; v.2]) vms →
  json_ok None (data_of (map vm_record vms)) = true →
  ∃ text, vm_discovery shell w = (Ok (text ++ [10%N]), w1) ∧
    loads2 text = Ok (PyDict [(#"data", PyList (map vm_value vms))]).
Proof.
  intros E Hok Hj. exists (dumps_sorted (data_of (map vm_record vms))). split.
  - unfold vm_discovery. rewrite (bind_ok _ _ _ _ _ E).
    rewrite (lift_ok _ _ _ (map vm_record vms)); [done|].
    rewrite (collect_lines vm_zone (λ v, Some (vm_record v))).
    + reflexivity.
    + eapply Forall_impl; [exact Hok|]. intros v Hv. by apply vm_zone_line.
  - rewrite loads2_dumps_sorted by done. f_equal.
    change (sort_keys (data_of (map vm_record vms))) with
      (PyDict [(#"data", PyList (map sort_keys (map (λ d, PyDict (map (λ kv, (kv.1, PyStr kv.2)) d)) (map vm_record vms))))]).
    rewrite !map_map. do 4 f_equal. apply map_ext. intros [[i t] a]. reflexivity.
Qed.

(** * Concrete runs *)

Definition demo_vms : list vm :=
  [Vm #"a-1" #"KVM" #"web" #"running"; Vm #"b-2" #"OS" #"zone" #"running"; Vm #"c-3" #"KVM" #"db" #"running"].
Definition demo_triples : list (pystr * pystr * pystr) :=
  map (λ v, (v_uuid v, v_type v, v_alias v)) demo_vms.
Definition demo_nics : list (pystr * pystr) := [(#"a-1", #"net0"); (#"x-9", #"net1")].
Definition demo_names : list (pystr * pystr) := map (λ v, (v_uuid v, v_alias v)) demo_vms.

Definition demo_shell (command : pystr) : M unit (list pystr) := λ w,
  (if command =s #"vmadm list -Hpo uuid,type,alias,state" then
     Ok (map (λ v, line_of (vm_fields v)) demo_vms)
   else if command =s #"vmadm list -Hpo uuid,type,alias" then
     Ok (map (λ v, line_of [v.1.1; v.1.2; v.2]) demo_triples)
   else if command =s #"vmadm list -Hpo uuid,alias" then Ok (map (λ v, line_of [v.1; v.2]) demo_names)
   else Ok (map (λ e, line_of [e.1; e.2]) demo_nics), w).
Definition demo_chdir (path : pystr) : M unit unit := mret tt.
Definition demo_glob (pattern : pystr) : M unit (list pystr) :=
  mret (if pattern =s #"*-disk*" then [#"a-1-disk0"; #"a-1-disk1"; #"z-disk0"; #"a-1-disk"] else []).

Lemma line_ok_intro fields : bool_decide (Forall (λ x, 58%N ∉ x) (tail fields)) = true →
  (rstrip (join #":" fields) =s join #":" fields) = true → fields ≠ [] → line_ok fields.
Proof.
  intros H1%bool_decide_eq_true H2%bool_decide_eq_true Hne. destruct fields; [done|]. by split.
Qed.

Lemma disks_discovered_witness :
  let l := [(#"a-1", #"web", Some #"disk0"); (#"c-3", #"db", None); (#"a-1", #"web", Some #"disk1")] in
  vm_disk_discovery demo_shell demo_chdir demo_glob tt = (Ok (printed (record_of <$> l)), tt) ∧
  ∃ l', vm_disk_discovery demo_shell demo_chdir demo_glob tt = (Ok (printed (record_of <$> l')), tt) ∧
    disks_of l' ≡ₚ [(#"a-1", #"web", #"disk0"); (#"a-1", #"web", #"disk1")] ∧ bare l' = [(#"c-3", #"db")].
Proof.
  split; [vm_compute; reflexivity|].
  destruct (disks_discovered demo_shell demo_chdir demo_glob tt tt tt tt tt
    [#"a-1-disk0"; #"a-1-disk1"; #"z-disk0"; #"a-1-disk"] [] demo_vms) as (l' & E & H1 & H2).
  - reflexivity.
  - reflexivity.
  - reflexivity.
  - reflexivity.
  - repeat (apply Forall_cons_2; [by apply line_ok_intro|]). apply Forall_nil_2.
  - apply (bool_decide_unpack _). vm_compute. exact I.
  - exists l'. split; [exact E|]. split; [exact H1|exact H2].
Defined.

Lemma netifs_discovered_witness :
  vm_netif_discovery demo_shell tt =
    (Ok (printed [nic_record (#"a-1", #"net0", Some #"web"); nic_record (#"x-9", #"net1", None)]), tt).
Proof.
  rewrite (netifs_discovered demo_shell tt tt tt demo_nics demo_names).
  - vm_compute. reflexivity.
  - reflexivity.
  - reflexivity.
  - repeat (apply Forall_cons_2; [by apply line_ok_intro|]). apply Forall_nil_2.
  - repeat (apply Forall_cons_2; [by apply line_ok_intro|]). apply Forall_nil_2.
Defined.

Lemma vms_discovered_witness :
  ∃ text, vm_discovery demo_shell tt = (Ok (text ++ [10%N]), tt) ∧
    loads2 text = Ok (PyDict [(#"data", PyList (map vm_value demo_triples))]).
Proof.
  apply (vms_discovered demo_shell tt tt demo_triples).
  - reflexivity.
  - repeat (apply Forall_cons_2; [by apply line_ok_intro|]). apply Forall_nil_2.
  - vm_compute. reflexivity.
Defined.
