(* ===== verification/ZbxPartitions.v ===== *)
(** The partitioning script [zbx_partitions.py.j2] of the Zabbix database: the
    partitions of the history and trend tables are created ahead, and old ones
    are dropped.

    A [datetime] is the number of microseconds since the first one; the names, the
    password and the host of the database, which the template fills in, are
    parameters. *)
From S2P Require Export PyVal.
From Stdlib Require Import NArith ZArith Lia.

(** * [datetime] and the [%] operator *)

(** [timedelta(days=n)] *)
Definition days_us (n : Z) : Z := (n * 86400000000)%Z.

(** [now - timedelta(...)]: there is no time before the first. *)
Definition time_sub (now delta : Z) : outcome Z :=
  if Z.ltb (now - delta) 0 then Raise OverflowError else Ok (now - delta)%Z.

Definition days_in_month : list Z := [31; 28; 31; 30; 31; 30; 31; 31; 30; 31; 30; 31]%Z.

(** The month and the day of the month of a day of the year, both from zero. *)
Fixpoint month_day (months : list Z) (leap : bool) (m n : Z) : Z * Z :=
  match months with
  | d :: l =>
      let d := (if leap && Z.eqb m 1 then d + 1 else d)%Z in
      if Z.ltb n d then (m, n) else month_day l leap (m + 1) (n - d)
  | [] => (m, n)
  end.

(** Year, month and day of the day [n] after the first. *)
Definition date_of (n : Z) : Z * Z * Z :=
  (let n400 := n / 146097 in let n := n mod 146097 in
   let n100 := Z.min 3 (n / 36524) in let n := n - n100 * 36524 in
   let n4 := n / 1461 in let n := n mod 1461 in
   let n1 := Z.min 3 (n / 365) in let n := n - n1 * 365 in
   let leap := Z.eqb n1 3 && (negb (Z.eqb n4 24) || Z.eqb n100 3) in
   let '(m, d) := month_day days_in_month leap 0 n in
   (400 * n400 + 100 * n100 + 4 * n4 + n1 + 1, m + 1, d + 1))%Z.

Definition padded (width : nat) (z : Z) : pystr :=
  let s := str_of_Z z in replicate (width - length s) 48%N ++ s.

(** [str] of a [datetime] *)
Definition str_time (t : Z) : pystr :=
  let '(y, mo, d) := date_of (t / 86400000000) in
  let s := (t / 1000000)%Z in
  padded 4 y ++ #"-" ++ padded 2 mo ++ #"-" ++ padded 2 d ++ #" " ++
  padded 2 ((s / 3600) mod 24) ++ #":" ++ padded 2 ((s / 60) mod 60) ++ #":" ++ padded 2 (s mod 60) ++
  (if Z.eqb (t mod 1000000) 0 then [] else #"." ++ padded 6 (t mod 1000000)).

Example str_time_dates : map str_time
    [63635596800000001; 63592387199999999; 63087379200000000; 315537897599000000; 0]%Z
  = [#"2017-07-14 02:40:00.000001"; #"2016-02-29 23:59:59.999999"; #"2000-02-29 00:00:00";
     #"9999-12-31 23:59:59"; #"0001-01-01 00:00:00"].
Proof. vm_compute. reflexivity. Qed.

(** [query % params], for a query whose only conversions are [%s]. *)
Fixpoint percent (query : pystr) (params : list pystr) : outcome pystr :=
  match query with
  | [] => match params with [] => Ok [] | _ => Raise TypeError end
  | c :: q =>
      if negb (N.eqb c 37) then cons c <$> percent q params
      else
        match q, params with
        | d :: q', p :: params' =>
            if N.eqb d 115 then app p <$> percent q' params' else Raise (ValueError #"unsupported format character")
        | _, _ => Raise TypeError
        end
  end.

(** * The script *)

Inductive sql_value : Type :=
| SqlText (s : pystr)
| SqlInt (z : Z)
| SqlTime (t : Z).

Definition str_sql (v : sql_value) : pystr :=
  match v with SqlText s => s | SqlInt z => str_of_Z z | SqlTime t => str_time t end.

(** What the script asks of the database. *)
Inductive db_event : Type :=
| Connect (database user password host : pystr)
| Execute (query : pystr) (params : list sql_value)
| Commit
| CloseCursor
| CloseConnection.

(** How a table is partitioned and how many partitions are kept. *)
Definition tables : dict (pystr * Z) :=
  [(#"history", (#"day", 7%Z)); (#"history_uint", (#"day", 7%Z)); (#"history_str", (#"day", 7%Z));
   (#"history_log", (#"day", 7%Z)); (#"history_text", (#"day", 7%Z));
   (#"trends", (#"month", 12%Z)); (#"trends_uint", (#"month", 12%Z))].

Section partitions.
Context {W : Type}.
(** The database, through [psycopg2]: any of the requests may raise. *)
Variable db : db_event → M W unit.
(** [db_connection.notices], and [del db_connection.notices[:]]. *)
Variable notices : W → list pystr.
Variable clear_notices : W → W.
(** [datetime.now()] *)
Variable datetime_now : M W Z.
(** [tables.items()]: the entries, in the order of the hash table. *)
Variable items : dict (pystr * Z) → list (pystr * (pystr * Z)).
Variables db_user db_pw db_name db_host : pystr.
(** [sys.argv] *)
Variable argv : list pystr.

(** The requests made so far, those of them that succeeded, and the lines
    printed. *)
Record session := Session {
  requests : list db_event;
  granted : list db_event;
  printed : list pystr;
  beyond : W
}.

Definition request (e : db_event) : M session unit := λ s,
  let '(r, w) := db e (beyond s) in
  (r, Session (requests s ++ [e]) (granted s ++ match r with Ok _ => [e] | Raise _ => [] end) (printed s) w).

Definition print (line : pystr) : M session unit :=
  modify (λ s, Session (requests s) (granted s) (printed s ++ [line]) (beyond s)).

Definition on_beyond {A} (m : M W A) : M session A := λ s,
  let '(r, w) := m (beyond s) in (r, Session (requests s) (granted s) (printed s) w).

(** [sys.argv[-1] in ('-d', '-v', '--debug', '--verbose')] *)
Definition debug : bool :=
  match last argv with
  | Some a => bool_decide (a ∈ [#"-d"; #"-v"; #"--debug"; #"--verbose"])
  | None => false
  end.

Definition is_init : bool := Nat.ltb 1 (length argv) && bool_decide (argv !! 1 = Some #"init").

Definition execute_sql (query : pystr) (params : list sql_value) : M session unit :=
  (if debug then
     line ← lift (percent query (map str_sql params));
     print (#"* Running: " ++ line)
   else mret tt);;
  request (Execute query params);;
  if debug then
    notices ← gets (λ s, notices (beyond s));
    for_each notices (λ notice, print (strip notice));;
    on_beyond (modify clear_notices);;
    print #"***"
  else mret tt.

(** Python 2: [365/12] is an integer. *)
Definition get_days (partition_by : pystr) : outcome Z :=
  if partition_by =s #"month" then Ok (365 / 12)%Z
  else if partition_by =s #"year" then Ok 365%Z
  else if partition_by =s #"day" then Ok 1%Z
  else Raise (ValueError (#"Invalid partitioning schema: " ++ partition_by)).

Definition provision (t : pystr * (pystr * Z)) : M session unit :=
  execute_sql #"SELECT zbx_provision_partitions(%s, %s, %s)" [SqlText t.1; SqlText t.2.1; SqlInt t.2.2].

Definition enable (t : pystr * (pystr * Z)) : M session unit :=
  execute_sql #"SELECT zbx_enable_partitions(%s, %s)" [SqlText t.1; SqlText t.2.1].

Definition drop_old (now : Z) (t : pystr * (pystr * Z)) : M session unit :=
  days ← lift (get_days t.2.1);
  cutoff ← lift (time_sub now (days_us (days * t.2.2)));
  execute_sql #"SELECT zbx_drop_old_partitions(%s, %s)" [SqlText t.1; SqlTime cutoff].

(** The second half of the work. *)
Definition change : M session unit :=
  if is_init then for_each (items tables) enable
  else now ← on_beyond datetime_now; for_each (items tables) (drop_old now).

(** The body of the script. *)
Definition script : M session unit :=
  request (Connect db_name db_user db_pw db_host);;
  for_each (items tables) provision;;
  change;;
  request Commit;;
  request CloseCursor;;
  request CloseConnection.

(** * Properties *)

(** The requests of a complete run. *)
Definition provision_request (t : pystr * (pystr * Z)) : db_event :=
  Execute #"SELECT zbx_provision_partitions(%s, %s, %s)" [SqlText t.1; SqlText t.2.1; SqlInt t.2.2].
Definition enable_request (t : pystr * (pystr * Z)) : db_event :=
  Execute #"SELECT zbx_enable_partitions(%s, %s)" [SqlText t.1; SqlText t.2.1].

(** What is kept: a week of history and twelve times thirty days of trends. *)
Definition kept_days (t : pystr * (pystr * Z)) : Z := if t.2.1 =s #"day" then 7%Z else 360%Z.
Definition drop_request (now : Z) (t : pystr * (pystr * Z)) : db_event :=
  Execute #"SELECT zbx_drop_old_partitions(%s, %s)" [SqlText t.1; SqlTime (now - days_us (kept_days t))].
Definition change_request (now : Z) : pystr * (pystr * Z) → db_event :=
  if is_init then enable_request else drop_request now.

Definition db_works : Prop := ∀ e w, ∃ w', db e w = (Ok tt, w').

(** All the requests made between two states have succeeded, or all but the last,
    and then an exception is on its way. *)
Definition heeded (s s' : session) (made : list db_event) (r : outcome unit) : Prop :=
  granted s' = granted s ++ made ∨
  ∃ ok e x, made = ok ++ [e] ∧ granted s' = granted s ++ ok ∧ r = Raise x.

Lemma heeded_none s s' r : granted s' = granted s → heeded s s' [] r.
Proof. left. by rewrite app_nil_r. Qed.

Lemma heeded_app s s1 s2 made made' r :
  heeded s s1 made (Ok tt) → heeded s1 s2 made' r → heeded s s2 (made ++ made') r.
Proof.
  intros [H1|(? & ? & ? & _ & _ & [=])]. intros [H2|(ok & e & x & -> & H2 & Hr)].
  - left. by rewrite H2, H1, <- app_assoc.
  - right. exists (made ++ ok), e, x. by rewrite H2, H1, <- !app_assoc.
Qed.

(** [f] makes a first part of the requests [evs]; if it returns, it has made all
    of them; it makes none after one that fails; it returns if [works]; and it
    prints nothing without [debug]. *)
Definition attempts (works : Prop) (f : M session unit) (evs : list db_event) (s : session) : Prop :=
  ∃ r s' made rest, f s = (r, s') ∧ evs = made ++ rest ∧ requests s' = requests s ++ made ∧
    (r = Ok tt → rest = []) ∧ heeded s s' made r ∧ (works → r = Ok tt) ∧ (debug = false → printed s' = printed s).

Lemma attempts_ret works s : attempts works (mret tt) [] s.
Proof. exists (Ok tt), s, [], []. rewrite (app_nil_r (requests s)). split_and!; try done. by apply heeded_none. Qed.

Lemma attempts_bind_from works f g evs evs' s : attempts works f evs s →
  (∀ s', f s = (Ok tt, s') → attempts works g evs' s') → attempts works (f;; g) (evs ++ evs') s.
Proof.
  intros (r & s1 & made & rest & E & Hev & Hreq & Hr & Hh & Hw & Hq) Hg. destruct r as [[]|e].
  - destruct (Hg s1 E) as (r' & s2 & made' & rest' & E' & Hev' & Hreq' & Hr' & Hh' & Hw' & Hq').
    pose proof (heeded_app _ _ _ _ _ _ Hh Hh').
    exists r', s2, (made ++ made'), rest'. rewrite (bind_ok _ _ _ _ _ E), (Hr eq_refl), app_nil_r in *.
    rewrite Hreq', Hreq, Hev, Hev', <- !app_assoc. split_and!; try done. intros Hd. by rewrite Hq', Hq.
  - exists (Raise e), s1, made, (rest ++ evs'). rewrite (bind_raised _ _ _ _ _ E), Hev, <- app_assoc.
    by split_and!.
Qed.

Lemma attempts_bind works f g evs evs' s : attempts works f evs s → (∀ s', attempts works g evs' s') →
  attempts works (f;; g) (evs ++ evs') s.
Proof. intros Hf Hg. apply attempts_bind_from; auto. Qed.

(** The requests of the second part may depend on something found out there. *)
Lemma attempts_bind_some {X} works f g evs (evs' : X → list db_event) (P : X → Prop) x0 s :
  P x0 → attempts works f evs s → (∀ s', ∃ x, P x ∧ attempts works g (evs' x) s') →
  ∃ x, P x ∧ attempts works (f;; g) (evs ++ evs' x) s.
Proof.
  intros Hx Hf Hg. destruct (f s) as [[[]|e] s1] eqn:E.
  - destruct (Hg s1) as (x & Hp & Ha). exists x. split; [done|]. apply attempts_bind_from; [done|].
    intros s'. rewrite E. by intros [= <-].
  - exists x0. split; [done|]. apply attempts_bind_from; [done|]. intros s'. by rewrite E.
Qed.

Lemma attempts_for_each {X} works (f : X → M session unit) (g : X → db_event) l s :
  (∀ x s, x ∈ l → attempts works (f x) [g x] s) → attempts works (for_each l f) (g <$> l) s.
Proof.
  revert s. induction l as [|x l IH]; intros s Hf; [apply attempts_ret|].
  apply (attempts_bind _ (f x) _ [g x]); [apply Hf; by left|]. intros s'. apply IH. intros y s'' Hy.
  apply Hf. by right.
Qed.

(** What only touches the output and the notices, with [debug]. *)
Definition aside (f : M session unit) : Prop := ∀ s, ∃ s', f s = (Ok tt, s') ∧ requests s' = requests s ∧ granted s' = granted s.

Lemma aside_bind f g : aside f → aside g → aside (f;; g).
Proof.
  intros Hf Hg s. destruct (Hf s) as (s1 & E1 & R1 & G1), (Hg s1) as (s2 & E2 & R2 & G2). exists s2.
  by rewrite (bind_ok _ _ _ _ _ E1), R2, G2.
Qed.

Lemma aside_print line : aside (print line).
Proof. intros s. by eexists. Qed.

Lemma aside_for_each {X} (l : list X) f : (∀ x, aside (f x)) → aside (for_each l f).
Proof. intros Hf. induction l as [|x l IH]; [intros s; by exists s|]. by apply (aside_bind (f x)). Qed.

Lemma aside_attempts works f s : debug = true → aside f → attempts works f [] s.
Proof.
  intros Hd Hf. destruct (Hf s) as (s' & E & Hr & Hg). exists (Ok tt), s', [], []. rewrite (app_nil_r (requests s)), Hd.
  split_and!; try done. by apply heeded_none.
Qed.

Lemma request_attempts (works : Prop) e s : (works → db_works) → attempts works (request e) [e] s.
Proof.
  intros Hw. unfold attempts, request. destruct (db e (beyond s)) as [r w] eqn:E.
  eexists r, _, [e], []. split_and!; try done.
  { destruct r as [[]|x]; [by left|]. right. exists [], e, x. cbn. by rewrite app_nil_r. }
  intros H. destruct (Hw H e (beyond s)) as [w' E'].
  rewrite E in E'. by injection E' as ->.
Qed.

Lemma execute_attempts (works : Prop) query params s :
  (works → db_works) → (∃ line, percent query (map str_sql params) = Ok line) →
  attempts works (execute_sql query params) [Execute query params] s.
Proof.
  intros Hw [line El]. unfold execute_sql. destruct debug eqn:Hd.
  - apply (attempts_bind _ _ _ [] [_]).
    + apply (aside_attempts _ _ _ Hd). intros s1. rewrite (lift_ok _ _ _ _ El). apply aside_print.
    + intros s1. apply (attempts_bind _ _ _ [_] []); [by apply request_attempts|]. intros s2.
      apply (aside_attempts _ _ _ Hd). intros s3. unfold gets, mbind at 1, M_bind at 1.
      refine (aside_bind _ _ (aside_for_each _ _ (λ n, aside_print (strip n))) (aside_bind _ _ _ (aside_print #"***")) s3).
      intros s4. by eexists.
  - apply (attempts_bind _ _ _ [] [_]); [apply attempts_ret|]. intros s1.
    apply (attempts_bind _ _ _ [_] []); [by apply request_attempts|]. intros s2. apply attempts_ret.
Qed.

(** What is needed for a run to succeed: a database that works, and a clock that
    is a year from the first time there is. *)
Definition works_at (now : Z) : Prop :=
  db_works ∧ (∀ w, ∃ w', datetime_now w = (Ok now, w')) ∧ (days_us 360 <= now)%Z.

Lemma drop_old_attempts (works : Prop) now t s : (works → works_at now) → t ∈ tables →
  attempts works (drop_old now t) [drop_request now t] s.
Proof.
  intros Hw Ht. unfold drop_old.
  assert (∃ d, get_days t.2.1 = Ok d ∧ (d * t.2.2)%Z = kept_days t) as (d & E & Hk).
  { unfold tables in Ht. rewrite !elem_of_cons, elem_of_nil in Ht.
    destruct Ht as [->|[->|[->|[->|[->|[->|[->|[]]]]]]]]; by eexists. }
  unfold attempts. rewrite (lift_ok _ _ _ _ E), Hk. unfold time_sub.
  destruct (Z.ltb_spec (now - days_us (kept_days t)) 0) as [Hlt|Hge].
  - exists (Raise OverflowError), s, [], [drop_request now t]. rewrite (app_nil_r (requests s)). split_and!; try done.
    { by apply heeded_none. }
    intros (_ & _ & Hn)%Hw. unfold days_us, kept_days in *. exfalso. case_bool_decide; lia.
  - rewrite (lift_ok _ _ _ _ eq_refl). apply execute_attempts; [intros (?&_)%Hw; done|by eexists].
Qed.

Lemma change_attempts (works : Prop) now s : (works → works_at now) → Permutation (items tables) tables →
  ∃ now', (works → now' = now) ∧ attempts works change (change_request now' <$> items tables) s.
Proof.
  intros Hw Hp. unfold change, change_request. destruct is_init.
  - exists now. split; [done|]. apply attempts_for_each. intros t s' _.
    apply execute_attempts; [intros (?&_)%Hw; done|by eexists].
  - unfold attempts, on_beyond, mbind, M_bind. destruct (datetime_now (beyond s)) as [[now'|e] w] eqn:E.
    + destruct (attempts_for_each works (drop_old now') (drop_request now') (items tables)
        (Session (requests s) (granted s) (printed s) w)) as (r & s' & made & rest & E' & H).
      { intros t s' Ht. apply drop_old_attempts; [|by rewrite <- Hp].
        intros Hk. destruct (Hw Hk) as (Hd & Hn & Hle). destruct (Hn (beyond s)) as [w' En].
        rewrite E in En. injection En as -> ->. by split_and!. }
      exists now'. split; [|by exists r, s', made, rest].
      intros Hk. destruct (Hw Hk) as (_ & Hn & _). destruct (Hn (beyond s)) as [w' En]. congruence.
    + exists now. split; [done|]. eexists (Raise e), _, [], _. cbn [requests printed].
      rewrite (app_nil_r (requests s)). split_and!; try done; [by apply heeded_none|].
      intros Hk. destruct (Hw Hk) as (_ & Hn & _). destruct (Hn (beyond s)) as [w' En]. congruence.
Qed.

(** All requests of a run, in order. *)
Definition all_requests (now : Z) : list db_event :=
  Connect db_name db_user db_pw db_host :: (provision_request <$> items tables)
  ++ (change_request now <$> items tables) ++ [Commit; CloseCursor; CloseConnection].

Lemma script_attempts (works : Prop) now s : (works → works_at now) → Permutation (items tables) tables →
  ∃ now', (works → now' = now) ∧ attempts works script (all_requests now') s.
Proof.
  intros Hw Hp. assert (works → db_works) as Hd by (intros (?&_)%Hw; done).
  apply (attempts_bind_some _ _ _ [_] (λ now', (provision_request <$> items tables) ++
    (change_request now' <$> items tables) ++ [Commit; CloseCursor; CloseConnection]) _ now); [done|by apply request_attempts|].
  intros s1. apply (attempts_bind_some _ _ _ _ (λ now', (change_request now' <$> items tables) ++ _) _ now); [done| |].
  { apply attempts_for_each. intros t s' _. apply execute_attempts; [done|by eexists]. }
  intros s2. destruct (change_attempts works now s2 Hw Hp) as (now' & Hn & Hc). exists now'. split; [done|].
  apply attempts_bind; [done|]. intros s3.
  apply (attempts_bind _ _ _ [_] [_; _]); [by apply request_attempts|]. intros s4.
  by apply (attempts_bind _ _ _ [_] [_]); [|intros s5]; apply request_attempts.
Qed.

(** C38: a daily run creates the partitions of every table, then drops what is
    older than 7 days of history and 360 days of trends, then commits once and
    closes; a run with [init] enables the partitioning instead of dropping.  It
    prints nothing without one of the debug options. *)
Theorem partitions_run s now : works_at now → Permutation (items tables) tables →
  ∃ s', script s = (Ok tt, s') ∧ requests s' = requests s ++ all_requests now ∧
    (debug = false → printed s' = printed s).
Proof.
  intros Hw Hp. destruct (script_attempts True now s) as (now' & Hn & r & s' & made & rest & E & Hev & Hreq & Hr & _ & Hok & Hq);
    [done..|]. rewrite (Hn I) in Hev. rewrite (Hok I) in E, Hr. rewrite (Hr eq_refl), app_nil_r in Hev.
  exists s'. by rewrite Hreq, Hev.
Qed.

(** ** Whatever the database does *)

Definition is_commit (e : db_event) : bool := match e with Commit => true | _ => false end.

(** What has been done before the first commit of a run that was cut short. *)
Lemma made_before_commit (before after made rest : list db_event) :
  before ++ Commit :: after = made ++ rest → Commit ∉ before → Commit ∈ made →
  ∃ after', made = before ++ Commit :: after'.
Proof.
  intros E Hb Hm. destruct (app_eq_inv _ _ _ _ E) as [(k & -> & _)|(k & -> & Hk)].
  - exfalso. apply Hb. apply elem_of_app. by left.
  - destruct k as [|x k]; [by rewrite app_nil_r in Hm|]. injection Hk as <- _. by exists k.
Qed.

Lemma no_commit_fmap {X} (g : X → db_event) (l : list X) : (∀ x, is_commit (g x) = false) → Commit ∉ (g <$> l).
Proof. intros Hg (x & E & _)%list_elem_of_fmap. specialize (Hg x). by rewrite <- E in Hg. Qed.

(** C39: all or nothing.  Whatever requests the database refuses, and however the
    script ends: when it has asked for the transaction to be committed, every
    statement for every table had been made before that, in order, and every one
    of them had succeeded; and when a request has failed, it was the last one, so
    that after a failure nothing is committed, and the script ends with an
    exception. *)
Theorem commit_only_complete w r s : Permutation (items tables) tables →
  script (Session [] [] [] w) = (r, s) →
  (Commit ∈ requests s → ∃ now rest rest',
     let statements := Connect db_name db_user db_pw db_host :: (provision_request <$> items tables)
       ++ (change_request now <$> items tables) in
     requests s = statements ++ Commit :: rest ∧ granted s = statements ++ rest') ∧
  (granted s = requests s ∨ ∃ e x, requests s = granted s ++ [e] ∧ r = Raise x).
Proof.
  intros Hp E. destruct (script_attempts False 0 (Session [] [] [] w))
    as (now & _ & r' & s' & made & rest & E' & Hev & Hreq & _ & Hh & _); [done..|].
  rewrite E in E'. injection E' as <- <-. cbn in Hreq. subst made.
  assert (granted s = requests s ∨ ∃ e x, requests s = granted s ++ [e] ∧ r = Raise x) as Hg.
  { destruct Hh as [Hh|(ok & e & x & Hm & Hh & Hr)]; cbn in Hh; [by left|right]. exists e, x. by rewrite Hh. }
  split; [|done]. intros Hc. set (statements := Connect db_name db_user db_pw db_host :: (provision_request <$> items tables)
    ++ (change_request now <$> items tables)).
  assert (∃ after, requests s = statements ++ Commit :: after) as [after Ha].
  { eapply made_before_commit; [| |exact Hc].
    - unfold all_requests in Hev. rewrite <- Hev. unfold statements. cbn. rewrite <- app_assoc. reflexivity.
    - unfold statements. rewrite not_elem_of_cons, not_elem_of_app. split_and!; [done|by apply no_commit_fmap|].
      apply no_commit_fmap. intros t. unfold change_request. by destruct is_init. }
  exists now, after. destruct Hg as [Hg|(e & x & Hg & _)]; [exists (Commit :: after); by rewrite Hg|].
  induction after as [|y l _] using rev_ind.
  - exists []. split; [exact Ha|]. change (granted s = statements ++ []). rewrite app_nil_r.
    rewrite Ha in Hg. by apply app_inj_2 in Hg as [<- _].
  - exists (Commit :: l). split; [exact Ha|]. change (granted s = statements ++ Commit :: l). rewrite Ha, app_comm_cons, app_assoc in Hg.
    by apply app_inj_2 in Hg as [<- _].
Qed.
End partitions.

(** * Concrete runs: a database that refuses one request *)

Definition demo_db (bad : pystr) (e : db_event) : M nat unit := λ n,
  match e with
  | Execute q (SqlText t :: _) =>
      if t =s bad then (Raise (ExcOther #"relation does not exist"), S n) else (Ok tt, S n)
  | _ => (Ok tt, S n)
  end.
Definition demo_now : M nat Z := mret 63635596800000000%Z.
Definition demo_items (d : dict (pystr * Z)) : list (pystr * (pystr * Z)) := d.
Definition demo_notices (n : nat) : list pystr := [#"NOTICE:  created" ++ [10%N]].

Definition demo_any (e : db_event) : M nat unit := λ n, (Ok tt, S n).

Abbreviation demo_script db argv := (script db demo_notices id demo_now demo_items #"u" #"p" #"d" #"h" argv).

Example debug_output :
  take 3 (printed (demo_script demo_any [#"zbx.py"; #"-v"] (Session [] [] [] 0)).2) =
    [#"* Running: SELECT zbx_provision_partitions(history, day, 7)"; #"NOTICE:  created"; #"***"] ∧
  drop 18 (printed (demo_script demo_any [#"zbx.py"; #"-v"] (Session [] [] [] 0)).2) !! 21 =
    Some #"* Running: SELECT zbx_drop_old_partitions(trends_uint, 2016-07-19 02:40:00)".
Proof. vm_compute. split; reflexivity. Qed.

Lemma partitions_run_witness :
  ∃ s', demo_script demo_any [#"zbx.py"] (Session [] [] [] 0) = (Ok tt, s') ∧
    requests s' = all_requests demo_items #"u" #"p" #"d" #"h" [#"zbx.py"] 63635596800000000 ∧
    (debug [#"zbx.py"] = false → printed s' = []).
Proof.
  apply (partitions_run demo_any demo_notices id demo_now demo_items #"u" #"p" #"d" #"h" [#"zbx.py"] (Session [] [] [] 0)).
  - split_and!; [intros e w; by eexists|intros w; by eexists|done].
  - done.
Defined.

Lemma commit_only_complete_witness :
  let refused := demo_script (demo_db #"trends") [#"zbx.py"] (Session [] [] [] 0) in
  let complete := demo_script demo_any [#"zbx.py"] (Session [] [] [] 0) in
  (∃ e x, requests refused.2 = granted refused.2 ++ [e] ∧ refused.1 = Raise x) ∧
  ∃ now rest rest',
    let statements := Connect #"d" #"u" #"p" #"h" :: (provision_request <$> tables)
      ++ (change_request [#"zbx.py"] now <$> tables) in
    requests complete.2 = statements ++ Commit :: rest ∧ granted complete.2 = statements ++ rest'.
Proof.
  intros refused complete. split.
  - destruct (proj2 (commit_only_complete (demo_db #"trends") demo_notices id demo_now demo_items #"u" #"p" #"d" #"h"
      [#"zbx.py"] 0 refused.1 refused.2 (reflexivity _) (surjective_pairing _))) as [H|H]; [|exact H].
    apply (f_equal length) in H. vm_compute in H. discriminate.
  - refine (proj1 (commit_only_complete demo_any demo_notices id demo_now demo_items #"u" #"p" #"d" #"h"
      [#"zbx.py"] 0 complete.1 complete.2 (reflexivity _) (surjective_pairing _)) _).
    vm_compute. do 15 apply list_elem_of_further. constructor.
Defined.
